(** * Personal Expense Tracker: a shallow embedding and its properties

    The development follows [Personal_Expense_Tracker.py]: the record
    store ([load_expenses], [save_expenses]), the factory
    ([make_expense], [add_expense_interactive]), the aggregation
    ([get_total_spending], [spending_by_category]), the queries
    ([search_expenses], [view_all_expenses], [print_expense],
    [view_totals]), [delete_expense] and the loop of [menu].  The
    values the program handles are JSON-decoded
    values; the console, the backing file, the clock and the uuid
    generator form an explicit world that every operation threads, and
    an operation either returns or raises.

    Modelling conventions.
    - The interpreter is CPython 3.11.  [str] is a Rocq [string] holding
      the UTF-8 bytes of the text: [strip] removes the characters that
      [str.isspace] accepts, whether they take one, two or three bytes;
      [float] reads the decimal digits and the white space of Unicode
      14.0; strings compare by byte, which is the order of the code
      points.  [lower] maps [A-Z] only: what is stated on the case of
      letters is stated for ASCII text.
    - [float] is IEEE 754 binary64, as [spec_float] with precision 53 and
      [emax = 1024]; [float], [round], [+] and [float.__repr__] are
      correctly rounded.  [sum] adds from left to right starting at the
      int [0], as CPython does before 3.12 (later versions compensate the
      sum of floats and may differ in the last bits).
    - A list the program changes in place ([append], [expenses[:] = ...])
      is passed in and its new content returned.
    - [print] is recorded as a list of output items, a value formatted by
      an f-string being kept as the value; the prompts of [input] are not
      recorded.
    - The text [json.dump] writes and [json.load] reads is modelled
      character by character.  Opening the file may fail ([IOError]),
      its bytes may fail to decode ([UnicodeDecodeError]), and a write
      may fail once part of the text has gone through, which leaves the
      file cut off.  [json.load] is modelled on documents nested no
      deeper than [nesting_limit] and whose ints have 4300 digits at
      most, the default limits of the interpreter leaving room for
      both; a run beyond them ends in [Unmodelled].
    - The two date parsers of [add_expense_interactive] are parameters:
      no property below depends on what they accept. *)

From Stdlib Require Import ZArith NArith List String Ascii Bool Lia Permutation Sorted.
From Stdlib Require Import DecimalString OrderedTypeEx.
From Stdlib Require Decimal DecimalFacts DecimalPos.
From Stdlib Require Import Floats.SpecFloat.
Import ListNotations.
Local Open Scope string_scope.
Local Open Scope Z_scope.

#[local] Set Warnings "-register-all".

(** ** Python floats *)

Module PyFloat.

Definition float : Type := spec_float.

Definition prec : Z := 53.
Definition emax : Z := 1024.

Definition fadd : float -> float -> float := SFadd prec emax.

Definition pos_zero : float := S754_zero false.

Definition is_nan (x : float) : bool :=
  match x with S754_nan => true | _ => false end.

Definition is_infinite (x : float) : bool :=
  match x with S754_infinity _ => true | _ => false end.

(** The sign bit, as [math.copysign(1, x) < 0] reads it. *)
Definition signbit (x : float) : bool :=
  match x with
  | S754_zero s | S754_infinity s | S754_finite s _ _ => s
  | S754_nan => false
  end.

(** [x < 0] in Python: false on both zeros and on nan. *)
Definition is_negative (x : float) : bool :=
  SFltb x pos_zero.

Definition eqb (x y : float) : bool :=
  match x, y with
  | S754_zero a, S754_zero b => Bool.eqb a b
  | S754_infinity a, S754_infinity b => Bool.eqb a b
  | S754_nan, S754_nan => true
  | S754_finite a m e, S754_finite b n f =>
      Bool.eqb a b && Pos.eqb m n && Z.eqb e f
  | _, _ => false
  end.

(** The double nearest to the integer [n] (ties to even); an infinity
    when [n] is beyond the largest double. *)
Definition of_Z (n : Z) : float := binary_normalize prec emax n 0 false.

(** The double nearest to [num / den], with sign [s]. *)
Definition of_ratio (s : bool) (num den : positive) : float :=
  SFdiv prec emax (S754_finite s num 0) (S754_finite false den 0).

(** The double nearest to [n * 10 ^ q], with sign [s]: what [strtod]
    makes of a decimal literal. *)
Definition of_decimal (s : bool) (n : Z) (q : Z) : float :=
  match n with
  | Zpos p =>
      match q with
      | Zneg k => of_ratio s p (Pos.pow 10 k)
      | _ => binary_normalize prec emax
               (if s then - (n * 10 ^ q) else n * 10 ^ q) 0 false
      end
  | _ => S754_zero s
  end.

(** [a / b] rounded to the nearest integer, ties to even. *)
Definition div_half_even (a : Z) (b : Z) : Z :=
  let q := a / b in
  let r := a mod b in
  match 2 * r ?= b with
  | Lt => q
  | Gt => q + 1
  | Eq => if Z.even q then q else q + 1
  end.

(** [round(x, 2)]: the exact binary value is rounded to two decimals
    (ties to even) and the decimal result converted back to the nearest
    double; nan, the infinities and the zeros round to themselves. *)
Definition round2 (x : float) : float :=
  match x with
  | S754_finite s m e =>
      let n := match e with
               | Zneg k => div_half_even (Zpos m * 100) (Zpos (Pos.pow 2 k))
               | _ => Zpos m * 2 ^ e * 100
               end in
      match n with
      | Zpos p => of_ratio s p 100
      | _ => S754_zero s
      end
  | _ => x
  end.

End PyFloat.

Import PyFloat.

(** ** Python strings *)

Module PyStr.

Definition code (c : ascii) : nat := nat_of_ascii c.

(** [str.isspace] on a character below 128: tab to carriage return, the
    four separators 28-31 and the space. *)
Definition is_space (c : ascii) : bool :=
  let n := code c in
  ((9 <=? n) && (n <=? 13) || (28 <=? n) && (n <=? 32))%nat.

Definition is_digit (c : ascii) : bool :=
  let n := code c in ((48 <=? n) && (n <=? 57))%nat.

Definition digit_val (c : ascii) : Z := Z.of_nat (code c) - 48.

(** Dropping the leading characters that [p] accepts. *)
Fixpoint lstrip_by (p : ascii -> bool) (s : string) : string :=
  match s with
  | String c r => if p c then lstrip_by p r else s
  | EmptyString => EmptyString
  end.

Fixpoint rev_onto (s acc : string) : string :=
  match s with
  | String c r => rev_onto r (String c acc)
  | EmptyString => acc
  end.

Definition rev (s : string) : string := rev_onto s EmptyString.

Definition strip_by (p : ascii -> bool) (s : string) : string :=
  rev (lstrip_by p (rev (lstrip_by p s))).

(** The white space of [str.isspace] beyond ASCII, in UTF-8: U+0085 and
    U+00A0 take two bytes; U+1680, U+2000 to U+200A, U+2028, U+2029,
    U+202F, U+205F and U+3000 take three. *)
Definition is_space2 (a b : ascii) : bool :=
  let m := code a in
  let n := code b in
  ((m =? 194) && ((n =? 133) || (n =? 160)))%nat.

Definition is_space3 (a b c : ascii) : bool :=
  let l := code a in
  let m := code b in
  let n := code c in
  ((l =? 225) && (m =? 154) && (n =? 128)
   || (l =? 226) && (m =? 128)
      && ((128 <=? n) && (n <=? 138) || (n =? 168) || (n =? 169) || (n =? 175))
   || (l =? 226) && (m =? 129) && (n =? 159)
   || (l =? 227) && (m =? 128) && (n =? 128))%nat.

(** How many bytes the white-space character at the head of [s] takes;
    [0] when [s] starts with none. *)
Definition space_width (s : string) : nat :=
  match s with
  | String a r1 =>
      if is_space a then 1
      else match r1 with
           | String b r2 =>
               if is_space2 a b then 2
               else match r2 with
                    | String c _ => if is_space3 a b c then 3 else 0
                    | EmptyString => 0
                    end
           | EmptyString => 0
           end
  | EmptyString => 0
  end%nat.

(** The same on a text given last byte first: the width of its last
    character when that is white space. *)
Definition space_width_back (s : string) : nat :=
  match s with
  | String a r1 =>
      if is_space a then 1
      else match r1 with
           | String b r2 =>
               if is_space2 b a then 2
               else match r2 with
                    | String c _ => if is_space3 c b a then 3 else 0
                    | EmptyString => 0
                    end
           | EmptyString => 0
           end
  | EmptyString => 0
  end%nat.

(** Dropping the leading characters whose width [width] gives: [skip]
    counts the bytes still to drop of the character being dropped. *)
Fixpoint drop_chars (width : string -> nat) (skip : nat) (s : string)
    : string :=
  match s with
  | String _ r =>
      match skip with
      | S k => drop_chars width k r
      | O => match width s with
             | S k => drop_chars width k r
             | O => s
             end
      end
  | EmptyString => EmptyString
  end.

(** [s.lstrip()] *)
Definition lstrip (s : string) : string := drop_chars space_width 0 s.

(** [s.rstrip()], on the text given last byte first. *)
Definition lstrip_back (s : string) : string :=
  drop_chars space_width_back 0 s.

(** [s.strip()] *)
Definition strip (s : string) : string :=
  rev (lstrip_back (rev (lstrip s))).


(** A byte that continues a character in UTF-8. *)
Definition is_continuation (c : ascii) : bool :=
  let n := code c in ((128 <=? n) && (n <? 192))%nat.

(** The code point of the character at the head of [s] and the number
    of bytes it takes; [None] when the bytes are not the shortest
    encoding of a code point. *)
Definition decode_head (s : string) : option (N * nat) :=
  match s with
  | String a r1 =>
      let x := N_of_ascii a in
      if x <? 128 then Some (x, 1%nat)
      else
        match r1 with
        | String b r2 =>
            let y := N_of_ascii b in
            if negb (is_continuation b) then None
            else if (194 <=? x) && (x <? 224)
            then Some ((x - 192) * 64 + (y - 128), 2%nat)
            else
              match r2 with
              | String c r3 =>
                  let z := N_of_ascii c in
                  if negb (is_continuation c) then None
                  else if (224 <=? x) && (x <? 240) then
                    let cp := ((x - 224) * 64 + (y - 128)) * 64 + (z - 128) in
                    if 2048 <=? cp then Some (cp, 3%nat) else None
                  else
                    match r3 with
                    | String d _ =>
                        let t := N_of_ascii d in
                        if negb (is_continuation d) then None
                        else if (240 <=? x) && (x <? 245) then
                          let cp := (((x - 240) * 64 + (y - 128)) * 64
                                     + (z - 128)) * 64 + (t - 128) in
                          if (65536 <=? cp) && (cp <? 1114112)
                          then Some (cp, 4%nat) else None
                        else None
                    | EmptyString => None
                    end
              | EmptyString => None
              end
        | EmptyString => None
        end
  | EmptyString => None
  end%N.

Definition is_surrogate (cp : N) : bool :=
  ((55296 <=? cp) && (cp <? 57344))%N.

(** The text is made of code points that UTF-8 encodes: no byte is out
    of place and no code point is a surrogate ([json.load] makes one of
    an escape such as [\ud800], and a file opened with
    [encoding="utf-8"] refuses it).  [skip] counts the bytes left of the
    character being read. *)
Fixpoint encodable_from (skip : nat) (s : string) : bool :=
  match s with
  | String _ r =>
      match skip with
      | S k => encodable_from k r
      | O => match decode_head s with
             | Some (cp, S k) => negb (is_surrogate cp) && encodable_from k r
             | _ => false
             end
      end
  | EmptyString => true
  end.

Definition encodable (s : string) : bool := encodable_from 0 s.

Definition lower_char (c : ascii) : ascii :=
  let n := code c in
  if ((65 <=? n) && (n <=? 90))%nat then ascii_of_nat (n + 32) else c.

(** [s.lower()] *)
Fixpoint lower (s : string) : string :=
  match s with
  | String c r => String (lower_char c) (lower r)
  | EmptyString => EmptyString
  end.

(** [needle in hay] *)
Fixpoint contains (needle hay : string) : bool :=
  String.prefix needle hay ||
  match hay with
  | String _ r => contains needle r
  | EmptyString => false
  end.

(** [a < b] on strings: lexicographic on character codes. *)
Definition ltb (a b : string) : bool :=
  match String.compare a b with Lt => true | _ => false end.

(** Truthiness of a string: [bool(s)]. *)
Definition truthy (s : string) : bool :=
  match s with EmptyString => false | _ => true end.

End PyStr.

(** ** The built-in [float] on text *)

Module FloatParse.
Import PyStr.

Definition is_underscore (c : ascii) : bool := Ascii.eqb c "_".

(** An underscore is accepted only between two digits. *)
Fixpoint underscores_ok (prev : option ascii) (s : string) : bool :=
  match s with
  | EmptyString =>
      match prev with Some p => negb (is_underscore p) | None => true end
  | String c r =>
      (if is_underscore c
       then match prev with Some p => is_digit p | None => false end
       else match prev with
            | Some p => if is_underscore p then is_digit c else true
            | None => true
            end)
      && underscores_ok (Some c) r
  end.

Fixpoint drop_underscores (s : string) : string :=
  match s with
  | String c r =>
      if is_underscore c then drop_underscores r
      else String c (drop_underscores r)
  | EmptyString => EmptyString
  end.

(** Reads a run of decimal digits: the number read so far, how many
    digits were read, and the rest of the text. *)
Fixpoint read_digits (s : string) (acc : Z) (n : Z) : Z * Z * string :=
  match s with
  | String c r =>
      if is_digit c then read_digits r (10 * acc + digit_val c) (n + 1)
      else (acc, n, s)
  | EmptyString => (acc, n, s)
  end.

Definition read_sign (s : string) : bool * string :=
  match s with
  | String "-" r => (true, r)
  | String "+" r => (false, r)
  | _ => (false, s)
  end.

(** The exponent part: [e] or [E], an optional sign and at least one
    digit; [None] when the text is not of that form. *)
Definition read_exponent (s : string) : option (Z * string) :=
  match s with
  | String c r =>
      if Ascii.eqb (lower_char c) "e" then
        let '(neg, r1) := read_sign r in
        let '(v, n, r2) := read_digits r1 0 0 in
        if n =? 0 then None else Some (if neg then - v else v, r2)
      else None
  | EmptyString => None
  end.

(** A decimal literal without sign: digits, an optional point and more
    digits (one digit at least in all), an optional exponent, and
    nothing after it. *)
Definition read_decimal (neg : bool) (s : string) : option float :=
  let '(ip, ni, r1) := read_digits s 0 0 in
  let '(m, nf, r2) :=
    match r1 with
    | String "." r => read_digits r ip 0
    | _ => (ip, 0, r1)
    end in
  if (ni + nf =? 0) then None
  else match r2 with
       | EmptyString => Some (of_decimal neg m (- nf))
       | _ => match read_exponent r2 with
              | Some (ex, EmptyString) => Some (of_decimal neg m (ex - nf))
              | _ => None
              end
       end.

(** The white space [float] itself drops around an ASCII text: that of
    C's [isspace], without the separators 28-31. *)
Definition is_c_space (c : ascii) : bool :=
  let n := code c in
  ((9 <=? n) && (n <=? 13) || (n =? 32))%nat.

(** [float(s)] for an ASCII text [s]; [None] stands for [ValueError]. *)
Definition float_of_ascii (s : string) : option float :=
  let t := strip_by is_c_space s in
  if underscores_ok None t then
    let '(neg, body) := read_sign (drop_underscores t) in
    let low := lower body in
    if String.eqb low "inf" || String.eqb low "infinity"
    then Some (S754_infinity neg)
    else if String.eqb low "nan" then Some S754_nan
    else read_decimal neg body
  else None.

(** The zeros of the decimal digits beyond ASCII (the category Nd of
    Unicode 14.0): the digits 1 to 9 follow each of them. *)
Definition decimal_zeros : list N :=
  [1632; 1776; 1984; 2406; 2534; 2662; 2790; 2918; 3046; 3174; 3302; 3430;
   3558; 3664; 3792; 3872; 4160; 4240; 6112; 6160; 6470; 6608; 6784; 6800;
   6992; 7088; 7232; 7248; 42528; 43216; 43264; 43472; 43504; 43600; 44016;
   65296; 66720; 68912; 69734; 69872; 69942; 70096; 70384; 70736; 70864;
   71248; 71360; 71472; 71904; 72016; 72784; 73040; 73120; 92768; 92864;
   93008; 120782; 120792; 120802; 120812; 120822; 123200; 123632; 125264;
   130032]%N.

(** [Py_UNICODE_TODECIMAL] beyond ASCII *)
Definition decimal_value (cp : N) : option N :=
  match find (fun z => (z <=? cp) && (cp <? z + 10))%N decimal_zeros with
  | Some z => Some (cp - z)%N
  | None => None
  end.

(** What [float] makes of a string before it parses it: a character
    below 127 is kept, a white-space character becomes a space and a
    decimal digit its ASCII digit; at any other character the text is
    cut and ends in a question mark.  [skip] counts the bytes left of
    the character being replaced. *)
Fixpoint to_ascii (skip : nat) (s : string) : string :=
  match s with
  | String c r =>
      match skip with
      | S k => to_ascii k r
      | O =>
          if (code c <? 127)%nat then String c (to_ascii 0 r)
          else
            match space_width s with
            | S k => String " " (to_ascii k r)
            | O =>
                match decode_head s with
                | Some (cp, S k) =>
                    match decimal_value cp with
                    | Some d => String (ascii_of_N (48 + d)) (to_ascii k r)
                    | None => "?"
                    end
                | _ => "?"
                end
            end
      end
  | EmptyString => EmptyString
  end.

(** [float(s)] for a string [s]; [None] stands for [ValueError]. *)
Definition float_of_string (s : string) : option float :=
  float_of_ascii (to_ascii 0 s).

End FloatParse.

Import FloatParse.

(** ** JSON-decoded values *)

Inductive json : Type :=
| JNull
| JBool (b : bool)
| JInt (n : Z)
| JFloat (x : float)
| JStr (s : string)
| JArr (items : list json)
| JObj (fields : list (string * json)).

(** A dict with string keys, in insertion order. *)
Definition dict : Type := list (string * json).

Fixpoint dict_get (k : string) (d : dict) : option json :=
  match d with
  | (k', v) :: r => if String.eqb k k' then Some v else dict_get k r
  | [] => None
  end.

(** [d[k] = v]: an existing key keeps its place. *)
Fixpoint dict_set (k : string) (v : json) (d : dict) : dict :=
  match d with
  | (k', v') :: r =>
      if String.eqb k k' then (k', v) :: r else (k', v') :: dict_set k v r
  | [] => [(k, v)]
  end.

(** ** The [json] module: [dump] with [indent=2, ensure_ascii=False]
    and [load] *)

Module PyJson.
Import PyStr.

Definition dquote : ascii := "034".
Definition backslash : ascii := "092".
Definition newline : ascii := "010".

Definition hex_digit (n : nat) : ascii :=
  if (n <? 10)%nat then ascii_of_nat (48 + n) else ascii_of_nat (87 + n).

(** One character of a string literal, as [ESCAPE_DCT] maps it. *)
Definition escape_char (c : ascii) : string :=
  let n := code c in
  if Ascii.eqb c dquote then String backslash (String dquote "")
  else if Ascii.eqb c backslash then String backslash (String backslash "")
  else if (n =? 8)%nat then String backslash "b"
  else if (n =? 12)%nat then String backslash "f"
  else if (n =? 10)%nat then String backslash "n"
  else if (n =? 13)%nat then String backslash "r"
  else if (n =? 9)%nat then String backslash "t"
  else if (n <? 32)%nat then
    String backslash
      (String "u" (String "0" (String "0"
         (String (hex_digit (n / 16)) (String (hex_digit (n mod 16)) "")))))
  else String c "".

Fixpoint escape (s : string) : string :=
  match s with
  | String c r => escape_char c ++ escape r
  | EmptyString => EmptyString
  end.

Definition encode_string (s : string) : string :=
  String dquote (escape s ++ String dquote "").

(** Decimal digits of a positive number, most significant first. *)
Definition digits_of_pos (p : positive) : string :=
  NilEmpty.string_of_uint (Pos.to_uint p).

(** [int.__repr__] *)
Definition repr_int (n : Z) : string :=
  match n with
  | Z0 => "0"
  | Zpos p => digits_of_pos p
  | Zneg p => String "-" (digits_of_pos p)
  end.

Fixpoint zeros (n : nat) : string :=
  match n with O => EmptyString | S k => String "0" (zeros k) end.

(** The text [float.__repr__] gives to the decimal [ds * 10 ^ q], [ds]
    being its digits: positional when the decimal point falls within
    (-4, 16], scientific otherwise. *)
Definition format_repr (ds : string) (q : Z) : string :=
  let len := Z.of_nat (String.length ds) in
  let decpt := len + q in
  if (-4 <? decpt) && (decpt <=? 16) then
    if decpt <=? 0 then "0." ++ zeros (Z.to_nat (- decpt)) ++ ds
    else if len <=? decpt then ds ++ zeros (Z.to_nat (decpt - len)) ++ ".0"
    else substring 0 (Z.to_nat decpt) ds ++ "." ++
         substring (Z.to_nat decpt) (Z.to_nat (len - decpt)) ds
  else
    let ex := decpt - 1 in
    let mant := match ds with
                | String c EmptyString => ds
                | String c r => String c (String "." r)
                | EmptyString => ds
                end in
    let exd := repr_int (Z.abs ex) in
    mant ++ "e" ++ (if ex <? 0 then "-" else "+") ++
    (if Z.abs ex <? 10 then String "0" exd else exd).

(** The two decimals with exponent [q] that enclose [m * 2 ^ e]. *)
Definition scaled_floor (m : positive) (e q : Z) : Z :=
  let num := Zpos m * 2 ^ (Z.max e 0) * 10 ^ (Z.max (- q) 0) in
  let den := 2 ^ (Z.max (- e) 0) * 10 ^ (Z.max q 0) in
  num / den.

Definition reads_back (x : float) (d q : Z) : bool :=
  match d with
  | Zpos p =>
      match float_of_ascii (format_repr (digits_of_pos p) q) with
      | Some y => PyFloat.eqb x y
      | None => false
      end
  | _ => false
  end.

(** The shortest decimal that [float] reads back as [m * 2 ^ e], the
    nearer of the two candidates when both do: tried from the largest
    exponent down. *)
Fixpoint shortest (fuel : nat) (m : positive) (e q : Z) : Z * Z :=
  let lo := scaled_floor m e q in
  let hi := lo + 1 in
  let x := S754_finite false m e in
  let ok_lo := reads_back x lo q in
  let ok_hi := reads_back x hi q in
  let pick :=
    (* 2 * v / 10^q compared with lo + hi *)
    let num := 2 * (Zpos m * 2 ^ (Z.max e 0) * 10 ^ (Z.max (- q) 0)) in
    let den := 2 ^ (Z.max (- e) 0) * 10 ^ (Z.max q 0) in
    match num ?= (lo + hi) * den with
    | Lt => lo
    | Gt => hi
    | Eq => if Z.even lo then lo else hi
    end in
  if ok_lo && ok_hi then (pick, q)
  else if ok_lo then (lo, q)
  else if ok_hi then (hi, q)
  else match fuel with
       | O => (lo, q)
       | S k => shortest k m e (q - 1)
       end.

(** An exponent [q] with [m * 2 ^ e < 10 ^ q], from the bit length. *)
Definition start_exponent (m : positive) (e : Z) : Z :=
  (Zpos (digits2_pos m) + e) * 30103 / 100000 + 2.

(** [float.__repr__] on a finite non-zero magnitude.  At the exponent
    [min e 0] the decimal is [m * 2 ^ e] itself, so that the search ends
    there at the latest. *)
Definition repr_finite (m : positive) (e : Z) : string :=
  let q0 := start_exponent m e in
  let '(d, q) := shortest (Z.to_nat (q0 - Z.min e 0)) m e q0 in
  format_repr (repr_int d) q.

(** [floatstr] of the encoder: [allow_nan] is left at its default. *)
Definition encode_float (x : float) : string :=
  match x with
  | S754_nan => "NaN"
  | S754_infinity false => "Infinity"
  | S754_infinity true => "-Infinity"
  | S754_zero false => "0.0"
  | S754_zero true => "-0.0"
  | S754_finite false m e => repr_finite m e
  | S754_finite true m e => String "-" (repr_finite m e)
  end.

(** Two spaces for each level. *)
Fixpoint indentation (level : nat) : string :=
  match level with
  | O => EmptyString
  | S k => String " " (String " " (indentation k))
  end.

Definition newline_indent (level : nat) : string :=
  String newline (indentation level).

(** [_iterencode], the pieces joined; [level] is the current
    indentation level. *)
Fixpoint encode (level : nat) (v : json) : string :=
  match v with
  | JNull => "null"
  | JBool true => "true"
  | JBool false => "false"
  | JInt n => repr_int n
  | JFloat x => encode_float x
  | JStr s => encode_string s
  | JArr [] => "[]"
  | JArr (x :: r) =>
      "[" ++ newline_indent (S level) ++ encode (S level) x ++
      (fix rest (l : list json) : string :=
         match l with
         | [] => EmptyString
         | y :: l' => "," ++ newline_indent (S level) ++
                      encode (S level) y ++ rest l'
         end) r ++
      newline_indent level ++ "]"
  | JObj [] => "{}"
  | JObj ((k, x) :: r) =>
      "{" ++ newline_indent (S level) ++
      encode_string k ++ ": " ++ encode (S level) x ++
      (fix rest (l : list (string * json)) : string :=
         match l with
         | [] => EmptyString
         | (k', y) :: l' => "," ++ newline_indent (S level) ++
                            encode_string k' ++ ": " ++
                            encode (S level) y ++ rest l'
         end) r ++
      newline_indent level ++ "}"
  end.

(** [json.dumps(v, indent=2, ensure_ascii=False)] *)
Definition dumps (v : json) : string := encode 0 v.

(** *** Decoding *)

Definition is_ws (c : ascii) : bool :=
  let n := code c in
  ((n =? 32) || (n =? 9) || (n =? 10) || (n =? 13))%nat.

Fixpoint skip_ws (s : string) : string :=
  match s with
  | String c r => if is_ws c then skip_ws r else s
  | EmptyString => EmptyString
  end.

(** The text after the prefix [p], when [s] starts with [p]. *)
Fixpoint strip_prefix (p s : string) : option string :=
  match p, s with
  | EmptyString, _ => Some s
  | String a p', String b s' =>
      if Ascii.eqb a b then strip_prefix p' s' else None
  | String _ _, EmptyString => None
  end.

Definition hex_val (c : ascii) : option N :=
  let n := N_of_ascii c in
  (if (48 <=? n) && (n <=? 57) then Some (n - 48)
   else if (97 <=? n) && (n <=? 102) then Some (n - 87)
   else if (65 <=? n) && (n <=? 70) then Some (n - 55)
   else None)%N.

(** Four hexadecimal digits. *)
Definition read_hex4 (s : string) : option (N * string) :=
  match s with
  | String a (String b (String c (String d r))) =>
      match hex_val a, hex_val b, hex_val c, hex_val d with
      | Some x, Some y, Some z, Some w =>
          Some (((x * 16 + y) * 16 + z) * 16 + w, r)%N
      | _, _, _, _ => None
      end
  | _ => None
  end.

(** The characters of code point [cp], as UTF-8. *)
Definition utf8 (cp : N) : string :=
  let byte n := ascii_of_N n in
  (if cp <? 128 then String (byte cp) ""
   else if cp <? 2048 then
     String (byte (192 + cp / 64)) (String (byte (128 + cp mod 64)) "")
   else if cp <? 65536 then
     String (byte (224 + cp / 4096))
       (String (byte (128 + (cp / 64) mod 64))
          (String (byte (128 + cp mod 64)) ""))
   else
     String (byte (240 + cp / 262144))
       (String (byte (128 + (cp / 4096) mod 64))
          (String (byte (128 + (cp / 64) mod 64))
             (String (byte (128 + cp mod 64)) ""))))%N.

(** What a backslash followed by [c] stands for, [u] apart. *)
Definition unescape (c : ascii) : option ascii :=
  let n := code c in
  if Ascii.eqb c dquote then Some dquote
  else if Ascii.eqb c backslash then Some backslash
  else if Ascii.eqb c "/" then Some "/"%char
  else if Ascii.eqb c "b" then Some (ascii_of_nat 8)
  else if Ascii.eqb c "f" then Some (ascii_of_nat 12)
  else if Ascii.eqb c "n" then Some (ascii_of_nat 10)
  else if Ascii.eqb c "r" then Some (ascii_of_nat 13)
  else if Ascii.eqb c "t" then Some (ascii_of_nat 9)
  else None.

(** [scanstring] in strict mode, from just after the opening quote:
    the decoded string and the text after the closing quote. *)
Fixpoint scan_string (fuel : nat) (s : string) : option (string * string) :=
  match fuel with
  | O => None
  | S f =>
      match s with
      | EmptyString => None
      | String c r =>
          if Ascii.eqb c dquote then Some (EmptyString, r)
          else if Ascii.eqb c backslash then
            match r with
            | EmptyString => None
            | String e r1 =>
                if Ascii.eqb e "u" then
                  match read_hex4 r1 with
                  | None => None
                  | Some (u, r2) =>
                      let high := ((55296 <=? u) && (u <=? 56319))%N in
                      match (if high then strip_prefix (String backslash "u") r2
                             else None) with
                      | Some r3 =>
                          match read_hex4 r3 with
                          | None => None
                          | Some (u2, r4) =>
                              if ((56320 <=? u2) && (u2 <=? 57343))%N then
                                let cp := (65536 + ((u - 55296) * 1024
                                                    + (u2 - 56320)))%N in
                                match scan_string f r4 with
                                | Some (t, rest) => Some (utf8 cp ++ t, rest)
                                | None => None
                                end
                              else
                                match scan_string f r2 with
                                | Some (t, rest) => Some (utf8 u ++ t, rest)
                                | None => None
                                end
                          end
                      | None =>
                          match scan_string f r2 with
                          | Some (t, rest) => Some (utf8 u ++ t, rest)
                          | None => None
                          end
                      end
                  end
                else
                  match unescape e with
                  | None => None
                  | Some d =>
                      match scan_string f r1 with
                      | Some (t, rest) => Some (String d t, rest)
                      | None => None
                      end
                  end
            end
          else if (code c <? 32)%nat then None
          else
            match scan_string f r with
            | Some (t, rest) => Some (String c t, rest)
            | None => None
            end
      end
  end.

(** The longest prefix of digits, and the rest. *)
Fixpoint span_digits (s : string) : string * string :=
  match s with
  | String c r =>
      if is_digit c then let '(d, rest) := span_digits r in (String c d, rest)
      else (EmptyString, s)
  | EmptyString => (EmptyString, EmptyString)
  end.

(** The integer part of [NUMBER_RE]: [0], or a digit run that does not
    start with [0]. *)
Definition match_int_part (s : string) : option (string * string) :=
  match s with
  | String c r =>
      if Ascii.eqb c "0" then Some ("0", r)
      else if is_digit c then Some (span_digits s)
      else None
  | EmptyString => None
  end.

Definition match_frac (s : string) : string * string :=
  match s with
  | String c r =>
      if Ascii.eqb c "." then
        match span_digits r with
        | (EmptyString, _) => (EmptyString, s)
        | (d, rest) => (String c d, rest)
        end
      else (EmptyString, s)
  | EmptyString => (EmptyString, s)
  end.

(** An optional sign, as a text. *)
Definition match_sign (s : string) : string * string :=
  match s with
  | String c r =>
      if Ascii.eqb c "-" || Ascii.eqb c "+" then (String c EmptyString, r)
      else (EmptyString, s)
  | EmptyString => (EmptyString, s)
  end.

Definition match_exp (s : string) : string * string :=
  match s with
  | String c r =>
      if Ascii.eqb c "e" || Ascii.eqb c "E" then
        let '(sg, r1) := match_sign r in
        match span_digits r1 with
        | (EmptyString, _) => (EmptyString, s)
        | (d, rest) => (String c (sg ++ d), rest)
        end
      else (EmptyString, s)
  | EmptyString => (EmptyString, s)
  end.

Definition match_minus (s : string) : string * string :=
  match s with
  | String c r =>
      if Ascii.eqb c "-" then (String c EmptyString, r) else (EmptyString, s)
  | EmptyString => (EmptyString, s)
  end.

(** [int(s)] on a run of digits with an optional minus. *)
Definition int_of_string (s : string) : Z :=
  let '(sg, body) := match_minus s in
  let '(v, _, _) := read_digits body 0 0 in
  match sg with
  | EmptyString => v
  | _ => - v
  end.

(** [NUMBER_RE] at the head of [s]: a float when a fraction or an
    exponent is present, an int otherwise. *)
Definition match_number (s : string) : option (json * string) :=
  let '(sg, r0) := match_minus s in
  match match_int_part r0 with
  | None => None
  | Some (ip, r1) =>
      let '(fr, r2) := match_frac r1 in
      let '(ex, r3) := match_exp r2 in
      match fr, ex with
      | EmptyString, EmptyString => Some (JInt (int_of_string (sg ++ ip)), r3)
      | _, _ =>
          match float_of_ascii (sg ++ ip ++ fr ++ ex) with
          | Some x => Some (JFloat x, r3)
          | None => None
          end
      end
  end.

(** [dict(pairs)]: a repeated key keeps its first place and takes its
    last value. *)
Definition dict_of_pairs (pairs : list (string * json)) : dict :=
  fold_left (fun d kv => dict_set (fst kv) (snd kv) d) pairs [].

(** [scan_once] with the array and object readers. *)
Fixpoint parse_value (fuel : nat) (s : string) : option (json * string) :=
  match fuel with
  | O => None
  | S f =>
      match s with
      | EmptyString => None
      | String c r =>
          if Ascii.eqb c dquote then
            match scan_string (String.length s) r with
            | Some (t, rest) => Some (JStr t, rest)
            | None => None
            end
          else if Ascii.eqb c "{" then
            match skip_ws r with
            | String c2 r2 =>
                if Ascii.eqb c2 "}" then Some (JObj [], r2)
                else
                  match parse_members f (skip_ws r) with
                  | Some (kvs, rest) => Some (JObj (dict_of_pairs kvs), rest)
                  | None => None
                  end
            | EmptyString => None
            end
          else if Ascii.eqb c "[" then
            match skip_ws r with
            | String c2 r2 =>
                if Ascii.eqb c2 "]" then Some (JArr [], r2)
                else
                  match parse_elements f (skip_ws r) with
                  | Some (vs, rest) => Some (JArr vs, rest)
                  | None => None
                  end
            | EmptyString => None
            end
          else
            match strip_prefix "null" s with
            | Some rest => Some (JNull, rest)
            | None =>
            match strip_prefix "true" s with
            | Some rest => Some (JBool true, rest)
            | None =>
            match strip_prefix "false" s with
            | Some rest => Some (JBool false, rest)
            | None =>
            match match_number s with
            | Some res => Some res
            | None =>
            match strip_prefix "NaN" s with
            | Some rest => Some (JFloat S754_nan, rest)
            | None =>
            match strip_prefix "Infinity" s with
            | Some rest => Some (JFloat (S754_infinity false), rest)
            | None =>
            match strip_prefix "-Infinity" s with
            | Some rest => Some (JFloat (S754_infinity true), rest)
            | None => None
            end end end end end end end
      end
  end
with parse_elements (fuel : nat) (s : string) : option (list json * string) :=
  match fuel with
  | O => None
  | S f =>
      match parse_value f s with
      | None => None
      | Some (v, r) =>
          match skip_ws r with
          | String c r2 =>
              if Ascii.eqb c "]" then Some ([v], r2)
              else if Ascii.eqb c "," then
                match parse_elements f (skip_ws r2) with
                | Some (vs, rest) => Some (v :: vs, rest)
                | None => None
                end
              else None
          | EmptyString => None
          end
      end
  end
with parse_members (fuel : nat) (s : string)
     : option (list (string * json) * string) :=
  match fuel with
  | O => None
  | S f =>
      match s with
      | String c r =>
          if Ascii.eqb c dquote then
            match scan_string (String.length s) r with
            | None => None
            | Some (k, r1) =>
                match skip_ws r1 with
                | String c1 r2 =>
                    if Ascii.eqb c1 ":" then
                      match parse_value f (skip_ws r2) with
                      | None => None
                      | Some (v, r3) =>
                          match skip_ws r3 with
                          | String c3 r4 =>
                              if Ascii.eqb c3 "}" then Some ([(k, v)], r4)
                              else if Ascii.eqb c3 "," then
                                match parse_members f (skip_ws r4) with
                                | Some (kvs, rest) => Some ((k, v) :: kvs, rest)
                                | None => None
                                end
                              else None
                          | EmptyString => None
                          end
                      end
                    else None
                | EmptyString => None
                end
            end
          else None
      | EmptyString => None
      end
  end.

(** [json.loads(s)]; [None] stands for [JSONDecodeError]. *)
Definition loads (s : string) : option json :=
  match parse_value (2 * String.length s + 2) (skip_ws s) with
  | Some (v, rest) =>
      match skip_ws rest with
      | EmptyString => Some v
      | _ => None
      end
  | None => None
  end.

(** *** The limits of the interpreter *)

(** The nesting [json.load] is modelled up to; the recursion limit of
    the interpreter (1000 by default) leaves room for it. *)
Definition nesting_limit : N := 200.

(** [sys.int_info.default_max_str_digits] *)
Definition int_max_str_digits : N := 4300.

(** The deepest nesting of lists and dicts in [v]. *)
Fixpoint depth (v : json) : N :=
  match v with
  | JArr l =>
      N.succ ((fix deepest (l : list json) : N :=
                 match l with
                 | [] => 0
                 | x :: r => N.max (depth x) (deepest r)
                 end) l)
  | JObj d =>
      N.succ ((fix deepest (d : list (string * json)) : N :=
                 match d with
                 | [] => 0
                 | (_, x) :: r => N.max (depth x) (deepest r)
                 end) d)
  | _ => 0
  end%N.

(** No int of [v] has more digits than [int] converts. *)
Fixpoint ints_within (v : json) : bool :=
  match v with
  | JInt n =>
      (N.of_nat (String.length (repr_int (Z.abs n))) <=? int_max_str_digits)%N
  | JArr l =>
      (fix all (l : list json) : bool :=
         match l with
         | [] => true
         | x :: r => ints_within x && all r
         end) l
  | JObj d =>
      (fix all (d : list (string * json)) : bool :=
         match d with
         | [] => true
         | (_, x) :: r => ints_within x && all r
         end) d
  | _ => true
  end.

(** The value is read without a limit being met. *)
Definition within_limits (v : json) : bool :=
  (depth v <=? nesting_limit)%N && ints_within v.

(** On a text that is not JSON a limit may be met before the error is:
    the brackets open at once outside the strings, and the runs of
    digits, are counted on the text itself. *)
Fixpoint text_within (in_str esc : bool) (opened run : N) (s : string)
    : bool :=
  match s with
  | EmptyString => true
  | String c r =>
      if in_str then
        if esc then text_within true false opened 0 r
        else if Ascii.eqb c backslash then text_within true true opened 0 r
        else if Ascii.eqb c dquote then text_within false false opened 0 r
        else text_within true false opened 0 r
      else if Ascii.eqb c dquote then text_within true false opened 0 r
      else if Ascii.eqb c "[" || Ascii.eqb c "{" then
        (N.succ opened <=? nesting_limit)%N
        && text_within false false (N.succ opened) 0 r
      else if Ascii.eqb c "]" || Ascii.eqb c "}" then
        text_within false false (N.pred opened) 0 r
      else if is_digit c then
        (N.succ run <=? int_max_str_digits)%N
        && text_within false false opened (N.succ run) r
      else text_within false false opened 0 r
  end.

Definition text_within_limits (s : string) : bool :=
  text_within false false 0 0 s.

End PyJson.

Import PyJson.

(** ** Exceptions, results and the world *)

Inductive exn : Type :=
| AttributeError
| TypeError
| ValueError
| KeyError
| OverflowError
| EOFError
| UnicodeDecodeError
| JSONDecodeError
| IOError
| Unmodelled.   (* an execution outside the fragment of Python modelled *)

Inductive result (A : Type) : Type :=
| Ok (a : A)
| Raise (e : exn).
Arguments Ok {A} a.
Arguments Raise {A} e.

Definition rbind {A B : Type} (r : result A) (f : A -> result B) : result B :=
  match r with
  | Ok a => f a
  | Raise e => Raise e
  end.

(** What [expenses.json] holds. *)
Inductive file_state : Type :=
| Absent                (* [filepath.exists()] is false *)
| Unreadable            (* opening or reading raises [IOError] *)
| Undecodable           (* the bytes are not UTF-8 *)
| Text (t : string).

(** One [print] call: a plain line, or a label followed by a formatted
    value. *)
Inductive out_item : Type :=
| Line (s : string)
| Field (label : string) (v : json).

Record world : Type := mkWorld {
  file : file_state;
  writable : bool;             (* may [open(filepath, "w")] succeed? *)
  room : option nat;           (* the bytes a write gets through before it
                                  fails; [None] when it does not fail *)
  stdin : list string;         (* the lines [input] has yet to return *)
  stdout : list out_item;      (* what was printed, oldest first *)
  uuids : nat -> string;       (* the results of [uuid.uuid4()], in order *)
  uuid_calls : nat;
  clock : nat -> string;       (* [datetime.now().isoformat(timespec="seconds")] *)
  clock_calls : nat
}.

Definition set_file (w : world) (f : file_state) : world :=
  mkWorld f (writable w) (room w) (stdin w) (stdout w)
          (uuids w) (uuid_calls w) (clock w) (clock_calls w).

Definition set_stdin (w : world) (l : list string) : world :=
  mkWorld (file w) (writable w) (room w) l (stdout w)
          (uuids w) (uuid_calls w) (clock w) (clock_calls w).

Definition add_out (w : world) (o : out_item) : world :=
  mkWorld (file w) (writable w) (room w) (stdin w) (stdout w ++ [o])
          (uuids w) (uuid_calls w) (clock w) (clock_calls w).

Definition tick_uuid (w : world) : world :=
  mkWorld (file w) (writable w) (room w) (stdin w) (stdout w)
          (uuids w) (S (uuid_calls w)) (clock w) (clock_calls w).

Definition tick_clock (w : world) : world :=
  mkWorld (file w) (writable w) (room w) (stdin w) (stdout w)
          (uuids w) (uuid_calls w) (clock w) (S (clock_calls w)).

(** Computations that read and change the world and may raise. *)
Definition M (A : Type) : Type := world -> result A * world.

Definition ret {A : Type} (a : A) : M A := fun w => (Ok a, w).

Definition bind {A B : Type} (m : M A) (f : A -> M B) : M B :=
  fun w =>
    match m w with
    | (Ok a, w') => f a w'
    | (Raise e, w') => (Raise e, w')
    end.

Definition raise {A : Type} (e : exn) : M A := fun w => (Raise e, w).

Definition lift {A : Type} (r : result A) : M A := fun w => (r, w).

(** [try: body except <caught>: handler] *)
Definition try_except {A : Type} (body : M A) (caught : exn -> bool)
    (handler : M A) : M A :=
  fun w =>
    match body w with
    | (Raise e, w') => if caught e then handler w' else (Raise e, w')
    | r => r
    end.

Declare Scope py_scope.
Delimit Scope py_scope with py.
Notation "x <- m ;; k" := (bind m (fun x => k))
  (at level 61, m at next level, right associativity) : py_scope.
Notation "m ;; k" := (bind m (fun _ => k))
  (at level 61, right associativity) : py_scope.
Notation "x <~ r ;; k" := (rbind r (fun x => k))
  (at level 61, r at next level, right associativity) : py_scope.
Local Open Scope py_scope.

Definition print (o : out_item) : M unit := fun w => (Ok tt, add_out w o).

(** [input(prompt)]: the next line of standard input. *)
Definition input : M string :=
  fun w =>
    match stdin w with
    | l :: rest => (Ok l, set_stdin w rest)
    | [] => (Raise EOFError, w)
    end.

Definition path_exists : M bool :=
  fun w => (Ok (match file w with Absent => false | _ => true end), w).

(** [open(filepath, "r", encoding="utf-8")] and reading it whole. *)
Definition read_text : M string :=
  fun w =>
    match file w with
    | Text t => (Ok t, w)
    | Undecodable => (Raise UnicodeDecodeError, w)
    | Unreadable | Absent => (Raise IOError, w)
    end.

(** The text [t] fits in the room there is. *)
Definition fits (t : string) (w : world) : bool :=
  match room w with
  | Some n => (String.length t <=? n)%nat
  | None => true
  end.

(** What a write that fails leaves of [t]: the bytes that went through,
    which may end within a character. *)
Definition cut_off (t : string) (w : world) : file_state :=
  match room w with
  | Some n =>
      let part := substring 0 n t in
      if PyStr.encodable part then Text part else Undecodable
  | None => Text t
  end.

(** [open(filepath, "w", encoding="utf-8")] and writing [t]: opening
    empties the file, so that a write that fails leaves it cut off. *)
Definition write_text (t : string) : M unit :=
  fun w =>
    if writable w then
      if fits t w then (Ok tt, set_file w (Text t))
      else (Raise IOError, set_file w (cut_off t w))
    else (Raise IOError, w).

Definition uuid4 : M string :=
  fun w => (Ok (uuids w (uuid_calls w)), tick_uuid w).

Definition now_iso : M string :=
  fun w => (Ok (clock w (clock_calls w)), tick_clock w).

(** ** Built-ins on JSON-decoded values *)

(** [e.get(k, default)] *)
Definition py_get (e : json) (k : string) (default : json) : result json :=
  match e with
  | JObj d => Ok (match dict_get k d with Some v => v | None => default end)
  | _ => Raise AttributeError
  end.

(** [e[k]] with a string key *)
Definition py_item (e : json) (k : string) : result json :=
  match e with
  | JObj d => match dict_get k d with Some v => Ok v | None => Raise KeyError end
  | _ => Raise TypeError
  end.

(** [float(v)] *)
Definition py_float (v : json) : result float :=
  match v with
  | JFloat x => Ok x
  | JInt n => let x := of_Z n in
              if is_infinite x then Raise OverflowError else Ok x
  | JBool b => Ok (of_Z (if b then 1 else 0))
  | JStr s => match float_of_string s with
              | Some x => Ok x
              | None => Raise ValueError
              end
  | JNull | JArr _ | JObj _ => Raise TypeError
  end.

(** [bool(v)] *)
Definition truthy_json (v : json) : bool :=
  match v with
  | JNull => false
  | JBool b => b
  | JInt n => negb (n =? 0)
  | JFloat x => match x with S754_zero _ => false | _ => true end
  | JStr s => PyStr.truthy s
  | JArr l => match l with [] => false | _ => true end
  | JObj d => match d with [] => false | _ => true end
  end.

(** [v != s] for a string [s] *)
Definition ne_str (v : json) (s : string) : bool :=
  match v with
  | JStr t => negb (String.eqb t s)
  | _ => true
  end.

(** [v.lower()] *)
Definition py_lower (v : json) : result string :=
  match v with
  | JStr s => Ok (PyStr.lower s)
  | _ => Raise AttributeError
  end.

(** A list comprehension with a condition that may raise. *)
Fixpoint filter_r {A : Type} (p : A -> result bool) (l : list A)
    : result (list A) :=
  match l with
  | [] => Ok []
  | x :: r =>
      b <~ p x ;;
      r' <~ filter_r p r ;;
      Ok (if b then x :: r' else r')
  end.

Fixpoint map_r {A B : Type} (f : A -> result B) (l : list A)
    : result (list B) :=
  match l with
  | [] => Ok []
  | x :: r =>
      y <~ f x ;;
      r' <~ map_r f r ;;
      Ok (y :: r')
  end.

Fixpoint for_each {A : Type} (f : A -> M unit) (l : list A) : M unit :=
  match l with
  | [] => ret tt
  | x :: r => f x ;; for_each f r
  end.

(** *** [sorted(l, key=lambda x: x.get("date", ""), reverse=True)] *)

(** Where [x] goes in a list already in descending order: after the
    entries with a greater key, before those with an equal or smaller
    one, so that equal keys keep the order of the input. *)
Fixpoint insert_desc (x : string * json) (l : list (string * json))
    : list (string * json) :=
  match l with
  | [] => [x]
  | y :: r => if PyStr.ltb (fst x) (fst y) then y :: insert_desc x r
              else x :: y :: r
  end.

Definition sort_desc (l : list (string * json)) : list (string * json) :=
  fold_right insert_desc [] l.

Inductive key_class : Type := KStr | KNum | KList | KNone | KDict.

Definition classify (v : json) : key_class :=
  match v with
  | JStr _ => KStr
  | JBool _ | JInt _ | JFloat _ => KNum
  | JArr _ => KList
  | JNull => KNone
  | JObj _ => KDict
  end.

Definition same_class (a b : key_class) : bool :=
  match a, b with
  | KStr, KStr | KNum, KNum | KList, KList | KNone, KNone | KDict, KDict => true
  | _, _ => false
  end.

Definition str_key (v : json) : option string :=
  match v with JStr s => Some s | _ => None end.

Fixpoint all_str_keys (ks : list json) : option (list string) :=
  match ks with
  | [] => Some []
  | k :: r => match str_key k, all_str_keys r with
              | Some s, Some ss => Some (s :: ss)
              | _, _ => None
              end
  end.

(** Two keys or more are compared with [<]: keys of different types, and
    [None] or a dict among them, raise [TypeError]; lists of numbers or
    of lists are not modelled. *)
Definition sorted_by_date_desc (l : list json) : result (list json) :=
  keys <~ map_r (fun e => py_get e "date" (JStr "")) l ;;
  match keys with
  | [] | [_] => Ok l
  | k0 :: _ =>
      match all_str_keys keys with
      | Some ss => Ok (map snd (sort_desc (combine ss l)))
      | None =>
          if forallb (fun k => same_class (classify k) (classify k0)) keys
             && negb (same_class (classify k0) KNone)
             && negb (same_class (classify k0) KDict)
          then Raise Unmodelled
          else Raise TypeError
      end
  end.

(** ** The program *)

Definition caught_on_load (e : exn) : bool :=
  match e with JSONDecodeError | IOError => true | _ => false end.

Definition caught_on_save (e : exn) : bool :=
  match e with IOError => true | _ => false end.

Definition load_warning : string :=
  "Warning: Could not read JSON file or file is corrupted. Starting with empty ledger.".

Definition save_error : string := "Error: Unable to save expenses.".

(** [json.load(f)] on the text read, within the limits modelled *)
Definition json_load (t : string) : M json :=
  match PyJson.loads t with
  | Some v =>
      if PyJson.within_limits v then ret v else raise Unmodelled
  | None =>
      if PyJson.text_within_limits t then raise JSONDecodeError
      else raise Unmodelled
  end.

Definition load_expenses : M (list json) :=
  ex <- path_exists ;;
  if negb ex then ret []
  else
    try_except
      (t <- read_text ;;
       data <- json_load t ;;
       match data with
       | JArr l => ret l
       | _ => ret []
       end)
      caught_on_load
      (print (Line load_warning) ;; ret []).

Definition save_expenses (expenses : list json) : M unit :=
  try_except
    (write_text (PyJson.dumps (JArr expenses)))
    caught_on_save
    (print (Line save_error)).

Definition make_expense (amount : float) (category note : string)
    (date_iso : option string) : M json :=
  id <- uuid4 ;;
  date <- match date_iso with
          | Some d => if PyStr.truthy d then ret d else now_iso
          | None => now_iso
          end ;;
  ret (JObj [("id", JStr id);
             ("amount", JFloat (round2 amount));
             ("category", JStr (PyStr.strip category));
             ("note", JStr (PyStr.strip note));
             ("date", JStr date)]).

Definition invalid_amount : string := "Invalid amount. Try again.".
Definition invalid_date : string :=
  "Invalid date format. Using current date/time.".
Definition expense_added : string :=
  "Expense added!" ++ String PyJson.newline "".

(** The [while True] loop of [add_expense_interactive]: lines are read
    until one is accepted by [float]. *)
Fixpoint amount_loop (pending : list string) (w : world)
    : result float * world :=
  match pending with
  | [] => (Raise EOFError, set_stdin w [])
  | l :: rest =>
      match float_of_string (PyStr.strip l) with
      | Some x => (Ok x, set_stdin w rest)
      | None => amount_loop rest (add_out w (Line invalid_amount))
      end
  end.

Definition read_amount : M float := fun w => amount_loop (stdin w) w.

Section Interactive.

(** [datetime.fromisoformat(s).isoformat(timespec="seconds")] and
    [datetime.strptime(s, "%Y-%m-%d").isoformat(timespec="seconds")];
    [None] stands for [ValueError]. *)
Variable fromisoformat : string -> option string.
Variable strptime_ymd : string -> option string.

Definition parse_date (date_input : string) : M (option string) :=
  if PyStr.truthy date_input then
    match fromisoformat date_input with
    | Some iso => ret (Some iso)
    | None =>
        match strptime_ymd date_input with
        | Some iso => ret (Some iso)
        | None => print (Line invalid_date) ;; ret None
        end
    end
  else ret None.

(** The list is extended in place: the result is its new content. *)
Definition add_expense_interactive (expenses : list json)
    : M (list json) :=
  amount <- read_amount ;;
  c <- input ;;
  let category :=
    if PyStr.truthy (PyStr.strip c) then PyStr.strip c
    else "Uncategorized" in
  n <- input ;;
  let note := PyStr.strip n in
  d <- input ;;
  let date_input := PyStr.strip d in
  date_iso <- parse_date date_input ;;
  expense <- make_expense amount category note date_iso ;;
  let expenses' := (expenses ++ [expense])%list in
  save_expenses expenses' ;;
  print (Line expense_added) ;;
  ret expenses'.

End Interactive.

Definition rule : string := "----------------------------------------".

Definition print_expense (exp : json) : M unit :=
  id <- lift (py_item exp "id") ;;
  print (Field "ID: " id) ;;
  date <- lift (py_item exp "date") ;;
  print (Field "Date: " date) ;;
  category <- lift (py_item exp "category") ;;
  print (Field "Category: " category) ;;
  amount <- lift (py_item exp "amount") ;;
  print (Field "Amount: " amount) ;;
  note <- lift (py_get exp "note" JNull) ;;
  (if truthy_json note
   then n <- lift (py_item exp "note") ;; print (Field "Note: " n)
   else ret tt) ;;
  print (Line rule).

Definition view_all_expenses (expenses : list json) : M unit :=
  match expenses with
  | [] => print (Line "No expenses found.")
  | _ =>
      sorted_exp <- lift (sorted_by_date_desc expenses) ;;
      for_each print_expense sorted_exp
  end.

(** A Python number: the int [0] that [sum] starts from, or a float. *)
Inductive pynum : Type :=
| PInt (n : Z)
| PFloat (x : float).

(** [acc + x] for a float [x] *)
Definition add_float (acc : pynum) (x : float) : pynum :=
  match acc with
  | PInt n => PFloat (fadd (of_Z n) x)
  | PFloat a => PFloat (fadd a x)
  end.

(** [sum(float(e.get("amount", 0)) for e in expenses)], from the running
    total [acc]. *)
Fixpoint sum_amounts (acc : pynum) (expenses : list json) : result pynum :=
  match expenses with
  | [] => Ok acc
  | e :: rest =>
      v <~ py_get e "amount" (JInt 0) ;;
      x <~ py_float v ;;
      sum_amounts (add_float acc x) rest
  end.

Definition get_total_spending (expenses : list json) : result pynum :=
  sum_amounts (PInt 0) expenses.

(** The dict [summary]: category to running sum, in insertion order. *)
Definition summary : Type := list (string * float).

Fixpoint summary_get (k : string) (s : summary) (default : float) : float :=
  match s with
  | (k', v) :: r => if String.eqb k k' then v else summary_get k r default
  | [] => default
  end.

Fixpoint summary_set (k : string) (v : float) (s : summary) : summary :=
  match s with
  | (k', v') :: r =>
      if String.eqb k k' then (k', v) :: r else (k', v') :: summary_set k v r
  | [] => [(k, v)]
  end.

(** The category as a dict key: a list or a dict is unhashable; keys
    other than strings are not modelled. *)
Definition category_key (cat : json) : result string :=
  match cat with
  | JStr s => Ok s
  | JArr _ | JObj _ => Raise TypeError
  | JNull | JBool _ | JInt _ | JFloat _ => Raise Unmodelled
  end.

Fixpoint summary_loop (s : summary) (expenses : list json) : result summary :=
  match expenses with
  | [] => Ok s
  | e :: rest =>
      cat <~ py_get e "category" (JStr "Uncategorized") ;;
      k <~ category_key cat ;;
      a <~ py_get e "amount" (JFloat pos_zero) ;;
      x <~ py_float a ;;
      summary_loop (summary_set k (fadd (summary_get k s pos_zero) x) s) rest
  end.

Definition spending_by_category (expenses : list json) : result summary :=
  s <~ summary_loop [] expenses ;;
  Ok (map (fun kv => (fst kv, round2 (snd kv))) s).

Definition deleted_msg : string := "Expense deleted.".
Definition not_found_msg : string := "ID not found. No changes made.".

(** The list is rewritten in place: the result is its new content. *)
Definition delete_expense (expenses : list json) : M (list json) :=
  line <- input ;;
  let eid := PyStr.strip line in
  let before := List.length expenses in
  kept <- lift (filter_r (fun e => v <~ py_get e "id" JNull ;;
                                   Ok (ne_str v eid)) expenses) ;;
  (if (List.length kept <? before)%nat
   then save_expenses kept ;; print (Line deleted_msg)
   else print (Line not_found_msg)) ;;
  ret kept.

(** [keyword in e.get(field, "").lower()] *)
Definition field_has (keyword : string) (e : json) (field : string)
    : result bool :=
  v <~ py_get e field (JStr "") ;;
  s <~ py_lower v ;;
  Ok (PyStr.contains keyword s).

(** The condition of the comprehension: [or] stops at the first field
    that matches. *)
Definition matches (keyword : string) (e : json) : result bool :=
  c <~ field_has keyword e "category" ;;
  if c then Ok true
  else
    n <~ field_has keyword e "note" ;;
    if n then Ok true
    else field_has keyword e "date".

Definition no_match_msg : string := "No matching expenses found.".

Definition search_expenses (expenses : list json) : M unit :=
  line <- input ;;
  let keyword := PyStr.lower (PyStr.strip line) in
  results <- lift (filter_r (matches keyword) expenses) ;;
  match results with
  | [] => print (Line no_match_msg)
  | _ =>
      sorted_res <- lift (sorted_by_date_desc results) ;;
      for_each print_expense sorted_res
  end.

(** ** The totals and the menu *)

(** [round(total, 2)]: an int is returned as it is. *)
Definition round_total (t : pynum) : json :=
  match t with
  | PInt n => JInt n
  | PFloat x => JFloat (round2 x)
  end.

(** *** [sorted(by_cat.items(), key=lambda x: x[1], reverse=True)] *)

(** Where [x] goes in a list already in descending order of amount:
    before the entries with an equal or smaller amount. *)
Fixpoint insert_amount_desc (x : string * float) (l : summary) : summary :=
  match l with
  | [] => [x]
  | y :: r => if SFltb (snd x) (snd y) then y :: insert_amount_desc x r
              else x :: y :: r
  end.

(** Two amounts or more are compared with [<].  With a nan among them
    [<] is no order and the result depends on the sorting algorithm:
    that case is not modelled. *)
Definition sorted_by_amount_desc (s : summary) : result summary :=
  match s with
  | [] | [_] => Ok s
  | _ => if existsb (fun kv => is_nan (snd kv)) s then Raise Unmodelled
         else Ok (fold_right insert_amount_desc [] s)
  end.

Definition category_header : string :=
  String PyJson.newline "Spending by category:".

Definition no_category_data : string := "  No category data.".

(** [print(f"  {cat}: {amt}")] *)
Definition print_category (kv : string * float) : M unit :=
  print (Field ("  " ++ fst kv ++ ": ") (JFloat (snd kv))).

Definition view_totals (expenses : list json) : M unit :=
  total <- lift (get_total_spending expenses) ;;
  print (Field "Total spending: " (round_total total)) ;;
  by_cat <- lift (spending_by_category expenses) ;;
  print (Line category_header) ;;
  match by_cat with
  | [] => print (Line no_category_data)
  | _ =>
      sorted_cat <- lift (sorted_by_amount_desc by_cat) ;;
      for_each print_category sorted_cat
  end.

(** The functions the menu binds to its keys. *)
Inductive action : Type :=
| DoAdd
| DoViewAll
| DoTotals
| DoSearch
| DoDelete
| DoSave.

(** The dict [choices], in insertion order; [None] is the entry of
    "Exit". *)
Definition choices : list (string * (string * option action)) :=
  [("1", ("Add an expense", Some DoAdd));
   ("2", ("View all expenses", Some DoViewAll));
   ("3", ("View totals & category summary", Some DoTotals));
   ("4", ("Search expenses", Some DoSearch));
   ("5", ("Delete an expense (by ID)", Some DoDelete));
   ("6", ("Export expenses to JSON file (save)", Some DoSave));
   ("0", ("Exit", None))].

(** [choices.get(choice)] *)
Fixpoint choices_get (k : string)
    (l : list (string * (string * option action)))
    : option (string * option action) :=
  match l with
  | (k', v) :: r => if String.eqb k k' then Some v else choices_get k r
  | [] => None
  end.

(** [s * n] *)
Fixpoint times (s : string) (n : nat) : string :=
  match n with
  | O => EmptyString
  | S k => s ++ times s k
  end.

(** What one turn of the loop prints before it reads the choice. *)
Definition menu_lines : list out_item :=
  ([Line (String PyJson.newline "Personal Expense Tracker");
    Line (times "-" 25)]
   ++ map (fun c => Line (fst c ++ ". " ++ fst (snd c))) choices)%list.

Definition invalid_choice : string := "Invalid choice. Try again.".
Definition goodbye : string := "Goodbye!".

Section Menu.

Variable fromisoformat : string -> option string.
Variable strptime_ymd : string -> option string.

(** Calling the function of a menu entry on the list the menu holds; the
    result is the content of the list afterwards. *)
Definition run_action (a : action) (expenses : list json) : M (list json) :=
  match a with
  | DoAdd => add_expense_interactive fromisoformat strptime_ymd expenses
  | DoViewAll => view_all_expenses expenses ;; ret expenses
  | DoTotals => view_totals expenses ;; ret expenses
  | DoSearch => search_expenses expenses ;; ret expenses
  | DoDelete => delete_expense expenses
  | DoSave => save_expenses expenses ;; ret expenses
  end.

(** The [while True] loop of [menu], for [fuel] turns at most; [None]
    when the turns run out.  An exception of an action leaves the
    loop. *)
Fixpoint menu_loop (fuel : nat) (expenses : list json) (w : world)
    : option (result unit * world) :=
  match fuel with
  | O => None
  | S fuel' =>
      match (for_each print menu_lines ;; input) w with
      | (Raise e, w1) => Some (Raise e, w1)
      | (Ok line, w1) =>
          let choice := PyStr.strip line in
          match choices_get choice choices with
          | None =>
              menu_loop fuel' expenses (add_out w1 (Line invalid_choice))
          | Some (_, func) =>
              if String.eqb choice "0"
              then Some (print (Line goodbye) w1)
              else
                match func with
                | Some a =>
                    match run_action a expenses w1 with
                    | (Ok expenses', w2) => menu_loop fuel' expenses' w2
                    | (Raise e, w2) => Some (Raise e, w2)
                    end
                | None => menu_loop fuel' expenses w1
                end
          end
      end
  end.

(** Every turn takes a line of the input, so that one turn more than
    there are lines is enough. *)
Definition menu (w : world) : option (result unit * world) :=
  match load_expenses w with
  | (Ok expenses, w0) => menu_loop (S (List.length (stdin w0))) expenses w0
  | (Raise e, w0) => Some (Raise e, w0)
  end.

End Menu.

(** * Notions used in the statements *)

(** An element of the list is a record when it is a dict. *)
Definition is_record (e : json) : bool :=
  match e with JObj _ => true | _ => false end.

(** The value under [k], [None] when the key is missing. *)
Definition field (k : string) (e : json) : option json :=
  match e with
  | JObj d => dict_get k d
  | _ => None
  end.

(** The record bears the id [eid]. *)
Definition bears_id (eid : string) (e : json) : bool :=
  match field "id" e with
  | Some (JStr t) => String.eqb t eid
  | _ => false
  end.

Definition records (es : list json) : Prop :=
  Forall (fun e => is_record e = true) es.

(** Printing several items in turn. *)
Definition add_outs (w : world) (items : list out_item) : world :=
  fold_left add_out items w.

(** The world after [save_expenses] has written the text [t], or has
    failed to: the file holds [t]; or it is cut off and the error is
    printed; or it could not be opened, and the error is printed. *)
Definition saved (t : string) (w : world) : world :=
  if writable w then
    if fits t w then set_file w (Text t)
    else add_out (set_file w (cut_off t w)) (Line save_error)
  else add_out w (Line save_error).

(** The file can be opened and takes the whole of [t]. *)
Definition takes (w : world) (t : string) : bool :=
  writable w && fits t w.

(** The record [make_expense] builds. *)
Definition new_record (id : string) (amount : float)
    (category note date : string) : json :=
  JObj [("id", JStr id);
        ("amount", JFloat (round2 amount));
        ("category", JStr (PyStr.strip category));
        ("note", JStr (PyStr.strip note));
        ("date", JStr date)].

(** The line is not accepted as an amount. *)
Definition rejected (l : string) : Prop :=
  float_of_string (PyStr.strip l) = None.

(** The category [add_expense_interactive] passes on for the line [c]. *)
Definition category_entered (c : string) : string :=
  if PyStr.truthy (PyStr.strip c) then PyStr.strip c else "Uncategorized".

(** [p] is [100 * m * 2 ^ e] rounded to an integer: no integer is
    nearer, and [p] is even when two are as near. *)
Definition hundredths (m : positive) (e : Z) (p : Z) : Prop :=
  let num := 100 * Zpos m * 2 ^ Z.max e 0 in
  let den := 2 ^ Z.max (- e) 0 in
  2 * Z.abs (num - p * den) <= den /\
  (2 * Z.abs (num - p * den) = den -> Z.even p = true).

(** The float is finite and not a zero. *)
Definition is_finite_nonzero (x : float) : bool :=
  match x with S754_finite _ _ _ => true | _ => false end.

(** A JSON number that [float] converts: a float, or an int within the
    range of the doubles. *)
Definition numeric (v : json) : bool :=
  match v with
  | JFloat _ => true
  | JInt n => negb (is_infinite (of_Z n))
  | _ => false
  end.

(** The amount key is missing or holds a number. *)
Definition amount_typed (e : json) : bool :=
  is_record e &&
  match field "amount" e with
  | Some v => numeric v
  | None => true
  end.

(** The category key is missing or holds a string. *)
Definition category_typed (e : json) : bool :=
  is_record e &&
  match field "category" e with
  | Some (JStr _) | None => true
  | Some _ => false
  end.

Definition typed_record (e : json) : bool :=
  amount_typed e && category_typed e.

(** The amount of a record as a float, zero when the key is missing. *)
Definition amount_of (e : json) : float :=
  match field "amount" e with
  | Some (JFloat x) => x
  | Some (JInt n) => of_Z n
  | _ => pos_zero
  end.

(** The category of a record, "Uncategorized" when the key is missing. *)
Definition category_of (e : json) : string :=
  match field "category" e with
  | Some (JStr s) => s
  | _ => "Uncategorized"
  end.

(** Floats added from left to right, starting from [a]. *)
Definition float_sum (a : float) (xs : list float) : float :=
  fold_left fadd xs a.

(** The sum of the amount fields across all records: the int 0 when
    there is no record, the floats added in list order otherwise. *)
Definition sum_of_amounts (es : list json) : pynum :=
  match es with
  | [] => PInt 0
  | _ => PFloat (float_sum pos_zero (map amount_of es))
  end.

(** The records of category [c], in list order. *)
Definition in_category (c : string) (es : list json) : list json :=
  filter (fun e => String.eqb (category_of e) c) es.

(** The sum of the amounts of the records of category [c]. *)
Definition category_sum (c : string) (es : list json) : float :=
  float_sum pos_zero (map amount_of (in_category c es)).

(** [sum(by_cat.values())] *)
Definition sum_values (s : summary) : pynum :=
  fold_left add_float (map snd s) (PInt 0).

(** One step of the loop of [spending_by_category]. *)
Definition tally_step (s : summary) (e : json) : summary :=
  summary_set (category_of e)
    (fadd (summary_get (category_of e) s pos_zero) (amount_of e)) s.

(** The record with the defaults of the aggregation written in: the
    amount 0 and the category "Uncategorized" where the key is missing. *)
Definition with_defaults (e : json) : json :=
  match e with
  | JObj d =>
      JObj (d ++ (match dict_get "amount" d with
                  | None => [("amount", JInt 0)]
                  | Some _ => []
                  end)
              ++ (match dict_get "category" d with
                  | None => [("category", JStr "Uncategorized")]
                  | Some _ => []
                  end))%list
  | _ => e
  end.

(** The string under [k], empty when the key is missing. *)
Definition str_field (k : string) (e : json) : string :=
  match field k e with
  | Some (JStr s) => s
  | _ => EmptyString
  end.

Definition date_of (e : json) : string := str_field "date" e.

(** The lowered keyword occurs in the category, the note or the date,
    whatever the case of their letters. *)
Definition hit (keyword : string) (e : json) : bool :=
  PyStr.contains keyword (PyStr.lower (str_field "category" e)) ||
  PyStr.contains keyword (PyStr.lower (str_field "note" e)) ||
  PyStr.contains keyword (PyStr.lower (str_field "date" e)).






Definition is_str (v : option json) : bool :=
  match v with Some (JStr _) => true | _ => false end.

Definition present (v : option json) : bool :=
  match v with Some _ => true | None => false end.

(** A record as the program writes it: the id, the amount, the category
    and the date are there, the category and the date are strings, and
    the note is a string when it is there. *)
Definition complete_record (e : json) : bool :=
  is_record e &&
  present (field "id" e) && present (field "amount" e) &&
  is_str (field "category" e) && is_str (field "date" e) &&
  (is_str (field "note" e) || negb (present (field "note" e))).

Definition or_null (v : option json) : json :=
  match v with Some x => x | None => JNull end.

(** What [print_expense] prints for a complete record. *)
Definition expense_lines (e : json) : list out_item :=
  ([Field "ID: " (or_null (field "id" e));
    Field "Date: " (or_null (field "date" e));
    Field "Category: " (or_null (field "category" e));
    Field "Amount: " (or_null (field "amount" e))]
   ++ (if truthy_json (or_null (field "note" e))
       then [Field "Note: " (or_null (field "note" e))] else [])
   ++ [Line rule])%list.

(** [a] is not dated before [b]. *)
Definition date_ge (a b : json) : Prop :=
  PyStr.ltb (date_of a) (date_of b) = false.

(** The records by date, latest first, equal dates in list order. *)
Definition by_date_desc (l : list json) : list json :=
  map snd (sort_desc (combine (map date_of l) l)).

(** The order [sort_desc] puts keyed entries in. *)
Definition key_ge (a b : string * json) : Prop :=
  PyStr.ltb (fst a) (fst b) = false.

(** ** Notions for the text round trip *)

(** The items of a list after the first, as [encode] writes them. *)
Definition encode_items (level : nat) : list json -> string :=
  fix rest (l : list json) : string :=
    match l with
    | [] => EmptyString
    | y :: l' =>
        "," ++ PyJson.newline_indent level ++ PyJson.encode level y ++ rest l'
    end.

(** The fields of a dict after the first, as [encode] writes them. *)
Definition encode_fields (level : nat) : dict -> string :=
  fix rest (l : list (string * json)) : string :=
    match l with
    | [] => EmptyString
    | (k', y) :: l' =>
        "," ++ PyJson.newline_indent level ++ PyJson.encode_string k' ++ ": "
        ++ PyJson.encode level y ++ rest l'
    end.

(** A character that cannot continue a number. *)
Definition number_stop (c : ascii) : bool :=
  negb (PyStr.is_digit c || Ascii.eqb c "." || Ascii.eqb c "e"
        || Ascii.eqb c "E" || Ascii.eqb c "+" || Ascii.eqb c "-").

(** The text that follows a value: nothing, or something that starts
    with a character that cannot continue a number. *)
Definition delimited (rest : string) : Prop :=
  match rest with
  | EmptyString => True
  | String c _ => number_stop c = true
  end.

(** The text written for the number [v] reads back as [v]. *)
Definition number_text_ok (v : json) : Prop :=
  PyJson.match_number (PyJson.encode 0 v) = Some (v, EmptyString).

(** *** The parts of a number written as text *)

Fixpoint all_digits (s : string) : bool :=
  match s with
  | String c r => PyStr.is_digit c && all_digits r
  | EmptyString => true
  end.

(** The number that the digits [s] spell after those of [acc]. *)
Fixpoint digits_value (acc : Z) (s : string) : Z :=
  match s with
  | String c r => digits_value (10 * acc + PyStr.digit_val c) r
  | EmptyString => acc
  end.

(** The text does not go on with a digit. *)
Definition no_digit_head (s : string) : bool :=
  match s with
  | String c _ => negb (PyStr.is_digit c)
  | EmptyString => true
  end.

(** No character of the text is white space for [float], or an
    underscore. *)
Fixpoint plain (s : string) : bool :=
  match s with
  | String c r =>
      negb (FloatParse.is_c_space c) && negb (FloatParse.is_underscore c)
      && plain r
  | EmptyString => true
  end.

(** The fraction [fr] after its point, and the exponent [ex], a sign and
    digits, after its letter. *)
Definition frac_text (fr : option string) : string :=
  match fr with
  | Some d => String "." d
  | None => EmptyString
  end.

Definition exp_text (ex : option (bool * string)) : string :=
  match ex with
  | Some (neg, xd) => String "e" (String (if neg then "-" else "+") xd)
  | None => EmptyString
  end.

Definition number_text (ip : string) (fr : option string)
    (ex : option (bool * string)) : string :=
  ip ++ frac_text fr ++ exp_text ex.

Definition frac_digits (fr : option string) : string :=
  match fr with Some d => d | None => EmptyString end.

Definition exp_value (ex : option (bool * string)) : Z :=
  match ex with
  | Some (neg, xd) => if neg then - digits_value 0 xd else digits_value 0 xd
  | None => 0
  end.

(** The parts are those of a float in [NUMBER_RE]: an integer part that
    is [0] or does not start with [0], digits after a point, digits in
    an exponent, and one of the two at least. *)
Definition well_shaped (ip : string) (fr : option string)
    (ex : option (bool * string)) : Prop :=
  all_digits ip = true /\
  (exists c t, ip = String c t /\
               (Ascii.eqb c "0" = false \/ t = EmptyString)) /\
  match fr with
  | Some d => all_digits d = true /\ d <> EmptyString
  | None => True
  end /\
  match ex with
  | Some (_, xd) => all_digits xd = true /\ xd <> EmptyString
  | None => True
  end /\
  (fr <> None \/ ex <> None).

(** The decimal that the parts spell: what [float] hands to
    [strtod]. *)
Definition number_value (neg : bool) (ip : string) (fr : option string)
    (ex : option (bool * string)) : float :=
  of_decimal neg (digits_value 0 (ip ++ frac_digits fr))
    (exp_value ex - Z.of_nat (String.length (frac_digits fr))).

(** The float is a double: nan, an infinity, a zero, or a mantissa of
    53 bits at most with the exponent that goes with it. *)
Definition is_double (x : float) : bool := valid_binary prec emax x.

(** A value [json.dump] writes and [json.load] reads back: its floats
    are doubles, its strings can be encoded, and no dict in it has a key
    twice. *)
Fixpoint storable (v : json) : Prop :=
  match v with
  | JNull | JBool _ | JInt _ => True
  | JStr s => PyStr.encodable s = true
  | JFloat x => is_double x = true
  | JArr l =>
      (fix all (l : list json) : Prop :=
         match l with
         | [] => True
         | x :: r => storable x /\ all r
         end) l
  | JObj d =>
      NoDup (map fst d) /\
      (fix all (d : list (string * json)) : Prop :=
         match d with
         | [] => True
         | (k, x) :: r => PyStr.encodable k = true /\ storable x /\ all r
         end) d
  end.

(** The text is empty or starts with the first byte of a character. *)
Definition head_lead (p : string) : Prop :=
  match p with
  | String x _ => PyStr.is_continuation x = false
  | EmptyString => True
  end.

(** The fuel [parse_value] needs to read a value back. *)
Fixpoint size (v : json) : nat :=
  match v with
  | JArr l =>
      S ((fix sum (l : list json) : nat :=
            match l with
            | [] => O
            | x :: r => S (size x + sum r)
            end) l)
  | JObj d =>
      S ((fix sum (d : list (string * json)) : nat :=
            match d with
            | [] => O
            | (_, x) :: r => S (size x + sum r)
            end) d)
  | _ => 1%nat
  end.

Definition sizes : list json -> nat :=
  fix sum (l : list json) : nat :=
    match l with
    | [] => O
    | x :: r => S (size x + sum r)
    end.

Definition field_sizes : dict -> nat :=
  fix sum (d : list (string * json)) : nat :=
    match d with
    | [] => O
    | (_, x) :: r => S (size x + sum r)
    end.

(** Every value of the list, or of the dict, is storable. *)
Definition all_storable : list json -> Prop :=
  fix all (l : list json) : Prop :=
    match l with
    | [] => True
    | x :: r => storable x /\ all r
    end.

Definition fields_storable : dict -> Prop :=
  fix all (d : list (string * json)) : Prop :=
    match d with
    | [] => True
    | (k, x) :: r => PyStr.encodable k = true /\ storable x /\ all r
    end.

(** The deepest nesting among the values of a list, and whether their
    ints are within the limit. *)
Definition deepest : list json -> N :=
  fix deepest (l : list json) : N :=
    match l with
    | [] => 0%N
    | x :: r => N.max (PyJson.depth x) (deepest r)
    end.

Definition all_ints_within : list json -> bool :=
  fix all (l : list json) : bool :=
    match l with
    | [] => true
    | x :: r => PyJson.ints_within x && all r
    end.

(** What the round trip says of one value: written at any level and
    followed by a delimited text, it is read back, the text left. *)
Definition reads_back_from_text (v : json) : Prop :=
  forall level rest f,
    storable v -> (size v <= f)%nat -> delimited rest ->
    PyJson.parse_value f (PyJson.encode level v ++ rest) = Some (v, rest).

(** A written value starts with a character that is not white space and
    does not close a list. *)
Definition opens_value (t : string) : Prop :=
  exists c t', t = String c t' /\
               PyJson.is_ws c = false /\ Ascii.eqb c "]" = false.

(** ** Sample data for the concrete runs *)

Definition sample_uuid (n : nat) : string :=
  "9f1c2e9a-0000-4000-8000-00000000000" ++ PyJson.repr_int (Z.of_nat n).

Definition sample_clock (n : nat) : string := "2024-03-01T12:00:00".

(** A world with a writable file, nothing printed yet and [lines] to be
    typed. *)
Definition sample_world (f : file_state) (lines : list string) : world :=
  mkWorld f true None lines [] sample_uuid 0 sample_clock 0.

(** The concrete runs enter no date, so that no date is ever parsed. *)
Definition no_date_parser (s : string) : option string := None.

Definition groceries : json :=
  new_record "a1" (of_decimal false 10005 (-3)) "Food" "weekly shop"
             "2024-01-01T00:00:00".

Definition lunch : json :=
  new_record "b2" (of_decimal false 5 0) "Food" "" "2024-01-02T00:00:00".

Definition train : json :=
  new_record "c3" (of_decimal false 425 (-1)) "Travel" "to the airport"
             "2024-01-02T00:00:00".

Definition sample_ledger : list json := [groceries; lunch; train].

(** Two records written under one id. *)
Definition doubled_ledger : list json := [groceries; lunch; train; lunch].

(** Records read from a file in which keys are missing. *)
Definition sparse_ledger : list json :=
  [JObj [("id", JStr "x"); ("amount", JFloat (of_decimal false 25 (-1)))];
   JObj [("id", JStr "y"); ("category", JStr "Food")];
   JObj [("amount", JInt 4); ("category", JStr "Food")]].

(** Ten and twenty cents under one category. *)
Definition dime : json :=
  new_record "d4" (of_decimal false 1 (-1)) "Snacks" "" "2024-02-01T00:00:00".

Definition two_dimes : json :=
  new_record "e5" (of_decimal false 2 (-1)) "Snacks" "" "2024-02-02T00:00:00".

Definition snack_ledger : list json := [dime; two_dimes].

(** ** Notions for the further properties *)

(** Every run of [m] relates the world before to the world after,
    whether it returns or raises. *)
Definition keeps {A : Type} (R : world -> world -> Prop) (m : M A) : Prop :=
  forall w, R w (snd (m w)).

(** What no operation undoes: the input is only consumed, the output
    only extended, and the file keeps being writable or not. *)
Definition later (w w' : world) : Prop :=
  writable w' = writable w /\
  room w' = room w /\
  uuids w' = uuids w /\
  clock w' = clock w /\
  (exists read, stdin w = (read ++ stdin w')%list) /\
  (exists printed, stdout w' = (stdout w ++ printed)%list).

(** The file is as it was, and neither an id nor the time was drawn. *)
Definition same_store (w w' : world) : Prop :=
  file w' = file w /\
  uuid_calls w' = uuid_calls w /\
  clock_calls w' = clock_calls w.

Definition only_reads (w w' : world) : Prop :=
  later w w' /\ same_store w w'.

(** The text neither starts nor ends with a white-space character. *)
Definition starts_clean (s : string) : Prop := PyStr.space_width s = O.

Definition ends_clean (s : string) : Prop :=
  PyStr.space_width_back (PyStr.rev s) = O.

Definition trimmed (s : string) : Prop :=
  starts_clean s /\ ends_clean s.

(** [float(e.get("amount", 0))] *)
Definition amount_read (e : json) : result float :=
  v <~ py_get e "amount" (JInt 0) ;; py_float v.

(** The categories in the order in which they are first met, those of
    [seen] left out. *)
Fixpoint first_seen (seen : list string) (cs : list string) : list string :=
  match cs with
  | [] => []
  | c :: r =>
      if existsb (String.eqb c) seen then first_seen seen r
      else c :: first_seen (seen ++ [c])%list r
  end.

(** [a] is not a smaller amount than [b]. *)
Definition amount_ge (a b : string * float) : Prop :=
  SFltb (snd a) (snd b) = false.

Definition no_nan (s : summary) : Prop :=
  Forall (fun kv => is_nan (snd kv) = false) s.

(** The categories by amount, largest first, equal amounts in the order
    of the dict. *)
Definition by_amount_desc (s : summary) : summary :=
  fold_right insert_amount_desc [] s.

(** What [view_totals] prints for one category. *)
Definition category_line (kv : string * float) : out_item :=
  Field ("  " ++ fst kv ++ ": ") (JFloat (snd kv)).

(** The four keys [print_expense] indexes are there. *)
Definition printable (e : json) : bool :=
  is_record e &&
  present (field "id" e) && present (field "date" e) &&
  present (field "category" e) && present (field "amount" e).

(** What [print_expense] has printed when it fails on a missing key. *)
Definition lines_before_missing (e : json) : list out_item :=
  match field "id" e with
  | None => []
  | Some i =>
      Field "ID: " i ::
      match field "date" e with
      | None => []
      | Some d =>
          Field "Date: " d ::
          match field "category" e with
          | None => []
          | Some c => [Field "Category: " c]
          end
      end
  end.

(** A record as the program makes it: complete, with a number for its
    amount. *)
Definition well_formed (e : json) : bool :=
  complete_record e && typed_record e.

(** The line chooses no entry of the menu. *)
Definition no_choice (line : string) : Prop :=
  choices_get (PyStr.strip line) choices = None.

(** A turn of the menu on a line that chooses nothing. *)
Definition invalid_turn : list out_item :=
  (menu_lines ++ [Line invalid_choice])%list.

(** ** Further sample data *)

(** The no-break space U+00A0 and the Arabic-Indic digits one and two,
    U+0661 and U+0662, in UTF-8. *)
Definition nbsp : string :=
  String (ascii_of_nat 194) (String (ascii_of_nat 160) EmptyString).

Definition arabic_twelve : string :=
  String (ascii_of_nat 217) (String (ascii_of_nat 161)
    (String (ascii_of_nat 217) (String (ascii_of_nat 162) EmptyString))).

(** A world whose file can be opened and takes [n] bytes. *)
Definition small_world (n : nat) (lines : list string) : world :=
  mkWorld Absent true (Some n) lines [] sample_uuid 0 sample_clock 0.

(** A world whose file cannot be written. *)
Definition read_only_world (lines : list string) : world :=
  mkWorld Absent false None lines [] sample_uuid 0 sample_clock 0.

(** Records as a file edited by hand may hold them: an id with a space
    after it, and an id that is a number. *)
Definition padded_id : json :=
  JObj [("id", JStr "b2 "); ("amount", JInt 3); ("category", JStr "Food");
        ("date", JStr "2024-01-05")].

Definition numbered_id : json :=
  JObj [("id", JInt 7); ("amount", JInt 1); ("category", JStr "Food");
        ("date", JStr "2024-01-06")].

Definition edited_ledger : list json := [groceries; padded_id; numbered_id].

(** A list with an element that is not a dict. *)
Definition mixed_ledger : list json := [groceries; JInt 5].

(** A record made from the line "nan", and one whose amount is null. *)
Definition amount_nan : json :=
  new_record "n1" S754_nan "Food" "" "2024-01-03T00:00:00".

Definition nan_ledger : list json := [groceries; amount_nan; train].

Definition amount_null : json :=
  JObj [("id", JStr "z9"); ("amount", JNull)].

(** A record without a category. *)
Definition no_category : json :=
  JObj [("id", JStr "q1"); ("date", JStr "2024-01-01"); ("amount", JInt 2)].

(** A date parser that accepts one date. *)
Definition one_date_parser (s : string) : option string :=
  if String.eqb s "2024-05-06" then Some "2024-05-06T00:00:00" else None.

(** * Properties *)

(** ** Records and their fields *)

Lemma py_get_record e k default :
  is_record e = true ->
  py_get e k default =
  Ok (match field k e with Some v => v | None => default end).
Proof. destruct e; simpl; intros H; try discriminate; reflexivity. Qed.

Lemma filter_r_pure {A : Type} (p : A -> result bool) (q : A -> bool) l :
  (forall x, In x l -> p x = Ok (q x)) ->
  filter_r p l = Ok (filter q l).
Proof.
  induction l as [|x r IH]; intros H; simpl; [reflexivity|].
  rewrite (H x (or_introl eq_refl)). simpl.
  rewrite IH by (intros y Hy; apply H; right; exact Hy).
  simpl. destruct (q x); reflexivity.
Qed.

Lemma map_r_pure {A B : Type} (f : A -> result B) (g : A -> B) l :
  (forall x, In x l -> f x = Ok (g x)) ->
  map_r f l = Ok (map g l).
Proof.
  induction l as [|x r IH]; intros H; simpl; [reflexivity|].
  rewrite (H x (or_introl eq_refl)). simpl.
  rewrite IH by (intros y Hy; apply H; right; exact Hy).
  reflexivity.
Qed.

(** ** Deleting by id *)

(** The condition of the comprehension in [delete_expense], on a
    record. *)
Lemma keep_condition eid e :
  is_record e = true ->
  (v <~ py_get e "id" JNull ;; Ok (ne_str v eid)) = Ok (negb (bears_id eid e)).
Proof.
  intros H. rewrite (py_get_record _ _ _ H). unfold bears_id. simpl.
  destruct (field "id" e) as [[]|]; simpl; try reflexivity.
Qed.

Lemma kept_records eid es :
  records es ->
  filter_r (fun e => v <~ py_get e "id" JNull ;; Ok (ne_str v eid)) es
  = Ok (filter (fun e => negb (bears_id eid e)) es).
Proof.
  intros H. apply filter_r_pure. intros x Hx. apply keep_condition.
  exact (proj1 (Forall_forall _ _) H x Hx).
Qed.

(** The world after [save_expenses]. *)
Lemma save_expenses_run es w :
  save_expenses es w = (Ok tt, saved (PyJson.dumps (JArr es)) w).
Proof.
  unfold save_expenses, try_except, write_text, saved.
  destruct (writable w); [|reflexivity].
  destruct (fits _ w); reflexivity.
Qed.

(** When the file takes the text, it holds it afterwards and nothing is
    printed. *)
Lemma saved_takes t w :
  takes w t = true -> saved t w = set_file w (Text t).
Proof.
  unfold takes, saved. intros H. apply andb_true_iff in H.
  destruct H as [-> ->]. reflexivity.
Qed.

Lemma filter_none_length {A : Type} (f : A -> bool) l :
  (List.length (filter f l) <? List.length l)%nat = false ->
  filter f l = l.
Proof.
  induction l as [|x r IH]; simpl; intros H; [reflexivity|].
  pose proof (filter_length_le f r) as Hle.
  destruct (f x); simpl in H.
  - f_equal. apply IH. exact H.
  - apply Nat.ltb_ge in H. lia.
Qed.

(** What [delete_expense] does on a list of records, whatever the ids. *)
Lemma delete_expense_run es line rest w :
  records es ->
  stdin w = line :: rest ->
  let eid := PyStr.strip line in
  let kept := filter (fun e => negb (bears_id eid e)) es in
  let w1 := set_stdin w rest in
  delete_expense es w =
  (Ok kept,
   if (List.length kept <? List.length es)%nat
   then add_out (snd (save_expenses kept w1)) (Line deleted_msg)
   else add_out w1 (Line not_found_msg)).
Proof.
  intros Hrec Hin eid kept w1.
  unfold delete_expense, bind at 1, input. rewrite Hin.
  fold w1. unfold bind at 1, lift. fold eid.
  rewrite (kept_records eid es Hrec). fold kept.
  unfold bind at 1.
  destruct (List.length kept <? List.length es)%nat.
  - unfold bind at 1. rewrite save_expenses_run. reflexivity.
  - reflexivity.
Qed.

Lemma filter_keeps_all {A : Type} (f : A -> bool) l :
  (forall x, In x l -> f x = true) -> filter f l = l.
Proof.
  induction l as [|x r IH]; simpl; intros H; [reflexivity|].
  rewrite (H x (or_introl eq_refl)). f_equal.
  apply IH. intros y Hy. apply H. right. exact Hy.
Qed.

Lemma bears_id_field eid e :
  bears_id eid e = true <-> field "id" e = Some (JStr eid).
Proof.
  unfold bears_id. destruct (field "id" e) as [[]|]; split; intros H;
    try discriminate.
  - apply String.eqb_eq in H. subst. reflexivity.
  - injection H as ->. apply String.eqb_refl.
Qed.

(** With unique ids, the record bearing [eid] is the only one the
    comprehension drops. *)
Lemma unique_id_split eid es e :
  NoDup (map (field "id") es) ->
  In e es -> bears_id eid e = true ->
  exists l1 l2,
    es = (l1 ++ e :: l2)%list /\
    filter (fun x => negb (bears_id eid x)) es = (l1 ++ l2)%list /\
    (forall x, In x (l1 ++ l2)%list -> bears_id eid x = false).
Proof.
  intros Hnd Hin Hb.
  destruct (in_split _ _ Hin) as (l1 & l2 & ->).
  exists l1, l2.
  assert (Hothers : forall x, In x (l1 ++ l2)%list -> bears_id eid x = false).
  { intros x Hx. destruct (bears_id eid x) eqn:Hbx; [exfalso|reflexivity].
    apply bears_id_field in Hb, Hbx.
    rewrite map_app in Hnd. simpl in Hnd.
    apply NoDup_remove_2 in Hnd. apply Hnd.
    rewrite Hb, <- Hbx, <- map_app. apply in_map. exact Hx. }
  split; [reflexivity|]. split; [|exact Hothers].
  rewrite filter_app. simpl. rewrite Hb. simpl.
  rewrite !filter_keeps_all; [reflexivity| |].
  - intros x Hx. rewrite Hothers; [reflexivity|]. apply in_or_app. right. exact Hx.
  - intros x Hx. rewrite Hothers; [reflexivity|]. apply in_or_app. left. exact Hx.
Qed.

(** C1.  On a list of records, [delete_expense] with an id borne by a
    record, ids being unique, leaves the list without exactly that
    record, one element shorter, saves it and prints "Expense deleted."
    (the file holds the shorter list when it takes its text); with an id
    no record bears, the list is returned unchanged, the file is not
    touched and "ID not found. No changes made." is printed.  The id
    looked up is the line read, stripped of the white space of
    [str.strip] around it. *)
Theorem delete_by_id es line rest w :
  records es ->
  stdin w = line :: rest ->
  let eid := PyStr.strip line in
  let w1 := set_stdin w rest in
  (NoDup (map (field "id") es) ->
   forall e, In e es -> bears_id eid e = true ->
   exists l1 l2,
     es = (l1 ++ e :: l2)%list /\
     (forall x, In x (l1 ++ l2)%list -> bears_id eid x = false) /\
     List.length (l1 ++ l2)%list + 1 = List.length es /\
     delete_expense es w =
       (Ok (l1 ++ l2)%list,
        add_out (snd (save_expenses (l1 ++ l2)%list w1)) (Line deleted_msg)) /\
     (takes w (PyJson.dumps (JArr (l1 ++ l2)%list)) = true ->
      file (snd (delete_expense es w))
      = Text (PyJson.dumps (JArr (l1 ++ l2)%list))))%nat
  /\
  ((forall e, In e es -> bears_id eid e = false) ->
   delete_expense es w = (Ok es, add_out w1 (Line not_found_msg)) /\
   file (snd (delete_expense es w)) = file w).
Proof.
  intros Hrec Hin eid w1. split.
  - intros Hnd e He Hb.
    destruct (unique_id_split eid es e Hnd He Hb) as (l1 & l2 & Hes & Hf & Ho).
    exists l1, l2.
    assert (Hlen : (List.length (l1 ++ l2)%list + 1 = List.length es)%nat).
    { rewrite Hes, !length_app. simpl. lia. }
    assert (Hrun : delete_expense es w =
       (Ok (l1 ++ l2)%list,
        add_out (snd (save_expenses (l1 ++ l2)%list w1)) (Line deleted_msg))).
    { rewrite (delete_expense_run es line rest w Hrec Hin).
      fold eid. rewrite Hf. fold w1.
      replace (List.length (l1 ++ l2)%list <? List.length es)%nat with true
        by (symmetry; apply Nat.ltb_lt; lia).
      reflexivity. }
    repeat split; try assumption.
    intros Hw. rewrite Hrun, save_expenses_run.
    rewrite (saved_takes _ w1 Hw). reflexivity.
  - intros Hnone.
    assert (Hf : filter (fun x => negb (bears_id eid x)) es = es).
    { apply filter_keeps_all. intros x Hx. rewrite (Hnone x Hx). reflexivity. }
    assert (Hrun : delete_expense es w = (Ok es, add_out w1 (Line not_found_msg))).
    { rewrite (delete_expense_run es line rest w Hrec Hin).
      fold eid. rewrite Hf. rewrite Nat.ltb_irrefl. reflexivity. }
    split; [exact Hrun|]. rewrite Hrun. reflexivity.
Qed.

(** C9.  [delete_expense] drops every record bearing the id, not the
    first only: when two or more records share it, all of them go, the
    list is shorter by their number, and the shortened list is saved. *)
Theorem delete_removes_all_duplicates es line rest w :
  records es ->
  stdin w = line :: rest ->
  let eid := PyStr.strip line in
  let dups := List.length (filter (bears_id eid) es) in
  (2 <= dups)%nat ->
  exists kept,
    delete_expense es w =
      (Ok kept,
       add_out (snd (save_expenses kept (set_stdin w rest))) (Line deleted_msg)) /\
    kept = filter (fun e => negb (bears_id eid e)) es /\
    (forall e, In e kept <-> In e es /\ bears_id eid e = false) /\
    (List.length kept + dups = List.length es)%nat.
Proof.
  intros Hrec Hin eid dups Hd.
  exists (filter (fun e => negb (bears_id eid e)) es).
  assert (Hlen : (List.length (filter (fun e => negb (bears_id eid e)) es)
                  + dups = List.length es)%nat).
  { unfold dups. rewrite Nat.add_comm. apply filter_length. }
  split; [|split; [reflexivity|split; [|exact Hlen]]].
  - rewrite (delete_expense_run es line rest w Hrec Hin). fold eid.
    replace (List.length (filter (fun e => negb (bears_id eid e)) es)
             <? List.length es)%nat with true
      by (symmetry; apply Nat.ltb_lt; lia).
    reflexivity.
  - intros e. rewrite filter_In, negb_true_iff. reflexivity.
Qed.

(** ** Loading *)

(** What [load_expenses] makes of a file that holds text. *)
Lemma load_expenses_text w t :
  file w = Text t ->
  load_expenses w =
  match PyJson.loads t with
  | None =>
      if PyJson.text_within_limits t
      then (Ok [], add_out w (Line load_warning))
      else (Raise Unmodelled, w)
  | Some v =>
      if PyJson.within_limits v
      then match v with
           | JArr l => (Ok l, w)
           | _ => (Ok [], w)
           end
      else (Raise Unmodelled, w)
  end.
Proof.
  intros Hf.
  unfold load_expenses, try_except, bind, path_exists, read_text, json_load.
  cbv beta. rewrite Hf. cbv iota beta. cbn [negb]. rewrite ?Hf.
  destruct (PyJson.loads t) as [v|].
  - destruct (PyJson.within_limits v); [destruct v|]; reflexivity.
  - destruct (PyJson.text_within_limits t); reflexivity.
Qed.


(** ** Adding an expense *)

Lemma amount_loop_run pre : forall l post x w,
  Forall rejected pre ->
  float_of_string (PyStr.strip l) = Some x ->
  amount_loop (pre ++ l :: post)%list w =
  (Ok x, set_stdin (add_outs w (map (fun _ => Line invalid_amount) pre)) post).
Proof.
  induction pre as [|p pre IH]; intros l post x w Hrej Hacc; simpl.
  - rewrite Hacc. reflexivity.
  - inversion Hrej as [|? ? Hp Hpre]; subst.
    unfold rejected in Hp. rewrite Hp.
    rewrite (IH l post x _ Hpre Hacc). reflexivity.
Qed.

Lemma stdin_add_outs items : forall w, stdin (add_outs w items) = stdin w.
Proof.
  induction items as [|o r IH]; intros w; simpl; [reflexivity|].
  rewrite IH. reflexivity.
Qed.

Section InteractiveFacts.

Variable fromisoformat : string -> option string.
Variable strptime_ymd : string -> option string.

Lemma parse_date_total s w :
  exists r w',
    parse_date fromisoformat strptime_ymd s w = (Ok r, w') /\
    stdin w' = stdin w.
Proof.
  unfold parse_date.
  destruct (PyStr.truthy s); [|exists None, w; split; reflexivity].
  destruct (fromisoformat s) as [iso|]; [exists (Some iso), w; split; reflexivity|].
  destruct (strptime_ymd s) as [iso|]; [exists (Some iso), w; split; reflexivity|].
  exists None, (add_out w (Line invalid_date)). split; reflexivity.
Qed.

Lemma make_expense_total amount category note date_iso w :
  exists id date w',
    make_expense amount category note date_iso w =
    (Ok (new_record id amount category note date), w').
Proof.
  unfold make_expense, bind at 1, uuid4.
  destruct date_iso as [d|].
  - destruct (PyStr.truthy d).
    + exists (uuids w (uuid_calls w)), d, (tick_uuid w). reflexivity.
    + exists (uuids w (uuid_calls w)), (clock w (clock_calls w)),
        (tick_clock (tick_uuid w)). reflexivity.
  - exists (uuids w (uuid_calls w)), (clock w (clock_calls w)),
      (tick_clock (tick_uuid w)). reflexivity.
Qed.

(** [make_expense] on its own strips the category and keeps it blank
    when it is blank: the default is written in by the caller. *)
Lemma make_expense_keeps_blank_category amount category note date_iso w :
  PyStr.strip category = EmptyString ->
  exists e w',
    make_expense amount category note date_iso w = (Ok e, w') /\
    field "category" e = Some (JStr EmptyString).
Proof.
  intros Hblank.
  destruct (make_expense_total amount category note date_iso w)
    as (id & date & w' & Hrun).
  eexists. exists w'. split; [exact Hrun|].
  unfold new_record. simpl. rewrite Hblank. reflexivity.
Qed.

(** A run of [add_expense_interactive]: lines are rejected until [l] is
    read as the amount [x]; the category, the note and the date follow.
    One record is appended. *)
Lemma add_expense_interactive_run es pre l c n d rest x w :
  Forall rejected pre ->
  float_of_string (PyStr.strip l) = Some x ->
  stdin w = (pre ++ l :: c :: n :: d :: rest)%list ->
  exists id date w',
    add_expense_interactive fromisoformat strptime_ymd es w =
    (Ok (es ++ [new_record id x (category_entered c) (PyStr.strip n) date])%list,
     w').
Proof.
  intros Hrej Hacc Hin.
  unfold add_expense_interactive, bind at 1, read_amount.
  rewrite Hin, (amount_loop_run pre l _ x w Hrej Hacc).
  unfold bind at 1, input. simpl stdin.
  unfold bind at 1. simpl stdin.
  unfold bind at 1. simpl stdin.
  unfold bind at 1.
  match goal with |- context [parse_date _ _ ?s ?w0] =>
    destruct (parse_date_total s w0) as (r & w1 & -> & _) end.
  unfold bind at 1. fold (category_entered c).
  destruct (make_expense_total x (category_entered c) (PyStr.strip n) r w1)
    as (id & date & w2 & ->).
  unfold bind at 1. rewrite save_expenses_run.
  exists id, date. eexists. reflexivity.
Qed.

End InteractiveFacts.

(** *** The sign of a rounded amount *)

Lemma shr_1_nonneg r : 0 <= shr_m r -> 0 <= shr_m (shr_1 r).
Proof.
  destruct r as [m r s]. simpl. intros H.
  destruct m as [|p|p]; simpl; try lia.
  - destruct p; simpl; lia.
Qed.

Lemma iter_shr_1_nonneg p : forall r,
  0 <= shr_m r -> 0 <= shr_m (iter_pos shr_1 p r).
Proof.
  induction p as [p IH|p IH|]; intros r H; simpl.
  - apply IH, IH, shr_1_nonneg, H.
  - apply IH, IH, H.
  - apply shr_1_nonneg, H.
Qed.

Lemma shr_fexp_nonneg m e l :
  0 <= m -> 0 <= shr_m (fst (shr_fexp prec emax m e l)).
Proof.
  intros H. unfold shr_fexp, shr.
  assert (H0 : 0 <= shr_m (shr_record_of_loc m l))
    by (destruct l as [|[]]; simpl; exact H).
  destruct (fexp prec emax (Zdigits2 m + e) - e); simpl;
    [exact H0|apply iter_shr_1_nonneg, H0|exact H0].
Qed.

Lemma round_nearest_even_nonneg m l : 0 <= m -> 0 <= round_nearest_even m l.
Proof.
  intros H. destruct l as [|[]]; simpl; try lia.
  destruct (Z.even m); lia.
Qed.

(** Rounding a non-negative mantissa gives a zero, a finite number or an
    infinity of the sign asked for. *)
Lemma binary_round_aux_sign s m e l :
  0 <= m -> signbit (binary_round_aux prec emax s m e l) = s
            /\ is_nan (binary_round_aux prec emax s m e l) = false.
Proof.
  intros H. unfold binary_round_aux.
  pose proof (shr_fexp_nonneg m e l H) as H1.
  destruct (shr_fexp prec emax m e l) as [mrs e'] eqn:E1. simpl in H1.
  pose proof (shr_fexp_nonneg
                (round_nearest_even (shr_m mrs) (loc_of_shr_record mrs)) e'
                loc_Exact (round_nearest_even_nonneg _ _ H1)) as H2.
  destruct (shr_fexp prec emax _ e' loc_Exact) as [mrs' e''] eqn:E2.
  simpl in H2.
  destruct (shr_m mrs') as [|p|p]; simpl.
  - split; reflexivity.
  - destruct (e'' <=? _); split; reflexivity.
  - lia.
Qed.

Lemma of_ratio_sign s num den :
  signbit (of_ratio s num den) = s /\ is_nan (of_ratio s num den) = false.
Proof.
  unfold of_ratio, SFdiv.
  destruct (SFdiv_core_binary prec emax (Z.pos num) 0 (Z.pos den) 0)
    as [[mz ez] lz] eqn:E.
  rewrite xorb_false_r. apply binary_round_aux_sign.
  unfold SFdiv_core_binary in E.
  set (m' := match _ - _ - _ with Z.pos _ => _ | 0 => _ | Z.neg _ => _ end) in E.
  assert (Hm : 0 <= m').
  { unfold m'. destruct (_ - _ - _); try lia. apply Z.shiftl_nonneg. lia. }
  pose proof (Z.div_pos m' (Z.pos den) Hm ltac:(lia)) as Hq.
  unfold Z.div in Hq.
  destruct (Z.div_eucl m' (Z.pos den)) as [q r]. simpl in Hq.
  injection E as <- _ _. exact Hq.
Qed.

(** [round(x, 2)] keeps the sign of [x]. *)
Lemma round2_signbit x : signbit (round2 x) = signbit x.
Proof.
  destruct x as [s|s| |s m e]; try reflexivity.
  unfold round2.
  destruct (match e with
            | Z.neg k => div_half_even (Z.pos m * 100) (Z.pos (2 ^ k))
            | _ => Z.pos m * 2 ^ e * 100
            end); try reflexivity.
  apply of_ratio_sign.
Qed.

Lemma is_negative_signbit x : is_negative x = true -> signbit x = true.
Proof.
  destruct x as [[]|[]| |[] m e]; unfold is_negative, SFltb; simpl;
    intros H; try reflexivity; discriminate.
Qed.

Lemma round2_not_negative x :
  is_negative x = false -> is_negative (round2 x) = false.
Proof.
  intros H.
  destruct x as [s|s| |s m e]; try exact H.
  assert (Hs : s = false).
  { destruct s; [|reflexivity]. unfold is_negative, SFltb in H. simpl in H.
    discriminate. }
  subst s.
  destruct (is_negative (round2 (S754_finite false m e))) eqn:E; [|reflexivity].
  apply is_negative_signbit in E. rewrite round2_signbit in E.
  simpl in E. discriminate.
Qed.

(** Rounding a quotient to the nearest integer, the even one of two. *)
Lemma div_half_even_nearest a b :
  0 < b ->
  let p := div_half_even a b in
  2 * Z.abs (a - p * b) <= b /\
  (2 * Z.abs (a - p * b) = b -> Z.even p = true).
Proof.
  intros Hb p. unfold div_half_even in p.
  pose proof (Z.div_mod a b ltac:(lia)) as Hdm.
  pose proof (Z.mod_pos_bound a b Hb) as Hr.
  set (q := a / b) in *. set (r := a mod b) in *.
  destruct (Z.compare_spec (2 * r) b) as [E|L|G]; subst p.
  - destruct (Z.even q) eqn:Ev.
    + split; [|intros _; exact Ev].
      replace (a - q * b) with r by lia. lia.
    + split.
      * replace (a - (q + 1) * b) with (r - b) by lia. lia.
      * intros _. rewrite Z.even_add, Ev. reflexivity.
  - split; replace (a - q * b) with r by lia; lia.
  - split; replace (a - (q + 1) * b) with (r - b) by lia; lia.
Qed.

(** [round(x, 2)] on a finite non-zero [x]. *)
Lemma round2_hundredths s m e :
  exists p,
    hundredths m e p /\
    round2 (S754_finite s m e) = of_decimal s p (-2).
Proof.
  destruct e as [|k|k].
  - exists (Zpos m * 2 ^ 0 * 100). split.
    + unfold hundredths. simpl Z.max. rewrite !Z.pow_0_r.
      replace (100 * Z.pos m * 1 - Z.pos m * 1 * 100 * 1) with 0 by lia.
      simpl. split; lia.
    + unfold round2.
      destruct (Zpos m * 2 ^ 0 * 100) as [|p|p]; reflexivity.
  - exists (Zpos m * 2 ^ Zpos k * 100). split.
    + unfold hundredths.
      replace (Z.max (Zpos k) 0) with (Zpos k) by lia.
      replace (Z.max (- Zpos k) 0) with 0 by lia. rewrite Z.pow_0_r.
      replace (100 * Z.pos m * 2 ^ Z.pos k - Z.pos m * 2 ^ Z.pos k * 100 * 1)
        with 0 by lia.
      simpl Z.abs. split; lia.
    + unfold round2.
      destruct (Zpos m * 2 ^ Zpos k * 100) as [|p|p]; reflexivity.
  - exists (div_half_even (Zpos m * 100) (Zpos (Pos.pow 2 k))). split.
    + unfold hundredths.
      replace (Z.max (Zneg k) 0) with 0 by lia.
      replace (Z.max (- Zneg k) 0) with (Zpos k) by lia.
      rewrite Z.pow_0_r, <- Pos2Z.inj_pow.
      replace (100 * Z.pos m * 1) with (Zpos m * 100) by lia.
      apply div_half_even_nearest. lia.
    + unfold round2.
      destruct (div_half_even (Zpos m * 100) (Zpos (Pos.pow 2 k)))
        as [|p|p]; reflexivity.
Qed.

Section InteractiveClaims.

Variable fromisoformat : string -> option string.
Variable strptime_ymd : string -> option string.

(** C6.  When the category line is blank once stripped, the record that
    [add_expense_interactive] builds and appends has the category
    "Uncategorized". *)
Theorem blank_category_defaults es pre l c n d rest x w :
  Forall rejected pre ->
  float_of_string (PyStr.strip l) = Some x ->
  stdin w = (pre ++ l :: c :: n :: d :: rest)%list ->
  PyStr.strip c = "" ->
  exists e w',
    add_expense_interactive fromisoformat strptime_ymd es w
    = (Ok (es ++ [e])%list, w') /\
    field "category" e = Some (JStr "Uncategorized").
Proof.
  intros Hrej Hacc Hin Hblank.
  destruct (add_expense_interactive_run fromisoformat strptime_ymd
              es pre l c n d rest x w Hrej Hacc Hin) as (id & date & w' & Hrun).
  eexists. exists w'. split; [exact Hrun|].
  unfold category_entered. rewrite Hblank. reflexivity.
Qed.

(** C7, as the code has it.  The amount of the record built is
    [round(x, 2)] for the number [x] read from the accepted line, fixed
    when the record is built: the double nearest to [p / 100], where [p]
    is the integer nearest to [100 * x] (the even one of two as near);
    nan, the infinities and the zeros are kept.  It keeps the sign of
    [x], so it is not negative when [x] is not, and no check makes it
    non-negative. *)
Theorem amount_rounded_at_creation es pre l c n d rest x w :
  Forall rejected pre ->
  float_of_string (PyStr.strip l) = Some x ->
  stdin w = (pre ++ l :: c :: n :: d :: rest)%list ->
  exists e w',
    add_expense_interactive fromisoformat strptime_ymd es w
    = (Ok (es ++ [e])%list, w') /\
    field "amount" e = Some (JFloat (round2 x)) /\
    (forall s m ex, x = S754_finite s m ex ->
       exists p, hundredths m ex p /\ round2 x = of_decimal s p (-2)) /\
    (is_finite_nonzero x = false -> round2 x = x) /\
    signbit (round2 x) = signbit x /\
    (is_negative x = false -> is_negative (round2 x) = false).
Proof.
  intros Hrej Hacc Hin.
  destruct (add_expense_interactive_run fromisoformat strptime_ymd
              es pre l c n d rest x w Hrej Hacc Hin) as (id & date & w' & Hrun).
  eexists. exists w'. split; [exact Hrun|].
  split; [reflexivity|]. split; [|split; [|split]].
  - intros s m ex ->. apply round2_hundredths.
  - destruct x; try reflexivity. discriminate.
  - apply round2_signbit.
  - apply round2_not_negative.
Qed.

End InteractiveClaims.

(** ** Totals *)

Lemma float_of_amount e :
  amount_typed e = true ->
  (v <~ py_get e "amount" (JInt 0) ;; py_float v) = Ok (amount_of e) /\
  (v <~ py_get e "amount" (JFloat pos_zero) ;; py_float v) = Ok (amount_of e).
Proof.
  unfold amount_typed, amount_of. intros H.
  apply andb_true_iff in H. destruct H as [Hr Hn].
  rewrite !(py_get_record _ _ _ Hr).
  destruct (field "amount" e) as [v|]; simpl; [|split; reflexivity].
  destruct v; simpl in *; try discriminate; try (split; reflexivity).
  destruct (is_infinite (of_Z n)); [discriminate|split; reflexivity].
Qed.

Lemma sum_amounts_run es : forall acc,
  Forall (fun e => amount_typed e = true) es ->
  sum_amounts acc es = Ok (fold_left add_float (map amount_of es) acc).
Proof.
  induction es as [|e r IH]; intros acc H; simpl; [reflexivity|].
  inversion H as [|? ? He Hr]; subst.
  destruct (float_of_amount e He) as [Hf _].
  unfold rbind in Hf |- *.
  destruct (py_get e "amount" (JInt 0)) as [v|]; [|discriminate].
  rewrite Hf. apply IH, Hr.
Qed.

Lemma add_float_fold xs : forall a,
  fold_left add_float xs (PFloat a) = PFloat (float_sum a xs).
Proof.
  induction xs as [|x r IH]; intros a; simpl; [reflexivity|apply IH].
Qed.

Lemma fadd_zero_l x : fadd (of_Z 0) x = fadd pos_zero x.
Proof. reflexivity. Qed.

(** C8.  On records whose amount is a number or is missing,
    [get_total_spending] returns the sum of the amount fields, added in
    list order; on the empty list it returns 0, and one more record adds
    its amount to the total. *)
Theorem total_is_sum_of_amounts es :
  Forall (fun e => amount_typed e = true) es ->
  get_total_spending es = Ok (sum_of_amounts es) /\
  get_total_spending [] = Ok (PInt 0) /\
  (forall e, amount_typed e = true ->
             get_total_spending (es ++ [e])%list
             = Ok (add_float (sum_of_amounts es) (amount_of e))).
Proof.
  intros H.
  assert (Hsum : fold_left add_float (map amount_of es) (PInt 0)
                 = sum_of_amounts es).
  { destruct es as [|e r]; [reflexivity|].
    simpl. rewrite add_float_fold. reflexivity. }
  split; [|split; [reflexivity|]].
  - unfold get_total_spending. rewrite (sum_amounts_run es _ H), Hsum.
    reflexivity.
  - intros e He. unfold get_total_spending.
    rewrite sum_amounts_run
      by (apply Forall_app; split; [exact H|constructor; [exact He|constructor]]).
    rewrite map_app, fold_left_app, Hsum. reflexivity.
Qed.

(** ** Totals by category *)

Lemma category_of_key e :
  category_typed e = true ->
  (cat <~ py_get e "category" (JStr "Uncategorized") ;; category_key cat)
  = Ok (category_of e).
Proof.
  unfold category_typed, category_of. intros H.
  apply andb_true_iff in H. destruct H as [Hr Hc].
  rewrite (py_get_record _ _ _ Hr).
  destruct (field "category" e) as [[]|]; simpl in *;
    try discriminate; reflexivity.
Qed.

Lemma summary_loop_run es : forall s,
  Forall (fun e => typed_record e = true) es ->
  summary_loop s es = Ok (fold_left tally_step es s).
Proof.
  induction es as [|e r IH]; intros s H; simpl; [reflexivity|].
  inversion H as [|? ? He Hr]; subst.
  unfold typed_record in He. apply andb_true_iff in He.
  destruct He as [Ha Hc].
  pose proof (category_of_key e Hc) as Hk.
  destruct (float_of_amount e Ha) as [_ Hf].
  unfold rbind in Hk, Hf |- *.
  destruct (py_get e "category" (JStr "Uncategorized")) as [cat|];
    [|discriminate].
  rewrite Hk.
  destruct (py_get e "amount" (JFloat pos_zero)) as [v|]; [|discriminate].
  rewrite Hf. apply IH, Hr.
Qed.

Lemma summary_get_set k v s c d :
  summary_get c (summary_set k v s) d =
  if String.eqb c k then v else summary_get c s d.
Proof.
  induction s as [|[k' v'] r IH]; simpl.
  - destruct (String.eqb c k); reflexivity.
  - destruct (String.eqb_spec k k') as [->|Hkk']; simpl.
    + destruct (String.eqb c k'); reflexivity.
    + destruct (String.eqb_spec c k') as [->|Hck'].
      * destruct (String.eqb_spec k' k) as [->|_]; [congruence|reflexivity].
      * exact IH.
Qed.

Lemma summary_set_keys k v s c :
  In c (map fst (summary_set k v s)) <-> c = k \/ In c (map fst s).
Proof.
  induction s as [|[k' v'] r IH]; simpl.
  - intuition.
  - destruct (String.eqb_spec k k') as [->|Hkk']; simpl.
    + intuition.
    + rewrite IH. intuition.
Qed.

Lemma summary_set_nodup k v s :
  NoDup (map fst s) -> NoDup (map fst (summary_set k v s)).
Proof.
  induction s as [|[k' v'] r IH]; simpl; intros H.
  - constructor; [intros []|constructor].
  - inversion H as [|? ? Hnot Hr]; subst.
    destruct (String.eqb_spec k k') as [->|Hkk']; simpl.
    + constructor; assumption.
    + constructor; [|apply IH, Hr].
      rewrite summary_set_keys. intros [E|E]; [congruence|contradiction].
Qed.

(** The running sum of a category after the loop has gone through
    [es]. *)
Lemma tally_get es : forall s c,
  summary_get c (fold_left tally_step es s) pos_zero =
  float_sum (summary_get c s pos_zero) (map amount_of (in_category c es)).
Proof.
  induction es as [|e r IH]; intros s c; simpl; [reflexivity|].
  rewrite IH. unfold tally_step at 1. rewrite summary_get_set.
  rewrite (String.eqb_sym c).
  destruct (String.eqb_spec (category_of e) c) as [<-|Hne]; reflexivity.
Qed.

Lemma tally_keys es : forall s c,
  In c (map fst (fold_left tally_step es s)) <->
  In c (map fst s) \/ exists e, In e es /\ category_of e = c.
Proof.
  induction es as [|e r IH]; intros s c; simpl.
  - split; [intros H; left; exact H|intros [H|(e & [] & _)]; exact H].
  - rewrite IH. unfold tally_step at 1. rewrite summary_set_keys. split.
    + intros [[->|H]|(x & Hx & Hc)].
      * right. exists e. split; [left; reflexivity|reflexivity].
      * left. exact H.
      * right. exists x. split; [right; exact Hx|exact Hc].
    + intros [H|(x & [->|Hx] & Hc)].
      * left. right. exact H.
      * left. left. symmetry. exact Hc.
      * right. exists x. split; assumption.
Qed.

Lemma tally_nodup es : forall s,
  NoDup (map fst s) -> NoDup (map fst (fold_left tally_step es s)).
Proof.
  induction es as [|e r IH]; intros s H; simpl; [exact H|].
  apply IH, summary_set_nodup, H.
Qed.

Lemma summary_get_in c v (s : summary) d :
  NoDup (map fst s) -> In (c, v) s -> summary_get c s d = v.
Proof.
  induction s as [|[k' v'] r IH]; simpl; intros Hnd Hin; [contradiction|].
  inversion Hnd as [|? ? Hnot Hr]; subst.
  destruct Hin as [E|Hin].
  - injection E as -> ->. rewrite String.eqb_refl. reflexivity.
  - destruct (String.eqb_spec c k') as [->|_]; [|apply IH; assumption].
    exfalso. apply Hnot. change k' with (fst (k', v)). apply in_map, Hin.
Qed.

(** C4, as the code has it.  On records with typed fields,
    [spending_by_category] has one key for each category string that
    occurs, and the value under it is the sum of the amounts of the
    records of that category, added in list order from 0.0, rounded to
    two digits. *)
Theorem category_totals_are_rounded_sums es :
  Forall (fun e => typed_record e = true) es ->
  exists s,
    spending_by_category es = Ok s /\
    NoDup (map fst s) /\
    (forall c, In c (map fst s) <-> exists e, In e es /\ category_of e = c) /\
    (forall c v, In (c, v) s -> v = round2 (category_sum c es)).
Proof.
  intros H. unfold spending_by_category.
  rewrite (summary_loop_run es [] H). simpl.
  set (t := fold_left tally_step es []).
  assert (Hnd : NoDup (map fst t)) by (apply tally_nodup; constructor).
  eexists. split; [reflexivity|].
  rewrite map_map. simpl. split; [exact Hnd|]. split.
  - intros c. unfold t. rewrite tally_keys. simpl. intuition.
  - intros c v Hin. apply in_map_iff in Hin.
    destruct Hin as ([k x] & E & Hin). simpl in E. injection E as Hk Hv.
    subst c v.
    f_equal. rewrite <- (summary_get_in k x t pos_zero Hnd Hin).
    unfold t. rewrite tally_get. reflexivity.
Qed.

(** ** Missing keys *)

Lemma dict_get_app k (d1 d2 : dict) :
  dict_get k (d1 ++ d2)%list =
  match dict_get k d1 with
  | Some v => Some v
  | None => dict_get k d2
  end.
Proof.
  induction d1 as [|[k' v'] r IH]; simpl; [reflexivity|].
  destruct (String.eqb k k'); [reflexivity|exact IH].
Qed.

Lemma with_defaults_amount e :
  is_record e = true -> amount_of (with_defaults e) = amount_of e.
Proof.
  destruct e; simpl; try discriminate. intros _.
  unfold amount_of. simpl. rewrite !dict_get_app.
  destruct (dict_get "amount" fields) as [v|] eqn:E; [reflexivity|].
  simpl. reflexivity.
Qed.

Lemma with_defaults_category e :
  is_record e = true -> category_of (with_defaults e) = category_of e.
Proof.
  destruct e; simpl; try discriminate. intros _.
  unfold category_of. simpl. rewrite !dict_get_app.
  destruct (dict_get "category" fields) as [v|] eqn:E; [reflexivity|].
  destruct (dict_get "amount" fields); reflexivity.
Qed.

Lemma with_defaults_typed e :
  typed_record e = true -> typed_record (with_defaults e) = true.
Proof.
  destruct e; simpl; try discriminate.
  unfold typed_record, amount_typed, category_typed. simpl.
  rewrite !dict_get_app.
  destruct (dict_get "amount" fields) as [v|];
    destruct (dict_get "category" fields) as [c|]; simpl; auto.
Qed.

(** The entry of a category that occurs. *)
Lemma tally_entry es c :
  (exists e, In e es /\ category_of e = c) ->
  In (c, category_sum c es) (fold_left tally_step es []).
Proof.
  intros Hc.
  set (t := fold_left tally_step es []).
  assert (Hnd : NoDup (map fst t)) by (apply tally_nodup; constructor).
  assert (Hk : In c (map fst t)).
  { unfold t. apply tally_keys. right. exact Hc. }
  apply in_map_iff in Hk. destruct Hk as ([k x] & Hkx & Hin).
  simpl in Hkx. subst k.
  replace (category_sum c es) with x; [exact Hin|].
  rewrite <- (summary_get_in c x t pos_zero Hnd Hin).
  unfold t. rewrite tally_get. reflexivity.
Qed.

(** C10.  On records whose amount is a number or is missing and whose
    category is a string or is missing, neither aggregation raises.
    The total is the sum of the amounts, a record without amount
    counting 0.0: one more such record adds 0.0 to the total.  The
    summary files a record without category with those of the category
    "Uncategorized": that key is there, and under it the sum of their
    amounts, rounded.  Both results are those for the same records with
    the amount 0 and the category "Uncategorized" written in where the
    key is missing. *)
Theorem aggregation_total_on_missing_fields es :
  Forall (fun e => typed_record e = true) es ->
  get_total_spending es = Ok (sum_of_amounts es) /\
  (forall e, typed_record e = true -> field "amount" e = None ->
     get_total_spending (es ++ [e])%list
     = Ok (add_float (sum_of_amounts es) pos_zero)) /\
  (exists s,
     spending_by_category es = Ok s /\
     (forall e, In e es -> field "category" e = None ->
        In e (in_category "Uncategorized" es) /\
        In ("Uncategorized", round2 (category_sum "Uncategorized" es)) s) /\
     spending_by_category (map with_defaults es) = Ok s) /\
  get_total_spending (map with_defaults es) = Ok (sum_of_amounts es).
Proof.
  intros H.
  assert (Hrec : forall e, In e es -> is_record e = true).
  { intros e He. pose proof (proj1 (Forall_forall _ _) H e He) as Ht.
    unfold typed_record, amount_typed in Ht.
    repeat (apply andb_true_iff in Ht; destruct Ht as [Ht _]). exact Ht. }
  assert (Hd : Forall (fun e => typed_record e = true) (map with_defaults es)).
  { apply Forall_forall. intros x Hx. apply in_map_iff in Hx.
    destruct Hx as (e & <- & He). apply with_defaults_typed.
    exact (proj1 (Forall_forall _ _) H e He). }
  assert (Ha : forall l, Forall (fun e => typed_record e = true) l ->
                         Forall (fun e => amount_typed e = true) l).
  { intros l Hl. eapply Forall_impl; [|exact Hl]. simpl. intros e He.
    unfold typed_record in He. apply andb_true_iff in He. apply He. }
  assert (Hamt : map amount_of (map with_defaults es) = map amount_of es).
  { rewrite map_map. apply map_ext_in. intros e He.
    apply with_defaults_amount, Hrec, He. }
  assert (Hsum : fold_left add_float (map amount_of es) (PInt 0)
                 = sum_of_amounts es).
  { destruct es as [|e r]; [reflexivity|].
    simpl. rewrite add_float_fold. reflexivity. }
  split; [|split; [|split]].
  - unfold get_total_spending. rewrite (sum_amounts_run es _ (Ha _ H)), Hsum.
    reflexivity.
  - intros e He Hnone. unfold get_total_spending.
    rewrite sum_amounts_run
      by (apply Ha, Forall_app; split; [exact H|constructor; [exact He|constructor]]).
    rewrite map_app, fold_left_app, Hsum. simpl.
    unfold amount_of. rewrite Hnone. reflexivity.
  - unfold spending_by_category.
    rewrite (summary_loop_run es [] H), (summary_loop_run _ [] Hd).
    eexists. split; [reflexivity|]. split.
    + intros e He Hnone.
      assert (Hcat : category_of e = "Uncategorized").
      { unfold category_of. rewrite Hnone. reflexivity. }
      split.
      * unfold in_category. apply filter_In. split; [exact He|].
        rewrite Hcat. reflexivity.
      * simpl. apply in_map_iff.
        exists ("Uncategorized", category_sum "Uncategorized" es).
        split; [reflexivity|]. apply tally_entry.
        exists e. split; assumption.
    + simpl. do 2 f_equal.
      generalize (@nil (string * float)).
      clear Hsum. induction es as [|e r IH]; intros s; simpl; [reflexivity|].
      inversion H as [|? ? He Hr]; subst.
      assert (Hstep : tally_step s (with_defaults e) = tally_step s e).
      { unfold tally_step.
        rewrite with_defaults_amount, with_defaults_category;
          try reflexivity; apply Hrec; left; reflexivity. }
      rewrite Hstep. apply IH; try assumption.
      * intros x Hx. apply Hrec. right. exact Hx.
      * inversion Hd; assumption.
      * rewrite map_map. apply map_ext_in. intros x Hx.
        apply with_defaults_amount, Hrec. right. exact Hx.
  - unfold get_total_spending.
    rewrite (sum_amounts_run _ _ (Ha _ Hd)), Hamt, Hsum. reflexivity.
Qed.

(** ** Order on dates *)

Lemma ltb_lts a b : PyStr.ltb a b = true <-> String_as_OT.lt a b.
Proof.
  unfold PyStr.ltb. rewrite <- String_as_OT.cmp_lt. unfold String_as_OT.cmp.
  destruct (String.compare a b); split; intros H; try reflexivity;
    discriminate.
Qed.

Lemma ltb_asym a b : PyStr.ltb a b = true -> PyStr.ltb b a = false.
Proof.
  intros H. destruct (PyStr.ltb b a) eqn:E; [|reflexivity].
  apply ltb_lts in H, E.
  exfalso. apply (String_as_OT.lt_not_eq a a); [|reflexivity].
  exact (String_as_OT.lt_trans _ _ _ H E).
Qed.

Lemma not_ltb_cases a b : PyStr.ltb a b = false -> a = b \/ PyStr.ltb b a = true.
Proof.
  unfold PyStr.ltb. rewrite (String.compare_antisym b a).
  destruct (String.compare a b) eqn:E; intros H; try discriminate.
  - left. apply String.compare_eq_iff, E.
  - right. reflexivity.
Qed.

Lemma not_ltb_trans a b c :
  PyStr.ltb a b = false -> PyStr.ltb b c = false -> PyStr.ltb a c = false.
Proof.
  intros Hab Hbc. destruct (PyStr.ltb a c) eqn:Hac; [|reflexivity].
  destruct (not_ltb_cases a b Hab) as [->|Hba]; [congruence|].
  apply ltb_lts in Hac, Hba.
  pose proof (proj2 (ltb_lts b c) (String_as_OT.lt_trans _ _ _ Hba Hac)).
  congruence.
Qed.

(** ** Sorting by date *)

Lemma insert_desc_perm x l : Permutation (insert_desc x l) (x :: l).
Proof.
  induction l as [|y r IH]; simpl; [reflexivity|].
  destruct (PyStr.ltb (fst x) (fst y)); [|reflexivity].
  rewrite IH. apply perm_swap.
Qed.

Lemma sort_desc_perm l : Permutation (sort_desc l) l.
Proof.
  induction l as [|x r IH]; simpl; [reflexivity|].
  rewrite insert_desc_perm, IH. reflexivity.
Qed.

Lemma insert_desc_sorted x l :
  StronglySorted key_ge l -> StronglySorted key_ge (insert_desc x l).
Proof.
  induction l as [|y r IH]; simpl; intros H.
  - constructor; constructor.
  - inversion H as [|? ? Hr Hy]; subst.
    destruct (PyStr.ltb (fst x) (fst y)) eqn:E.
    + constructor; [apply IH, Hr|].
      apply (Permutation_Forall (Permutation_sym (insert_desc_perm x r))).
      constructor; [apply ltb_asym, E|exact Hy].
    + constructor; [exact H|].
      constructor; [exact E|].
      eapply Forall_impl; [|exact Hy]. intros z Hz.
      exact (not_ltb_trans _ _ _ E Hz).
Qed.

Lemma sort_desc_sorted l : StronglySorted key_ge (sort_desc l).
Proof.
  induction l as [|x r IH]; simpl; [constructor|].
  apply insert_desc_sorted, IH.
Qed.

Lemma combine_map_fst {A B : Type} (f : A -> B) (l : list A) :
  Forall (fun p => fst p = f (snd p)) (combine (map f l) l).
Proof.
  induction l as [|x r IH]; simpl; constructor; [reflexivity|exact IH].
Qed.

Lemma combine_map_snd {A B : Type} (f : A -> B) (l : list A) :
  map snd (combine (map f l) l) = l.
Proof.
  induction l as [|x r IH]; simpl; [reflexivity|]. rewrite IH. reflexivity.
Qed.

Lemma by_date_desc_perm l : Permutation (by_date_desc l) l.
Proof.
  unfold by_date_desc.
  transitivity (map snd (combine (map date_of l) l)).
  - apply Permutation_map, sort_desc_perm.
  - rewrite combine_map_snd. reflexivity.
Qed.

Lemma sorted_keys_to_dates (l : list (string * json)) :
  Forall (fun p => fst p = date_of (snd p)) l ->
  StronglySorted key_ge l -> StronglySorted date_ge (map snd l).
Proof.
  induction l as [|p r IH]; simpl; intros Hk Hs; [constructor|].
  inversion Hk as [|? ? Hp Hr]; subst.
  inversion Hs as [|? ? Hsr Hall]; subst.
  constructor; [apply IH; assumption|].
  apply Forall_forall. intros e He. apply in_map_iff in He.
  destruct He as (q & <- & Hq).
  pose proof (proj1 (Forall_forall _ _) Hall q Hq) as Hge.
  pose proof (proj1 (Forall_forall _ _) Hr q Hq) as Hkq.
  unfold date_ge, key_ge in *. rewrite <- Hp, <- Hkq. exact Hge.
Qed.

Lemma by_date_desc_sorted l : StronglySorted date_ge (by_date_desc l).
Proof.
  unfold by_date_desc. apply sorted_keys_to_dates.
  - apply (Permutation_Forall (Permutation_sym (sort_desc_perm _))).
    apply combine_map_fst.
  - apply sort_desc_sorted.
Qed.

(** ** Searching *)

Lemma complete_is_record e : complete_record e = true -> is_record e = true.
Proof.
  unfold complete_record. intros H.
  repeat (apply andb_true_iff in H; destruct H as [H _]). exact H.
Qed.

Lemma field_has_run keyword e k :
  is_record e = true ->
  is_str (field k e) || negb (present (field k e)) = true ->
  field_has keyword e k
  = Ok (PyStr.contains keyword (PyStr.lower (str_field k e))).
Proof.
  intros Hr Hk. unfold field_has, str_field.
  rewrite (py_get_record _ _ _ Hr).
  destruct (field k e) as [[]|]; simpl in *; try discriminate; reflexivity.
Qed.

Lemma matches_run keyword e :
  complete_record e = true -> matches keyword e = Ok (hit keyword e).
Proof.
  intros H. pose proof (complete_is_record e H) as Hr.
  unfold complete_record in H.
  repeat (apply andb_true_iff in H; destruct H as [H ?]).
  unfold matches, hit.
  rewrite !field_has_run; try assumption;
    try (apply orb_true_iff; left; assumption).
  simpl.
  destruct (PyStr.contains keyword (PyStr.lower (str_field "category" e)));
    [reflexivity|].
  destruct (PyStr.contains keyword (PyStr.lower (str_field "note" e)));
    reflexivity.
Qed.

Lemma all_str_keys_dates (l : list json) :
  all_str_keys (map (fun e => JStr (date_of e)) l) = Some (map date_of l).
Proof.
  induction l as [|e r IH]; simpl; [reflexivity|]. rewrite IH. reflexivity.
Qed.

Lemma sorted_by_date_desc_run l :
  Forall (fun e => complete_record e = true) l ->
  sorted_by_date_desc l = Ok (by_date_desc l).
Proof.
  intros H. unfold sorted_by_date_desc.
  rewrite (map_r_pure _ (fun e => JStr (date_of e))).
  - simpl. destruct l as [|x [|y r]]; try reflexivity.
    change (JStr (date_of x) :: map (fun e => JStr (date_of e)) (y :: r))
      with (map (fun e => JStr (date_of e)) (x :: y :: r)).
    rewrite all_str_keys_dates. reflexivity.
  - intros e He. pose proof (proj1 (Forall_forall _ _) H e He) as Hc.
    rewrite (py_get_record _ _ _ (complete_is_record e Hc)).
    unfold complete_record in Hc.
    repeat (apply andb_true_iff in Hc; destruct Hc as [Hc ?]).
    unfold date_of, str_field.
    destruct (field "date" e) as [[]|]; simpl in *; try discriminate.
    reflexivity.
Qed.

Lemma print_expense_run e w :
  complete_record e = true ->
  print_expense e w = (Ok tt, add_outs w (expense_lines e)).
Proof.
  intros H. unfold complete_record in H.
  repeat (apply andb_true_iff in H; destruct H as [H ?]).
  destruct e as [| | | | | |d]; try discriminate.
  unfold expense_lines, print_expense, bind, lift, print, py_item, py_get.
  simpl in *.
  destruct (dict_get "id" d) as [i|]; [|discriminate].
  destruct (dict_get "amount" d) as [a|]; [|discriminate].
  destruct (dict_get "category" d) as [c|]; [|discriminate].
  destruct (dict_get "date" d) as [dt|]; [|discriminate].
  destruct (dict_get "note" d) as [n|]; simpl.
  - destruct (truthy_json n); reflexivity.
  - reflexivity.
Qed.

Lemma add_outs_app w a b :
  add_outs w (a ++ b)%list = add_outs (add_outs w a) b.
Proof. apply fold_left_app. Qed.

Lemma print_all_run l : forall w,
  Forall (fun e => complete_record e = true) l ->
  for_each print_expense l w = (Ok tt, add_outs w (flat_map expense_lines l)).
Proof.
  induction l as [|e r IH]; intros w H; simpl; [reflexivity|].
  inversion H as [|? ? He Hr]; subst.
  unfold bind. rewrite (print_expense_run e w He).
  rewrite (IH _ Hr), add_outs_app. reflexivity.
Qed.

(** The full listing: every record, latest date first. *)
Lemma view_all_expenses_run es w :
  Forall (fun e => complete_record e = true) es ->
  view_all_expenses es w =
  (Ok tt,
   add_outs w (match es with
               | [] => [Line "No expenses found."]
               | _ => flat_map expense_lines (by_date_desc es)
               end)).
Proof.
  intros Hc. destruct es as [|x r]; [reflexivity|].
  unfold view_all_expenses, bind, lift.
  rewrite (sorted_by_date_desc_run _ Hc), print_all_run; [reflexivity|].
  apply (Permutation_Forall (Permutation_sym (by_date_desc_perm _))), Hc.
Qed.

Lemma hit_empty_keyword e : hit EmptyString e = true.
Proof.
  unfold hit.
  destruct (PyStr.lower (str_field "category" e)); reflexivity.
Qed.

Lemma prefix_app a : forall b,
  String.prefix a b = true <-> exists post, b = a ++ post.
Proof.
  induction a as [|c r IH]; intros b; destruct b as [|c' r']; simpl.
  - split; [intros _; exists ""; reflexivity|reflexivity].
  - split; [intros _; exists (String c' r'); reflexivity|reflexivity].
  - split; [discriminate|intros [post H]; discriminate H].
  - destruct (Ascii.ascii_dec c c') as [->|Hne]; split.
    + intros H. apply IH in H. destruct H as [post ->].
      exists post. reflexivity.
    + intros [post H]. injection H as ->. apply IH. exists post.
      reflexivity.
    + discriminate.
    + intros [post H]. injection H as -> _. contradiction.
Qed.

Lemma contains_iff needle hay :
  PyStr.contains needle hay = true <->
  exists pre post, hay = pre ++ needle ++ post.
Proof.
  split.
  - induction hay as [|c r IH]; cbn [PyStr.contains]; intros H.
    + apply orb_true_iff in H. destruct H as [H|H]; [|discriminate H].
      apply prefix_app in H. destruct H as [post H].
      exists "", post. exact H.
    + apply orb_true_iff in H. destruct H as [H|H].
      * apply prefix_app in H. destruct H as [post H].
        exists "", post. exact H.
      * destruct (IH H) as (pre & post & ->).
        exists (String c pre), post. reflexivity.
  - intros (pre & post & ->). induction pre as [|c r IH].
    + cbn [append].
      destruct (needle ++ post) eqn:E; cbn [PyStr.contains];
        apply orb_true_iff; left; apply prefix_app; exists post;
        symmetry; exact E.
    + cbn [append PyStr.contains]. apply orb_true_iff. right. exact IH.
Qed.


(** *** The case of letters *)










(** * Texts *)

Lemma app_assoc_s (a b c : string) : ((a ++ b) ++ c = a ++ (b ++ c))%string.
Proof. induction a as [|x a IH]; simpl; [reflexivity|]. rewrite IH. reflexivity. Qed.

Lemma app_nil_r_s (a : string) : (a ++ "" = a)%string.
Proof. induction a as [|x a IH]; simpl; [reflexivity|]. rewrite IH. reflexivity. Qed.

Lemma length_app_s (a b : string) :
  String.length (a ++ b) = (String.length a + String.length b)%nat.
Proof. induction a as [|x a IH]; simpl; [reflexivity|]. rewrite IH. reflexivity. Qed.

(** ** Reversal *)

Lemma rev_onto_app s : forall acc,
  PyStr.rev_onto s acc = PyStr.rev s ++ acc.
Proof.
  unfold PyStr.rev.
  induction s as [|c r IH]; intros acc; simpl; [reflexivity|].
  rewrite (IH (String c acc)), (IH (String c EmptyString)).
  rewrite app_assoc_s. reflexivity.
Qed.

Lemma rev_cons c r : PyStr.rev (String c r) = PyStr.rev r ++ String c "".
Proof. unfold PyStr.rev at 1. simpl. apply rev_onto_app. Qed.

Lemma rev_app a : forall b, PyStr.rev (a ++ b) = PyStr.rev b ++ PyStr.rev a.
Proof.
  induction a as [|c r IH]; intros b; simpl.
  - symmetry. apply app_nil_r_s.
  - rewrite !rev_cons, IH, app_assoc_s. reflexivity.
Qed.

Lemma rev_involutive s : PyStr.rev (PyStr.rev s) = s.
Proof.
  induction s as [|c r IH]; [reflexivity|].
  rewrite rev_cons, rev_app, IH. reflexivity.
Qed.

Lemma length_rev s : String.length (PyStr.rev s) = String.length s.
Proof.
  induction s as [|c r IH]; [reflexivity|].
  rewrite rev_cons, length_app_s, IH. simpl. lia.
Qed.

(** ** Dropping leading characters *)

Section DropChars.

Variable width : string -> nat.
Hypothesis width_nil : width EmptyString = O.
Hypothesis width_prefix :
  forall a b k, width a = S k -> width (a ++ b) = S k.

(** What is left starts with no character that [width] finds. *)
Lemma drop_chars_clean s : forall skip,
  width (PyStr.drop_chars width skip s) = O.
Proof.
  induction s as [|c r IH]; intros skip; cbn [PyStr.drop_chars];
    [exact width_nil|].
  destruct skip as [|k]; [|apply IH].
  destruct (width (String c r)) as [|k] eqn:E; [exact E|apply IH].
Qed.

Lemma drop_chars_fixed s :
  width s = O -> PyStr.drop_chars width 0 s = s.
Proof.
  intros H. destruct s as [|c r]; [reflexivity|].
  cbn [PyStr.drop_chars]. rewrite H. reflexivity.
Qed.

Lemma drop_chars_split s : forall skip,
  exists a, s = a ++ PyStr.drop_chars width skip s.
Proof.
  induction s as [|c r IH]; intros skip; cbn [PyStr.drop_chars];
    [exists ""; reflexivity|].
  destruct skip as [|k].
  - destruct (width (String c r)) as [|k]; [exists ""; reflexivity|].
    destruct (IH k) as [a Ha]. exists (String c a).
    cbn [append]. rewrite <- Ha. reflexivity.
  - destruct (IH k) as [a Ha]. exists (String c a).
    cbn [append]. rewrite <- Ha. reflexivity.
Qed.

(** A text with none at its head keeps none when it is cut. *)
Lemma width_cut a b : width (a ++ b) = O -> width a = O.
Proof.
  intros H. destruct (width a) as [|k] eqn:E; [reflexivity|].
  rewrite (width_prefix a b k E) in H. discriminate H.
Qed.

End DropChars.

(** ** White space *)

Lemma space_width_prefix a b k :
  PyStr.space_width a = S k -> PyStr.space_width (a ++ b) = S k.
Proof.
  unfold PyStr.space_width.
  destruct a as [|x [|y [|z a]]]; cbn [append]; try discriminate;
    destruct (PyStr.is_space x); try discriminate; try (intros H; exact H);
    destruct (PyStr.is_space2 x y); try discriminate; try (intros H; exact H).
Qed.

Lemma space_width_back_prefix a b k :
  PyStr.space_width_back a = S k -> PyStr.space_width_back (a ++ b) = S k.
Proof.
  unfold PyStr.space_width_back.
  destruct a as [|x [|y [|z a]]]; cbn [append]; try discriminate;
    destruct (PyStr.is_space x); try discriminate; try (intros H; exact H);
    destruct (PyStr.is_space2 y x); try discriminate; try (intros H; exact H).
Qed.

Lemma lstrip_clean s : starts_clean (PyStr.lstrip s).
Proof. apply drop_chars_clean. reflexivity. Qed.

Lemma lstrip_back_clean s : PyStr.space_width_back (PyStr.lstrip_back s) = O.
Proof. apply drop_chars_clean. reflexivity. Qed.

(** What [strip] returns has no white space at either end. *)
Lemma strip_trimmed s : trimmed (PyStr.strip s).
Proof.
  unfold trimmed, starts_clean, ends_clean, PyStr.strip.
  set (t := PyStr.lstrip s).
  set (u := PyStr.lstrip_back (PyStr.rev t)).
  split.
  - destruct (drop_chars_split PyStr.space_width_back (PyStr.rev t) 0)
      as [a Ha].
    fold (PyStr.lstrip_back (PyStr.rev t)) in Ha. fold u in Ha.
    assert (Ht : t = PyStr.rev u ++ PyStr.rev a).
    { rewrite <- (rev_involutive t), Ha, rev_app. reflexivity. }
    apply (width_cut PyStr.space_width space_width_prefix _ (PyStr.rev a)).
    rewrite <- Ht. apply lstrip_clean.
  - rewrite rev_involutive. apply lstrip_back_clean.
Qed.

(** A text without white space at either end is not changed. *)
Lemma trimmed_strip s : trimmed s -> PyStr.strip s = s.
Proof.
  intros [H1 H2]. unfold PyStr.strip, PyStr.lstrip, PyStr.lstrip_back.
  rewrite (drop_chars_fixed _ s H1), (drop_chars_fixed _ _ H2).
  apply rev_involutive.
Qed.

Lemma strip_idempotent s : PyStr.strip (PyStr.strip s) = PyStr.strip s.
Proof. apply trimmed_strip, strip_trimmed. Qed.

Lemma strip_empty : PyStr.strip EmptyString = EmptyString.
Proof. reflexivity. Qed.

(** ** Texts that can be encoded *)

Ltac to_orders_n :=
  repeat match goal with
  | H : _ && _ = true |- _ => apply andb_true_iff in H; destruct H
  | H : _ || _ = true |- _ => apply orb_true_iff in H; destruct H
  | H : (_ =? _)%nat = true |- _ => apply Nat.eqb_eq in H
  | H : (_ <=? _)%nat = true |- _ => apply Nat.leb_le in H
  | H : (_ <=? _)%nat = false |- _ => apply Nat.leb_gt in H
  | H : (_ <? _)%nat = true |- _ => apply Nat.ltb_lt in H
  | H : (_ <? _)%nat = false |- _ => apply Nat.ltb_ge in H
  end.

Lemma code_N c : N_of_ascii c = N.of_nat (PyStr.code c).
Proof. unfold PyStr.code, nat_of_ascii. rewrite N2Nat.id. reflexivity. Qed.

Lemma is_continuation_N c :
  PyStr.is_continuation c = (128 <=? N_of_ascii c)%N && (N_of_ascii c <? 192)%N.
Proof.
  unfold PyStr.is_continuation. rewrite code_N.
  generalize (PyStr.code c). intros n.
  destruct (Nat.leb_spec 128 n), (Nat.ltb_spec n 192),
    (N.leb_spec 128 (N.of_nat n)), (N.ltb_spec (N.of_nat n) 192);
    try reflexivity; lia.
Qed.

(** A white-space character is a character, and no surrogate. *)
Lemma space_decode s k :
  PyStr.space_width s = S k ->
  exists cp,
    PyStr.decode_head s = Some (cp, S k) /\ PyStr.is_surrogate cp = false.
Proof.
  unfold PyStr.space_width.
  destruct s as [|a r1]; [discriminate|].
  destruct (PyStr.is_space a) eqn:Ea.
  - intros H. injection H as <-.
    exists (N_of_ascii a). unfold PyStr.decode_head.
    assert (Hlt : (N_of_ascii a < 128)%N).
    { rewrite code_N. unfold PyStr.is_space in Ea. cbv zeta in Ea.
      to_orders_n; lia. }
    rewrite (proj2 (N.ltb_lt _ _) Hlt). split; [reflexivity|].
    unfold PyStr.is_surrogate.
    destruct (N.leb_spec 55296 (N_of_ascii a)); [lia|reflexivity].
  - destruct r1 as [|b r2]; [discriminate|].
    destruct (PyStr.is_space2 a b) eqn:Eb.
    + intros H. injection H as <-.
      unfold PyStr.is_space2 in Eb. cbv zeta in Eb.
      apply andb_true_iff in Eb. destruct Eb as [Ha Hb].
      apply Nat.eqb_eq in Ha.
      assert (Hx : N_of_ascii a = 194%N) by (rewrite code_N, Ha; reflexivity).
      assert (Hy : (N_of_ascii b = 133 \/ N_of_ascii b = 160)%N).
      { rewrite code_N. apply orb_true_iff in Hb.
        destruct Hb as [Hb|Hb]; apply Nat.eqb_eq in Hb; rewrite Hb;
          [left|right]; reflexivity. }
      unfold PyStr.decode_head. rewrite is_continuation_N, Hx.
      destruct Hy as [-> | ->]; eexists; split; reflexivity.
    + destruct r2 as [|c r3]; [discriminate|].
      destruct (PyStr.is_space3 a b c) eqn:Ec; [|discriminate].
      intros H. injection H as <-.
      unfold PyStr.is_space3 in Ec. cbv zeta in Ec.
      assert (Hcase :
        ((N_of_ascii a = 225 /\ N_of_ascii b = 154 /\ N_of_ascii c = 128) \/
         (N_of_ascii a = 226 /\ N_of_ascii b = 128 /\
          128 <= N_of_ascii c <= 175) \/
         (N_of_ascii a = 226 /\ N_of_ascii b = 129 /\ N_of_ascii c = 159) \/
         (N_of_ascii a = 227 /\ N_of_ascii b = 128 /\ N_of_ascii c = 128))%N).
      { rewrite !code_N. to_orders_n; lia. }
      unfold PyStr.decode_head. rewrite !is_continuation_N.
      destruct Hcase
        as [(-> & -> & ->) | [(-> & -> & Hc) | [(-> & -> & ->) | (-> & -> & ->)]]];
        try (eexists; split; reflexivity).
      assert (H1 : (128 <=? N_of_ascii c)%N = true) by (apply N.leb_le; lia).
      assert (H2 : (N_of_ascii c <? 192)%N = true) by (apply N.ltb_lt; lia).
      rewrite H1, H2. cbn [negb andb].
      change ((128 <=? 128)%N && (128 <? 192)%N) with true. cbn [negb].
      change ((194 <=? 226)%N && (226 <? 224)%N) with false.
      change ((224 <=? 226)%N && (226 <? 240)%N) with true. cbv iota.
      set (cp := ((((226 - 224) * 64 + (128 - 128)) * 64
                   + (N_of_ascii c - 128)))%N).
      assert (Hcp : (8192 <= cp < 8300)%N) by (unfold cp; lia).
      change ((226 <? 128)%N) with false. cbv iota.
      destruct (N.leb_spec 2048 cp); [|lia].
      exists cp. split; [reflexivity|].
      unfold PyStr.is_surrogate.
      destruct (N.leb_spec 55296 cp); [lia|reflexivity].
Qed.

(** Dropping white space at the start keeps the text one that can be
    encoded. *)
Lemma encodable_drop_chars s : forall skip,
  PyStr.encodable_from skip s = true ->
  PyStr.encodable (PyStr.drop_chars PyStr.space_width skip s) = true.
Proof.
  induction s as [|c r IH]; intros skip H; [reflexivity|].
  cbn [PyStr.drop_chars]. destruct skip as [|k].
  - destruct (PyStr.space_width (String c r)) as [|k] eqn:E; [exact H|].
    destruct (space_decode _ _ E) as (cp & Hd & Hs).
    cbn [PyStr.encodable_from] in H. rewrite Hd, Hs in H.
    apply IH. exact H.
  - apply IH. exact H.
Qed.

(** The character at the head of a text is that of the text cut before
    the first byte of another. *)
Lemma decode_head_cut c r p cp n :
  head_lead p ->
  PyStr.decode_head (String c (r ++ p)) = Some (cp, n) ->
  PyStr.decode_head (String c r) = Some (cp, n).
Proof.
  intros Hp. unfold PyStr.decode_head.
  destruct (N_of_ascii c <? 128)%N; [intros H; exact H|].
  destruct r as [|b r2].
  - destruct p as [|x p]; [intros H; exact H|].
    cbn [append]. simpl in Hp. rewrite Hp. discriminate.
  - cbn [append]. destruct (negb (PyStr.is_continuation b));
      [intros H; exact H|].
    destruct ((194 <=? N_of_ascii c)%N && (N_of_ascii c <? 224)%N);
      [intros H; exact H|].
    destruct r2 as [|d r3].
    + destruct p as [|x p]; [intros H; exact H|].
      cbn [append]. simpl in Hp. rewrite Hp. discriminate.
    + cbn [append]. destruct (negb (PyStr.is_continuation d));
        [intros H; exact H|].
      destruct ((224 <=? N_of_ascii c)%N && (N_of_ascii c <? 240)%N);
        [intros H; exact H|].
      destruct r3 as [|f r4].
      * destruct p as [|x p]; [intros H; exact H|].
        cbn [append]. simpl in Hp. rewrite Hp. discriminate.
      * cbn [append]. intros H; exact H.
Qed.

Lemma encodable_cut p : head_lead p -> forall v skip,
  PyStr.encodable_from skip (v ++ p) = true ->
  PyStr.encodable_from skip v = true.
Proof.
  intros Hp. induction v as [|c r IH]; intros skip H; [reflexivity|].
  cbn [append PyStr.encodable_from] in H |- *.
  destruct skip as [|k]; [|apply IH, H].
  destruct (PyStr.decode_head (String c (r ++ p))) as [[cp [|k]]|] eqn:E;
    try discriminate.
  rewrite (decode_head_cut c r p cp (S k) Hp E).
  apply andb_true_iff in H. destruct H as [-> H]. apply IH, H.
Qed.

(** One white-space character at the end of a text, the text being
    given last byte first. *)
Lemma lstrip_back_step u k :
  PyStr.space_width_back u = S k ->
  exists q u',
    u = q ++ u' /\ String.length q = S k /\
    PyStr.lstrip_back u = PyStr.lstrip_back u' /\
    head_lead (PyStr.rev q).
Proof.
  unfold PyStr.lstrip_back.
  destruct u as [|a r1]; [discriminate|].
  intros H. cbn [PyStr.drop_chars]. rewrite H.
  revert H. unfold PyStr.space_width_back.
  destruct (PyStr.is_space a) eqn:Ea.
  - intros H. injection H as <-.
    exists (String a ""), r1.
    split; [reflexivity|]. split; [reflexivity|]. split.
    + destruct r1; reflexivity.
    + change (PyStr.is_continuation a = false).
      unfold PyStr.is_space in Ea. unfold PyStr.is_continuation.
      cbv zeta in Ea |- *. to_orders_n;
        destruct (Nat.leb_spec 128 (PyStr.code a)); try reflexivity; lia.
  - destruct r1 as [|b r2]; [discriminate|].
    destruct (PyStr.is_space2 b a) eqn:Eb.
    + intros H. injection H as <-.
      exists (String a (String b "")), r2.
      split; [reflexivity|]. split; [reflexivity|]. split.
      * destruct r2; reflexivity.
      * change (PyStr.is_continuation b = false).
        unfold PyStr.is_space2 in Eb. unfold PyStr.is_continuation.
        cbv zeta in Eb |- *. to_orders_n;
          destruct (Nat.ltb_spec (PyStr.code b) 192);
          try (apply andb_false_r); lia.
    + destruct r2 as [|c r3]; [discriminate|].
      destruct (PyStr.is_space3 c b a) eqn:Ec; [|discriminate].
      intros H. injection H as <-.
      exists (String a (String b (String c ""))), r3.
      split; [reflexivity|]. split; [reflexivity|]. split.
      * cbn [PyStr.drop_chars]. destruct r3; reflexivity.
      * change (PyStr.is_continuation c = false).
        unfold PyStr.is_space3 in Ec. unfold PyStr.is_continuation.
        cbv zeta in Ec |- *. to_orders_n;
          destruct (Nat.ltb_spec (PyStr.code c) 192);
          try (apply andb_false_r); lia.
Qed.

Lemma encodable_lstrip_back n : forall u,
  (String.length u <= n)%nat ->
  PyStr.encodable (PyStr.rev u) = true ->
  PyStr.encodable (PyStr.rev (PyStr.lstrip_back u)) = true.
Proof.
  induction n as [|n IH]; intros u Hn H.
  - destruct u; [exact H|simpl in Hn; lia].
  - destruct (PyStr.space_width_back u) as [|k] eqn:E.
    + unfold PyStr.lstrip_back. rewrite (drop_chars_fixed _ u E). exact H.
    + destruct (lstrip_back_step u k E) as (q & u' & -> & Hq & -> & Hlead).
      apply IH.
      * rewrite length_app_s in Hn. lia.
      * rewrite rev_app in H.
        exact (encodable_cut _ Hlead _ _ H).
Qed.

(** [strip] keeps a text one that can be encoded. *)
Lemma encodable_strip s :
  PyStr.encodable s = true -> PyStr.encodable (PyStr.strip s) = true.
Proof.
  intros H. unfold PyStr.strip.
  apply (encodable_lstrip_back (String.length (PyStr.rev (PyStr.lstrip s))));
    [apply Nat.le_refl|].
  rewrite rev_involutive. apply encodable_drop_chars. exact H.
Qed.
(** * Doubles *)

(** ** Bit lengths *)

Lemma digits2_bounds p :
  2 ^ (Z.pos (digits2_pos p) - 1) <= Z.pos p < 2 ^ Z.pos (digits2_pos p).
Proof.
  induction p as [p IH|p IH|]; cbn [digits2_pos].
  - rewrite Pos2Z.inj_succ, (Pos2Z.inj_xI p).
    replace (Z.succ (Z.pos (digits2_pos p)) - 1)
      with (Z.succ (Z.pos (digits2_pos p) - 1)) by lia.
    rewrite !Z.pow_succ_r by lia.
    revert IH. generalize (2 ^ (Z.pos (digits2_pos p) - 1)).
    generalize (2 ^ Z.pos (digits2_pos p)). lia.
  - rewrite Pos2Z.inj_succ, (Pos2Z.inj_xO p).
    replace (Z.succ (Z.pos (digits2_pos p)) - 1)
      with (Z.succ (Z.pos (digits2_pos p) - 1)) by lia.
    rewrite !Z.pow_succ_r by lia.
    revert IH. generalize (2 ^ (Z.pos (digits2_pos p) - 1)).
    generalize (2 ^ Z.pos (digits2_pos p)). lia.
  - simpl. lia.
Qed.

Lemma pow2_le a b : a <= b -> 2 ^ a <= 2 ^ b.
Proof. intros H. apply Z.pow_le_mono_r; lia. Qed.

Lemma pow2_pos a : 0 <= a -> 0 < 2 ^ a.
Proof. intros H. apply Z.pow_pos_nonneg; lia. Qed.

Lemma pow2_split a b : 0 <= a -> 0 <= b -> 2 ^ (a + b) = 2 ^ a * 2 ^ b.
Proof. intros Ha Hb. apply Z.pow_add_r; assumption. Qed.

Lemma digits2_unique p k :
  2 ^ (k - 1) <= Z.pos p < 2 ^ k -> Z.pos (digits2_pos p) = k.
Proof.
  intros [H1 H2]. pose proof (digits2_bounds p) as [B1 B2].
  destruct (Z.lt_trichotomy (Z.pos (digits2_pos p)) k) as [L|[L|L]];
    [|exact L|].
  - pose proof (pow2_le (Z.pos (digits2_pos p)) (k - 1)). lia.
  - pose proof (pow2_le k (Z.pos (digits2_pos p) - 1)). lia.
Qed.

Lemma Zdigits2_bounds m :
  0 < m -> 2 ^ (Zdigits2 m - 1) <= m < 2 ^ Zdigits2 m.
Proof. destruct m as [|p|p]; try lia. intros _. apply digits2_bounds. Qed.

Lemma Zdigits2_unique m k :
  0 < m -> 2 ^ (k - 1) <= m < 2 ^ k -> Zdigits2 m = k.
Proof. destruct m as [|p|p]; try lia. intros _. apply digits2_unique. Qed.

Lemma Zdigits2_pos m : 0 < m -> 0 < Zdigits2 m.
Proof. destruct m; simpl; lia. Qed.

(** ** Shifting to the right *)

Lemma shr_record_of_loc_m m l : shr_m (shr_record_of_loc m l) = m.
Proof. destruct l as [|[]]; reflexivity. Qed.

Lemma shr_1_half mrs : 0 <= shr_m mrs -> shr_m (shr_1 mrs) = shr_m mrs / 2.
Proof.
  destruct mrs as [[|[p|p|]|p] r s]; cbn [shr_1 shr_m]; intros H;
    try lia; try reflexivity; rewrite <- Z.div2_div; reflexivity.
Qed.

Lemma iter_shr_1 p : forall mrs,
  0 <= shr_m mrs ->
  shr_m (iter_pos shr_1 p mrs) = shr_m mrs / 2 ^ Z.pos p.
Proof.
  induction p as [p IH|p IH|]; intros mrs H; cbn [iter_pos].
  - assert (H1 : 0 <= shr_m (shr_1 mrs)).
    { rewrite shr_1_half by exact H. apply Z.div_pos; lia. }
    assert (H2 : 0 <= shr_m (iter_pos shr_1 p (shr_1 mrs))).
    { rewrite IH by exact H1. apply Z.div_pos; [lia|apply pow2_pos; lia]. }
    rewrite IH, IH, shr_1_half by assumption.
    pose proof (pow2_pos (Z.pos p)).
    rewrite !Z.div_div by lia. f_equal.
    rewrite (Pos2Z.inj_xI p).
    replace (2 * Z.pos p + 1) with (1 + Z.pos p + Z.pos p) by lia.
    rewrite !pow2_split by lia. change (2 ^ 1) with 2. ring.
  - assert (H2 : 0 <= shr_m (iter_pos shr_1 p mrs)).
    { rewrite IH by exact H. apply Z.div_pos; [lia|apply pow2_pos; lia]. }
    rewrite IH, IH by assumption.
    pose proof (pow2_pos (Z.pos p)).
    rewrite !Z.div_div by lia. f_equal.
    rewrite (Pos2Z.inj_xO p).
    replace (2 * Z.pos p) with (Z.pos p + Z.pos p) by lia.
    rewrite !pow2_split by lia. change (2 ^ 1) with 2. ring.
  - apply shr_1_half, H.
Qed.

Lemma shr_1_double m :
  0 <= m ->
  shr_1 (Build_shr_record (2 * m) false false) = Build_shr_record m false false.
Proof. destruct m; try lia; reflexivity. Qed.

Lemma iter_shr_1_exact p : forall m,
  0 <= m ->
  iter_pos shr_1 p (Build_shr_record (m * 2 ^ Z.pos p) false false)
  = Build_shr_record m false false.
Proof.
  induction p as [p IH|p IH|]; intros m H; cbn [iter_pos].
  - pose proof (pow2_pos (Z.pos p)).
    rewrite (Pos2Z.inj_xI p).
    replace (2 * Z.pos p + 1) with (1 + Z.pos p + Z.pos p) by lia.
    rewrite !pow2_split by lia.
    replace (m * (2 ^ 1 * 2 ^ Z.pos p * 2 ^ Z.pos p))
      with (2 * (m * 2 ^ Z.pos p * 2 ^ Z.pos p)) by (change (2 ^ 1) with 2; ring).
    rewrite shr_1_double by nia.
    rewrite IH by nia. apply IH, H.
  - pose proof (pow2_pos (Z.pos p)).
    rewrite (Pos2Z.inj_xO p).
    replace (2 * Z.pos p) with (Z.pos p + Z.pos p) by lia.
    rewrite !pow2_split by lia.
    rewrite Z.mul_assoc.
    rewrite IH by nia. apply IH, H.
  - change (2 ^ 1) with 2. rewrite Z.mul_comm. apply shr_1_double, H.
Qed.

(** What [shr_fexp] leaves: the mantissa divided by the power of two
    that brings the exponent up to [fexp]. *)
Lemma shr_fexp_spec m e l mrs e' :
  0 <= m ->
  shr_fexp prec emax m e l = (mrs, e') ->
  e' = Z.max e (fexp prec emax (Zdigits2 m + e)) /\
  shr_m mrs = m / 2 ^ (e' - e).
Proof.
  intros Hm. unfold shr_fexp, shr.
  destruct (fexp prec emax (Zdigits2 m + e) - e) as [|n|n] eqn:E;
    intros H; injection H as <- <-.
  - split; [lia|]. rewrite shr_record_of_loc_m, Z.sub_diag.
    symmetry. apply Z.div_1_r.
  - split; [lia|]. rewrite iter_shr_1 by (rewrite shr_record_of_loc_m; exact Hm).
    rewrite shr_record_of_loc_m. f_equal. f_equal. lia.
  - split; [lia|]. rewrite shr_record_of_loc_m, Z.sub_diag.
    symmetry. apply Z.div_1_r.
Qed.

Lemma round_nearest_even_cases m l :
  round_nearest_even m l = m \/ round_nearest_even m l = m + 1.
Proof.
  destruct l as [|[]]; cbn [round_nearest_even]; auto.
  destruct (Z.even m); auto.
Qed.

(** ** Values a double holds exactly *)

Lemma bounded_parts m e :
  bounded prec emax m e = true ->
  fexp prec emax (Z.pos (digits2_pos m) + e) = e /\ e <= emax - prec.
Proof.
  unfold bounded, canonical_mantissa. intros H.
  apply andb_true_iff in H. destruct H as [H1 H2].
  apply Z.eqb_eq in H1. apply Z.leb_le in H2. split; assumption.
Qed.

(** Rounding leaves [m * 2 ^ e] as it is, however the mantissa is
    padded with zero bits. *)
Lemma round_aux_exact s a m e j :
  bounded prec emax m e = true -> 0 <= j ->
  Z.pos a = Z.pos m * 2 ^ j ->
  binary_round_aux prec emax s (Z.pos a) (e - j) loc_Exact
  = S754_finite s m e.
Proof.
  intros Hb Hj Ha. destruct (bounded_parts _ _ Hb) as [Hc He].
  assert (Hd : Z.pos (digits2_pos a) = Z.pos (digits2_pos m) + j).
  { apply digits2_unique. rewrite Ha.
    pose proof (digits2_bounds m) as [B1 B2].
    pose proof (pow2_pos j Hj).
    replace (Z.pos (digits2_pos m) + j - 1)
      with (Z.pos (digits2_pos m) - 1 + j) by lia.
    rewrite !pow2_split by lia. nia. }
  assert (Hstep : shr_fexp prec emax (Z.pos a) (e - j) loc_Exact
                  = (Build_shr_record (Z.pos m) false false, e)).
  { unfold shr_fexp. cbn [Zdigits2 shr_record_of_loc]. rewrite Hd.
    replace (Z.pos (digits2_pos m) + j + (e - j))
      with (Z.pos (digits2_pos m) + e) by lia.
    rewrite Hc. replace (e - (e - j)) with j by lia.
    destruct j as [|j|j]; [| |lia]; cbn [shr].
    - rewrite Z.sub_0_r. change (2 ^ 0) with 1 in Ha.
      rewrite Z.mul_1_r in Ha. rewrite Ha. reflexivity.
    - rewrite Ha, iter_shr_1_exact by lia. f_equal. lia. }
  unfold binary_round_aux. rewrite Hstep.
  cbn [shr_m loc_of_shr_record round_nearest_even].
  unfold shr_fexp. cbn [Zdigits2 shr_record_of_loc]. rewrite Hc, Z.sub_diag.
  cbn [shr shr_m].
  apply Z.leb_le in He. rewrite He. reflexivity.
Qed.

Lemma div_eucl_exact a b q :
  0 < b -> a = q * b -> Z.div_eucl a b = (q, 0).
Proof.
  intros Hb ->.
  pose proof (Z.div_mul q b ltac:(lia)) as Hq.
  pose proof (Z.mod_mul q b ltac:(lia)) as Hr.
  unfold Z.div, Z.modulo in Hq, Hr.
  destruct (Z.div_eucl (q * b) b) as [x y]. congruence.
Qed.

Lemma new_location_exact b : new_location b 0 = loc_Exact.
Proof.
  unfold new_location, new_location_even, new_location_odd.
  destruct (Z.even b); reflexivity.
Qed.

(** The quotient [a / b] is the double [m * 2 ^ e]. *)
Lemma of_ratio_exact s a b m e :
  bounded prec emax m e = true ->
  Z.pos a * 2 ^ Z.max (- e) 0 = Z.pos m * 2 ^ Z.max e 0 * Z.pos b ->
  of_ratio s a b = S754_finite s m e.
Proof.
  intros Hb Hv. destruct (bounded_parts _ _ Hb) as [Hc He].
  pose proof (digits2_bounds a) as [A1 A2].
  pose proof (digits2_bounds b) as [B1 B2].
  pose proof (digits2_bounds m) as [M1 M2].
  set (d1 := Z.pos (digits2_pos a)) in *.
  set (d2 := Z.pos (digits2_pos b)) in *.
  set (dm := Z.pos (digits2_pos m)) in *.
  assert (P1 : 0 < d1) by (unfold d1; lia).
  assert (P2 : 0 < d2) by (unfold d2; lia).
  assert (Pm : 0 < dm) by (unfold dm; lia).
  (* the quotient has the bits of the mantissa at most *)
  assert (Hdig : d1 - d2 <= dm + e).
  { destruct (Z.le_gt_cases (d1 - d2) (dm + e)) as [L|L]; [exact L|exfalso].
    destruct (Z.le_gt_cases 0 e) as [E|E].
    - rewrite (Z.max_r (- e) 0), (Z.max_l e 0) in Hv by lia.
      change (2 ^ 0) with 1 in Hv. rewrite Z.mul_1_r in Hv.
      pose proof (pow2_le (dm + e + d2) (d1 - 1) ltac:(lia)) as Hp.
      rewrite !pow2_split in Hp by lia.
      pose proof (pow2_pos e E). pose proof (pow2_pos dm ltac:(lia)).
      pose proof (pow2_pos d2 ltac:(lia)).
      assert (Z.pos m * 2 ^ e < 2 ^ dm * 2 ^ e) by nia.
      assert (Z.pos m * 2 ^ e * Z.pos b < 2 ^ dm * 2 ^ e * 2 ^ d2) by nia.
      lia.
    - rewrite (Z.max_l (- e) 0), (Z.max_r e 0) in Hv by lia.
      change (2 ^ 0) with 1 in Hv. rewrite Z.mul_1_r in Hv.
      pose proof (pow2_le (dm + d2) (d1 - 1 + - e) ltac:(lia)) as Hp.
      rewrite !pow2_split in Hp by lia.
      pose proof (pow2_pos (- e) ltac:(lia)). pose proof (pow2_pos dm ltac:(lia)).
      pose proof (pow2_pos d2 ltac:(lia)).
      assert (Z.pos m * Z.pos b < 2 ^ dm * 2 ^ d2) by nia.
      assert (2 ^ (d1 - 1) * 2 ^ (- e) <= Z.pos a * 2 ^ (- e)) by nia.
      lia. }
  unfold of_ratio, SFdiv, SFdiv_core_binary. cbn [Zdigits2].
  fold d1 d2. rewrite !Z.add_0_r, Z.sub_diag.
  set (e' := Z.min (fexp prec emax (d1 - d2)) 0).
  assert (He' : e' <= e /\ e' <= 0).
  { unfold e'. revert Hc. unfold fexp, emin, prec, emax. fold dm. lia. }
  destruct He' as [He1 He2].
  assert (Hm' : match 0 - e' with
                | Z.pos _ => Z.shiftl (Z.pos a) (0 - e')
                | 0 => Z.pos a
                | Z.neg _ => 0
                end = Z.pos a * 2 ^ (- e')).
  { destruct (0 - e') as [|k|k] eqn:E.
    - replace (- e') with 0 by lia. change (2 ^ 0) with 1. lia.
    - rewrite Z.shiftl_mul_pow2 by lia. f_equal. f_equal. lia.
    - lia. }
  rewrite Hm'.
  assert (Hq : Z.pos a * 2 ^ (- e') = Z.pos m * 2 ^ (e - e') * Z.pos b).
  { destruct (Z.le_gt_cases 0 e) as [E|E].
    - rewrite (Z.max_r (- e) 0), (Z.max_l e 0) in Hv by lia.
      change (2 ^ 0) with 1 in Hv. rewrite Z.mul_1_r in Hv.
      replace (e - e') with (e + - e') by lia.
      rewrite pow2_split by lia. rewrite Hv. ring.
    - rewrite (Z.max_l (- e) 0), (Z.max_r e 0) in Hv by lia.
      change (2 ^ 0) with 1 in Hv. rewrite Z.mul_1_r in Hv.
      replace (- e') with (- e + (e - e')) by lia.
      rewrite pow2_split by lia. rewrite Z.mul_assoc, Hv. ring. }
  rewrite (div_eucl_exact _ _ (Z.pos m * 2 ^ (e - e')) (Pos2Z.is_pos b) Hq).
  rewrite new_location_exact.
  pose proof (pow2_pos (e - e') ltac:(lia)) as Hpos.
  destruct (Z.pos m * 2 ^ (e - e')) as [|q|q] eqn:Eq; try lia.
  replace e' with (e - (e - e')) at 1 by lia.
  replace (xorb s false) with s by (destruct s; reflexivity).
  apply round_aux_exact; [exact Hb|lia|symmetry; exact Eq].
Qed.

(** The integer [m * 2 ^ e] is the double [m * 2 ^ e]. *)
Lemma binary_normalize_exact a m e :
  bounded prec emax m e = true -> 0 <= e ->
  Z.pos a = Z.pos m * 2 ^ e ->
  binary_normalize prec emax (Z.pos a) 0 false = S754_finite false m e.
Proof.
  intros Hb He Ha. destruct (bounded_parts _ _ Hb) as [Hc _].
  assert (Hd : Z.pos (digits2_pos a) = Z.pos (digits2_pos m) + e).
  { apply digits2_unique. rewrite Ha.
    pose proof (digits2_bounds m) as [B1 B2].
    pose proof (pow2_pos e He).
    replace (Z.pos (digits2_pos m) + e - 1)
      with (Z.pos (digits2_pos m) - 1 + e) by lia.
    rewrite !pow2_split by lia. nia. }
  cbn [binary_normalize]. unfold binary_round, shl_align.
  rewrite Z.add_0_r, Hd, Hc, Z.sub_0_r.
  destruct e as [|k|k] eqn:E; [| |lia].
  - replace 0 with (0 - 0) at 1 by reflexivity.
    apply round_aux_exact; [exact Hb|lia|exact Ha].
  - replace 0 with (Z.pos k - Z.pos k) by lia.
    apply round_aux_exact; [exact Hb|lia|exact Ha].
Qed.

(** ** The sign *)

Lemma binary_round_aux_opp m e l :
  binary_round_aux prec emax true m e l
  = SFopp (binary_round_aux prec emax false m e l).
Proof.
  unfold binary_round_aux.
  destruct (shr_fexp prec emax m e l) as [mrs e1].
  destruct (shr_fexp prec emax _ e1 loc_Exact) as [mrs2 e2].
  destruct (shr_m mrs2); [reflexivity| |reflexivity].
  destruct (e2 <=? emax - prec); reflexivity.
Qed.

Lemma of_ratio_opp a b : of_ratio true a b = SFopp (of_ratio false a b).
Proof.
  unfold of_ratio, SFdiv.
  destruct (SFdiv_core_binary prec emax (Z.pos a) 0 (Z.pos b) 0) as [[mz ez] lz].
  apply binary_round_aux_opp.
Qed.

Lemma of_decimal_opp n q :
  of_decimal true n q = SFopp (of_decimal false n q).
Proof.
  unfold of_decimal. destruct n as [|p|p]; [reflexivity| |reflexivity].
  assert (Hn : forall k, 0 <= k ->
            binary_normalize prec emax (- (Z.pos p * 10 ^ k)) 0 false
            = SFopp (binary_normalize prec emax (Z.pos p * 10 ^ k) 0 false)).
  { intros k Hk.
    pose proof (Z.pow_pos_nonneg 10 k ltac:(lia) Hk) as Hpos.
    destruct (Z.pos p * 10 ^ k) as [|x|x] eqn:E; try lia.
    cbn [Z.opp binary_normalize]. unfold binary_round.
    destruct (shl_align x 0 _) as [mz ez]. apply binary_round_aux_opp. }
  destruct q as [|k|k].
  - apply (Hn 0). lia.
  - apply (Hn (Z.pos k)). lia.
  - apply of_ratio_opp.
Qed.

(** ** What rounding returns is a double *)

Lemma pow2_lt_inv a b : 2 ^ a < 2 ^ b -> a < b.
Proof.
  intros H. destruct (Z.lt_ge_cases a b) as [L|L]; [exact L|].
  pose proof (pow2_le b a L). lia.
Qed.

Lemma Zdigits2_div m n :
  0 < m -> 0 <= n -> 0 < m / 2 ^ n ->
  Zdigits2 (m / 2 ^ n) = Zdigits2 m - n.
Proof.
  intros Hm Hn Hq.
  pose proof (Zdigits2_bounds m Hm) as [B1 B2].
  pose proof (Zdigits2_pos m Hm) as Hd.
  pose proof (pow2_pos n Hn) as Hp.
  assert (Hge : 2 ^ n <= m).
  { destruct (Z.le_gt_cases (2 ^ n) m) as [L|L]; [exact L|].
    rewrite Z.div_small in Hq by lia. lia. }
  assert (Hlt : n < Zdigits2 m) by (apply pow2_lt_inv; lia).
  apply Zdigits2_unique; [exact Hq|]. split.
  - apply Z.div_le_lower_bound; [exact Hp|].
    rewrite <- pow2_split by lia.
    replace (n + (Zdigits2 m - n - 1)) with (Zdigits2 m - 1) by lia.
    exact B1.
  - apply Z.div_lt_upper_bound; [exact Hp|].
    rewrite <- pow2_split by lia.
    replace (n + (Zdigits2 m - n)) with (Zdigits2 m) by lia.
    exact B2.
Qed.

Lemma Zdigits2_pow2 k : 0 <= k -> Zdigits2 (2 ^ k) = k + 1.
Proof.
  intros Hk. pose proof (pow2_pos k Hk).
  apply Zdigits2_unique; [lia|].
  replace (k + 1 - 1) with k by lia.
  replace (k + 1) with (1 + k) by lia.
  rewrite (pow2_split 1 k) by lia. change (2 ^ 1) with 2. lia.
Qed.

Lemma fexp_eq k : fexp prec emax k = Z.max (k - 53) (-1074).
Proof. reflexivity. Qed.

(** The mantissa is cut to 53 bits, and a carry into the 54th is cut
    again. *)
Lemma round_aux_valid s mx ex lx :
  0 <= mx -> ex <= fexp prec emax (Zdigits2 mx + ex) ->
  valid_binary prec emax (binary_round_aux prec emax s mx ex lx) = true.
Proof.
  intros Hm Hex. unfold binary_round_aux.
  destruct (shr_fexp prec emax mx ex lx) as [mrs1 e1] eqn:S1.
  destruct (shr_fexp_spec _ _ _ _ _ Hm S1) as [He1 Hm1].
  set (m1 := shr_m mrs1) in *.
  set (m2 := round_nearest_even m1 (loc_of_shr_record mrs1)).
  assert (Hn : 0 <= e1 - ex) by lia.
  pose proof (pow2_pos _ Hn) as Hp.
  assert (Hm1' : 0 <= m1) by (rewrite Hm1; apply Z.div_pos; lia).
  assert (Hm2 : 0 <= m2).
  { unfold m2.
    destruct (round_nearest_even_cases m1 (loc_of_shr_record mrs1)) as [->| ->];
      lia. }
  destruct (shr_fexp prec emax m2 e1 loc_Exact) as [mrs2 e2] eqn:S2.
  destruct (shr_fexp_spec _ _ _ _ _ Hm2 S2) as [He2 Hm3].
  destruct (shr_m mrs2) as [|m3|m3] eqn:E3; [reflexivity| |reflexivity].
  destruct (e2 <=? emax - prec) eqn:L; [|reflexivity].
  cbn [valid_binary]. unfold bounded. rewrite L, andb_true_r.
  unfold canonical_mantissa. apply Z.eqb_eq.
  change (Z.pos (digits2_pos m3)) with (Zdigits2 (Z.pos m3)).
  rewrite Hm3. clear L S1 S2 E3 Hm3 mrs2.
  assert (He1' : e1 = fexp prec emax (Zdigits2 mx + ex)) by lia.
  (* the first cut *)
  assert (Hfirst : (m1 = 0 /\ e1 = -1074) \/
                   (0 < m1 /\ fexp prec emax (Zdigits2 m1 + e1) = e1)).
  { destruct (Z.eq_dec m1 0) as [Z1|Z1].
    - left. split; [exact Z1|].
      destruct (Z.eq_dec mx 0) as [Zx|Zx].
      + subst mx. cbn [Zdigits2] in He1'. rewrite fexp_eq in He1', Hex.
        cbn [Zdigits2] in Hex. lia.
      + assert (Hlt : mx < 2 ^ (e1 - ex)).
        { destruct (Z.lt_ge_cases mx (2 ^ (e1 - ex))) as [G|G]; [exact G|].
          exfalso.
          assert (1 <= mx / 2 ^ (e1 - ex)).
          { apply Z.div_le_lower_bound; lia. }
          lia. }
        pose proof (Zdigits2_bounds mx ltac:(lia)) as [B1 B2].
        assert (Zdigits2 mx - 1 < e1 - ex) by (apply pow2_lt_inv; lia).
        rewrite fexp_eq in He1'. lia.
    - right. assert (P1 : 0 < m1) by lia. split; [exact P1|].
      assert (Px : 0 < mx).
      { destruct (Z.eq_dec mx 0) as [Zx|Zx]; [|lia].
        subst mx. rewrite Z.div_0_l in Hm1 by lia. lia. }
      rewrite Hm1 in P1 |- *.
      rewrite Zdigits2_div by assumption.
      replace (Zdigits2 mx - (e1 - ex) + e1) with (Zdigits2 mx + ex) by lia.
      symmetry. exact He1'. }
  assert (Hcases : m2 = m1 \/ m2 = m1 + 1)
    by apply round_nearest_even_cases.
  clearbody m2. clear He1' Hm1 Hex Hm Hn Hp.
  destruct Hfirst as [[Z1 Ee]|[P1 Hc]].
  - (* nothing was left of the mantissa *)
    destruct Hcases as [->| ->]; rewrite Z1 in *.
    + cbn [Zdigits2] in He2. rewrite Z.div_0_l.
      * cbn [Zdigits2]. rewrite fexp_eq in *. lia.
      * pose proof (pow2_pos (e2 - e1) ltac:(lia)). lia.
    + change (Zdigits2 (0 + 1)) with 1 in He2. rewrite fexp_eq in He2.
      assert (e2 = e1) by lia. clear He2. subst e2. rewrite Z.sub_diag.
      change (0 + 1) with 1. change (1 / 2 ^ 0) with 1.
      change (Zdigits2 1) with 1. rewrite fexp_eq. lia.
  - pose proof (Zdigits2_bounds m1 P1) as [B1 B2].
    pose proof (Zdigits2_pos m1 P1) as Pk.
    set (k := Zdigits2 m1) in *.
    destruct (Z.lt_ge_cases m2 (2 ^ k)) as [Lt|Ge].
    + (* no carry *)
      assert (Hd : Zdigits2 m2 = k)
        by (apply Zdigits2_unique; lia).
      rewrite Hd in He2. assert (e2 = e1) by lia. clear He2. subst e2.
      rewrite Z.sub_diag. change (2 ^ 0) with 1. rewrite Z.div_1_r.
      rewrite Hd. exact Hc.
    + (* a carry *)
      assert (Hm2' : m2 = 2 ^ k) by lia.
      rewrite Hm2' in *. rewrite Zdigits2_pow2 in He2 by lia.
      rewrite fexp_eq in Hc, He2.
      destruct (Z.eq_dec e2 e1) as [->|Ne].
      * rewrite Z.sub_diag. change (2 ^ 0) with 1. rewrite Z.div_1_r.
        rewrite Zdigits2_pow2 by lia. rewrite fexp_eq.
        change IntDef.Z.add with Z.add. lia.
      * assert (H : e2 = e1 + 1) by lia. rewrite H in He2 |- *. clear H.
        replace (e1 + 1 - e1) with 1 by lia. change (2 ^ 1) with 2.
        replace k with (1 + (k - 1)) at 1 by lia.
        rewrite pow2_split by lia. change (2 ^ 1) with 2.
        rewrite Z.mul_comm, Z.div_mul by lia.
        rewrite Zdigits2_pow2 by lia. rewrite fexp_eq.
        change IntDef.Z.add with Z.add. lia.
Qed.

(** The quotient of two integers is rounded to a double. *)
Lemma of_ratio_is_double s a b :
  valid_binary prec emax (of_ratio s a b) = true.
Proof.
  unfold of_ratio, SFdiv, SFdiv_core_binary. cbn [Zdigits2].
  pose proof (digits2_bounds a) as [A1 A2].
  pose proof (digits2_bounds b) as [B1 B2].
  set (d1 := Z.pos (digits2_pos a)) in *.
  set (d2 := Z.pos (digits2_pos b)) in *.
  assert (P1 : 0 < d1) by (unfold d1; lia).
  assert (P2 : 0 < d2) by (unfold d2; lia).
  rewrite !Z.add_0_r, Z.sub_diag.
  set (e' := Z.min (fexp prec emax (d1 - d2)) 0).
  assert (He' : e' <= 0) by (unfold e'; lia).
  assert (Hm' : match 0 - e' with
                | Z.pos _ => Z.shiftl (Z.pos a) (0 - e')
                | 0 => Z.pos a
                | Z.neg _ => 0
                end = Z.pos a * 2 ^ (- e')).
  { destruct (0 - e') as [|k|k] eqn:E.
    - replace (- e') with 0 by lia. change (2 ^ 0) with 1. lia.
    - rewrite Z.shiftl_mul_pow2 by lia. f_equal. f_equal. lia.
    - lia. }
  rewrite Hm'.
  pose proof (pow2_pos (- e') ltac:(lia)) as Hp.
  destruct (Z.div_eucl (Z.pos a * 2 ^ (- e')) (Z.pos b)) as [q r] eqn:Ed.
  assert (Hq : q = Z.pos a * 2 ^ (- e') / Z.pos b)
    by (unfold Z.div; rewrite Ed; reflexivity).
  assert (Hq0 : 0 <= q) by (rewrite Hq; apply Z.div_pos; lia).
  apply round_aux_valid; [exact Hq0|].
  rewrite fexp_eq.
  destruct (Z.le_gt_cases e' (-1074)) as [L|L]; [lia|].
  assert (HF : e' <= d1 - d2 - 53).
  { unfold e' in *. rewrite fexp_eq in *. lia. }
  assert (Hbig : 2 ^ 52 <= q).
  { rewrite Hq. apply Z.div_le_lower_bound; [lia|].
    pose proof (pow2_le (d2 + 52) (d1 - 1 + - e') ltac:(lia)) as Hpw.
    rewrite !pow2_split in Hpw by lia.
    pose proof (pow2_pos 52 ltac:(lia)).
    pose proof (pow2_pos d2 ltac:(lia)).
    assert (Z.pos b * 2 ^ 52 <= 2 ^ d2 * 2 ^ 52) by nia.
    assert (2 ^ (d1 - 1) * 2 ^ (- e') <= Z.pos a * 2 ^ (- e')) by nia.
    lia. }
  assert (Pq : 0 < q).
  { pose proof (pow2_pos 52 ltac:(lia)). lia. }
  pose proof (Zdigits2_bounds q Pq) as [_ Q2].
  assert (52 < Zdigits2 q) by (apply pow2_lt_inv; lia).
  lia.
Qed.

Lemma round2_is_double x : is_double (round2 x) = true.
Proof.
  unfold is_double, round2. destruct x as [s|s| |s m e]; try reflexivity.
  match goal with
  | |- context [match ?n with Z.pos _ => _ | _ => _ end] => destruct n
  end; try reflexivity.
  apply of_ratio_is_double.
Qed.

(** ** The text round trip of [json.dump] and [json.load] *)

(** *** Strings *)

(** Reading one escaped character. *)
Lemma scan_escape_char c f t :
  PyJson.scan_string (S f) (PyJson.escape_char c ++ t) =
  match PyJson.scan_string f t with
  | Some (s, rest) => Some (String c s, rest)
  | None => None
  end.
Proof. destruct c as [[] [] [] [] [] [] [] []]; reflexivity. Qed.

Lemma scan_escape s : forall rest f,
  (String.length s < f)%nat ->
  PyJson.scan_string f (PyJson.escape s ++ String PyJson.dquote rest)
  = Some (s, rest).
Proof.
  induction s as [|c s IH]; intros rest f Hf.
  - destruct f as [|f]; [lia|]. reflexivity.
  - destruct f as [|f]; [simpl in Hf; lia|].
    change (PyJson.escape (String c s)) with (PyJson.escape_char c ++ PyJson.escape s).
    rewrite app_assoc_s, scan_escape_char, IH by (simpl in Hf; lia).
    reflexivity.
Qed.

Lemma length_escape s : (String.length s <= String.length (PyJson.escape s))%nat.
Proof.
  induction s as [|c s IH]; [apply Nat.le_refl|].
  change (PyJson.escape (String c s)) with (PyJson.escape_char c ++ PyJson.escape s).
  rewrite length_app_s.
  assert (1 <= String.length (PyJson.escape_char c))%nat
    by (destruct c as [[] [] [] [] [] [] [] []]; vm_compute; lia).
  simpl. lia.
Qed.

Lemma encode_string_app s rest :
  PyJson.encode_string s ++ rest
  = String PyJson.dquote (PyJson.escape s ++ String PyJson.dquote rest).
Proof.
  unfold PyJson.encode_string.
  change (String PyJson.dquote (PyJson.escape s ++ String PyJson.dquote "") ++ rest)
    with (String PyJson.dquote ((PyJson.escape s ++ String PyJson.dquote "") ++ rest)).
  rewrite app_assoc_s. reflexivity.
Qed.

(** Reading a string literal, whatever is asked for after it. *)
Lemma scan_encode_string s rest pre :
  PyJson.scan_string
    (String.length (String pre (PyJson.escape s ++ String PyJson.dquote rest)))
    (PyJson.escape s ++ String PyJson.dquote rest)
  = Some (s, rest).
Proof.
  apply scan_escape. pose proof (length_escape s).
  cbn [String.length]. rewrite length_app_s. lia.
Qed.

Lemma parse_string_value f s rest :
  PyJson.parse_value (S f) (PyJson.encode_string s ++ rest) = Some (JStr s, rest).
Proof.
  rewrite encode_string_app.
  change (PyJson.parse_value (S f)
            (String PyJson.dquote (PyJson.escape s ++ String PyJson.dquote rest)))
    with (match PyJson.scan_string
                  (String.length (String PyJson.dquote
                     (PyJson.escape s ++ String PyJson.dquote rest)))
                  (PyJson.escape s ++ String PyJson.dquote rest) with
          | Some (t, r) => Some (JStr t, r)
          | None => None
          end).
  rewrite scan_encode_string. reflexivity.
Qed.

(** *** Numbers *)

Lemma number_stop_inv c :
  number_stop c = true ->
  PyStr.is_digit c = false /\ Ascii.eqb c "." = false /\
  Ascii.eqb c "e" = false /\ Ascii.eqb c "E" = false /\
  Ascii.eqb c "+" = false /\ Ascii.eqb c "-" = false.
Proof.
  unfold number_stop. intros H. apply negb_true_iff in H.
  repeat (apply orb_false_iff in H; destruct H as [H ?]).
  repeat split; assumption.
Qed.

Lemma span_digits_stop rest :
  delimited rest -> PyJson.span_digits rest = (EmptyString, rest).
Proof.
  destruct rest as [|c x]; intros H; [reflexivity|].
  apply number_stop_inv in H. destruct H as [H _].
  cbn [PyJson.span_digits]. rewrite H. reflexivity.
Qed.

Lemma span_digits_app t : forall d r rest,
  PyJson.span_digits t = (d, r) -> delimited rest ->
  PyJson.span_digits (t ++ rest) = (d, r ++ rest).
Proof.
  induction t as [|c t IH]; intros d r rest H Hd.
  - injection H as <- <-. apply span_digits_stop, Hd.
  - cbn [PyJson.span_digits append] in H |- *.
    destruct (PyStr.is_digit c).
    + destruct (PyJson.span_digits t) as [d' r'] eqn:E.
      injection H as <- <-. rewrite (IH d' r' rest eq_refl Hd). reflexivity.
    + injection H as <- <-. reflexivity.
Qed.

Lemma match_int_part_app t a r rest :
  PyJson.match_int_part t = Some (a, r) -> delimited rest ->
  PyJson.match_int_part (t ++ rest) = Some (a, r ++ rest).
Proof.
  destruct t as [|c t]; intros H Hd; [discriminate|].
  cbn [PyJson.match_int_part append] in H |- *.
  destruct (Ascii.eqb c "0").
  - injection H as <- <-. reflexivity.
  - destruct (PyStr.is_digit c); [|discriminate].
    injection H as H.
    change (String c (t ++ rest)) with (String c t ++ rest).
    rewrite (span_digits_app (String c t) a r rest H Hd). reflexivity.
Qed.

Lemma match_frac_app t a r rest :
  PyJson.match_frac t = (a, r) -> delimited rest ->
  PyJson.match_frac (t ++ rest) = (a, r ++ rest).
Proof.
  destruct t as [|c t]; intros H Hd.
  - injection H as <- <-. destruct rest as [|c x]; [reflexivity|].
    apply number_stop_inv in Hd. destruct Hd as (_ & Hdot & _).
    cbn [PyJson.match_frac append]. rewrite Hdot. reflexivity.
  - cbn [PyJson.match_frac append] in H |- *.
    destruct (Ascii.eqb c ".").
    + destruct (PyJson.span_digits t) as [d r'] eqn:E.
      rewrite (span_digits_app t d r' rest E Hd).
      destruct d; injection H as <- <-; reflexivity.
    + injection H as <- <-. reflexivity.
Qed.

Lemma match_sign_app t a r rest :
  PyJson.match_sign t = (a, r) -> delimited rest ->
  PyJson.match_sign (t ++ rest) = (a, r ++ rest).
Proof.
  destruct t as [|c t]; intros H Hd.
  - injection H as <- <-. destruct rest as [|c x]; [reflexivity|].
    apply number_stop_inv in Hd. destruct Hd as (_ & _ & _ & _ & Hp & Hm).
    cbn [PyJson.match_sign append]. rewrite Hp, Hm. reflexivity.
  - cbn [PyJson.match_sign append] in H |- *.
    destruct (Ascii.eqb c "-" || Ascii.eqb c "+"); injection H as <- <-;
      reflexivity.
Qed.

Lemma match_exp_app t a r rest :
  PyJson.match_exp t = (a, r) -> delimited rest ->
  PyJson.match_exp (t ++ rest) = (a, r ++ rest).
Proof.
  destruct t as [|c t]; intros H Hd.
  - injection H as <- <-. destruct rest as [|c x]; [reflexivity|].
    apply number_stop_inv in Hd. destruct Hd as (_ & _ & He & HE & _).
    cbn [PyJson.match_exp append]. rewrite He, HE. reflexivity.
  - cbn [PyJson.match_exp append] in H |- *.
    destruct (Ascii.eqb c "e" || Ascii.eqb c "E").
    + destruct (PyJson.match_sign t) as [sg r1] eqn:Es.
      rewrite (match_sign_app t sg r1 rest Es Hd).
      destruct (PyJson.span_digits r1) as [d r'] eqn:E.
      rewrite (span_digits_app r1 d r' rest E Hd).
      destruct d; injection H as <- <-; reflexivity.
    + injection H as <- <-. reflexivity.
Qed.

Lemma match_minus_app c t a r rest :
  PyJson.match_minus (String c t) = (a, r) ->
  PyJson.match_minus (String c t ++ rest) = (a, r ++ rest).
Proof.
  cbn [PyJson.match_minus append].
  destruct (Ascii.eqb c "-"); intros H; injection H as <- <-; reflexivity.
Qed.

(** A number read from a text is read from the text followed by a
    delimiter. *)
Lemma match_number_app t v r rest :
  PyJson.match_number t = Some (v, r) -> delimited rest ->
  PyJson.match_number (t ++ rest) = Some (v, r ++ rest).
Proof.
  intros H Hd. destruct t as [|c t]; [discriminate|].
  unfold PyJson.match_number in H |- *.
  destruct (PyJson.match_minus (String c t)) as [sg r0] eqn:E0.
  rewrite (match_minus_app c t sg r0 rest E0).
  destruct (PyJson.match_int_part r0) as [[ip r1]|] eqn:E1; [|discriminate].
  rewrite (match_int_part_app r0 ip r1 rest E1 Hd).
  destruct (PyJson.match_frac r1) as [fr r2] eqn:E2.
  rewrite (match_frac_app r1 fr r2 rest E2 Hd).
  destruct (PyJson.match_exp r2) as [ex r3] eqn:E3.
  rewrite (match_exp_app r2 ex r3 rest E3 Hd).
  destruct fr, ex;
    try (destruct (float_of_ascii _); [|discriminate]);
    injection H as <- <-; reflexivity.
Qed.

(** A text that starts a number starts with a minus or a digit. *)
Lemma match_number_head t v r :
  PyJson.match_number t = Some (v, r) ->
  exists c t', t = String c t' /\
               (Ascii.eqb c "-" = true \/ PyStr.is_digit c = true).
Proof.
  intros H. destruct t as [|c t]; [discriminate|].
  exists c, t. split; [reflexivity|].
  unfold PyJson.match_number in H. cbn [PyJson.match_minus] in H.
  destruct (Ascii.eqb c "-"); [left; reflexivity|right].
  cbn [PyJson.match_int_part] in H.
  destruct (Ascii.eqb_spec c "0") as [->|_]; [reflexivity|].
  destruct (PyStr.is_digit c); [reflexivity|discriminate].
Qed.

(** *** Induction on values *)

Lemma json_induction (P : json -> Prop) :
  P JNull ->
  (forall b, P (JBool b)) ->
  (forall n, P (JInt n)) ->
  (forall x, P (JFloat x)) ->
  (forall s, P (JStr s)) ->
  (forall l, Forall P l -> P (JArr l)) ->
  (forall d, Forall (fun kv => P (snd kv)) d -> P (JObj d)) ->
  forall v, P v.
Proof.
  intros Hnull Hbool Hint Hfloat Hstr Harr Hobj.
  fix IH 1. intros v. destruct v as [|b|n|x|s|l|d].
  - exact Hnull.
  - apply Hbool.
  - apply Hint.
  - apply Hfloat.
  - apply Hstr.
  - apply Harr. induction l as [|x r IHl]; constructor; [apply IH|exact IHl].
  - apply Hobj. induction d as [|[k x] r IHd]; constructor; [apply IH|exact IHd].
Qed.

(** *** Unfolding the writer and the reader *)

Lemma encode_arr level x r :
  PyJson.encode level (JArr (x :: r)) =
  String "[" (PyJson.newline_indent (S level) ++ PyJson.encode (S level) x
              ++ encode_items (S level) r
              ++ PyJson.newline_indent level ++ "]").
Proof. reflexivity. Qed.

Lemma encode_obj level k x r :
  PyJson.encode level (JObj ((k, x) :: r)) =
  String "{" (PyJson.newline_indent (S level) ++ PyJson.encode_string k ++ ": "
              ++ PyJson.encode (S level) x ++ encode_fields (S level) r
              ++ PyJson.newline_indent level ++ "}").
Proof. reflexivity. Qed.

Lemma encode_items_cons level y l :
  encode_items level (y :: l) =
  String "," (PyJson.newline_indent level ++ PyJson.encode level y
              ++ encode_items level l).
Proof. reflexivity. Qed.

Lemma encode_fields_cons level k y l :
  encode_fields level ((k, y) :: l) =
  String "," (PyJson.newline_indent level ++ PyJson.encode_string k ++ ": "
              ++ PyJson.encode level y ++ encode_fields level l).
Proof. reflexivity. Qed.

Lemma parse_value_array f r :
  PyJson.parse_value (S f) (String "[" r) =
  match PyJson.skip_ws r with
  | String c2 r2 =>
      if Ascii.eqb c2 "]" then Some (JArr [], r2)
      else match PyJson.parse_elements f (PyJson.skip_ws r) with
           | Some (vs, rest) => Some (JArr vs, rest)
           | None => None
           end
  | EmptyString => None
  end.
Proof. reflexivity. Qed.

Lemma parse_value_object f r :
  PyJson.parse_value (S f) (String "{" r) =
  match PyJson.skip_ws r with
  | String c2 r2 =>
      if Ascii.eqb c2 "}" then Some (JObj [], r2)
      else match PyJson.parse_members f (PyJson.skip_ws r) with
           | Some (kvs, rest) => Some (JObj (PyJson.dict_of_pairs kvs), rest)
           | None => None
           end
  | EmptyString => None
  end.
Proof. reflexivity. Qed.

Lemma parse_elements_step f s :
  PyJson.parse_elements (S f) s =
  match PyJson.parse_value f s with
  | None => None
  | Some (v, r) =>
      match PyJson.skip_ws r with
      | String c r2 =>
          if Ascii.eqb c "]" then Some ([v], r2)
          else if Ascii.eqb c "," then
            match PyJson.parse_elements f (PyJson.skip_ws r2) with
            | Some (vs, rest) => Some (v :: vs, rest)
            | None => None
            end
          else None
      | EmptyString => None
      end
  end.
Proof. reflexivity. Qed.

Lemma parse_members_step f r :
  PyJson.parse_members (S f) (String PyJson.dquote r) =
  match PyJson.scan_string (String.length (String PyJson.dquote r)) r with
  | None => None
  | Some (k, r1) =>
      match PyJson.skip_ws r1 with
      | String c1 r2 =>
          if Ascii.eqb c1 ":" then
            match PyJson.parse_value f (PyJson.skip_ws r2) with
            | None => None
            | Some (v, r3) =>
                match PyJson.skip_ws r3 with
                | String c3 r4 =>
                    if Ascii.eqb c3 "}" then Some ([(k, v)], r4)
                    else if Ascii.eqb c3 "," then
                      match PyJson.parse_members f (PyJson.skip_ws r4) with
                      | Some (kvs, rest) => Some ((k, v) :: kvs, rest)
                      | None => None
                      end
                    else None
                | EmptyString => None
                end
            end
          else None
      | EmptyString => None
      end
  end.
Proof. reflexivity. Qed.

Lemma parse_value_plain f c t :
  Ascii.eqb c PyJson.dquote = false ->
  Ascii.eqb c "{" = false ->
  Ascii.eqb c "[" = false ->
  Ascii.eqb "n" c = false ->
  Ascii.eqb "t" c = false ->
  Ascii.eqb "f" c = false ->
  PyJson.parse_value (S f) (String c t) =
  match PyJson.match_number (String c t) with
  | Some res => Some res
  | None =>
      match PyJson.strip_prefix "NaN" (String c t) with
      | Some rest => Some (JFloat S754_nan, rest)
      | None =>
          match PyJson.strip_prefix "Infinity" (String c t) with
          | Some rest => Some (JFloat (S754_infinity false), rest)
          | None =>
              match PyJson.strip_prefix "-Infinity" (String c t) with
              | Some rest => Some (JFloat (S754_infinity true), rest)
              | None => None
              end
          end
      end
  end.
Proof.
  intros H1 H2 H3 H4 H5 H6.
  cbn [PyJson.parse_value PyJson.strip_prefix].
  rewrite H1, H2, H3, H4, H5, H6. reflexivity.
Qed.

(** *** Integers *)

Lemma read_digits_uint d : forall d' n,
  exists k,
    read_digits (NilEmpty.string_of_uint d)
                (Z.of_N (DecimalPos.Unsigned.of_lu d')) n
    = (Z.of_N (DecimalPos.Unsigned.of_lu (Decimal.revapp d d')), k,
       EmptyString).
Proof.
  induction d as [|d IH|d IH|d IH|d IH|d IH|d IH|d IH|d IH|d IH|d IH];
    intros d' n; [exists n; reflexivity|..];
    cbn [NilEmpty.string_of_uint read_digits Decimal.revapp];
    match goal with
    | |- context [read_digits _ (10 * ?a + PyStr.digit_val ?c) ?m] =>
        match goal with
        | |- context [Decimal.revapp d ?d2] =>
            replace (10 * a + PyStr.digit_val c)
              with (Z.of_N (DecimalPos.Unsigned.of_lu d2))
              by (cbn [DecimalPos.Unsigned.of_lu];
                  rewrite ?N2Z.inj_add, N2Z.inj_mul;
                  change (PyStr.digit_val c) with
                    (Z.of_N (DecimalPos.Unsigned.hd d2));
                  cbn [DecimalPos.Unsigned.hd]; lia);
            apply (IH d2 m)
        end
    end.
Qed.

Lemma read_digits_pos p :
  exists k,
    read_digits (PyJson.digits_of_pos p) 0 0 = (Z.pos p, k, EmptyString).
Proof.
  destruct (read_digits_uint (Pos.to_uint p) Decimal.Nil 0) as (k & Hk).
  exists k. unfold PyJson.digits_of_pos.
  change (Z.of_N (DecimalPos.Unsigned.of_lu Decimal.Nil)) with 0 in Hk.
  rewrite Hk. f_equal. f_equal.
  change (Decimal.revapp (Pos.to_uint p) Decimal.Nil)
    with (Decimal.rev (Pos.to_uint p)).
  rewrite <- DecimalPos.Unsigned.of_uint_alt, DecimalPos.Unsigned.of_to.
  reflexivity.
Qed.

Lemma span_digits_uint d :
  PyJson.span_digits (NilEmpty.string_of_uint d)
  = (NilEmpty.string_of_uint d, EmptyString).
Proof.
  induction d; [reflexivity|..];
    cbn [NilEmpty.string_of_uint PyJson.span_digits];
    match goal with
    | |- context [PyStr.is_digit ?c] => change (PyStr.is_digit c) with true
    end; cbv iota; rewrite IHd; reflexivity.
Qed.

(** The decimal digits of a positive number do not start with a zero. *)
Lemma to_uint_head p :
  exists c t,
    PyJson.digits_of_pos p = String c t /\
    PyStr.is_digit c = true /\ Ascii.eqb c "0" = false /\
    Ascii.eqb c "-" = false.
Proof.
  unfold PyJson.digits_of_pos.
  assert (Hnorm : Decimal.unorm (Pos.to_uint p) = Pos.to_uint p).
  { rewrite <- (DecimalPos.Unsigned.to_of (Pos.to_uint p)).
    rewrite DecimalPos.Unsigned.of_to. reflexivity. }
  pose proof (DecimalPos.Unsigned.to_uint_nonzero p) as Hnz.
  pose proof (DecimalFacts.nzhead_nonzero (Pos.to_uint p)) as Hhead.
  unfold Decimal.unorm in Hnorm.
  destruct (Decimal.nzhead (Pos.to_uint p)) eqn:E;
    try (rewrite <- Hnorm; cbn [NilEmpty.string_of_uint];
         do 2 eexists; split; [reflexivity|];
         split; [reflexivity|split; reflexivity]).
  - exfalso. apply Hnz. symmetry. exact Hnorm.
  - exfalso. exact (Hhead _ eq_refl).
Qed.

Lemma match_number_digits p :
  PyJson.match_number (PyJson.digits_of_pos p)
  = Some (JInt (Z.pos p), EmptyString) /\
  PyJson.match_number (String "-" (PyJson.digits_of_pos p))
  = Some (JInt (Z.neg p), EmptyString).
Proof.
  destruct (to_uint_head p) as (c & t & Hd & Hdig & Hz & Hm).
  destruct (read_digits_pos p) as (k & Hk).
  assert (Hint : PyJson.match_int_part (PyJson.digits_of_pos p)
                 = Some (PyJson.digits_of_pos p, EmptyString)).
  { rewrite Hd. cbn [PyJson.match_int_part]. rewrite Hz, Hdig.
    rewrite <- Hd. unfold PyJson.digits_of_pos. rewrite span_digits_uint.
    reflexivity. }
  assert (Hminus : PyJson.match_minus (PyJson.digits_of_pos p)
                   = (EmptyString, PyJson.digits_of_pos p)).
  { rewrite Hd. cbn [PyJson.match_minus]. rewrite Hm. reflexivity. }
  split.
  - unfold PyJson.match_number. rewrite Hminus, Hint.
    cbn [PyJson.match_frac PyJson.match_exp append].
    unfold PyJson.int_of_string. rewrite Hminus, Hk. reflexivity.
  - unfold PyJson.match_number.
    change (PyJson.match_minus (String "-" (PyJson.digits_of_pos p)))
      with ("-", PyJson.digits_of_pos p).
    cbv iota beta. rewrite Hint.
    cbn [PyJson.match_frac PyJson.match_exp].
    unfold PyJson.int_of_string.
    change (PyJson.match_minus ("-" ++ PyJson.digits_of_pos p))
      with ("-", PyJson.digits_of_pos p).
    cbv iota beta. rewrite Hk. reflexivity.
Qed.

Lemma int_text_ok n : number_text_ok (JInt n).
Proof.
  unfold number_text_ok. destruct n as [|p|p]; [reflexivity|..];
    apply match_number_digits.
Qed.


(** *** Runs of digits *)

Lemma read_digits_all a : forall rest acc n,
  all_digits a = true -> no_digit_head rest = true ->
  read_digits (a ++ rest) acc n
  = (digits_value acc a, n + Z.of_nat (String.length a), rest).
Proof.
  induction a as [|c a IH]; intros rest acc n Ha Hr.
  - cbn [append digits_value String.length]. rewrite Z.add_0_r.
    destruct rest as [|x rest]; [reflexivity|].
    cbn [read_digits]. cbn [no_digit_head] in Hr.
    apply negb_true_iff in Hr. rewrite Hr. reflexivity.
  - cbn [all_digits] in Ha. apply andb_true_iff in Ha. destruct Ha as [Hc Ha].
    cbn [append read_digits digits_value String.length]. rewrite Hc.
    rewrite IH by assumption. f_equal. f_equal. lia.
Qed.

Lemma span_digits_all a : forall rest,
  all_digits a = true -> no_digit_head rest = true ->
  PyJson.span_digits (a ++ rest) = (a, rest).
Proof.
  induction a as [|c a IH]; intros rest Ha Hr.
  - destruct rest as [|x rest]; [reflexivity|].
    cbn [append PyJson.span_digits]. cbn [no_digit_head] in Hr.
    apply negb_true_iff in Hr. rewrite Hr. reflexivity.
  - cbn [all_digits] in Ha. apply andb_true_iff in Ha. destruct Ha as [Hc Ha].
    cbn [append PyJson.span_digits]. rewrite Hc, IH by assumption.
    reflexivity.
Qed.

Lemma digits_value_app a : forall b acc,
  digits_value acc (a ++ b) = digits_value (digits_value acc a) b.
Proof.
  induction a as [|c a IH]; intros b acc; [reflexivity|].
  cbn [append digits_value]. apply IH.
Qed.

Lemma digits_value_shift a : forall acc,
  digits_value acc a
  = acc * 10 ^ Z.of_nat (String.length a) + digits_value 0 a.
Proof.
  induction a as [|c a IH]; intros acc.
  - cbn [digits_value String.length]. change (10 ^ Z.of_nat 0) with 1. lia.
  - cbn [digits_value String.length].
    rewrite (IH (10 * acc + PyStr.digit_val c)), (IH (10 * 0 + PyStr.digit_val c)).
    rewrite Nat2Z.inj_succ, Z.pow_succ_r by lia. ring.
Qed.

Lemma all_digits_app a : forall b,
  all_digits (a ++ b) = all_digits a && all_digits b.
Proof.
  induction a as [|c a IH]; intros b; [reflexivity|].
  cbn [append all_digits]. rewrite IH, andb_assoc. reflexivity.
Qed.

Lemma all_digits_uint d : all_digits (NilEmpty.string_of_uint d) = true.
Proof.
  induction d; [reflexivity|..];
    cbn [NilEmpty.string_of_uint all_digits]; exact IHd.
Qed.

Lemma all_digits_pos p : all_digits (PyJson.digits_of_pos p) = true.
Proof. apply all_digits_uint. Qed.

Lemma digits_value_pos p : digits_value 0 (PyJson.digits_of_pos p) = Z.pos p.
Proof.
  destruct (read_digits_pos p) as (k & Hk).
  pose proof (read_digits_all (PyJson.digits_of_pos p) EmptyString 0 0
                (all_digits_pos p) eq_refl) as H.
  rewrite app_nil_r_s, Hk in H. congruence.
Qed.

Lemma length_zeros n : String.length (PyJson.zeros n) = n.
Proof. induction n; cbn [PyJson.zeros String.length]; congruence. Qed.

Lemma all_digits_zeros n : all_digits (PyJson.zeros n) = true.
Proof. induction n; [reflexivity|exact IHn]. Qed.

Lemma digits_value_zeros n : forall acc,
  digits_value acc (PyJson.zeros n) = acc * 10 ^ Z.of_nat n.
Proof.
  intros acc. rewrite digits_value_shift, length_zeros.
  assert (H : digits_value 0 (PyJson.zeros n) = 0).
  { induction n; [reflexivity|exact IHn]. }
  rewrite H. lia.
Qed.

(** *** Cutting a text in two *)

Lemma substring_all s : substring 0 (String.length s) s = s.
Proof. induction s as [|c s IH]; [reflexivity|]. cbn. rewrite IH. reflexivity. Qed.

Lemma substring_split s : forall n,
  (n <= String.length s)%nat ->
  substring 0 n s ++ substring n (String.length s - n) s = s.
Proof.
  induction s as [|c s IH]; intros n Hn.
  - cbn in Hn. assert (n = O) by lia. subst n. reflexivity.
  - destruct n as [|n].
    + cbn [substring append]. rewrite Nat.sub_0_r.
      exact (substring_all (String c s)).
    + cbn [String.length] in Hn |- *. cbn [substring append Nat.sub].
      rewrite IH by lia. reflexivity.
Qed.

Lemma length_prefix s : forall n,
  (n <= String.length s)%nat -> String.length (substring 0 n s) = n.
Proof.
  induction s as [|c s IH]; intros n Hn.
  - cbn in Hn. assert (n = O) by lia. subst n. reflexivity.
  - destruct n as [|n]; [reflexivity|].
    cbn [String.length] in Hn. cbn [substring String.length].
    rewrite IH by lia. reflexivity.
Qed.

Lemma prefix_head c s n :
  substring 0 (S n) (String c s) = String c (substring 0 n s).
Proof. reflexivity. Qed.

(** *** Digits among the characters *)

Lemma digit_cases c :
  PyStr.is_digit c = true ->
  c = "0"%char \/ c = "1"%char \/ c = "2"%char \/ c = "3"%char \/
  c = "4"%char \/ c = "5"%char \/ c = "6"%char \/ c = "7"%char \/
  c = "8"%char \/ c = "9"%char.
Proof.
  destruct c as [[] [] [] [] [] [] [] []]; intros H; vm_compute in H;
    try discriminate H; clear H;
    repeat (first [reflexivity | left; reflexivity | right]).
Qed.

Ltac digit_split H :=
  destruct (digit_cases _ H)
    as [->|[->|[->|[->|[->|[->|[->|[->|[->| ->]]]]]]]]].

Lemma read_sign_digit c r :
  PyStr.is_digit c = true -> read_sign (String c r) = (false, String c r).
Proof. intros H. digit_split H; reflexivity. Qed.

Lemma digit_is_plain c :
  PyStr.is_digit c = true ->
  negb (is_c_space c) && negb (is_underscore c) = true.
Proof. intros H. digit_split H; reflexivity. Qed.

Lemma digit_led_is_no_name c r :
  PyStr.is_digit c = true ->
  String.eqb (PyStr.lower (String c r)) "inf"
  || String.eqb (PyStr.lower (String c r)) "infinity" = false /\
  String.eqb (PyStr.lower (String c r)) "nan" = false.
Proof. intros H. digit_split H; split; reflexivity. Qed.

Lemma match_minus_digit c r :
  PyStr.is_digit c = true ->
  PyJson.match_minus (String c r) = (EmptyString, String c r).
Proof. intros H. digit_split H; reflexivity. Qed.

(** *** Texts without white space and underscores *)

Lemma plain_app a : forall b, plain (a ++ b) = plain a && plain b.
Proof.
  induction a as [|c a IH]; intros b; [reflexivity|].
  cbn [append plain]. rewrite IH, !andb_assoc. reflexivity.
Qed.

Lemma plain_digits a : all_digits a = true -> plain a = true.
Proof.
  induction a as [|c a IH]; intros H; [reflexivity|].
  cbn [all_digits] in H. apply andb_true_iff in H. destruct H as [Hc Ha].
  cbn [plain]. rewrite (digit_is_plain c Hc), (IH Ha). reflexivity.
Qed.

Lemma plain_rev_onto s : forall acc,
  plain (PyStr.rev_onto s acc) = plain s && plain acc.
Proof.
  induction s as [|c s IH]; intros acc; [reflexivity|].
  cbn [PyStr.rev_onto plain]. rewrite IH. cbn [plain].
  destruct (negb (is_c_space c) && negb (is_underscore c)), (plain s);
    reflexivity.
Qed.

Lemma lstrip_by_plain s : plain s = true -> PyStr.lstrip_by is_c_space s = s.
Proof.
  destruct s as [|c s]; [reflexivity|]. cbn [plain PyStr.lstrip_by].
  intros H. apply andb_true_iff in H. destruct H as [H _].
  apply andb_true_iff in H. destruct H as [H _].
  apply negb_true_iff in H. rewrite H. reflexivity.
Qed.

Lemma strip_by_plain s : plain s = true -> PyStr.strip_by is_c_space s = s.
Proof.
  intros H. unfold PyStr.strip_by. rewrite (lstrip_by_plain s H).
  rewrite lstrip_by_plain.
  - apply rev_involutive.
  - unfold PyStr.rev. rewrite plain_rev_onto, H. reflexivity.
Qed.

Lemma underscores_plain s : forall prev,
  match prev with Some p => is_underscore p = false | None => True end ->
  plain s = true -> underscores_ok prev s = true.
Proof.
  induction s as [|c s IH]; intros prev Hp H.
  - destruct prev as [p|]; [|reflexivity]. cbn [underscores_ok].
    rewrite Hp. reflexivity.
  - cbn [plain] in H. apply andb_true_iff in H. destruct H as [H Hs].
    apply andb_true_iff in H. destruct H as [_ Hu].
    apply negb_true_iff in Hu. cbn [underscores_ok]. rewrite Hu.
    rewrite (IH (Some c) Hu Hs).
    destruct prev as [p|]; [rewrite Hp|]; reflexivity.
Qed.

Lemma drop_underscores_plain s : plain s = true -> drop_underscores s = s.
Proof.
  induction s as [|c s IH]; intros H; [reflexivity|].
  cbn [plain] in H. apply andb_true_iff in H. destruct H as [H Hs].
  apply andb_true_iff in H. destruct H as [_ Hu].
  apply negb_true_iff in Hu. cbn [drop_underscores]. rewrite Hu, (IH Hs).
  reflexivity.
Qed.

(** [float] on a text that starts with a digit, with a minus before it
    or without, hands it to the reader of decimals. *)
Lemma float_of_ascii_digit_led c r :
  PyStr.is_digit c = true -> plain (String c r) = true ->
  float_of_ascii (String c r) = read_decimal false (String c r) /\
  float_of_ascii (String "-" (String c r)) = read_decimal true (String c r).
Proof.
  intros Hc Hp. destruct (digit_led_is_no_name c r Hc) as [N1 N2].
  assert (Hm : plain (String "-" (String c r)) = true).
  { change (plain (String "-" (String c r))) with (plain (String c r)).
    exact Hp. }
  split; unfold float_of_ascii.
  - rewrite (strip_by_plain _ Hp), (underscores_plain _ None I Hp),
      (drop_underscores_plain _ Hp), (read_sign_digit c r Hc).
    rewrite N1, N2. reflexivity.
  - rewrite (strip_by_plain _ Hm), (underscores_plain _ None I Hm),
      (drop_underscores_plain _ Hm).
    change (read_sign (String "-" (String c r))) with (true, String c r).
    cbv beta iota. rewrite N1, N2. reflexivity.
Qed.

(** *** The parts of a number *)

Lemma no_digit_head_exp ex : no_digit_head (exp_text ex) = true.
Proof. destruct ex as [[sg xd]|]; reflexivity. Qed.

Lemma no_digit_head_frac fr ex :
  no_digit_head (frac_text fr ++ exp_text ex) = true.
Proof. destruct fr as [d|]; [reflexivity|apply no_digit_head_exp]. Qed.

Lemma plain_number ip fr ex :
  well_shaped ip fr ex -> plain (number_text ip fr ex) = true.
Proof.
  intros (Hip & _ & Hfr & Hex & _). unfold number_text.
  rewrite !plain_app, (plain_digits ip Hip).
  assert (H1 : plain (frac_text fr) = true).
  { destruct fr as [d|]; [|reflexivity]. destruct Hfr as [Hd _].
    change (plain (frac_text (Some d))) with (plain d).
    apply plain_digits, Hd. }
  assert (H2 : plain (exp_text ex) = true).
  { destruct ex as [[sg xd]|]; [|reflexivity]. destruct Hex as [Hd _].
    destruct sg;
      [change (plain (exp_text (Some (true, xd)))) with (plain xd)
      |change (plain (exp_text (Some (false, xd)))) with (plain xd)];
      apply plain_digits, Hd. }
  rewrite H1, H2. reflexivity.
Qed.

Lemma length_pos_Z s : s <> EmptyString -> 0 < Z.of_nat (String.length s).
Proof. destruct s; [congruence|]. cbn [String.length]. lia. Qed.

(** The exponent part is read as its value. *)
Lemma read_exponent_text sg xd :
  all_digits xd = true -> xd <> EmptyString ->
  read_exponent (exp_text (Some (sg, xd)))
  = Some (exp_value (Some (sg, xd)), EmptyString).
Proof.
  intros Hd Hne. pose proof (length_pos_Z xd Hne) as Hlen.
  pose proof (read_digits_all xd EmptyString 0 0 Hd eq_refl) as Hr.
  rewrite app_nil_r_s in Hr.
  assert (Hz : (0 + Z.of_nat (String.length xd) =? 0) = false)
    by (apply Z.eqb_neq; lia).
  destruct sg; cbn [exp_text exp_value].
  - change (read_exponent (String "e" (String "-" xd)))
      with (let '(v, n, r2) := read_digits xd 0 0 in
            if n =? 0 then None else Some (- v, r2)).
    rewrite Hr, Hz. reflexivity.
  - change (read_exponent (String "e" (String "+" xd)))
      with (let '(v, n, r2) := read_digits xd 0 0 in
            if n =? 0 then None else Some (v, r2)).
    rewrite Hr, Hz. reflexivity.
Qed.

(** The reader of decimals on the parts of a number. *)
Lemma read_decimal_number neg ip fr ex :
  well_shaped ip fr ex ->
  read_decimal neg (number_text ip fr ex) = Some (number_value neg ip fr ex).
Proof.
  intros (Hip & (c & t & Eip & _) & Hfr & Hex & _).
  assert (Hlen : 0 < Z.of_nat (String.length ip))
    by (apply length_pos_Z; rewrite Eip; discriminate).
  unfold read_decimal, number_text, number_value.
  rewrite (read_digits_all ip _ 0 0 Hip (no_digit_head_frac fr ex)).
  rewrite digits_value_app.
  set (v := digits_value 0 ip).
  assert (Htail : forall m nf,
            0 <= nf ->
            (if 0 + Z.of_nat (String.length ip) + nf =? 0 then None
             else match exp_text ex with
                  | EmptyString => Some (of_decimal neg m (- nf))
                  | String _ _ =>
                      match read_exponent (exp_text ex) with
                      | Some (x, EmptyString) => Some (of_decimal neg m (x - nf))
                      | _ => None
                      end
                  end)
            = Some (of_decimal neg m (exp_value ex - nf))).
  { intros m nf Hnf.
    assert (Hz : (0 + Z.of_nat (String.length ip) + nf =? 0) = false)
      by (apply Z.eqb_neq; lia).
    rewrite Hz. destruct ex as [[sg xd]|].
    - destruct Hex as [Hd Hne].
      rewrite (read_exponent_text sg xd Hd Hne). reflexivity.
    - reflexivity. }
  destruct fr as [d|].
  - destruct Hfr as [Hd _]. cbn [frac_text append frac_digits].
    cbv beta iota.
    rewrite (read_digits_all d _ v 0 Hd (no_digit_head_exp ex)).
    rewrite Z.add_0_l. apply Htail. lia.
  - cbn [frac_text append frac_digits digits_value String.length].
    change (Z.of_nat 0) with 0.
    replace (match exp_text ex with
             | String "." r => read_digits r v 0
             | _ => (v, 0, exp_text ex)
             end) with (v, 0, exp_text ex)
      by (destruct ex as [[[] xd]|]; reflexivity).
    apply Htail. lia.
Qed.

(** *** [NUMBER_RE] on the parts of a number *)

Lemma shaped_head ip fr ex :
  well_shaped ip fr ex ->
  exists c t, ip = String c t /\ PyStr.is_digit c = true.
Proof.
  intros (Hip & (c & t & -> & _) & _). exists c, t. split; [reflexivity|].
  cbn [all_digits] in Hip. apply andb_true_iff in Hip. apply Hip.
Qed.

Lemma match_int_part_shaped ip rest :
  all_digits ip = true ->
  (exists c t, ip = String c t /\
               (Ascii.eqb c "0" = false \/ t = EmptyString)) ->
  no_digit_head rest = true ->
  PyJson.match_int_part (ip ++ rest) = Some (ip, rest).
Proof.
  intros Hip (c & t & -> & Hz) Hr.
  cbn [append PyJson.match_int_part].
  destruct (Ascii.eqb c "0") eqn:E.
  - destruct Hz as [Hz| ->]; [discriminate|].
    apply Ascii.eqb_eq in E. subst c. reflexivity.
  - pose proof Hip as Hc. cbn [all_digits] in Hc.
    apply andb_true_iff in Hc. destruct Hc as [Hc _]. rewrite Hc.
    change (String c (t ++ rest)) with (String c t ++ rest).
    rewrite (span_digits_all _ _ Hip Hr). reflexivity.
Qed.

Lemma match_frac_shaped fr ex :
  match fr with
  | Some d => all_digits d = true /\ d <> EmptyString
  | None => True
  end ->
  PyJson.match_frac (frac_text fr ++ exp_text ex)
  = (frac_text fr, exp_text ex).
Proof.
  intros H. destruct fr as [d|].
  - destruct H as [Hd Hne]. cbn [frac_text append PyJson.match_frac].
    change (Ascii.eqb "." ".") with true. cbv iota.
    rewrite (span_digits_all d _ Hd (no_digit_head_exp ex)).
    destruct d; [congruence|reflexivity].
  - cbn [frac_text append]. destruct ex as [[[] xd]|]; reflexivity.
Qed.

Lemma match_exp_shaped ex :
  match ex with
  | Some (_, xd) => all_digits xd = true /\ xd <> EmptyString
  | None => True
  end ->
  PyJson.match_exp (exp_text ex) = (exp_text ex, EmptyString).
Proof.
  intros H. destruct ex as [[sg xd]|]; [|reflexivity].
  destruct H as [Hd Hne].
  pose proof (span_digits_all xd EmptyString Hd eq_refl) as Hs.
  rewrite app_nil_r_s in Hs.
  destruct sg; cbn [exp_text PyJson.match_exp].
  - change (Ascii.eqb "e" "e" || Ascii.eqb "e" "E") with true. cbv iota.
    change (PyJson.match_sign (String "-" xd)) with ("-", xd).
    cbv iota beta. rewrite Hs. destruct xd; [congruence|reflexivity].
  - change (Ascii.eqb "e" "e" || Ascii.eqb "e" "E") with true. cbv iota.
    change (PyJson.match_sign (String "+" xd)) with ("+", xd).
    cbv iota beta. rewrite Hs. destruct xd; [congruence|reflexivity].
Qed.

(** The text of a float is matched whole and handed to [float], with a
    minus before it or without. *)
Lemma match_number_shaped ip fr ex :
  well_shaped ip fr ex ->
  PyJson.match_number (number_text ip fr ex)
  = match float_of_ascii (number_text ip fr ex) with
    | Some x => Some (JFloat x, EmptyString)
    | None => None
    end /\
  PyJson.match_number (String "-" (number_text ip fr ex))
  = match float_of_ascii (String "-" (number_text ip fr ex)) with
    | Some x => Some (JFloat x, EmptyString)
    | None => None
    end.
Proof.
  intros Hw. destruct (shaped_head _ _ _ Hw) as (c & t & Eip & Hc).
  destruct Hw as (Hip & Hz & Hfr & Hex & Hone).
  assert (Hint : PyJson.match_int_part (number_text ip fr ex)
                 = Some (ip, frac_text fr ++ exp_text ex)).
  { apply match_int_part_shaped;
      [exact Hip|exact Hz|apply no_digit_head_frac]. }
  assert (Hmin : PyJson.match_minus (number_text ip fr ex)
                 = (EmptyString, number_text ip fr ex)).
  { unfold number_text. rewrite Eip. apply match_minus_digit, Hc. }
  assert (Hboth : frac_text fr = EmptyString -> exp_text ex = EmptyString ->
                  False).
  { destruct fr as [d|]; [discriminate|].
    destruct ex as [[sg xd]|]; [discriminate|].
    intros _ _. destruct Hone as [H|H]; apply H; reflexivity. }
  split; unfold PyJson.match_number.
  - rewrite Hmin, Hint, (match_frac_shaped fr ex Hfr),
      (match_exp_shaped ex Hex).
    unfold number_text in *.
    destruct (frac_text fr) as [|a fr'] eqn:Ef.
    + destruct (exp_text ex) as [|b ex'] eqn:Ee.
      * exfalso. apply Hboth; reflexivity.
      * reflexivity.
    + reflexivity.
  - change (PyJson.match_minus (String "-" (number_text ip fr ex)))
      with ("-", number_text ip fr ex).
    cbv iota beta.
    rewrite Hint, (match_frac_shaped fr ex Hfr), (match_exp_shaped ex Hex).
    unfold number_text in *.
    destruct (frac_text fr) as [|a fr'] eqn:Ef.
    + destruct (exp_text ex) as [|b ex'] eqn:Ee.
      * exfalso. apply Hboth; reflexivity.
      * reflexivity.
    + reflexivity.
Qed.

(** [float] on the parts of a number. *)
Lemma float_of_ascii_number ip fr ex :
  well_shaped ip fr ex ->
  float_of_ascii (number_text ip fr ex) = Some (number_value false ip fr ex) /\
  float_of_ascii (String "-" (number_text ip fr ex))
  = Some (number_value true ip fr ex).
Proof.
  intros Hw. destruct (shaped_head _ _ _ Hw) as (c & t & Eip & Hc).
  pose proof (plain_number _ _ _ Hw) as Hp.
  pose proof (read_decimal_number false _ _ _ Hw) as Hf.
  pose proof (read_decimal_number true _ _ _ Hw) as Ht.
  assert (E : number_text ip fr ex
              = String c (t ++ frac_text fr ++ exp_text ex)).
  { unfold number_text. rewrite Eip. reflexivity. }
  rewrite E in Hp, Hf, Ht |- *.
  destruct (float_of_ascii_digit_led c _ Hc Hp) as [F1 F2].
  rewrite F1, F2. split; assumption.
Qed.

(** *** The parts of what [float.__repr__] writes *)

Lemma digits_value_lead_zero s :
  digits_value 0 (String "0" s) = digits_value 0 s.
Proof. reflexivity. Qed.

Lemma digits_value_last_zero s :
  digits_value 0 (s ++ "0") = 10 * digits_value 0 s.
Proof.
  rewrite digits_value_app. cbn [digits_value].
  change (PyStr.digit_val "0") with 0. lia.
Qed.

(** The exponent of the scientific form: two digits at least. *)
Lemma exponent_digits x :
  0 < x ->
  exists xd,
    (if x <? 10 then String "0" (PyJson.repr_int x) else PyJson.repr_int x)
    = xd /\
    all_digits xd = true /\ xd <> EmptyString /\ digits_value 0 xd = x.
Proof.
  intros Hx. destruct x as [|px|px]; try lia.
  cbn [PyJson.repr_int].
  destruct (to_uint_head px) as (c & t & Hd & _).
  destruct (Z.pos px <? 10); eexists; (split; [reflexivity|]).
  - split; [exact (all_digits_pos px)|]. split; [discriminate|].
    rewrite digits_value_lead_zero. apply digits_value_pos.
  - split; [exact (all_digits_pos px)|]. split; [rewrite Hd; discriminate|].
    apply digits_value_pos.
Qed.

Lemma format_repr_number p q :
  exists ip fr ex,
    PyJson.format_repr (PyJson.digits_of_pos p) q = number_text ip fr ex /\
    well_shaped ip fr ex /\
    forall neg,
      number_value neg ip fr ex
      = if (0 <=? q)
           && (Z.of_nat (String.length (PyJson.digits_of_pos p)) + q <=? 16)
        then of_decimal neg (Z.pos p * 10 ^ (q + 1)) (-1)
        else of_decimal neg (Z.pos p) q.
Proof.
  destruct (to_uint_head p) as (c & t & Hds & Hc & Hz & _).
  pose proof (all_digits_pos p) as Hall.
  pose proof (digits_value_pos p) as Hval.
  set (ds := PyJson.digits_of_pos p) in *.
  set (len := Z.of_nat (String.length ds)).
  assert (Hlen : 1 <= len)
    by (unfold len; rewrite Hds; cbn [String.length]; lia).
  unfold PyJson.format_repr. fold len. cbv zeta.
  destruct ((-4 <? len + q) && (len + q <=? 16)) eqn:Epos.
  - apply andb_true_iff in Epos. destruct Epos as [E1 E2].
    apply Z.ltb_lt in E1. apply Z.leb_le in E2.
    destruct (len + q <=? 0) eqn:E3.
    + (* zeros after the point, then the digits *)
      apply Z.leb_le in E3.
      exists "0", (Some (PyJson.zeros (Z.to_nat (- (len + q))) ++ ds)), None.
      split; [|split].
      * unfold number_text. cbn [frac_text exp_text append].
        rewrite app_nil_r_s. reflexivity.
      * split; [reflexivity|].
        split; [exists "0"%char, EmptyString; split;
                [reflexivity|right; reflexivity]|].
        split; [|split; [exact I|left; discriminate]].
        split.
        -- rewrite all_digits_app, all_digits_zeros, Hall. reflexivity.
        -- rewrite Hds. destruct (PyJson.zeros _); discriminate.
      * intros neg. unfold number_value. cbn [frac_digits exp_value].
        replace ((0 <=? q) && (len + q <=? 16)) with false
          by (symmetry; apply andb_false_iff; left; apply Z.leb_gt; lia).
        f_equal.
        -- cbn [append]. rewrite digits_value_lead_zero, digits_value_app,
             digits_value_zeros, Z.mul_0_l. exact Hval.
        -- rewrite length_app_s, length_zeros, Nat2Z.inj_add, Z2Nat.id by lia.
           fold len. lia.
    + apply Z.leb_gt in E3. destruct (len <=? len + q) eqn:E4.
      * (* the digits, zeros, and a zero after the point *)
        apply Z.leb_le in E4.
        exists (ds ++ PyJson.zeros (Z.to_nat (len + q - len))), (Some "0"), None.
        split; [|split].
        -- unfold number_text. cbn [frac_text exp_text].
           rewrite !app_assoc_s. reflexivity.
        -- split; [rewrite all_digits_app, all_digits_zeros, Hall;
                   reflexivity|].
           split; [exists c, (t ++ PyJson.zeros (Z.to_nat (len + q - len)));
                   split; [rewrite Hds; reflexivity|left; exact Hz]|].
           split; [split; [reflexivity|discriminate]|].
           split; [exact I|left; discriminate].
        -- intros neg. unfold number_value. cbn [frac_digits exp_value].
           replace ((0 <=? q) && (len + q <=? 16)) with true
             by (symmetry; apply andb_true_iff; split; apply Z.leb_le; lia).
           f_equal. rewrite digits_value_last_zero, digits_value_app,
             digits_value_zeros, Hval, Z2Nat.id by lia.
           replace (len + q - len) with q by lia.
           rewrite Z.pow_add_r by lia. change (10 ^ 1) with 10. ring.
      * (* the point within the digits *)
        apply Z.leb_gt in E4.
        assert (Hn : (Z.to_nat (len + q) <= String.length ds)%nat)
          by (unfold len in *; lia).
        assert (Hm : Z.to_nat (len - (len + q))
                     = (String.length ds - Z.to_nat (len + q))%nat)
          by (unfold len in *; lia).
        rewrite Hm.
        pose proof (substring_split ds _ Hn) as Hsplit.
        pose proof (length_prefix ds _ Hn) as Hpre.
        set (a := substring 0 (Z.to_nat (len + q)) ds) in *.
        set (b := substring (Z.to_nat (len + q))
                    (String.length ds - Z.to_nat (len + q)) ds) in *.
        assert (Hab : all_digits a = true /\ all_digits b = true).
        { apply andb_true_iff. rewrite <- all_digits_app, Hsplit. exact Hall. }
        assert (Hlb : Z.of_nat (String.length b) = - q).
        { pose proof (f_equal String.length Hsplit) as Hl.
          rewrite length_app_s, Hpre in Hl. unfold len in *. lia. }
        exists a, (Some b), None.
        split; [|split].
        -- unfold number_text. cbn [frac_text exp_text].
           rewrite app_nil_r_s. reflexivity.
        -- split; [apply Hab|].
           split.
           { unfold a. rewrite Hds.
             destruct (Z.to_nat (len + q)) as [|n] eqn:En; [lia|].
             exists c, (substring 0 n t).
             split; [reflexivity|left; exact Hz]. }
           split; [split; [apply Hab|]|split; [exact I|left; discriminate]].
           intros Hb. rewrite Hb in Hlb. cbn in Hlb. lia.
        -- intros neg. unfold number_value. cbn [frac_digits exp_value].
           replace ((0 <=? q) && (len + q <=? 16)) with false
             by (symmetry; apply andb_false_iff; left; apply Z.leb_gt; lia).
           rewrite Hsplit, Hval, Hlb. f_equal. lia.
  - (* the scientific form *)
    assert (Hsci : len + q <= -4 \/ 16 < len + q).
    { apply andb_false_iff in Epos. destruct Epos as [E|E].
      - left. apply Z.ltb_ge in E. exact E.
      - right. apply Z.leb_gt in E. exact E. }
    assert (Hcond : (0 <=? q) && (len + q <=? 16) = false).
    { apply andb_false_iff.
      destruct (Z.le_gt_cases 0 q) as [L|L].
      - right. apply Z.leb_gt. lia.
      - left. apply Z.leb_gt. exact L. }
    rewrite Hcond.
    destruct (exponent_digits (Z.abs (len + q - 1)) ltac:(lia))
      as (xd & Exd & Hxd & Hne & Vxd).
    rewrite Exd.
    set (sg := len + q - 1 <? 0).
    assert (Hsg : (if sg then "-" else "+")
                  = String (if sg then "-" else "+")%char EmptyString)
      by (destruct sg; reflexivity).
    assert (Hex : exp_value (Some (sg, xd)) = len + q - 1).
    { cbn [exp_value]. rewrite Vxd. unfold sg.
      destruct (len + q - 1 <? 0) eqn:E;
        [apply Z.ltb_lt in E|apply Z.ltb_ge in E]; lia. }
    rewrite Hsg. fold ds. rewrite Hds. destruct t as [|c2 t2].
    + (* one digit *)
      exists (String c EmptyString), None, (Some (sg, xd)).
      split; [reflexivity|split].
      * split; [rewrite <- Hds; exact Hall|].
        split; [exists c, EmptyString; split;
                [reflexivity|right; reflexivity]|].
        split; [exact I|]. split; [split; assumption|right; discriminate].
      * intros neg. unfold number_value. rewrite Hex.
        cbn [frac_digits String.length]. rewrite app_nil_r_s, <- Hds, Hval.
        f_equal. unfold len. rewrite Hds. cbn [String.length]. lia.
    + exists (String c EmptyString), (Some (String c2 t2)), (Some (sg, xd)).
      split; [reflexivity|split].
      * split.
        { rewrite Hds in Hall. cbn [all_digits] in Hall |- *.
          apply andb_true_iff in Hall. destruct Hall as [H1 _].
          rewrite H1. reflexivity. }
        split; [exists c, EmptyString; split;
                [reflexivity|right; reflexivity]|].
        split.
        { split; [|discriminate]. rewrite Hds in Hall.
          cbn [all_digits] in Hall.
          apply andb_true_iff in Hall. apply Hall. }
        split; [split; assumption|left; discriminate].
      * intros neg. unfold number_value. rewrite Hex.
        cbn [frac_digits]. change (String c "" ++ String c2 t2)
          with (String c (String c2 t2)).
        rewrite <- Hds, Hval. f_equal.
        unfold len. rewrite Hds. cbn [String.length]. lia.
Qed.

(** *** The shortest text that reads back *)

Lemma float_eqb_eq x y : PyFloat.eqb x y = true -> x = y.
Proof.
  destruct x as [a|a| |a m e], y as [b|b| |b n f]; cbn [PyFloat.eqb];
    intros H; try discriminate H; try reflexivity.
  - apply Bool.eqb_prop in H. congruence.
  - apply Bool.eqb_prop in H. congruence.
  - apply andb_true_iff in H. destruct H as [H H3].
    apply andb_true_iff in H. destruct H as [H1 H2].
    apply Bool.eqb_prop in H1. apply Pos.eqb_eq in H2. apply Z.eqb_eq in H3.
    congruence.
Qed.

Lemma float_eqb_refl x : PyFloat.eqb x x = true.
Proof.
  destruct x as [a|a| |a m e]; cbn [PyFloat.eqb];
    rewrite ?Bool.eqb_reflx, ?Pos.eqb_refl, ?Z.eqb_refl; reflexivity.
Qed.

(** What [float] makes of the text of the decimal [p * 10 ^ q]. *)
Lemma float_of_repr p q :
  float_of_ascii (PyJson.format_repr (PyJson.digits_of_pos p) q)
  = Some (if (0 <=? q)
             && (Z.of_nat (String.length (PyJson.digits_of_pos p)) + q <=? 16)
          then of_decimal false (Z.pos p * 10 ^ (q + 1)) (-1)
          else of_decimal false (Z.pos p) q).
Proof.
  destruct (format_repr_number p q) as (ip & fr & ex & Et & Hw & Hv).
  rewrite Et, <- Hv. apply float_of_ascii_number, Hw.
Qed.

(** At the exponent [min e 0] the decimal is [m * 2 ^ e] itself, and its
    text reads back. *)
Lemma reads_back_exact m e :
  bounded prec emax m e = true ->
  PyJson.reads_back (S754_finite false m e)
    (PyJson.scaled_floor m e (Z.min e 0)) (Z.min e 0) = true.
Proof.
  intros Hb. unfold PyJson.scaled_floor.
  destruct (Z.le_gt_cases 0 e) as [E|E].
  - rewrite (Z.min_r e 0) by lia.
    rewrite (Z.max_l e 0), (Z.max_r (- e) 0) by lia.
    change (Z.max (- 0) 0) with 0. change (Z.max 0 0) with 0.
    change (2 ^ 0 * 10 ^ 0) with 1. change (10 ^ 0) with 1.
    rewrite Z.mul_1_r, Z.div_1_r.
    pose proof (pow2_pos e E) as Hp.
    destruct (Z.pos m * 2 ^ e) as [|a|a] eqn:Ea; try lia.
    unfold PyJson.reads_back. rewrite float_of_repr.
    match goal with
    | |- context [if ?c then _ else _] => destruct c
    end.
    + replace (of_decimal false (Z.pos a * 10 ^ (0 + 1)) (-1))
        with (S754_finite false m e); [apply float_eqb_refl|].
      symmetry. change (10 ^ (0 + 1)) with 10.
      unfold of_decimal.
      destruct (Z.pos a * 10) as [|a'|a'] eqn:Ea'; try lia.
      apply of_ratio_exact; [exact Hb|].
      rewrite (Z.max_l e 0), (Z.max_r (- e) 0) by lia.
      change (2 ^ 0) with 1. change (Z.pos (10 ^ 1)) with 10. lia.
    + replace (of_decimal false (Z.pos a) 0)
        with (S754_finite false m e); [apply float_eqb_refl|].
      symmetry. unfold of_decimal. change (10 ^ 0) with 1.
      rewrite Z.mul_1_r.
      apply binary_normalize_exact; [exact Hb|exact E|].
      symmetry. exact Ea.
  - rewrite (Z.min_l e 0) by lia.
    rewrite (Z.max_r e 0), (Z.max_l (- e) 0) by lia.
    change (2 ^ 0) with 1. change (10 ^ 0) with 1.
    rewrite !Z.mul_1_r.
    pose proof (pow2_pos (- e) ltac:(lia)) as Hp2.
    pose proof (Z.pow_pos_nonneg 5 (- e) ltac:(lia) ltac:(lia)) as Hp5.
    assert (H10 : 10 ^ (- e) = 5 ^ (- e) * 2 ^ (- e)).
    { change 10 with (5 * 2). apply Z.pow_mul_l. }
    assert (Hq : Z.pos m * 10 ^ (- e) / 2 ^ (- e) = Z.pos m * 5 ^ (- e)).
    { rewrite H10, Z.mul_assoc. apply Z.div_mul. lia. }
    rewrite Hq.
    destruct (Z.pos m * 5 ^ (- e)) as [|a|a] eqn:Ea; try lia.
    unfold PyJson.reads_back. rewrite float_of_repr.
    replace (0 <=? e) with false by (symmetry; apply Z.leb_gt; exact E).
    cbn [andb].
    replace (of_decimal false (Z.pos a) e)
      with (S754_finite false m e); [apply float_eqb_refl|].
    symmetry. unfold of_decimal. destruct e as [|k|k]; try lia.
    apply of_ratio_exact; [exact Hb|].
    rewrite (Z.max_r (Z.neg k) 0), (Z.max_l (- Z.neg k) 0) by lia.
    change (2 ^ 0) with 1. rewrite Pos2Z.inj_pow.
    change (- Z.neg k) with (Z.pos k) in *.
    change (Z.pos 10) with 10. rewrite H10, <- Ea. ring.
Qed.

(** The search ends on a decimal whose text reads back. *)
Lemma shortest_reads_back m e :
  bounded prec emax m e = true ->
  forall fuel q,
    Z.min e 0 <= q -> q - Z.of_nat fuel <= Z.min e 0 ->
    PyJson.reads_back (S754_finite false m e)
      (fst (PyJson.shortest fuel m e q)) (snd (PyJson.shortest fuel m e q))
    = true.
Proof.
  intros Hb. pose proof (reads_back_exact m e Hb) as Hexact.
  induction fuel as [|fuel IH]; intros q H1 H2; cbn [PyJson.shortest];
    cbv zeta;
    destruct (PyJson.reads_back (S754_finite false m e)
                (PyJson.scaled_floor m e q) q) eqn:Elo;
    destruct (PyJson.reads_back (S754_finite false m e)
                (PyJson.scaled_floor m e q + 1) q) eqn:Ehi;
    cbn [andb fst snd];
    try exact Elo; try exact Ehi;
    try (match goal with
         | |- context [match ?c with Eq => _ | Lt => _ | Gt => _ end] =>
             destruct c
         end;
         try (destruct (Z.even (PyJson.scaled_floor m e q)));
         cbn [fst snd]; first [exact Elo|exact Ehi]).
  - assert (q = Z.min e 0) by lia. subst q. congruence.
  - destruct (Z.eq_dec q (Z.min e 0)) as [->|Hne]; [congruence|].
    apply IH; lia.
Qed.

Lemma start_exponent_above m e : Z.min e 0 <= PyJson.start_exponent m e.
Proof.
  unfold PyJson.start_exponent.
  assert (Hd : 0 < Z.pos (digits2_pos m)) by lia.
  set (t := Z.pos (digits2_pos m) + e) in *.
  assert (Hdiv : Z.min t 0 <= t * 30103 / 100000).
  { apply Z.div_le_lower_bound; lia. }
  lia.
Qed.

(** [float.__repr__] writes the text of a decimal that [float] reads
    back as the double it was given. *)
Lemma repr_finite_reads_back m e :
  bounded prec emax m e = true ->
  exists p q,
    PyJson.repr_finite m e
    = PyJson.format_repr (PyJson.digits_of_pos p) q /\
    float_of_ascii (PyJson.format_repr (PyJson.digits_of_pos p) q)
    = Some (S754_finite false m e).
Proof.
  intros Hb. unfold PyJson.repr_finite. cbv zeta.
  pose proof (start_exponent_above m e) as Hq.
  pose proof (shortest_reads_back m e Hb
                (Z.to_nat (PyJson.start_exponent m e - Z.min e 0))
                (PyJson.start_exponent m e) Hq ltac:(lia)) as Hr.
  destruct (PyJson.shortest _ m e (PyJson.start_exponent m e)) as [d q].
  cbn [fst snd] in Hr. unfold PyJson.reads_back in Hr.
  destruct d as [|p|p]; try discriminate Hr.
  exists p, q. split; [reflexivity|].
  destruct (float_of_ascii _) as [y|]; [|discriminate Hr].
  apply float_eqb_eq in Hr. rewrite <- Hr. reflexivity.
Qed.

(** The text written for a double reads back as that double. *)
Lemma float_text_ok s m e :
  is_double (S754_finite s m e) = true ->
  number_text_ok (JFloat (S754_finite s m e)).
Proof.
  intros Hb. change (bounded prec emax m e = true) in Hb.
  destruct (repr_finite_reads_back m e Hb) as (p & q & Er & Hf).
  destruct (format_repr_number p q) as (ip & fr & ex & Et & Hw & Hv).
  destruct (match_number_shaped _ _ _ Hw) as [M1 M2].
  destruct (float_of_ascii_number _ _ _ Hw) as [F1 F2].
  rewrite Et in Er, Hf.
  unfold number_text_ok. cbn [PyJson.encode PyJson.encode_float].
  destruct s; rewrite Er.
  - rewrite M2, F2. unfold number_value. rewrite of_decimal_opp.
    fold (number_value false ip fr ex).
    assert (Hn : number_value false ip fr ex = S754_finite false m e)
      by congruence.
    rewrite Hn. reflexivity.
  - rewrite M1, Hf. reflexivity.
Qed.
(** *** Characters *)

Lemma digit_is_not c x :
  PyStr.is_digit c = true -> PyStr.is_digit x = false ->
  Ascii.eqb c x = false /\ Ascii.eqb x c = false.
Proof.
  intros Hc Hx. rewrite (Ascii.eqb_sym x c).
  destruct (Ascii.eqb_spec c x) as [->|_]; [congruence|split; reflexivity].
Qed.

Lemma digit_not_ws c : PyStr.is_digit c = true -> PyJson.is_ws c = false.
Proof.
  unfold PyStr.is_digit, PyJson.is_ws. cbv zeta.
  generalize (PyStr.code c). intros n H.
  apply andb_true_iff in H. destruct H as [H1 H2].
  apply Nat.leb_le in H1, H2.
  repeat (apply orb_false_iff; split); apply Nat.eqb_neq; lia.
Qed.

Lemma number_opens_value t v r :
  PyJson.match_number t = Some (v, r) -> opens_value t.
Proof.
  intros H. destruct (match_number_head t v r H) as (c & t' & -> & [Hc|Hc]).
  - apply Ascii.eqb_eq in Hc. subst c. exists "-"%char, t'.
    split; [reflexivity|split; reflexivity].
  - exists c, t'. split; [reflexivity|]. split; [apply digit_not_ws, Hc|].
    apply (digit_is_not c "]" Hc eq_refl).
Qed.

Lemma encode_opens_value v level : storable v -> opens_value (PyJson.encode level v).
Proof.
  intros Hs.
  assert (Hconst : forall c t, PyJson.is_ws c = false ->
                     Ascii.eqb c "]" = false -> opens_value (String c t)).
  { intros c t H1 H2. exists c, t. split; [reflexivity|split; assumption]. }
  destruct v as [|[]|n|x|s|l|d].
  - apply Hconst; reflexivity.
  - apply Hconst; reflexivity.
  - apply Hconst; reflexivity.
  - exact (number_opens_value _ _ _ (int_text_ok n)).
  - destruct x as [[]|[]| |s m e]; try (apply Hconst; reflexivity).
    exact (number_opens_value _ _ _ (float_text_ok _ _ _ Hs)).
  - apply Hconst; reflexivity.
  - destruct l; apply Hconst; reflexivity.
  - destruct d as [|[k x] r]; apply Hconst; reflexivity.
Qed.

Lemma skip_ws_opens t rest : opens_value t -> PyJson.skip_ws (t ++ rest) = t ++ rest.
Proof.
  intros (c & t' & -> & Hws & _). cbn [PyJson.skip_ws append].
  rewrite Hws. reflexivity.
Qed.

Lemma skip_ws_indentation level t :
  PyJson.skip_ws (PyJson.indentation level ++ t) = PyJson.skip_ws t.
Proof.
  induction level as [|k IH]; [reflexivity|].
  change (PyJson.skip_ws (PyJson.indentation (S k) ++ t))
    with (PyJson.skip_ws (PyJson.indentation k ++ t)).
  exact IH.
Qed.

Lemma skip_ws_newline_indent level t :
  PyJson.skip_ws (PyJson.newline_indent level ++ t) = PyJson.skip_ws t.
Proof.
  change (PyJson.skip_ws (PyJson.newline_indent level ++ t))
    with (PyJson.skip_ws (PyJson.indentation level ++ t)).
  apply skip_ws_indentation.
Qed.

Lemma delimited_newline_indent level t :
  delimited (PyJson.newline_indent level ++ t).
Proof. reflexivity. Qed.

(** *** Values without parts *)

Lemma parse_number_text f t v r :
  PyJson.match_number t = Some (v, r) ->
  PyJson.parse_value (S f) t = Some (v, r).
Proof.
  intros H. destruct (match_number_head t v r H) as (c & t' & -> & [Hc|Hc]).
  - apply Ascii.eqb_eq in Hc. subst c.
    rewrite parse_value_plain by reflexivity. rewrite H. reflexivity.
  - rewrite parse_value_plain; try (apply (digit_is_not c _ Hc); reflexivity).
    rewrite H. reflexivity.
Qed.

Lemma parse_number_value f v level rest :
  number_text_ok v -> PyJson.encode level v = PyJson.encode 0 v ->
  delimited rest ->
  PyJson.parse_value (S f) (PyJson.encode level v ++ rest) = Some (v, rest).
Proof.
  intros Hok Hlevel Hd. rewrite Hlevel. apply parse_number_text.
  exact (match_number_app _ v EmptyString rest Hok Hd).
Qed.

Lemma parse_leaf v :
  match v with JArr _ | JObj _ => False | _ => True end ->
  reads_back_from_text v.
Proof.
  intros Hleaf level rest f Hs Hf Hd.
  destruct f as [|f]; [destruct v; simpl in Hf; lia|].
  destruct v as [|[]|n|x|s|l|d]; try contradiction; try reflexivity.
  - apply parse_number_value; [apply int_text_ok|reflexivity|exact Hd].
  - destruct x as [[]|[]| |sg m e]; try reflexivity.
    + apply parse_number_value; [reflexivity|reflexivity|exact Hd].
    + apply parse_number_value; [reflexivity|reflexivity|exact Hd].
    + apply parse_number_value;
        [exact (float_text_ok _ _ _ Hs)|reflexivity|exact Hd].
  - apply parse_string_value.
Qed.

(** *** Dicts *)

Lemma dict_set_fresh k v (d : dict) :
  ~ In k (map fst d) -> dict_set k v d = (d ++ [(k, v)])%list.
Proof.
  induction d as [|[k' v'] r IH]; simpl; intros H; [reflexivity|].
  destruct (String.eqb_spec k k') as [->|_].
  - exfalso. apply H. left. reflexivity.
  - rewrite IH; [reflexivity|]. intros Hin. apply H. right. exact Hin.
Qed.

Lemma dict_of_pairs_from (d2 : dict) : forall d1 : dict,
  NoDup (map fst (d1 ++ d2)%list) ->
  fold_left (fun d kv => dict_set (fst kv) (snd kv) d) d2 d1 = (d1 ++ d2)%list.
Proof.
  induction d2 as [|[k v] r IH]; intros d1 H; simpl.
  - rewrite app_nil_r. reflexivity.
  - rewrite dict_set_fresh.
    + rewrite IH; rewrite <- app_assoc; [reflexivity|exact H].
    + rewrite map_app in H. simpl in H. apply NoDup_remove_2 in H.
      intros Hin. apply H. apply in_or_app. left. exact Hin.
Qed.

Lemma dict_of_pairs_nodup (d : dict) :
  NoDup (map fst d) -> PyJson.dict_of_pairs d = d.
Proof. intros H. apply (dict_of_pairs_from d []). exact H. Qed.

(** *** Lists *)

Lemma after_items_delimited level r tail :
  delimited (encode_items (S level) r
             ++ PyJson.newline_indent level ++ tail).
Proof. destruct r; reflexivity. Qed.

Lemma parse_elements_encode r : forall x level rest f,
  Forall reads_back_from_text (x :: r) ->
  all_storable (x :: r) ->
  (sizes (x :: r) <= f)%nat ->
  PyJson.parse_elements f
    (PyJson.encode (S level) x ++ encode_items (S level) r
     ++ PyJson.newline_indent level ++ String "]" rest)
  = Some (x :: r, rest).
Proof.
  induction r as [|y r IH]; intros x level rest f Hread [Hx Hr] Hf.
  - destruct f as [|f]; [simpl in Hf; lia|].
    rewrite parse_elements_step.
    inversion Hread as [|? ? Hrx _]; subst.
    rewrite (Hrx (S level) _ f Hx) by
      (try apply after_items_delimited; simpl in Hf; lia).
    change (encode_items (S level) [] ++ PyJson.newline_indent level
            ++ String "]" rest)
      with (PyJson.newline_indent level ++ String "]" rest).
    rewrite skip_ws_newline_indent. reflexivity.
  - destruct f as [|f]; [simpl in Hf; lia|].
    rewrite parse_elements_step.
    inversion Hread as [|? ? Hrx Hrest]; subst.
    rewrite (Hrx (S level) _ f Hx) by
      (try apply after_items_delimited; simpl in Hf; lia).
    rewrite encode_items_cons.
    change (String "," (PyJson.newline_indent (S level)
                        ++ PyJson.encode (S level) y ++ encode_items (S level) r)
            ++ PyJson.newline_indent level ++ String "]" rest)
      with (String "," ((PyJson.newline_indent (S level)
                         ++ PyJson.encode (S level) y ++ encode_items (S level) r)
                        ++ PyJson.newline_indent level ++ String "]" rest)).
    rewrite !app_assoc_s.
    cbn [PyJson.skip_ws]. change (PyJson.is_ws ",") with false. cbv iota.
    change (Ascii.eqb "," "]") with false.
    change (Ascii.eqb "," ",") with true. cbv iota.
    rewrite skip_ws_newline_indent.
    rewrite (skip_ws_opens _ _ (encode_opens_value y (S level) (proj1 Hr))).
    rewrite (IH y level rest f Hrest Hr) by (simpl in Hf |- *; lia).
    reflexivity.
Qed.

(** *** Dicts in the text *)

Lemma after_fields_delimited level r tail :
  delimited (encode_fields (S level) r
             ++ PyJson.newline_indent level ++ tail).
Proof. destruct r as [|[k y] r]; reflexivity. Qed.

Lemma parse_members_encode r : forall k x level rest f,
  Forall (fun kv => reads_back_from_text (snd kv)) ((k, x) :: r) ->
  fields_storable ((k, x) :: r) ->
  (field_sizes ((k, x) :: r) <= f)%nat ->
  PyJson.parse_members f
    (PyJson.encode_string k ++ ": " ++ PyJson.encode (S level) x
     ++ encode_fields (S level) r
     ++ PyJson.newline_indent level ++ String "}" rest)
  = Some ((k, x) :: r, rest).
Proof.
  induction r as [|[k' y] r IH]; intros k x level rest f Hread (_ & Hx & Hr) Hf.
  - destruct f as [|f]; [simpl in Hf; lia|].
    rewrite encode_string_app, parse_members_step, scan_encode_string.
    cbn [PyJson.skip_ws append]. change (PyJson.is_ws ":") with false. cbv iota.
    change (Ascii.eqb ":" ":") with true. cbv iota.
    cbn [PyJson.skip_ws]. change (PyJson.is_ws " ") with true. cbv iota.
    rewrite (skip_ws_opens _ _ (encode_opens_value x (S level) Hx)).
    inversion Hread as [|? ? Hrx _]; subst. simpl in Hrx.
    rewrite (Hrx (S level) _ f Hx) by
      (try apply after_fields_delimited; simpl in Hf; lia).
    change (encode_fields (S level) [] ++ PyJson.newline_indent level
            ++ String "}" rest)
      with (PyJson.newline_indent level ++ String "}" rest).
    rewrite skip_ws_newline_indent. reflexivity.
  - destruct f as [|f]; [simpl in Hf; lia|].
    rewrite encode_string_app, parse_members_step, scan_encode_string.
    cbn [PyJson.skip_ws append]. change (PyJson.is_ws ":") with false. cbv iota.
    change (Ascii.eqb ":" ":") with true. cbv iota.
    cbn [PyJson.skip_ws]. change (PyJson.is_ws " ") with true. cbv iota.
    rewrite (skip_ws_opens _ _ (encode_opens_value x (S level) Hx)).
    inversion Hread as [|? ? Hrx Hrest]; subst. simpl in Hrx.
    rewrite (Hrx (S level) _ f Hx) by
      (try apply after_fields_delimited; simpl in Hf; lia).
    rewrite encode_fields_cons.
    change (String "," (PyJson.newline_indent (S level)
                        ++ PyJson.encode_string k' ++ ": "
                        ++ PyJson.encode (S level) y ++ encode_fields (S level) r)
            ++ PyJson.newline_indent level ++ String "}" rest)
      with (String "," ((PyJson.newline_indent (S level)
                         ++ PyJson.encode_string k' ++ ": "
                         ++ PyJson.encode (S level) y ++ encode_fields (S level) r)
                        ++ PyJson.newline_indent level ++ String "}" rest)).
    rewrite !app_assoc_s.
    cbn [PyJson.skip_ws]. change (PyJson.is_ws ",") with false. cbv iota.
    change (Ascii.eqb "," "}") with false.
    change (Ascii.eqb "," ",") with true. cbv iota.
    rewrite skip_ws_newline_indent.
    rewrite encode_string_app.
    cbn [PyJson.skip_ws]. change (PyJson.is_ws PyJson.dquote) with false.
    cbv iota. rewrite <- encode_string_app.
    rewrite (IH k' y level rest f Hrest Hr) by (simpl in Hf |- *; lia).
    reflexivity.
Qed.

(** *** Every storable value is read back *)

Lemma every_value_reads_back v : reads_back_from_text v.
Proof.
  induction v as [|b|n|x|s|l IHl|d IHd] using json_induction;
    try (apply parse_leaf; exact I).
  - intros level rest f Hs Hf Hd.
    destruct f as [|f]; [simpl in Hf; lia|].
    destruct l as [|x r]; [reflexivity|].
    change (all_storable (x :: r)) in Hs.
    change (S (sizes (x :: r)) <= S f)%nat in Hf.
    rewrite encode_arr.
    change (String "[" (PyJson.newline_indent (S level)
                        ++ PyJson.encode (S level) x ++ encode_items (S level) r
                        ++ PyJson.newline_indent level ++ "]") ++ rest)
      with (String "[" ((PyJson.newline_indent (S level)
                         ++ PyJson.encode (S level) x ++ encode_items (S level) r
                         ++ PyJson.newline_indent level ++ "]") ++ rest)).
    rewrite !app_assoc_s.
    change ("]" ++ rest) with (String "]" rest).
    rewrite parse_value_array, skip_ws_newline_indent.
    pose proof (encode_opens_value x (S level) (proj1 Hs)) as Hopen.
    rewrite (skip_ws_opens _ _ Hopen).
    rewrite (parse_elements_encode r x level rest f IHl Hs) by lia.
    destruct Hopen as (c & t' & -> & _ & Hc).
    cbn [append]. rewrite Hc. reflexivity.
  - intros level rest f [Hnd Hs] Hf Hd.
    destruct f as [|f]; [simpl in Hf; lia|].
    destruct d as [|[k x] r]; [reflexivity|].
    change (fields_storable ((k, x) :: r)) in Hs.
    change (S (field_sizes ((k, x) :: r)) <= S f)%nat in Hf.
    rewrite encode_obj.
    change (String "{" (PyJson.newline_indent (S level)
                        ++ PyJson.encode_string k ++ ": "
                        ++ PyJson.encode (S level) x ++ encode_fields (S level) r
                        ++ PyJson.newline_indent level ++ "}") ++ rest)
      with (String "{" ((PyJson.newline_indent (S level)
                         ++ PyJson.encode_string k ++ ": "
                         ++ PyJson.encode (S level) x ++ encode_fields (S level) r
                         ++ PyJson.newline_indent level ++ "}") ++ rest)).
    rewrite !app_assoc_s.
    change ("}" ++ rest) with (String "}" rest).
    rewrite parse_value_object, skip_ws_newline_indent.
    rewrite encode_string_app.
    cbn [PyJson.skip_ws]. change (PyJson.is_ws PyJson.dquote) with false.
    cbv iota. change (Ascii.eqb PyJson.dquote "}") with false. cbv iota.
    rewrite <- encode_string_app.
    rewrite (parse_members_encode r k x level rest f IHd Hs) by lia.
    rewrite (dict_of_pairs_nodup _ Hnd). reflexivity.
Qed.

Lemma length_newline_indent level :
  (1 <= String.length (PyJson.newline_indent level))%nat.
Proof. unfold PyJson.newline_indent. simpl. lia. Qed.

Lemma size_le_length v : forall level,
  (size v <= String.length (PyJson.encode level v) + 1)%nat.
Proof.
  induction v as [|b|n|x|s|l IHl|d IHd] using json_induction; intros level;
    try (simpl size; lia).
  - destruct l as [|x r]; [simpl; lia|].
    rewrite encode_arr. change (size (JArr (x :: r))) with (S (sizes (x :: r))).
    cbn [String.length]. rewrite !length_app_s.
    pose proof (length_newline_indent (S level)).
    assert (Hitems : (sizes r <= String.length (encode_items (S level) r))%nat).
    { inversion IHl as [|? ? _ Hr]; subst. clear IHl.
      induction r as [|y r IHr]; [simpl; lia|].
      inversion Hr as [|? ? Hy Hr']; subst.
      rewrite encode_items_cons. cbn [String.length sizes].
      rewrite !length_app_s.
      pose proof (length_newline_indent (S level)).
      specialize (Hy (S level)). specialize (IHr Hr'). lia. }
    inversion IHl as [|? ? Hx _]; subst. specialize (Hx (S level)).
    cbn [sizes]. lia.
  - destruct d as [|[k x] r]; [simpl; lia|].
    rewrite encode_obj.
    change (size (JObj ((k, x) :: r))) with (S (field_sizes ((k, x) :: r))).
    cbn [String.length]. rewrite !length_app_s.
    pose proof (length_newline_indent (S level)).
    assert (Hfields : (field_sizes r
                       <= String.length (encode_fields (S level) r))%nat).
    { inversion IHd as [|? ? _ Hr]; subst. clear IHd.
      induction r as [|[k' y] r IHr]; [simpl; lia|].
      inversion Hr as [|? ? Hy Hr']; subst.
      rewrite encode_fields_cons. cbn [String.length field_sizes].
      rewrite !length_app_s.
      pose proof (length_newline_indent (S level)).
      specialize (Hy (S level)). simpl in Hy. specialize (IHr Hr'). lia. }
    inversion IHd as [|? ? Hx _]; subst. specialize (Hx (S level)).
    simpl in Hx. cbn [field_sizes]. lia.
Qed.

(** [json.loads(json.dumps(v, indent=2, ensure_ascii=False)) == v] for a
    storable value. *)
Lemma loads_dumps v : storable v -> PyJson.loads (PyJson.dumps v) = Some v.
Proof.
  intros Hs. unfold PyJson.loads, PyJson.dumps.
  pose proof (encode_opens_value v 0 Hs) as Hopen.
  pose proof (skip_ws_opens _ EmptyString Hopen) as Hskip.
  rewrite app_nil_r_s in Hskip. rewrite Hskip.
  pose proof (every_value_reads_back v O EmptyString
                (2 * String.length (PyJson.encode 0 v) + 2)%nat Hs) as Hread.
  rewrite app_nil_r_s in Hread. rewrite Hread.
  - reflexivity.
  - pose proof (size_le_length v 0). lia.
  - exact I.
Qed.

(** ** Creating, saving and loading *)

Lemma all_storable_forall l : Forall storable l <-> all_storable l.
Proof.
  induction l as [|x r IH]; simpl.
  - split; [intros _; exact I|constructor].
  - rewrite <- IH. split.
    + intros H. inversion H; subst. split; assumption.
    + intros [Hx Hr]. constructor; assumption.
Qed.

(** A file that can be opened and has no limit takes any text. *)
Lemma takes_any w t :
  writable w = true -> room w = None -> takes w t = true.
Proof.
  intros Hw Hr. unfold takes, fits. rewrite Hw, Hr. reflexivity.
Qed.

(** Saving a list of storable values and loading it gives the list. *)
Lemma save_then_load es w :
  Forall storable es ->
  PyJson.within_limits (JArr es) = true ->
  takes w (PyJson.dumps (JArr es)) = true ->
  let w' := snd (save_expenses es w) in
  file w' = Text (PyJson.dumps (JArr es)) /\
  load_expenses w' = (Ok es, w').
Proof.
  intros Hs Hl Hw w'.
  assert (Hfile : file w' = Text (PyJson.dumps (JArr es))).
  { unfold w'. rewrite save_expenses_run. simpl.
    rewrite (saved_takes _ _ Hw). reflexivity. }
  split; [exact Hfile|].
  rewrite (load_expenses_text w' _ Hfile).
  rewrite loads_dumps by (apply (proj1 (all_storable_forall es)), Hs).
  rewrite Hl. reflexivity.
Qed.

(** One value more in a list within the limits. *)
Lemma within_limits_snoc es e :
  PyJson.within_limits (JArr es) = true ->
  (PyJson.depth e < PyJson.nesting_limit)%N ->
  PyJson.ints_within e = true ->
  PyJson.within_limits (JArr (es ++ [e])%list) = true.
Proof.
  unfold PyJson.within_limits. intros H Hd Hi.
  apply andb_true_iff in H. destruct H as [H1 H2].
  change (PyJson.depth (JArr es)) with (N.succ (deepest es)) in H1.
  change (PyJson.ints_within (JArr es)) with (all_ints_within es) in H2.
  change (PyJson.depth (JArr (es ++ [e])%list))
    with (N.succ (deepest (es ++ [e])%list)).
  change (PyJson.ints_within (JArr (es ++ [e])%list))
    with (all_ints_within (es ++ [e])%list).
  apply N.leb_le in H1. apply andb_true_iff. split.
  - apply N.leb_le.
    assert (Hm : deepest (es ++ [e])%list = N.max (deepest es) (PyJson.depth e)).
    { clear. induction es as [|x r IH]; simpl; [lia|].
      rewrite IH. apply N.max_assoc. }
    rewrite Hm. lia.
  - clear H1 Hd. induction es as [|x r IH]; simpl in *.
    + rewrite Hi. reflexivity.
    + apply andb_true_iff in H2. destruct H2 as [Hx Hr].
      rewrite Hx. apply IH, Hr.
Qed.

Lemma new_record_storable id amount category note date :
  PyStr.encodable id = true ->
  PyStr.encodable category = true ->
  PyStr.encodable note = true ->
  PyStr.encodable date = true ->
  storable (new_record id amount category note date).
Proof.
  intros Hi Hc Hn Hd. split.
  - repeat constructor; simpl; intuition discriminate.
  - simpl. repeat split; try assumption.
    + apply round2_is_double.
    + apply encodable_strip, Hc.
    + apply encodable_strip, Hn.
Qed.

(** C2.  A record built by [make_expense] from a number, a category, a
    note and a date has the id drawn, the amount rounded to two digits,
    the category and the note stripped, and the date given (the time of
    the clock when none is given); once the list it is appended to is
    saved, the file holds the text of that list, and loading the file
    gives the list again, record for record and value for value.  The
    number is any float; the texts are strings that can be encoded, the
    list is one that [json.dump] and [json.load] handle, and the file
    takes what is written. *)
Theorem create_save_load_round_trip es amount category note date_iso w :
  Forall storable es ->
  PyJson.within_limits (JArr es) = true ->
  PyStr.encodable category = true ->
  PyStr.encodable note = true ->
  (forall d, date_iso = Some d -> PyStr.encodable d = true) ->
  PyStr.encodable (uuids w (uuid_calls w)) = true ->
  PyStr.encodable (clock w (clock_calls w)) = true ->
  writable w = true ->
  room w = None ->
  exists date w1,
    let e := JObj [("id", JStr (uuids w (uuid_calls w)));
                   ("amount", JFloat (round2 amount));
                   ("category", JStr (PyStr.strip category));
                   ("note", JStr (PyStr.strip note));
                   ("date", JStr date)] in
    make_expense amount category note date_iso w = (Ok e, w1) /\
    (forall d, date_iso = Some d -> PyStr.truthy d = true -> date = d) /\
    (date_iso = None \/ date_iso = Some EmptyString ->
     date = clock w (clock_calls w)) /\
    let w2 := snd (save_expenses (es ++ [e])%list w1) in
    file w2 = Text (PyJson.dumps (JArr (es ++ [e])%list)) /\
    load_expenses w2 = (Ok (es ++ [e])%list, w2).
Proof.
  intros Hes Hlim Hcat Hnote Hdate Hid Hclock Hw Hroom.
  assert (Hround : forall date w1,
            PyStr.encodable date = true ->
            writable w1 = true -> room w1 = None ->
            let e := new_record (uuids w (uuid_calls w)) amount category note
                                date in
            let w2 := snd (save_expenses (es ++ [e])%list w1) in
            file w2 = Text (PyJson.dumps (JArr (es ++ [e])%list)) /\
            load_expenses w2 = (Ok (es ++ [e])%list, w2)).
  { intros date w1 Hd Hw1 Hr1 e. apply save_then_load.
    - apply Forall_app. split; [exact Hes|].
      constructor; [|constructor].
      apply new_record_storable; assumption.
    - apply within_limits_snoc; [exact Hlim|reflexivity|reflexivity].
    - apply takes_any; assumption. }
  unfold make_expense, bind, uuid4.
  destruct date_iso as [d|]; [destruct (PyStr.truthy d) eqn:Hd|].
  - exists d, (tick_uuid w). split; [reflexivity|]. split; [|split].
    + intros d' E _. injection E as <-. reflexivity.
    + intros [E|E]; [discriminate|]. injection E as ->. discriminate.
    + apply (Hround d (tick_uuid w) (Hdate d eq_refl) Hw Hroom).
  - exists (clock w (clock_calls w)), (tick_clock (tick_uuid w)).
    split; [reflexivity|]. split; [|split].
    + intros d' E Ht. injection E as <-. congruence.
    + reflexivity.
    + apply (Hround _ (tick_clock (tick_uuid w)) Hclock Hw Hroom).
  - exists (clock w (clock_calls w)), (tick_clock (tick_uuid w)).
    split; [reflexivity|]. split; [|split].
    + intros d' E. discriminate.
    + reflexivity.
    + apply (Hround _ (tick_clock (tick_uuid w)) Hclock Hw Hroom).
Qed.
(** * Further properties of the program *)

(** ** What every operation leaves alone *)

Section Frame.

Variable R : world -> world -> Prop.
Hypothesis R_refl : forall w, R w w.
Hypothesis R_trans : forall a b c, R a b -> R b c -> R a c.

Lemma keeps_ret {A : Type} (a : A) : keeps R (ret a).
Proof. intros w. apply R_refl. Qed.

Lemma keeps_raise {A : Type} (e : exn) : keeps R (@raise A e).
Proof. intros w. apply R_refl. Qed.

Lemma keeps_lift {A : Type} (r : result A) : keeps R (lift r).
Proof. intros w. apply R_refl. Qed.

Lemma keeps_bind {A B : Type} (m : M A) (k : A -> M B) :
  keeps R m -> (forall a, keeps R (k a)) -> keeps R (bind m k).
Proof.
  intros Hm Hk w. unfold bind. specialize (Hm w).
  destruct (m w) as [[a|e] w1]; simpl in *.
  - eapply R_trans; [exact Hm|apply Hk].
  - exact Hm.
Qed.

Lemma keeps_try_except {A : Type} (body : M A) caught (handler : M A) :
  keeps R body -> keeps R handler -> keeps R (try_except body caught handler).
Proof.
  intros Hb Hh w. unfold try_except. specialize (Hb w).
  destruct (body w) as [[a|e] w1]; simpl in *.
  - exact Hb.
  - destruct (caught e); simpl.
    + eapply R_trans; [exact Hb|apply Hh].
    + exact Hb.
Qed.

Lemma keeps_for_each {A : Type} (f : A -> M unit) (l : list A) :
  (forall x, keeps R (f x)) -> keeps R (for_each f l).
Proof.
  intros Hf. induction l as [|x r IH]; simpl.
  - apply keeps_ret.
  - apply keeps_bind; [apply Hf|intros _; exact IH].
Qed.

End Frame.

Lemma keeps_weaken {A : Type} (R R' : world -> world -> Prop) (m : M A) :
  (forall w w', R w w' -> R' w w') -> keeps R m -> keeps R' m.
Proof. intros H Hm w. apply H, Hm. Qed.

Lemma later_refl w : later w w.
Proof.
  repeat split.
  - exists []. reflexivity.
  - exists []. symmetry. apply app_nil_r.
Qed.

Lemma later_trans a b c : later a b -> later b c -> later a c.
Proof.
  intros (Hw1 & Hm1 & Hu1 & Hc1 & [r1 Hi1] & [p1 Ho1])
         (Hw2 & Hm2 & Hu2 & Hc2 & [r2 Hi2] & [p2 Ho2]).
  repeat split; try congruence.
  - exists (r1 ++ r2)%list. rewrite Hi1, Hi2. apply app_assoc.
  - exists (p1 ++ p2)%list. rewrite Ho2, Ho1. symmetry. apply app_assoc.
Qed.

Lemma same_store_refl w : same_store w w.
Proof. repeat split. Qed.

Lemma same_store_trans a b c :
  same_store a b -> same_store b c -> same_store a c.
Proof. intros (? & ? & ?) (? & ? & ?). repeat split; congruence. Qed.

Lemma only_reads_refl w : only_reads w w.
Proof. split; [apply later_refl|apply same_store_refl]. Qed.

Lemma only_reads_trans a b c :
  only_reads a b -> only_reads b c -> only_reads a c.
Proof.
  intros [L1 S1] [L2 S2].
  split; [eapply later_trans|eapply same_store_trans]; eassumption.
Qed.

Lemma only_reads_later w w' : only_reads w w' -> later w w'.
Proof. intros [H _]. exact H. Qed.

Lemma only_reads_add_out w o : only_reads w (add_out w o).
Proof.
  repeat split.
  - exists []. reflexivity.
  - exists [o]. reflexivity.
Qed.

Lemma only_reads_print o : keeps only_reads (print o).
Proof. intros w. apply only_reads_add_out. Qed.

Lemma only_reads_input : keeps only_reads input.
Proof.
  intros w. unfold input. destruct (stdin w) as [|l rest] eqn:E; simpl.
  - apply only_reads_refl.
  - repeat split; simpl.
    + exists [l]. exact E.
    + exists []. symmetry. apply app_nil_r.
Qed.

Lemma only_reads_path_exists : keeps only_reads path_exists.
Proof. intros w. apply only_reads_refl. Qed.

Lemma only_reads_read_text : keeps only_reads read_text.
Proof.
  intros w. unfold read_text. destruct (file w); apply only_reads_refl.
Qed.

Lemma later_write_text t : keeps later (write_text t).
Proof.
  intros w. unfold write_text. destruct (writable w) eqn:E; simpl.
  - destruct (fits t w); repeat split; simpl.
    + exists []. reflexivity.
    + exists []. symmetry. apply app_nil_r.
    + exists []. reflexivity.
    + exists []. symmetry. apply app_nil_r.
  - apply later_refl.
Qed.

Lemma later_uuid4 : keeps later uuid4.
Proof.
  intros w. repeat split; simpl.
  - exists []. reflexivity.
  - exists []. symmetry. apply app_nil_r.
Qed.

Lemma later_now_iso : keeps later now_iso.
Proof.
  intros w. repeat split; simpl.
  - exists []. reflexivity.
  - exists []. symmetry. apply app_nil_r.
Qed.

Lemma only_reads_amount_loop pending : forall w,
  (exists read, stdin w = (read ++ pending)%list) ->
  only_reads w (snd (amount_loop pending w)).
Proof.
  induction pending as [|l rest IH]; intros w [read E]; simpl.
  - repeat split; simpl.
    + exists read. rewrite E. reflexivity.
    + exists []. symmetry. apply app_nil_r.
  - destruct (float_of_string (PyStr.strip l)); simpl.
    + repeat split; simpl.
      * exists (read ++ [l])%list. rewrite E, <- app_assoc. reflexivity.
      * exists []. symmetry. apply app_nil_r.
    + eapply only_reads_trans; [apply only_reads_add_out|].
      apply IH. exists (read ++ [l])%list. simpl.
      rewrite E, <- app_assoc. reflexivity.
Qed.

Lemma only_reads_read_amount : keeps only_reads read_amount.
Proof.
  intros w. apply only_reads_amount_loop. exists []. reflexivity.
Qed.

Create HintDb frame.

#[local] Hint Resolve only_reads_refl only_reads_trans later_refl later_trans
  only_reads_print only_reads_input only_reads_path_exists
  only_reads_read_text only_reads_read_amount
  later_write_text later_uuid4 later_now_iso : frame.

(** One step of a proof that a computation keeps a relation: the
    computation is taken apart along its binds and its branches. *)
Ltac frame_step :=
  match goal with
  | |- keeps later (print _) =>
      apply (keeps_weaken only_reads later _ only_reads_later)
  | |- keeps later input =>
      apply (keeps_weaken only_reads later _ only_reads_later)
  | |- keeps later path_exists =>
      apply (keeps_weaken only_reads later _ only_reads_later)
  | |- keeps later read_text =>
      apply (keeps_weaken only_reads later _ only_reads_later)
  | |- keeps later read_amount =>
      apply (keeps_weaken only_reads later _ only_reads_later)
  | |- keeps _ (ret _) => apply keeps_ret
  | |- keeps _ (raise _) => apply keeps_raise
  | |- keeps _ (lift _) => apply keeps_lift
  | |- keeps _ (bind _ _) => apply keeps_bind; [| |intro]
  | |- keeps _ (try_except _ _ _) => apply keeps_try_except
  | |- keeps _ (for_each _ _) => apply keeps_for_each; [| |intro]
  | |- keeps _ (if ?b then _ else _) => destruct b
  | |- keeps _ (match ?x with _ => _ end) => destruct x
  | |- _ =>
      solve [ exact only_reads_trans | exact later_trans
            | exact only_reads_refl | exact later_refl | auto with frame ]
  end.

Ltac frame := repeat frame_step.

Lemma only_reads_load_expenses : keeps only_reads load_expenses.
Proof. unfold load_expenses, json_load. frame. Qed.

Lemma later_save_expenses es : keeps later (save_expenses es).
Proof. unfold save_expenses. frame. Qed.

Lemma only_reads_print_expense e : keeps only_reads (print_expense e).
Proof. unfold print_expense. frame. Qed.

Lemma only_reads_view_all_expenses es : keeps only_reads (view_all_expenses es).
Proof.
  unfold view_all_expenses. frame. apply only_reads_print_expense.
Qed.

Lemma only_reads_search_expenses es : keeps only_reads (search_expenses es).
Proof.
  unfold search_expenses. frame. apply only_reads_print_expense.
Qed.

Lemma only_reads_view_totals es : keeps only_reads (view_totals es).
Proof. unfold view_totals, print_category. frame. Qed.

Lemma later_delete_expense es : keeps later (delete_expense es).
Proof. unfold delete_expense. frame. apply later_save_expenses. Qed.

Section FrameInteractive.

Variable fromisoformat : string -> option string.
Variable strptime_ymd : string -> option string.

Lemma later_make_expense amount category note date_iso :
  keeps later (make_expense amount category note date_iso).
Proof. unfold make_expense. frame. Qed.

Lemma later_parse_date s :
  keeps later (parse_date fromisoformat strptime_ymd s).
Proof. unfold parse_date. frame. Qed.

Lemma later_add_expense_interactive es :
  keeps later (add_expense_interactive fromisoformat strptime_ymd es).
Proof.
  unfold add_expense_interactive. frame.
  - apply later_parse_date.
  - apply later_make_expense.
  - apply later_save_expenses.
Qed.

Lemma later_run_action a es :
  keeps later (run_action fromisoformat strptime_ymd a es).
Proof.
  destruct a; unfold run_action.
  - apply later_add_expense_interactive.
  - frame. apply (keeps_weaken only_reads later _ only_reads_later),
             only_reads_view_all_expenses.
  - frame. apply (keeps_weaken only_reads later _ only_reads_later),
             only_reads_view_totals.
  - frame. apply (keeps_weaken only_reads later _ only_reads_later),
             only_reads_search_expenses.
  - apply later_delete_expense.
  - frame. apply later_save_expenses.
Qed.

End FrameInteractive.

(** ** Worlds *)

Lemma stdout_add_outs items : forall w,
  stdout (add_outs w items) = (stdout w ++ items)%list.
Proof.
  induction items as [|o r IH]; intros w; simpl.
  - symmetry. apply app_nil_r.
  - rewrite IH. simpl. rewrite <- app_assoc. reflexivity.
Qed.

Lemma file_add_outs items : forall w, file (add_outs w items) = file w.
Proof.
  induction items as [|o r IH]; intros w; simpl; [reflexivity|].
  rewrite IH. reflexivity.
Qed.

Lemma writable_add_outs items : forall w,
  writable (add_outs w items) = writable w.
Proof.
  induction items as [|o r IH]; intros w; simpl; [reflexivity|].
  rewrite IH. reflexivity.
Qed.

Lemma uuid_calls_add_outs items : forall w,
  uuid_calls (add_outs w items) = uuid_calls w.
Proof.
  induction items as [|o r IH]; intros w; simpl; [reflexivity|].
  rewrite IH. reflexivity.
Qed.

Lemma uuids_add_outs items : forall w, uuids (add_outs w items) = uuids w.
Proof.
  induction items as [|o r IH]; intros w; simpl; [reflexivity|].
  rewrite IH. reflexivity.
Qed.

Lemma clock_add_outs items : forall w, clock (add_outs w items) = clock w.
Proof.
  induction items as [|o r IH]; intros w; simpl; [reflexivity|].
  rewrite IH. reflexivity.
Qed.

Lemma clock_calls_add_outs items : forall w,
  clock_calls (add_outs w items) = clock_calls w.
Proof.
  induction items as [|o r IH]; intros w; simpl; [reflexivity|].
  rewrite IH. reflexivity.
Qed.

Lemma room_add_outs items : forall w, room (add_outs w items) = room w.
Proof.
  induction items as [|o r IH]; intros w; simpl; [reflexivity|].
  rewrite IH. reflexivity.
Qed.

(** What fits and what a failed write leaves depend on the room only. *)
Lemma fits_room t w w' : room w' = room w -> fits t w' = fits t w.
Proof. unfold fits. intros ->. reflexivity. Qed.

Lemma cut_off_room t w w' : room w' = room w -> cut_off t w' = cut_off t w.
Proof. unfold cut_off. intros ->. reflexivity. Qed.

Lemma takes_same t w w' :
  writable w' = writable w -> room w' = room w -> takes w' t = takes w t.
Proof. unfold takes, fits. intros -> ->. reflexivity. Qed.

(** The world after [save_expenses], part by part. *)
Lemma saved_parts t w :
  stdin (saved t w) = stdin w /\
  stdout (saved t w)
  = (stdout w ++ (if takes w t then [] else [Line save_error]))%list /\
  file (saved t w)
  = (if writable w then if fits t w then Text t else cut_off t w
     else file w) /\
  writable (saved t w) = writable w /\
  room (saved t w) = room w /\
  uuid_calls (saved t w) = uuid_calls w /\
  uuids (saved t w) = uuids w /\
  clock (saved t w) = clock w /\
  clock_calls (saved t w) = clock_calls w.
Proof.
  unfold saved, takes.
  destruct (writable w) eqn:E; [destruct (fits t w)|]; simpl;
    rewrite ?app_nil_r; repeat split; exact E.
Qed.

Lemma add_outs_set_stdin items : forall w l,
  add_outs (set_stdin w l) items = set_stdin (add_outs w items) l.
Proof.
  induction items as [|o r IH]; intros w l; simpl; [reflexivity|].
  rewrite <- IH. reflexivity.
Qed.

Lemma for_each_print items : forall w,
  for_each print items w = (Ok tt, add_outs w items).
Proof.
  induction items as [|o r IH]; intros w; simpl; [reflexivity|].
  unfold bind, print at 1. rewrite IH. reflexivity.
Qed.

Lemma later_stdin_length w w' :
  later w w' -> (List.length (stdin w') <= List.length (stdin w))%nat.
Proof.
  intros (_ & _ & _ & _ & [read E] & _). rewrite E, length_app. lia.
Qed.

Lemma later_stdin_in w w' line :
  later w w' -> In line (stdin w') -> In line (stdin w).
Proof.
  intros (_ & _ & _ & _ & [read E] & _) H. rewrite E. apply in_or_app. now right.
Qed.

(** ** The menu *)

Lemma menu_prompt_run w :
  (for_each print menu_lines ;; input) w =
  match stdin w with
  | [] => (Raise EOFError, add_outs w menu_lines)
  | l :: rest => (Ok l, set_stdin (add_outs w menu_lines) rest)
  end.
Proof.
  unfold bind. rewrite for_each_print. unfold input.
  rewrite stdin_add_outs. destruct (stdin w); reflexivity.
Qed.

Section MenuFacts.

Variable fromisoformat : string -> option string.
Variable strptime_ymd : string -> option string.

Lemma menu_loop_turn fuel es w :
  menu_loop fromisoformat strptime_ymd (S fuel) es w =
  match stdin w with
  | [] => Some (Raise EOFError, add_outs w menu_lines)
  | line :: rest =>
      let w1 := set_stdin (add_outs w menu_lines) rest in
      let choice := PyStr.strip line in
      match choices_get choice choices with
      | None => menu_loop fromisoformat strptime_ymd fuel es (add_out w1 (Line invalid_choice))
      | Some (_, func) =>
          if String.eqb choice "0"
          then Some (Ok tt, add_out w1 (Line goodbye))
          else
            match func with
            | Some a =>
                match run_action fromisoformat strptime_ymd a es w1 with
                | (Ok es', w2) => menu_loop fromisoformat strptime_ymd fuel es' w2
                | (Raise e, w2) => Some (Raise e, w2)
                end
            | None => menu_loop fromisoformat strptime_ymd fuel es w1
            end
      end
  end.
Proof.
  change (menu_loop fromisoformat strptime_ymd (S fuel) es w) with
    (match (for_each print menu_lines ;; input) w with
     | (Raise e, w1) => Some (Raise e, w1)
     | (Ok line, w1) =>
         let choice := PyStr.strip line in
         match choices_get choice choices with
         | None => menu_loop fromisoformat strptime_ymd fuel es (add_out w1 (Line invalid_choice))
         | Some (_, func) =>
             if String.eqb choice "0"
             then Some (print (Line goodbye) w1)
             else
               match func with
               | Some a =>
                   match run_action fromisoformat strptime_ymd a es w1 with
                   | (Ok es', w2) => menu_loop fromisoformat strptime_ymd fuel es' w2
                   | (Raise e, w2) => Some (Raise e, w2)
                   end
               | None => menu_loop fromisoformat strptime_ymd fuel es w1
               end
         end
     end).
  rewrite menu_prompt_run. destruct (stdin w); reflexivity.
Qed.

Lemma later_turn w line rest :
  stdin w = line :: rest ->
  later w (set_stdin (add_outs w menu_lines) rest).
Proof.
  intros E. split; [reflexivity|]. split; [reflexivity|].
  split; [reflexivity|]. split; [reflexivity|]. split.
  - exists [line]. exact E.
  - exists menu_lines. apply stdout_add_outs.
Qed.

Lemma menu_loop_enough fuel : forall es w,
  (List.length (stdin w) < fuel)%nat ->
  exists r w', menu_loop fromisoformat strptime_ymd fuel es w = Some (r, w') /\ later w w'.
Proof.
  induction fuel as [|fuel IH]; intros es w Hlen; [lia|].
  rewrite menu_loop_turn.
  destruct (stdin w) as [|line rest] eqn:E.
  - eexists. eexists. split; [reflexivity|].
    apply only_reads_later.
    pose proof (keeps_for_each only_reads only_reads_refl only_reads_trans
                  print menu_lines only_reads_print w) as H.
    rewrite for_each_print in H. exact H.
  - pose proof (later_turn w line rest E) as Hturn.
    set (w1 := set_stdin (add_outs w menu_lines) rest) in *.
    assert (Hlen1 : (List.length (stdin w1) < fuel)%nat).
    { unfold w1. simpl in *. lia. }
    cbv zeta.
    destruct (choices_get (PyStr.strip line) choices) as [[desc func]|].
    + destruct (String.eqb (PyStr.strip line) "0").
      * eexists. eexists. split; [reflexivity|].
        eapply later_trans; [exact Hturn|].
        apply only_reads_later, only_reads_add_out.
      * destruct func as [a|].
        -- pose proof (later_run_action fromisoformat strptime_ymd a es w1)
             as Hact.
           destruct (run_action fromisoformat strptime_ymd a es w1) as [[es'|e] w2] eqn:Erun;
             simpl in Hact.
           ++ destruct (IH es' w2) as (r & w' & Hrun & Hl).
              { pose proof (later_stdin_length _ _ Hact). lia. }
              exists r, w'. split; [exact Hrun|].
              eapply later_trans; [exact Hturn|].
              eapply later_trans; eassumption.
           ++ eexists. eexists. split; [reflexivity|].
              eapply later_trans; eassumption.
        -- destruct (IH es w1 Hlen1) as (r & w' & Hrun & Hl).
           exists r, w'. split; [exact Hrun|].
           eapply later_trans; eassumption.
    + destruct (IH es (add_out w1 (Line invalid_choice)))
        as (r & w' & Hrun & Hl); [exact Hlen1|].
      exists r, w'. split; [exact Hrun|].
      eapply later_trans; [exact Hturn|].
      eapply later_trans; [|exact Hl].
      apply only_reads_later, only_reads_add_out.
Qed.

(** X23.  [menu] ends on every input: its loop either reads "0" and
    returns, or leaves with an exception (that of [input] when the
    lines run out, at the latest).  Whatever it did, the file is still
    writable or not as before, what was printed before is still there,
    and the lines left are the last of those it was given. *)
Theorem menu_terminates w :
  exists r w', menu fromisoformat strptime_ymd w = Some (r, w') /\ later w w'.
Proof.
  unfold menu.
  pose proof (only_reads_load_expenses w) as Hload.
  destruct (load_expenses w) as [[es|e] w0]; simpl in Hload.
  - destruct (menu_loop_enough (S (List.length (stdin w0))) es w0)
      as (r & w' & Hrun & Hl); [lia|].
    exists r, w'. split; [exact Hrun|].
    eapply later_trans; [apply only_reads_later, Hload|exact Hl].
  - eexists. eexists. split; [reflexivity|].
    apply only_reads_later, Hload.
Qed.

Lemma menu_loop_returns fuel : forall es w w',
  menu_loop fromisoformat strptime_ymd fuel es w = Some (Ok tt, w') ->
  (exists line, In line (stdin w) /\ PyStr.strip line = "0") /\
  (exists out, stdout w' = (stdout w ++ out ++ [Line goodbye])%list) /\
  later w w'.
Proof.
  induction fuel as [|fuel IH]; intros es w w' H; [discriminate H|].
  rewrite menu_loop_turn in H.
  destruct (stdin w) as [|line rest] eqn:E; [discriminate H|].
  pose proof (later_turn w line rest E) as Hturn.
  set (w1 := set_stdin (add_outs w menu_lines) rest) in *.
  assert (Hback : forall w2,
            later w1 w2 ->
            (exists l, In l (stdin w2) /\ PyStr.strip l = "0") /\
            (exists out, stdout w' = (stdout w2 ++ out ++ [Line goodbye])%list) /\
            later w2 w' ->
            (exists l, In l (line :: rest) /\ PyStr.strip l = "0") /\
            (exists out, stdout w' = (stdout w ++ out ++ [Line goodbye])%list) /\
            later w w').
  { intros w2 H12 ([l [Hl Hz]] & [out Hout] & Hl2).
    pose proof (later_trans _ _ _ Hturn H12) as H02.
    split; [|split].
    - exists l. split; [|exact Hz]. right.
      apply (later_stdin_in w1 w2 l H12 Hl).
    - destruct H02 as (_ & _ & _ & _ & _ & [printed Hp]).
      exists (printed ++ out)%list. rewrite Hout, Hp, <- !app_assoc.
      reflexivity.
    - eapply later_trans; eassumption. }
  cbv zeta in H.
  destruct (choices_get (PyStr.strip line) choices) as [[desc func]|].
  - destruct (String.eqb (PyStr.strip line) "0") eqn:Ez.
    + injection H as <-. split; [|split].
      * exists line. split; [now left|]. apply String.eqb_eq, Ez.
      * exists menu_lines. unfold w1.
        change (stdout (add_out (set_stdin (add_outs w menu_lines) rest)
                          (Line goodbye)))
          with ((stdout (add_outs w menu_lines) ++ [Line goodbye])%list).
        rewrite stdout_add_outs, <- app_assoc. reflexivity.
      * eapply later_trans; [exact Hturn|].
        apply only_reads_later, only_reads_add_out.
    + destruct func as [a|].
      * pose proof (later_run_action fromisoformat strptime_ymd a es w1)
          as Hact.
        destruct (run_action fromisoformat strptime_ymd a es w1)
          as [[es'|e] w2]; [|discriminate H].
        simpl in Hact. apply (Hback w2 Hact), (IH es' w2 w' H).
      * apply (Hback w1 (later_refl w1)), (IH es w1 w' H).
  - apply (Hback (add_out w1 (Line invalid_choice))).
    + apply only_reads_later, only_reads_add_out.
    + apply (IH es _ w' H).
Qed.

Lemma load_expenses_stdin w : stdin (snd (load_expenses w)) = stdin w.
Proof.
  destruct (file w) as [| | |t] eqn:Hf.
  - unfold load_expenses, bind, path_exists. rewrite Hf. reflexivity.
  - unfold load_expenses, bind, path_exists, try_except, read_text.
    simpl. rewrite ?Hf. simpl. rewrite ?Hf. reflexivity.
  - unfold load_expenses, bind, path_exists, try_except, read_text.
    simpl. rewrite ?Hf. simpl. rewrite ?Hf. reflexivity.
  - rewrite (load_expenses_text w t Hf).
    destruct (PyJson.loads t) as [v|].
    + destruct (PyJson.within_limits v); [destruct v|]; reflexivity.
    + destruct (PyJson.text_within_limits t); reflexivity.
Qed.

(** What [load_expenses] returns is within the limits. *)
Lemma load_within_limits w :
  match fst (load_expenses w) with
  | Ok es => PyJson.within_limits (JArr es) = true
  | Raise _ => True
  end.
Proof.
  destruct (file w) as [| | |t] eqn:Hf.
  - unfold load_expenses, bind, path_exists. rewrite Hf. reflexivity.
  - unfold load_expenses, bind, path_exists, try_except, read_text.
    simpl. rewrite ?Hf. simpl. rewrite ?Hf. reflexivity.
  - unfold load_expenses, bind, path_exists, try_except, read_text.
    simpl. rewrite ?Hf. simpl. rewrite ?Hf. exact I.
  - rewrite (load_expenses_text w t Hf).
    destruct (PyJson.loads t) as [v|].
    + destruct (PyJson.within_limits v) eqn:E; [|exact I].
      destruct v; try reflexivity. exact E.
    + destruct (PyJson.text_within_limits t); [reflexivity|exact I].
Qed.

(** X25.  [menu] returns only through the entry "0": when it returns,
    one of the lines it was given is "0" up to the white space around
    it, and "Goodbye!" is the last thing printed. *)
Theorem menu_returns_only_on_zero w w' :
  menu fromisoformat strptime_ymd w = Some (Ok tt, w') ->
  (exists line, In line (stdin w) /\ PyStr.strip line = "0") /\
  (exists out, stdout w' = (stdout w ++ out ++ [Line goodbye])%list).
Proof.
  unfold menu. intros H.
  pose proof (only_reads_load_expenses w) as Hload.
  pose proof (load_expenses_stdin w) as Hin.
  destruct (load_expenses w) as [[es|e] w0]; [|discriminate H].
  simpl in Hload, Hin.
  destruct (menu_loop_returns _ es w0 w' H) as ([l [Hl Hz]] & [out Hout] & _).
  split.
  - exists l. rewrite <- Hin. split; assumption.
  - destruct Hload as [(_ & _ & _ & _ & _ & [printed Hp]) _].
    exists (printed ++ out)%list. rewrite Hout, Hp, <- !app_assoc.
    reflexivity.
Qed.

Lemma menu_loop_invalid bad : forall fuel es w zero rest,
  Forall no_choice bad ->
  PyStr.strip zero = "0" ->
  stdin w = (bad ++ zero :: rest)%list ->
  (List.length bad < fuel)%nat ->
  menu_loop fromisoformat strptime_ymd fuel es w =
  Some (Ok tt,
        set_stdin
          (add_outs w (flat_map (fun _ => invalid_turn) bad
                       ++ menu_lines ++ [Line goodbye])%list)
          rest).
Proof.
  induction bad as [|b bad IH]; intros fuel es w zero rest Hbad Hz E Hlen;
    (destruct fuel as [|fuel]; [simpl in Hlen; lia|]);
    simpl in E; rewrite menu_loop_turn, E; cbv beta iota zeta.
  - rewrite Hz.
    change (choices_get "0" choices) with (Some ("Exit", @None action)).
    change (String.eqb "0" "0") with true. cbv iota beta.
    reflexivity.
  - inversion Hbad as [|? ? Hb Hbad']; subst.
    unfold no_choice in Hb. rewrite Hb.
    rewrite (IH fuel es _ zero rest Hbad' Hz); [|reflexivity|simpl in Hlen; lia].
    cbn [flat_map]. unfold invalid_turn at 2.
    rewrite <- !app_assoc. rewrite (add_outs_app w menu_lines).
    cbn [app].
    change (add_outs (add_outs w menu_lines)
              (Line invalid_choice
               :: (flat_map (fun _ => invalid_turn) bad
                   ++ menu_lines ++ [Line goodbye])%list))
      with (add_outs (add_out (add_outs w menu_lines) (Line invalid_choice))
              (flat_map (fun _ => invalid_turn) bad
               ++ menu_lines ++ [Line goodbye])%list).
    change (add_out (set_stdin (add_outs w menu_lines)
                       (bad ++ zero :: rest)%list) (Line invalid_choice))
      with (set_stdin (add_out (add_outs w menu_lines) (Line invalid_choice))
              (bad ++ zero :: rest)%list).
    rewrite add_outs_set_stdin. reflexivity.
Qed.

(** X24.  Lines that choose no entry of the menu change nothing: for
    each of them [menu] prints its entries and "Invalid choice. Try
    again.", and asks again; at "0" it prints "Goodbye!" and returns.
    The file is as [load_expenses] found it and the lines after "0" are
    left unread. *)
Theorem menu_invalid_choices w es w0 bad zero rest :
  load_expenses w = (Ok es, w0) ->
  Forall no_choice bad ->
  PyStr.strip zero = "0" ->
  stdin w = (bad ++ zero :: rest)%list ->
  let w' := set_stdin
              (add_outs w0 (flat_map (fun _ => invalid_turn) bad
                            ++ menu_lines ++ [Line goodbye])%list)
              rest in
  menu fromisoformat strptime_ymd w = Some (Ok tt, w') /\
  file w' = file w.
Proof.
  intros Hload Hbad Hz E w'.
  pose proof (load_expenses_stdin w) as Hin.
  pose proof (only_reads_load_expenses w) as [_ (Hfile & _)].
  rewrite Hload in Hin, Hfile. simpl in Hin, Hfile.
  split.
  - unfold menu. rewrite Hload.
    apply (menu_loop_invalid bad _ es w0 zero rest Hbad Hz).
    + rewrite Hin. exact E.
    + rewrite Hin, E, length_app. simpl. lia.
  - unfold w'. simpl. rewrite file_add_outs. exact Hfile.
Qed.

End MenuFacts.

(** ** [strip] *)

Lemma category_entered_trimmed c :
  trimmed (category_entered c) /\
  PyStr.strip (category_entered c) = category_entered c.
Proof.
  unfold category_entered.
  destruct (PyStr.truthy (PyStr.strip c)).
  - split; [apply strip_trimmed|apply strip_idempotent].
  - split; [split; reflexivity|reflexivity].
Qed.

(** ** Adding an expense: the whole effect *)

Section AddFacts.

Variable fromisoformat : string -> option string.
Variable strptime_ymd : string -> option string.

Lemma parse_date_effect s w :
  exists r warn,
    parse_date fromisoformat strptime_ymd s w = (Ok r, add_outs w warn) /\
    (warn = [] \/ warn = [Line invalid_date] /\ r = None) /\
    (PyStr.truthy s = false -> r = None /\ warn = []) /\
    (forall iso, PyStr.truthy s = true -> fromisoformat s = Some iso ->
                 r = Some iso /\ warn = []) /\
    (forall iso, PyStr.truthy s = true -> fromisoformat s = None ->
                 strptime_ymd s = Some iso -> r = Some iso /\ warn = []) /\
    (PyStr.truthy s = true -> fromisoformat s = None ->
     strptime_ymd s = None -> r = None /\ warn = [Line invalid_date]) /\
    (forall iso, r = Some iso ->
                 fromisoformat s = Some iso \/ strptime_ymd s = Some iso).
Proof.
  unfold parse_date.
  destruct (PyStr.truthy s).
  - destruct (fromisoformat s) as [iso|].
    + exists (Some iso), []. split; [reflexivity|].
      split; [now left|]. repeat split; try congruence.
      intros iso' E. left. exact E.
    + destruct (strptime_ymd s) as [iso|].
      * exists (Some iso), []. split; [reflexivity|].
        split; [now left|]. repeat split; try congruence.
        intros iso' E. right. exact E.
      * exists None, [Line invalid_date]. split; [reflexivity|].
        split; [now right|]. repeat split; congruence.
  - exists None, []. split; [reflexivity|].
    split; [now left|]. repeat split; congruence.
Qed.

Lemma make_expense_effect amount category note date_iso w :
  exists date w',
    make_expense amount category note date_iso w =
      (Ok (new_record (uuids w (uuid_calls w)) amount category note date),
       w') /\
    stdin w' = stdin w /\ stdout w' = stdout w /\ file w' = file w /\
    writable w' = writable w /\ room w' = room w /\
    uuid_calls w' = S (uuid_calls w) /\
    uuids w' = uuids w /\ clock w' = clock w /\
    date = match date_iso with
           | Some d => if PyStr.truthy d then d else clock w (clock_calls w)
           | None => clock w (clock_calls w)
           end.
Proof.
  unfold make_expense, bind at 1, uuid4.
  destruct date_iso as [d|]; [destruct (PyStr.truthy d)|].
  - exists d, (tick_uuid w). repeat split.
  - exists (clock w (clock_calls w)), (tick_clock (tick_uuid w)).
    repeat split.
  - exists (clock w (clock_calls w)), (tick_clock (tick_uuid w)).
    repeat split.
Qed.

(** A run of [add_expense_interactive] with everything it does to the
    world: the lines are read up to the date, one record is appended
    under the next id, the whole list is written when the file takes
    it, and the messages are printed in their order. *)
Lemma add_expense_interactive_effect es pre l c n d rest x w :
  Forall rejected pre ->
  float_of_string (PyStr.strip l) = Some x ->
  stdin w = (pre ++ l :: c :: n :: d :: rest)%list ->
  exists date warn w',
    let e := new_record (uuids w (uuid_calls w)) x (category_entered c)
                        (PyStr.strip n) date in
    let t := PyJson.dumps (JArr (es ++ [e])%list) in
    add_expense_interactive fromisoformat strptime_ymd es w =
      (Ok (es ++ [e])%list, w') /\
    stdin w' = rest /\
    file w' = (if writable w
               then if fits t w then Text t else cut_off t w
               else file w) /\
    stdout w' =
      (stdout w ++ map (fun _ => Line invalid_amount) pre ++ warn
       ++ (if takes w t then [] else [Line save_error])
       ++ [Line expense_added])%list /\
    (warn = [] \/ warn = [Line invalid_date]) /\
    writable w' = writable w /\ room w' = room w /\
    uuid_calls w' = S (uuid_calls w) /\
    uuids w' = uuids w /\ clock w' = clock w /\
    (let s := PyStr.strip d in
     let now := clock w (clock_calls w) in
     (PyStr.truthy s = false -> date = now /\ warn = []) /\
     (forall iso, PyStr.truthy s = true -> fromisoformat s = Some iso ->
                  PyStr.truthy iso = true -> date = iso /\ warn = []) /\
     (forall iso, PyStr.truthy s = true -> fromisoformat s = None ->
                  strptime_ymd s = Some iso ->
                  PyStr.truthy iso = true -> date = iso /\ warn = []) /\
     (PyStr.truthy s = true -> fromisoformat s = None ->
      strptime_ymd s = None -> date = now /\ warn = [Line invalid_date]) /\
     (date = now \/ fromisoformat s = Some date
      \/ strptime_ymd s = Some date)).
Proof.
  intros Hrej Hacc Hin.
  unfold add_expense_interactive, bind at 1, read_amount.
  rewrite Hin, (amount_loop_run pre l _ x w Hrej Hacc).
  set (wa := add_outs w (map (fun _ => Line invalid_amount) pre)).
  unfold bind at 1, input. simpl stdin.
  unfold bind at 1. simpl stdin.
  unfold bind at 1. simpl stdin.
  unfold bind at 1.
  match goal with |- context [parse_date _ _ ?s ?w0] =>
    destruct (parse_date_effect s w0)
      as (r & warn & -> & Hwarn & Hd1 & Hd2 & Hd3 & Hd4 & Hd5);
    set (w3 := w0) end.
  unfold bind at 1. fold (category_entered c).
  destruct (make_expense_effect x (category_entered c) (PyStr.strip n) r
              (add_outs w3 warn))
    as (date & w5 & -> & Hi5 & Ho5 & Hf5 & Hw5 & Hm5 & Hu5 & Hg5 & Hc5
        & Hdate).
  assert (H3 : stdin w3 = rest /\ stdout w3 = stdout wa /\ file w3 = file w
               /\ writable w3 = writable w /\ room w3 = room w
               /\ uuid_calls w3 = uuid_calls w
               /\ uuids w3 = uuids w /\ clock w3 = clock w).
  { unfold w3, wa. simpl.
    rewrite file_add_outs, writable_add_outs, room_add_outs,
      uuid_calls_add_outs, uuids_add_outs, clock_add_outs.
    repeat split. }
  destruct H3 as (Hi3 & Ho3 & Hf3 & Hw3 & Hm3 & Hu3 & Hg3 & Hc3).
  assert (Hid : uuids (add_outs w3 warn) (uuid_calls (add_outs w3 warn))
                = uuids w (uuid_calls w)).
  { rewrite uuids_add_outs, uuid_calls_add_outs, Hu3, Hg3. reflexivity. }
  rewrite Hid.
  rewrite stdin_add_outs in Hi5. rewrite stdout_add_outs in Ho5.
  rewrite file_add_outs in Hf5. rewrite writable_add_outs in Hw5.
  rewrite room_add_outs in Hm5.
  assert (Hnow : clock (add_outs w3 warn) (clock_calls (add_outs w3 warn))
                 = clock w (clock_calls w)).
  { rewrite clock_add_outs, clock_calls_add_outs, Hc3. unfold w3, wa. simpl.
    rewrite clock_calls_add_outs. reflexivity. }
  rewrite Hnow in Hdate.
  assert (Hdates :
     (PyStr.truthy (PyStr.strip d) = false ->
      date = clock w (clock_calls w) /\ warn = []) /\
     (forall iso, PyStr.truthy (PyStr.strip d) = true ->
                  fromisoformat (PyStr.strip d) = Some iso ->
                  PyStr.truthy iso = true -> date = iso /\ warn = []) /\
     (forall iso, PyStr.truthy (PyStr.strip d) = true ->
                  fromisoformat (PyStr.strip d) = None ->
                  strptime_ymd (PyStr.strip d) = Some iso ->
                  PyStr.truthy iso = true -> date = iso /\ warn = []) /\
     (PyStr.truthy (PyStr.strip d) = true ->
      fromisoformat (PyStr.strip d) = None ->
      strptime_ymd (PyStr.strip d) = None ->
      date = clock w (clock_calls w) /\ warn = [Line invalid_date]) /\
     (date = clock w (clock_calls w)
      \/ fromisoformat (PyStr.strip d) = Some date
      \/ strptime_ymd (PyStr.strip d) = Some date)).
  { split; [|split; [|split; [|split]]].
    - intros H. destruct (Hd1 H) as [-> ->]. split; [exact Hdate|reflexivity].
    - intros iso H1 H2 H3. destruct (Hd2 iso H1 H2) as [-> ->].
      rewrite H3 in Hdate. split; [exact Hdate|reflexivity].
    - intros iso H1 H2 H3 H4. destruct (Hd3 iso H1 H2 H3) as [-> ->].
      rewrite H4 in Hdate. split; [exact Hdate|reflexivity].
    - intros H1 H2 H3. destruct (Hd4 H1 H2 H3) as [-> ->].
      split; [exact Hdate|reflexivity].
    - destruct r as [iso|]; [|left; exact Hdate].
      destruct (PyStr.truthy iso); [|left; exact Hdate].
      right. rewrite Hdate. apply Hd5. reflexivity. }
  clear Hd1 Hd2 Hd3 Hd4 Hd5 Hdate.
  assert (Hrest : uuid_calls w5 = S (uuid_calls w) /\ uuids w5 = uuids w
                  /\ clock w5 = clock w).
  { rewrite Hu5, Hg5, Hc5, uuids_add_outs, uuid_calls_add_outs,
      clock_add_outs, Hu3, Hg3, Hc3.
    repeat split. }
  destruct Hrest as (Hu & Hg & Hc).
  assert (Hw : writable w5 = writable w) by congruence.
  assert (Hm : room w5 = room w) by congruence.
  assert (Hout : stdout w5
                 = (stdout w ++ map (fun _ => Line invalid_amount) pre
                    ++ warn)%list).
  { rewrite Ho5, Ho3. unfold wa. rewrite stdout_add_outs.
    rewrite <- app_assoc. reflexivity. }
  unfold bind at 1. rewrite save_expenses_run.
  unfold bind, print, ret.
  match goal with |- context [saved ?t0 w5] => set (t := t0) end.
  destruct (saved_parts t w5)
    as (Si & So & Sf & Sw & Sm & Su & Sg & Sc & _).
  exists date, warn. eexists. split; [reflexivity|].
  cbn [stdin stdout file writable room uuid_calls uuids clock add_out].
  rewrite Si, So, Sf, Sw, Sm, Su, Sg, Sc.
  rewrite (takes_same t w w5 Hw Hm), (fits_room t w w5 Hm),
    (cut_off_room t w w5 Hm), Hw, Hout, <- !app_assoc.
  split; [congruence|].
  split; [destruct (writable w); [reflexivity|congruence]|].
  split; [reflexivity|].
  split; [destruct Hwarn as [-> | [-> _]]; [now left|now right]|].
  split; [reflexivity|]. split; [exact Hm|]. split; [exact Hu|].
  split; [exact Hg|]. split; [exact Hc|]. exact Hdates.
Qed.

End AddFacts.

Lemma amount_loop_rejected pre : forall w,
  Forall rejected pre ->
  amount_loop pre w =
  (Raise EOFError, set_stdin (add_outs w (map (fun _ => Line invalid_amount) pre)) []).
Proof.
  induction pre as [|p pre IH]; intros w Hrej; simpl; [reflexivity|].
  inversion Hrej as [|? ? Hp Hpre]; subst.
  unfold rejected in Hp. rewrite Hp. apply IH, Hpre.
Qed.

Lemma amount_lines_split pending :
  Forall rejected pending \/
  exists pre l post x,
    pending = (pre ++ l :: post)%list /\ Forall rejected pre /\
    float_of_string (PyStr.strip l) = Some x.
Proof.
  induction pending as [|p r IH]; [left; constructor|].
  destruct (float_of_string (PyStr.strip p)) as [x|] eqn:E.
  - right. exists [], p, r, x. repeat split; [constructor|exact E].
  - destruct IH as [Hall|(pre & l & post & x & -> & Hpre & Hx)].
    + left. constructor; assumption.
    + right. exists (p :: pre), l, post, x.
      repeat split; [constructor; assumption|exact Hx].
Qed.

Lemma bears_id_new_record id amount category note date :
  bears_id id (new_record id amount category note date) = true.
Proof. unfold bears_id. simpl. apply String.eqb_refl. Qed.

Section AddProperties.

Variable fromisoformat : string -> option string.
Variable strptime_ymd : string -> option string.

(** The input ends before the date is read: while amounts are asked
    for, or after the amount with less than three lines left. *)
Lemma add_expense_interactive_eof es pre tail w :
  Forall rejected pre ->
  stdin w = (pre ++ tail)%list ->
  (tail = [] \/
   exists l x post,
     tail = l :: post /\ float_of_string (PyStr.strip l) = Some x /\
     (List.length post < 3)%nat) ->
  add_expense_interactive fromisoformat strptime_ymd es w =
  (Raise EOFError,
   set_stdin (add_outs w (map (fun _ => Line invalid_amount) pre)) []).
Proof.
  intros Hrej Hin Htail.
  unfold add_expense_interactive, bind at 1, read_amount. rewrite Hin.
  destruct Htail as [->|(l & x & post & -> & Hx & Hlen)].
  - rewrite app_nil_r, (amount_loop_rejected pre w Hrej). reflexivity.
  - rewrite (amount_loop_run pre l post x w Hrej Hx).
    destruct post as [|c [|n [|d rest]]]; try reflexivity.
    simpl in Hlen. lia.
Qed.

Lemma add_expense_interactive_outcome es w :
  (exists w',
     add_expense_interactive fromisoformat strptime_ymd es w
     = (Raise EOFError, w') /\ file w' = file w) \/
  (exists x c n date w',
     add_expense_interactive fromisoformat strptime_ymd es w
     = (Ok (es ++ [new_record (uuids w (uuid_calls w)) x c n date])%list, w')).
Proof.
  destruct (amount_lines_split (stdin w))
    as [Hall|(pre & l & post & x & E & Hpre & Hx)].
  - left. eexists. split.
    + apply (add_expense_interactive_eof es (stdin w) [] w Hall).
      * symmetry. apply app_nil_r.
      * now left.
    + simpl. apply file_add_outs.
  - destruct post as [|c [|n [|d rest]]].
    1-3: left; eexists; split;
      [ apply (add_expense_interactive_eof es pre _ w Hpre E);
        right; exists l, x; eexists; repeat split; [exact Hx|simpl; lia]
      | simpl; apply file_add_outs ].
    right.
    destruct (add_expense_interactive_effect fromisoformat strptime_ymd
                es pre l c n d rest x w Hpre Hx E)
      as (date & warn & w' & Hrun & _).
    exists x, (category_entered c), (PyStr.strip n), date, w'. exact Hrun.
Qed.

(** X7.  When the input ends before the four answers are read,
    [add_expense_interactive] leaves with [EOFError]: one message was
    printed for every line rejected as an amount and nothing else, no
    id was drawn, and the file is as it was. *)
Theorem add_stops_at_end_of_input es pre tail w :
  Forall rejected pre ->
  stdin w = (pre ++ tail)%list ->
  (tail = [] \/
   exists l x post,
     tail = l :: post /\ float_of_string (PyStr.strip l) = Some x /\
     (List.length post < 3)%nat) ->
  exists w',
    add_expense_interactive fromisoformat strptime_ymd es w
    = (Raise EOFError, w') /\
    stdout w' = (stdout w ++ map (fun _ => Line invalid_amount) pre)%list /\
    file w' = file w /\
    uuid_calls w' = uuid_calls w /\
    stdin w' = [].
Proof.
  intros Hrej Hin Htail. eexists. split.
  - apply (add_expense_interactive_eof es pre tail w Hrej Hin Htail).
  - simpl. rewrite stdout_add_outs, file_add_outs, uuid_calls_add_outs.
    repeat split.
Qed.


(** X9.  The date stored is the one the line stands for, or the time of
    the clock: the clock when the line is blank; what [fromisoformat]
    makes of the stripped line when it accepts it; what [strptime]
    makes of it when only that accepts it; and the clock again, with
    the warning "Invalid date format. Using current date/time."
    printed, when neither does.  Only in the last case is a warning
    printed. *)
Theorem date_is_parsed_or_now es pre l c n d rest x w :
  Forall rejected pre ->
  float_of_string (PyStr.strip l) = Some x ->
  stdin w = (pre ++ l :: c :: n :: d :: rest)%list ->
  exists e date w',
    add_expense_interactive fromisoformat strptime_ymd es w
    = (Ok (es ++ [e])%list, w') /\
    field "date" e = Some (JStr date) /\
    let s := PyStr.strip d in
    let now := clock w (clock_calls w) in
    let warned := In (Line invalid_date)
                     (skipn (List.length (stdout w)) (stdout w')) in
    (s = "" -> date = now /\ ~ warned) /\
    (forall iso, s <> "" -> fromisoformat s = Some iso -> iso <> "" ->
                 date = iso /\ ~ warned) /\
    (forall iso, s <> "" -> fromisoformat s = None ->
                 strptime_ymd s = Some iso -> iso <> "" ->
                 date = iso /\ ~ warned) /\
    (s <> "" -> fromisoformat s = None -> strptime_ymd s = None ->
     date = now /\ warned).
Proof.
  intros Hrej Hx Hin.
  destruct (add_expense_interactive_effect fromisoformat strptime_ymd
              es pre l c n d rest x w Hrej Hx Hin)
    as (date & warn & w' & Hrun & _ & _ & Ho & _ & _ & _ & _ & _ & _
        & H1 & H2 & H3 & H4 & _).
  eexists. exists date, w'. split; [exact Hrun|].
  split; [reflexivity|].
  assert (Htruthy : forall t, PyStr.truthy t = true <-> t <> "").
  { intros [|a t]; simpl; split; congruence. }
  match type of Ho with context [takes w ?t0] => set (t := t0) in * end.
  assert (Hnew : skipn (List.length (stdout w)) (stdout w')
                 = (map (fun _ => Line invalid_amount) pre ++ warn
                    ++ (if takes w t then [] else [Line save_error])
                    ++ [Line expense_added])%list).
  { rewrite Ho. rewrite skipn_app, skipn_all, Nat.sub_diag. reflexivity. }
  assert (Hquiet : warn = [] ->
            ~ In (Line invalid_date)
                 (skipn (List.length (stdout w)) (stdout w'))).
  { intros -> Hin'. rewrite Hnew in Hin'.
    apply in_app_or in Hin'. destruct Hin' as [Hin'|Hin'].
    - apply in_map_iff in Hin'. destruct Hin' as (? & Heq & _).
      discriminate Heq.
    - simpl in Hin'. destruct (takes w t); simpl in Hin';
        intuition discriminate. }
  cbv zeta. split; [|split; [|split]].
  - intros Hs. destruct H1 as [Hd Hw]; [rewrite Hs; reflexivity|].
    split; [exact Hd|apply Hquiet, Hw].
  - intros iso Hs Hf Hiso.
    destruct (H2 iso) as [Hd Hw];
      [apply Htruthy, Hs|exact Hf|apply Htruthy, Hiso|].
    split; [exact Hd|apply Hquiet, Hw].
  - intros iso Hs Hf Hp Hiso.
    destruct (H3 iso) as [Hd Hw];
      [apply Htruthy, Hs|exact Hf|exact Hp|apply Htruthy, Hiso|].
    split; [exact Hd|apply Hquiet, Hw].
  - intros Hs Hf Hp.
    destruct H4 as [Hd Hw]; [apply Htruthy, Hs|exact Hf|exact Hp|].
    split; [exact Hd|]. rewrite Hnew, Hw.
    apply in_or_app. right. now left.
Qed.

(** X21.  The category and the note are stored without white space
    around them: the category is the stripped line, or "Uncategorized"
    when nothing is left of it, and the note is the stripped line; the
    second [strip], in [make_expense], changes neither. *)
Theorem stored_text_is_trimmed es pre l c n d rest x w :
  Forall rejected pre ->
  float_of_string (PyStr.strip l) = Some x ->
  stdin w = (pre ++ l :: c :: n :: d :: rest)%list ->
  exists e w',
    add_expense_interactive fromisoformat strptime_ymd es w
    = (Ok (es ++ [e])%list, w') /\
    field "category" e = Some (JStr (category_entered c)) /\
    field "note" e = Some (JStr (PyStr.strip n)) /\
    trimmed (category_entered c) /\
    trimmed (PyStr.strip n).
Proof.
  intros Hrej Hx Hin.
  destruct (add_expense_interactive_effect fromisoformat strptime_ymd
              es pre l c n d rest x w Hrej Hx Hin)
    as (date & warn & w' & Hrun & _).
  eexists. exists w'. split; [exact Hrun|].
  unfold new_record, field. cbn [dict_get String.eqb Ascii.eqb Bool.eqb].
  split; [|split; [|split]].
  - simpl. rewrite (proj2 (category_entered_trimmed c)). reflexivity.
  - simpl. rewrite strip_idempotent. reflexivity.
  - apply category_entered_trimmed.
  - apply strip_trimmed.
Qed.

End AddProperties.

(** ** Deleting *)

Lemma filter_r_ok {A : Type} (p : A -> result bool) l : forall l',
  filter_r p l = Ok l' ->
  l' = filter (fun x => match p x with Ok true => true | _ => false end) l.
Proof.
  induction l as [|x r IH]; simpl; intros l' H.
  - injection H as <-. reflexivity.
  - destruct (p x) as [b|]; simpl in H; [|discriminate H].
    destruct (filter_r p r) as [r'|]; simpl in H; [|discriminate H].
    injection H as <-. rewrite (IH r' eq_refl).
    destruct b; reflexivity.
Qed.

Lemma filter_r_raises {A : Type} (p : A -> result bool) (E : exn) l :
  (forall x err, In x l -> p x = Raise err -> err = E) ->
  (exists x, In x l /\ p x = Raise E) ->
  filter_r p l = Raise E.
Proof.
  induction l as [|x r IH]; intros Hall (y & Hy & Hbad); [destruct Hy|].
  simpl. destruct (p x) as [b|err] eqn:Ex; simpl.
  - rewrite IH; [reflexivity| |].
    + intros z err Hz. apply Hall. now right.
    + destruct Hy as [->|Hy]; [congruence|]. exists y. split; assumption.
  - f_equal. apply (Hall x err); [now left|exact Ex].
Qed.

Lemma NoDup_map_filter {A B : Type} (g : A -> B) (f : A -> bool) l :
  NoDup (map g l) -> NoDup (map g (filter f l)).
Proof.
  induction l as [|x r IH]; simpl; intros H; [constructor|].
  inversion H as [|? ? Hx Hr]; subst.
  destruct (f x); simpl; [|apply IH, Hr].
  constructor; [|apply IH, Hr].
  intros Hin. apply Hx. apply in_map_iff in Hin.
  destruct Hin as (y & Hy & Hin). apply filter_In in Hin.
  apply in_map_iff. exists y. split; [exact Hy|apply Hin].
Qed.

Lemma delete_expense_raises es line rest w err :
  stdin w = line :: rest ->
  filter_r (fun e => v <~ py_get e "id" JNull ;;
                     Ok (ne_str v (PyStr.strip line))) es = Raise err ->
  delete_expense es w = (Raise err, set_stdin w rest).
Proof.
  intros Hin Hf.
  unfold delete_expense, bind at 1, input. rewrite Hin.
  unfold bind at 1, lift. rewrite Hf. reflexivity.
Qed.

Lemma delete_expense_sublist es w kept w' :
  delete_expense es w = (Ok kept, w') ->
  exists f, kept = filter f es.
Proof.
  unfold delete_expense, bind at 1, input.
  destruct (stdin w) as [|line rest]; [discriminate|].
  unfold bind at 1, lift.
  destruct (filter_r _ es) as [l|err] eqn:E; [|discriminate].
  apply filter_r_ok in E.
  unfold bind at 1.
  destruct (List.length l <? List.length es)%nat.
  - unfold bind at 1. rewrite save_expenses_run.
    intros H. injection H as <- _. eexists. exact E.
  - intros H. injection H as <- _. eexists. exact E.
Qed.

Lemma stdin_after_save es w : stdin (snd (save_expenses es w)) = stdin w.
Proof. rewrite save_expenses_run. apply saved_parts. Qed.

Lemma filter_records f es : records es -> records (filter f es).
Proof.
  unfold records. rewrite !Forall_forall. intros H x Hx.
  apply filter_In in Hx. apply H, Hx.
Qed.

Lemma filter_idempotent {A : Type} (f : A -> bool) l :
  filter f (filter f l) = filter f l.
Proof.
  induction l as [|x r IH]; simpl; [reflexivity|].
  destruct (f x) eqn:E; simpl; rewrite ?E, IH; reflexivity.
Qed.


(** X4.  Deleting is idempotent: asking again for the id just deleted
    finds nothing, prints "ID not found. No changes made.", and leaves
    the list and the file as the first deletion left them. *)
Theorem delete_again_finds_nothing es line1 line2 rest w :
  records es ->
  stdin w = line1 :: line2 :: rest ->
  PyStr.strip line2 = PyStr.strip line1 ->
  exists kept w1,
    delete_expense es w = (Ok kept, w1) /\
    delete_expense kept w1 =
      (Ok kept, add_out (set_stdin w1 rest) (Line not_found_msg)) /\
    file (snd (delete_expense kept w1)) = file w1.
Proof.
  intros Hrec Hin Heq.
  rewrite (delete_expense_run es line1 (line2 :: rest) w Hrec Hin).
  cbv zeta.
  set (kept := filter (fun e => negb (bears_id (PyStr.strip line1) e)) es).
  eexists. eexists. split; [reflexivity|].
  match goal with |- context [delete_expense kept ?w0] => set (w1 := w0) end.
  assert (Hin1 : stdin w1 = line2 :: rest).
  { unfold w1. destruct (List.length kept <? List.length es)%nat; simpl;
      [apply stdin_after_save|reflexivity]. }
  rewrite (delete_expense_run kept line2 rest w1
             (filter_records _ es Hrec) Hin1).
  cbv zeta. rewrite Heq.
  assert (Hk : filter (fun e => negb (bears_id (PyStr.strip line1) e)) kept
               = kept) by apply filter_idempotent.
  rewrite Hk, Nat.ltb_irrefl. split; reflexivity.
Qed.

(** X22.  [delete_expense] compares the ids with the stripped line, so
    that a record is out of its reach when its id is not a string, or a
    string with white space around it: whatever is typed, the record
    stays in the list. *)
Theorem unstripped_id_is_never_deleted es e line rest w :
  records es ->
  In e es ->
  stdin w = line :: rest ->
  (forall t, field "id" e = Some (JStr t) -> PyStr.strip t <> t) ->
  exists kept w',
    delete_expense es w = (Ok kept, w') /\ In e kept.
Proof.
  intros Hrec He Hin Hid.
  rewrite (delete_expense_run es line rest w Hrec Hin). cbv zeta.
  eexists. eexists. split; [reflexivity|].
  apply filter_In. split; [exact He|].
  destruct (bears_id (PyStr.strip line) e) eqn:Hb; [|reflexivity].
  apply bears_id_field in Hb. exfalso.
  apply (Hid _ Hb). apply strip_idempotent.
Qed.

Lemma new_record_well_formed id amount category note date :
  well_formed (new_record id amount category note date) = true.
Proof. reflexivity. Qed.

Lemma fresh_id_not_in u es :
  (forall e, In e es -> bears_id u e = false) ->
  ~ In (Some (JStr u)) (map (field "id") es).
Proof.
  intros Hfresh Hin. apply in_map_iff in Hin. destruct Hin as (e & He & Hin).
  apply bears_id_field in He. rewrite (Hfresh e Hin) in He. discriminate He.
Qed.

Lemma NoDup_snoc {A : Type} (l : list A) (x : A) :
  NoDup l -> ~ In x l -> NoDup (l ++ [x]).
Proof.
  induction l as [|y r IH]; simpl; intros Hl Hx.
  - constructor; [intros []|constructor].
  - inversion Hl as [|? ? Hy Hr]; subst. constructor.
    + intros Hin. apply in_app_or in Hin. destruct Hin as [Hin|[->|[]]].
      * exact (Hy Hin).
      * apply Hx. now left.
    + apply IH; [exact Hr|]. intros Hin. apply Hx. now right.
Qed.

Lemma field_has_raises keyword e k err :
  field_has keyword e k = Raise err -> err = AttributeError.
Proof.
  unfold field_has, py_get.
  destruct e; simpl; try congruence.
  destruct (dict_get k fields) as [[]|]; simpl; congruence.
Qed.

Lemma matches_raises keyword e err :
  matches keyword e = Raise err -> err = AttributeError.
Proof.
  unfold matches.
  destruct (field_has keyword e "category") as [[]|] eqn:Ec; simpl.
  - discriminate.
  - destruct (field_has keyword e "note") as [[]|] eqn:En; simpl.
    + discriminate.
    + apply field_has_raises.
    + intros H. injection H as <-. apply (field_has_raises _ _ _ _ En).
  - intros H. injection H as <-. apply (field_has_raises _ _ _ _ Ec).
Qed.

Lemma matches_non_dict keyword e :
  is_record e = false -> matches keyword e = Raise AttributeError.
Proof. destruct e; simpl; intros H; try reflexivity. discriminate H. Qed.

Lemma map_r_raises {A B : Type} (f : A -> result B) (E : exn) l :
  (forall x err, In x l -> f x = Raise err -> err = E) ->
  (exists x, In x l /\ f x = Raise E) ->
  map_r f l = Raise E.
Proof.
  induction l as [|x r IH]; intros Hall (y & Hy & Hbad); [destruct Hy|].
  simpl. destruct (f x) as [b|err] eqn:Ex; simpl.
  - rewrite IH; [reflexivity| |].
    + intros z err Hz. apply Hall. now right.
    + destruct Hy as [->|Hy]; [congruence|]. exists y. split; assumption.
  - f_equal. apply (Hall x err); [now left|exact Ex].
Qed.

(** X19.  A list with an element that is not a dict (a number or a
    string in the file, say) stops the operations that go through the
    records with [.get]: [delete_expense], [search_expenses] and
    [view_all_expenses] raise [AttributeError].  Nothing is printed,
    nothing is written, and the list is not changed. *)
Theorem non_dict_element_raises es line rest w :
  (exists e, In e es /\ is_record e = false) ->
  stdin w = line :: rest ->
  delete_expense es w = (Raise AttributeError, set_stdin w rest) /\
  search_expenses es w = (Raise AttributeError, set_stdin w rest) /\
  view_all_expenses es w = (Raise AttributeError, w).
Proof.
  intros (e & He & Hne) Hin. split; [|split].
  - apply (delete_expense_raises es line rest w _ Hin).
    apply filter_r_raises.
    + intros x err _. destruct x; simpl; congruence.
    + exists e. split; [exact He|]. destruct e; try reflexivity.
      discriminate Hne.
  - unfold search_expenses, bind at 1, input. rewrite Hin.
    unfold bind at 1, lift.
    rewrite (filter_r_raises _ AttributeError).
    + reflexivity.
    + intros x err _. apply matches_raises.
    + exists e. split; [exact He|apply matches_non_dict, Hne].
  - unfold view_all_expenses. destruct es as [|e0 r]; [destruct He|].
    unfold bind, lift, sorted_by_date_desc.
    rewrite (map_r_raises _ AttributeError).
    + reflexivity.
    + intros x err _. destruct x; simpl; congruence.
    + exists e. split; [exact He|]. destruct e; try reflexivity.
      discriminate Hne.
Qed.

Section LedgerInvariants.

Variable fromisoformat : string -> option string.
Variable strptime_ymd : string -> option string.

Lemma add_expense_interactive_ok es w es' w' :
  add_expense_interactive fromisoformat strptime_ymd es w = (Ok es', w') ->
  exists x c n date,
    es' = (es ++ [new_record (uuids w (uuid_calls w)) x c n date])%list.
Proof.
  intros H.
  destruct (add_expense_interactive_outcome fromisoformat strptime_ymd es w)
    as [(w1 & H1 & _)|(x & c & n & date & w1 & H1)];
    rewrite H1 in H; [discriminate H|].
  injection H as <- _. exists x, c, n, date. reflexivity.
Qed.

(** X3.  Adding a record and then deleting it by the id it was given
    leaves the list as it was before, provided no record bore that id
    already; when the file takes the text of that list it holds it
    again. *)
Theorem add_then_delete_restores es pre l c n d line rest x w :
  records es ->
  Forall rejected pre ->
  float_of_string (PyStr.strip l) = Some x ->
  stdin w = (pre ++ l :: c :: n :: d :: line :: rest)%list ->
  PyStr.strip line = uuids w (uuid_calls w) ->
  (forall e, In e es -> bears_id (uuids w (uuid_calls w)) e = false) ->
  exists e w1 w2,
    add_expense_interactive fromisoformat strptime_ymd es w
    = (Ok (es ++ [e])%list, w1) /\
    delete_expense (es ++ [e])%list w1 = (Ok es, w2) /\
    stdin w2 = rest /\
    (takes w (PyJson.dumps (JArr es)) = true ->
     file w2 = Text (PyJson.dumps (JArr es))).
Proof.
  intros Hrec Hrej Hx Hin Hline Hfresh.
  destruct (add_expense_interactive_effect fromisoformat strptime_ymd
              es pre l c n d (line :: rest) x w Hrej Hx Hin)
    as (date & warn & w1 & Hrun & Hi1 & _ & _ & _ & Hw1 & Hm1 & _).
  cbv zeta in Hrun.
  set (e := new_record (uuids w (uuid_calls w)) x (category_entered c)
                       (PyStr.strip n) date) in *.
  assert (Hrec1 : records (es ++ [e])%list).
  { apply Forall_app. split; [exact Hrec|]. constructor; [reflexivity|].
    constructor. }
  assert (Hkept : filter (fun y => negb (bears_id (PyStr.strip line) y))
                    (es ++ [e])%list = es).
  { rewrite filter_app, Hline. simpl.
    unfold e at 1. rewrite bears_id_new_record. simpl.
    rewrite app_nil_r. apply filter_keeps_all.
    intros y Hy. rewrite (Hfresh y Hy). reflexivity. }
  exists e, w1. eexists. split; [exact Hrun|].
  rewrite (delete_expense_run (es ++ [e])%list line rest w1 Hrec1 Hi1).
  cbv zeta. rewrite Hkept.
  assert (Hlt : (List.length es <? List.length (es ++ [e])%list)%nat = true).
  { apply Nat.ltb_lt. rewrite length_app. simpl. lia. }
  rewrite Hlt. split; [reflexivity|].
  rewrite save_expenses_run. cbn [snd].
  destruct (saved_parts (PyJson.dumps (JArr es)) (set_stdin w1 rest))
    as (Si & _ & Sf & _).
  cbn [stdin file add_out]. rewrite Si, Sf. split; [reflexivity|].
  intros Ht. unfold takes in Ht. apply andb_true_iff in Ht.
  destruct Ht as [Hw Hfit].
  change (writable (set_stdin w1 rest)) with (writable w1).
  change (fits (PyJson.dumps (JArr es)) (set_stdin w1 rest))
    with (fits (PyJson.dumps (JArr es)) w1).
  rewrite Hw1, Hw, (fits_room _ w w1 Hm1), Hfit. reflexivity.
Qed.

(** X5.  Ids that are unique stay unique: in whatever list
    [delete_expense] returns, and in the list [add_expense_interactive]
    returns when no record bears the id the generator gives next. *)
Theorem unique_ids_are_kept es w es' w' :
  NoDup (map (field "id") es) ->
  (delete_expense es w = (Ok es', w') -> NoDup (map (field "id") es')) /\
  ((forall e, In e es -> bears_id (uuids w (uuid_calls w)) e = false) ->
   add_expense_interactive fromisoformat strptime_ymd es w = (Ok es', w') ->
   NoDup (map (field "id") es')).
Proof.
  intros Hnd. split.
  - intros H. destruct (delete_expense_sublist es w es' w' H) as [f ->].
    apply NoDup_map_filter, Hnd.
  - intros Hfresh H.
    destruct (add_expense_interactive_ok es w es' w' H)
      as (x & c & n & date & ->).
    rewrite map_app. apply NoDup_snoc; [exact Hnd|].
    apply fresh_id_not_in, Hfresh.
Qed.

(** X6.  A list of records as the program makes them (the id, the
    amount, the category and the date are there; the amount is a
    number, the category, the note and the date are strings) is still
    one after [add_expense_interactive] and after [delete_expense]. *)
Theorem well_formed_records_are_kept es w es' w' :
  Forall (fun e => well_formed e = true) es ->
  (add_expense_interactive fromisoformat strptime_ymd es w = (Ok es', w') ->
   Forall (fun e => well_formed e = true) es') /\
  (delete_expense es w = (Ok es', w') ->
   Forall (fun e => well_formed e = true) es').
Proof.
  intros Hwf. split; intros H.
  - destruct (add_expense_interactive_ok es w es' w' H)
      as (x & c & n & date & ->).
    apply Forall_app. split; [exact Hwf|].
    constructor; [apply new_record_well_formed|constructor].
  - destruct (delete_expense_sublist es w es' w' H) as [f ->].
    rewrite Forall_forall in *. intros y Hy. apply filter_In in Hy.
    apply Hwf, Hy.
Qed.

End LedgerInvariants.

(** ** Listing and searching *)

Lemma ltb_irrefl a : PyStr.ltb a a = false.
Proof.
  destruct (PyStr.ltb a a) eqn:E; [|reflexivity].
  rewrite (ltb_asym a a E) in E. discriminate E.
Qed.

Lemma insert_desc_filter d x l :
  filter (fun p : string * json => String.eqb (fst p) d) (insert_desc x l) =
  filter (fun p : string * json => String.eqb (fst p) d) (x :: l).
Proof.
  induction l as [|y r IH]; [reflexivity|].
  cbn [insert_desc]. destruct (PyStr.ltb (fst x) (fst y)) eqn:E;
    [|reflexivity].
  cbn [filter] in *. rewrite IH.
  destruct (String.eqb (fst x) d) eqn:Ex; [|reflexivity].
  destruct (String.eqb (fst y) d) eqn:Ey; [|reflexivity].
  apply String.eqb_eq in Ex, Ey. rewrite Ex, Ey, ltb_irrefl in E.
  discriminate E.
Qed.

Lemma sort_desc_filter d l :
  filter (fun p : string * json => String.eqb (fst p) d) (sort_desc l) =
  filter (fun p : string * json => String.eqb (fst p) d) l.
Proof.
  induction l as [|x r IH]; [reflexivity|].
  change (sort_desc (x :: r)) with (insert_desc x (sort_desc r)).
  rewrite insert_desc_filter. cbn [filter]. rewrite IH. reflexivity.
Qed.

Lemma filter_map_snd d (ps : list (string * json)) :
  Forall (fun p => fst p = date_of (snd p)) ps ->
  filter (fun e => String.eqb (date_of e) d) (map snd ps) =
  map snd (filter (fun p => String.eqb (fst p) d) ps).
Proof.
  induction 1 as [|p r Hp Hr IH]; [reflexivity|].
  cbn [map filter]. rewrite IH, <- Hp.
  destruct (String.eqb (fst p) d); reflexivity.
Qed.

(** Records of one date keep the order they have in the list. *)
Lemma by_date_desc_stable d l :
  filter (fun e => String.eqb (date_of e) d) (by_date_desc l) =
  filter (fun e => String.eqb (date_of e) d) l.
Proof.
  unfold by_date_desc.
  rewrite filter_map_snd.
  - rewrite sort_desc_filter, <- filter_map_snd.
    + rewrite combine_map_snd. reflexivity.
    + apply combine_map_fst.
  - apply (Permutation_Forall (Permutation_sym (sort_desc_perm _))).
    apply combine_map_fst.
Qed.

(** X11.  [view_all_expenses] prints "No expenses found." for an empty
    list; otherwise it prints every record once, the latest date first,
    records of one date in the order of the list. *)
Theorem view_all_lists_latest_first es w :
  Forall (fun e => complete_record e = true) es ->
  let shown := by_date_desc es in
  view_all_expenses es w =
    (Ok tt,
     add_outs w (match es with
                 | [] => [Line "No expenses found."]
                 | _ => flat_map expense_lines shown
                 end)) /\
  Permutation shown es /\
  StronglySorted date_ge shown /\
  (forall d, filter (fun e => String.eqb (date_of e) d) shown =
             filter (fun e => String.eqb (date_of e) d) es).
Proof.
  intros Hc shown. split; [|split; [|split]].
  - apply view_all_expenses_run, Hc.
  - apply by_date_desc_perm.
  - apply by_date_desc_sorted.
  - intros d. apply by_date_desc_stable.
Qed.

Lemma search_expenses_run es line rest w :
  Forall (fun e => complete_record e = true) es ->
  stdin w = line :: rest ->
  let found := filter (hit (PyStr.lower (PyStr.strip line))) es in
  search_expenses es w =
  (Ok tt,
   add_outs (set_stdin w rest)
     (match found with
      | [] => [Line no_match_msg]
      | _ => flat_map expense_lines (by_date_desc found)
      end)).
Proof.
  intros Hc Hin found.
  assert (Hfc : Forall (fun e => complete_record e = true) found).
  { apply Forall_forall. intros e He. apply filter_In in He.
    exact (proj1 (Forall_forall _ _) Hc e (proj1 He)). }
  unfold search_expenses, bind at 1, input. rewrite Hin.
  unfold bind at 1, lift.
  rewrite (filter_r_pure _ (hit (PyStr.lower (PyStr.strip line)))).
  - fold found. destruct found as [|x r] eqn:Ef; [reflexivity|].
    unfold bind at 1. rewrite (sorted_by_date_desc_run _ Hfc).
    rewrite print_all_run; [reflexivity|].
    apply (Permutation_Forall (Permutation_sym (by_date_desc_perm _))), Hfc.
  - intros e He. apply matches_run.
    exact (proj1 (Forall_forall _ _) Hc e He).
Qed.

(** X12.  A search for nothing is the full listing: when the line
    typed is blank and the list is not empty, [search_expenses] prints
    what [view_all_expenses] prints. *)
Theorem blank_search_lists_everything es line rest w :
  Forall (fun e => complete_record e = true) es ->
  es <> [] ->
  stdin w = line :: rest ->
  PyStr.strip line = "" ->
  search_expenses es w = view_all_expenses es (set_stdin w rest).
Proof.
  intros Hc Hne Hin Hblank.
  rewrite (search_expenses_run es line rest w Hc Hin). cbv zeta.
  rewrite Hblank. change (PyStr.lower "") with "".
  rewrite (filter_keeps_all (hit "") es (fun e _ => hit_empty_keyword e)).
  rewrite (view_all_expenses_run es _ Hc).
  destruct es; [contradiction|reflexivity].
Qed.

(** X13.  The three views only read: whatever the list holds, and
    whether they return or raise, [view_all_expenses], [view_totals]
    and [search_expenses] leave the file as it is, draw no id and do
    not read the clock; what was printed before stays, and of the
    input only a first part is taken. *)
Theorem views_only_read es w :
  only_reads w (snd (view_all_expenses es w)) /\
  only_reads w (snd (view_totals es w)) /\
  only_reads w (snd (search_expenses es w)).
Proof.
  split; [|split].
  - apply only_reads_view_all_expenses.
  - apply only_reads_view_totals.
  - apply only_reads_search_expenses.
Qed.

Lemma contains_trans a b c :
  PyStr.contains a b = true -> PyStr.contains b c = true ->
  PyStr.contains a c = true.
Proof.
  intros H1 H2. apply contains_iff in H1, H2.
  destruct H1 as (p1 & q1 & ->). destruct H2 as (p2 & q2 & ->).
  apply contains_iff. exists (p2 ++ p1), (q1 ++ q2).
  rewrite !app_assoc_s. reflexivity.
Qed.

Lemma field_has_ok keyword e k b :
  field_has keyword e k = Ok b ->
  exists s, b = PyStr.contains keyword s /\
            forall kw, field_has kw e k = Ok (PyStr.contains kw s).
Proof.
  unfold field_has, py_get.
  destruct e as [| | | | | |fields]; cbn [rbind]; try discriminate.
  destruct (match dict_get k fields with Some v => v | None => JStr "" end)
    as [| | | |s| |]; cbn [rbind py_lower]; try discriminate.
  intros H. injection H as <-. exists (PyStr.lower s).
  split; [reflexivity|]. intros kw. reflexivity.
Qed.

Lemma matches_keyword_part k1 k2 e b2 :
  PyStr.contains k1 k2 = true ->
  matches k2 e = Ok b2 ->
  exists b1, matches k1 e = Ok b1 /\ (b2 = true -> b1 = true).
Proof.
  intros Hk. unfold matches.
  destruct (field_has k2 e "category") as [c2|] eqn:Ec; [|discriminate].
  destruct (field_has_ok _ _ _ _ Ec) as (sc & -> & Hc). rewrite (Hc k1).
  simpl.
  destruct (PyStr.contains k2 sc) eqn:E2c.
  { rewrite (contains_trans _ _ _ Hk E2c). intros _. exists true.
    split; reflexivity. }
  destruct (field_has k2 e "note") as [n2|] eqn:En; [|discriminate].
  destruct (field_has_ok _ _ _ _ En) as (sn & -> & Hn). rewrite (Hn k1).
  simpl.
  destruct (PyStr.contains k1 sc); [intros _; exists true; split; reflexivity|].
  destruct (PyStr.contains k2 sn) eqn:E2n.
  { rewrite (contains_trans _ _ _ Hk E2n). intros _. exists true.
    split; reflexivity. }
  destruct (PyStr.contains k1 sn); [intros _; exists true; split; reflexivity|].
  intros Hd. destruct (field_has_ok _ _ _ _ Hd) as (sd & -> & Hdt).
  rewrite (Hdt k1). eexists. split; [reflexivity|].
  intros H. apply (contains_trans _ _ _ Hk H).
Qed.

(** X20.  A part of a keyword finds at least what the keyword finds:
    when the comprehension of [search_expenses] selects records for a
    keyword without raising, it raises for no keyword that occurs in
    it, and selects these records among others. *)
Theorem part_of_keyword_finds_more k1 k2 es found2 :
  PyStr.contains k1 k2 = true ->
  filter_r (matches k2) es = Ok found2 ->
  exists found1,
    filter_r (matches k1) es = Ok found1 /\
    (forall e, In e found2 -> In e found1).
Proof.
  intros Hk. revert found2.
  induction es as [|e r IH]; simpl; intros found2 H.
  - injection H as <-. exists []. split; [reflexivity|intros e []].
  - destruct (matches k2 e) as [b2|] eqn:E2; simpl in H; [|discriminate H].
    destruct (filter_r (matches k2) r) as [r2|]; simpl in H;
      [|discriminate H].
    injection H as <-.
    destruct (matches_keyword_part k1 k2 e b2 Hk E2) as (b1 & -> & Hb).
    destruct (IH r2 eq_refl) as (r1 & -> & Hincl). simpl.
    eexists. split; [reflexivity|].
    intros y Hy. destruct b2.
    + rewrite (Hb eq_refl). destruct Hy as [->|Hy]; [now left|].
      right. apply Hincl, Hy.
    + destruct b1; [right|]; apply Hincl, Hy.
Qed.

(** X10.  [print_expense] indexes the id, the date, the category and
    the amount, in this order, and looks the note up with [.get]: it
    prints a dict that has the four keys, whatever their values (the
    note only when it is there and truthy); on a dict that lacks one it
    raises [KeyError] after the lines of the keys before the first one
    missing; on a value that is not a dict it raises [TypeError] with
    nothing printed. *)
Theorem print_expense_needs_four_keys e w :
  (printable e = true ->
   print_expense e w = (Ok tt, add_outs w (expense_lines e))) /\
  (is_record e = true -> printable e = false ->
   print_expense e w = (Raise KeyError, add_outs w (lines_before_missing e))) /\
  (is_record e = false ->
   print_expense e w = (Raise TypeError, w)).
Proof.
  destruct e as [| | | | | |d];
    try (split; [discriminate|split; [discriminate|reflexivity]]).
  unfold printable, expense_lines, lines_before_missing, print_expense,
    bind, lift, print, py_item, py_get.
  cbn [is_record field andb].
  destruct (dict_get "id" d) as [i|];
    [|split; [discriminate|split; [reflexivity|discriminate]]].
  destruct (dict_get "date" d) as [dt|];
    [|split; [discriminate|split; [reflexivity|discriminate]]].
  destruct (dict_get "category" d) as [c|];
    [|split; [discriminate|split; [reflexivity|discriminate]]].
  destruct (dict_get "amount" d) as [a|];
    [|split; [discriminate|split; [reflexivity|discriminate]]].
  split; [|split; discriminate].
  intros _. cbn [or_null].
  destruct (dict_get "note" d) as [n|]; cbn [or_null].
  - destruct (truthy_json n); reflexivity.
  - reflexivity.
Qed.

(** ** Totals *)

Lemma sum_amounts_stops pre : forall acc e post err,
  Forall (fun y => exists x, amount_read y = Ok x) pre ->
  amount_read e = Raise err ->
  sum_amounts acc (pre ++ e :: post)%list = Raise err.
Proof.
  induction pre as [|y r IH]; intros acc e post err Hpre He.
  - cbn [app sum_amounts]. unfold amount_read in He.
    destruct (py_get e "amount" (JInt 0)) as [v|err']; cbn [rbind] in *.
    + rewrite He. reflexivity.
    + injection He as <-. reflexivity.
  - inversion Hpre as [|? ? [x Hy] Hr]; subst.
    cbn [app sum_amounts]. unfold amount_read in Hy.
    destruct (py_get y "amount" (JInt 0)) as [v|err']; cbn [rbind] in *;
      [|discriminate Hy].
    rewrite Hy. cbn [rbind]. apply IH; assumption.
Qed.

(** X14.  [get_total_spending] fails with the error of the first
    record whose amount [float] does not convert, whatever comes after
    it: [AttributeError] for an element that is not a dict,
    [ValueError] for a string that is no number, [OverflowError] for an
    int beyond the doubles, [TypeError] for null, a list or a dict. *)
Theorem total_fails_at_first_bad_amount pre e post err :
  Forall (fun y => exists x, amount_read y = Ok x) pre ->
  amount_read e = Raise err ->
  get_total_spending (pre ++ e :: post)%list = Raise err /\
  err = match e with
        | JObj _ =>
            match field "amount" e with
            | Some (JStr _) => ValueError
            | Some (JInt _) => OverflowError
            | _ => TypeError
            end
        | _ => AttributeError
        end.
Proof.
  intros Hpre He. split.
  - apply sum_amounts_stops; assumption.
  - unfold amount_read, py_get in He.
    destruct e as [| | | | | |d]; cbn [rbind] in He;
      try (injection He as <-; reflexivity).
    cbn [field].
    destruct (dict_get "amount" d) as [[| |k| |s| |]|]; cbn [py_float] in He;
      try discriminate He; try (injection He as <-; reflexivity).
    + destruct (is_infinite (of_Z k)); [|discriminate He].
      injection He as <-. reflexivity.
    + destruct (float_of_string s); [discriminate He|].
      injection He as <-. reflexivity.
Qed.

Lemma fadd_nan_r x : fadd x S754_nan = S754_nan.
Proof. destruct x; reflexivity. Qed.

Lemma float_sum_from_nan xs : float_sum S754_nan xs = S754_nan.
Proof. induction xs as [|x r IH]; [reflexivity|exact IH]. Qed.

Lemma float_sum_nan xs : forall a,
  In S754_nan xs -> float_sum a xs = S754_nan.
Proof.
  induction xs as [|x r IH]; intros a H; [destruct H|].
  unfold float_sum. cbn [fold_left]. fold (float_sum (fadd a x) r).
  destruct H as [->|H].
  - rewrite fadd_nan_r. apply float_sum_from_nan.
  - apply IH, H.
Qed.

Lemma summary_in_get c (s : summary) d :
  In c (map fst s) -> In (c, summary_get c s d) s.
Proof.
  induction s as [|[k v] r IH]; simpl; intros H; [contradiction|].
  destruct (String.eqb_spec c k) as [->|Hne].
  - now left.
  - right. apply IH. destruct H as [E|H]; [congruence|exact H].
Qed.

Lemma spending_by_category_run es :
  Forall (fun e => typed_record e = true) es ->
  spending_by_category es =
  Ok (map (fun kv => (fst kv, round2 (snd kv))) (fold_left tally_step es [])).
Proof.
  intros H. unfold spending_by_category.
  rewrite (summary_loop_run es [] H). reflexivity.
Qed.

Lemma typed_amount_typed es :
  Forall (fun e => typed_record e = true) es ->
  Forall (fun e => amount_typed e = true) es.
Proof.
  apply Forall_impl. intros e H. unfold typed_record in H.
  apply andb_true_iff in H. apply H.
Qed.

(** X15.  An amount that is not a number (the line "nan" is accepted
    as one) spoils the sums it enters: on records with typed fields of
    which one has the amount nan, the total is nan, and so is the total
    of the category of that record. *)
Theorem nan_amount_spoils_totals es e :
  Forall (fun y => typed_record y = true) es ->
  In e es ->
  amount_of e = S754_nan ->
  get_total_spending es = Ok (PFloat S754_nan) /\
  exists s,
    spending_by_category es = Ok s /\ In (category_of e, S754_nan) s.
Proof.
  intros Ht He Hnan. split.
  - unfold get_total_spending.
    rewrite (sum_amounts_run es _ (typed_amount_typed es Ht)).
    assert (Hin : In S754_nan (map amount_of es)).
    { rewrite <- Hnan. apply in_map, He. }
    destruct (map amount_of es) as [|x r]; [destruct Hin|].
    cbn [fold_left add_float]. rewrite add_float_fold.
    change (fadd (of_Z 0) x) with (fadd pos_zero x).
    change (float_sum (fadd pos_zero x) r) with (float_sum pos_zero (x :: r)).
    rewrite (float_sum_nan _ _ Hin). reflexivity.
  - rewrite (spending_by_category_run es Ht). eexists. split; [reflexivity|].
    set (t := fold_left tally_step es []).
    assert (Hk : In (category_of e) (map fst t)).
    { unfold t. apply tally_keys. right. exists e. split; [exact He|reflexivity]. }
    apply (summary_in_get _ _ pos_zero) in Hk.
    unfold t in Hk at 1. rewrite tally_get in Hk. cbn [summary_get] in Hk.
    rewrite float_sum_nan in Hk.
    + apply in_map_iff. exists (category_of e, S754_nan).
      split; [reflexivity|exact Hk].
    + rewrite <- Hnan. apply in_map. unfold in_category.
      apply filter_In. split; [exact He|apply String.eqb_refl].
Qed.

Lemma summary_set_key_list k v s :
  map fst (summary_set k v s) =
  if existsb (String.eqb k) (map fst s) then map fst s
  else (map fst s ++ [k])%list.
Proof.
  induction s as [|[k' v'] r IH]; [reflexivity|].
  cbn [summary_set map fst existsb].
  destruct (String.eqb k k'); cbn [orb map fst]; [reflexivity|].
  rewrite IH. destruct (existsb (String.eqb k) (map fst r)); reflexivity.
Qed.

Lemma tally_key_list es : forall s,
  map fst (fold_left tally_step es s) =
  (map fst s ++ first_seen (map fst s) (map category_of es))%list.
Proof.
  induction es as [|e r IH]; intros s.
  - symmetry. apply app_nil_r.
  - cbn [fold_left map first_seen]. rewrite IH.
    unfold tally_step at 1 2. rewrite summary_set_key_list.
    destruct (existsb (String.eqb (category_of e)) (map fst s)).
    + reflexivity.
    + rewrite <- app_assoc. reflexivity.
Qed.

(** X16.  The keys of the dict [spending_by_category] returns are the
    categories in the order in which the list first has them. *)
Theorem categories_in_order_first_seen es :
  Forall (fun e => typed_record e = true) es ->
  exists s,
    spending_by_category es = Ok s /\
    map fst s = first_seen [] (map category_of es).
Proof.
  intros Ht. rewrite (spending_by_category_run es Ht).
  eexists. split; [reflexivity|].
  rewrite map_map. cbn [fst]. apply (tally_key_list es []).
Qed.

Lemma summary_set_in_other k v' (s : summary) c v :
  c <> k -> (In (c, v) (summary_set k v' s) <-> In (c, v) s).
Proof.
  intros Hne. induction s as [|[k0 v0] r IH]; cbn [summary_set].
  - split; [intros [E|[]]; congruence|intros []].
  - destruct (String.eqb_spec k k0) as [->|Hk]; cbn [In].
    + split; (intros [E|H]; [congruence|right; exact H]).
    + rewrite IH. reflexivity.
Qed.

Lemma summary_set_in_key k v (s : summary) : In (k, v) (summary_set k v s).
Proof.
  induction s as [|[k0 v0] r IH]; cbn [summary_set]; [now left|].
  destruct (String.eqb_spec k k0) as [->|Hk]; [now left|right; exact IH].
Qed.

(** X17.  One more record changes the total of its own category and of
    no other: the entries of the other categories are what they were,
    and the entry of its category is the sum so far plus its amount,
    rounded. *)
Theorem one_more_record_changes_one_category es e :
  Forall (fun y => typed_record y = true) es ->
  typed_record e = true ->
  exists s s',
    spending_by_category es = Ok s /\
    spending_by_category (es ++ [e])%list = Ok s' /\
    (forall c v, c <> category_of e -> (In (c, v) s' <-> In (c, v) s)) /\
    In (category_of e,
        round2 (fadd (category_sum (category_of e) es) (amount_of e))) s'.
Proof.
  intros Ht He.
  assert (Ht' : Forall (fun y => typed_record y = true) (es ++ [e])%list).
  { apply Forall_app. split; [exact Ht|]. constructor; [exact He|constructor]. }
  rewrite (spending_by_category_run es Ht).
  rewrite (spending_by_category_run _ Ht').
  eexists. eexists. split; [reflexivity|]. split; [reflexivity|].
  rewrite fold_left_app. cbn [fold_left].
  set (t := fold_left tally_step es []).
  assert (Hsum : summary_get (category_of e) t pos_zero
                 = category_sum (category_of e) es).
  { unfold t. rewrite tally_get. reflexivity. }
  unfold tally_step. rewrite Hsum. split.
  - intros c v Hne. rewrite !in_map_iff. split.
    + intros ([k y] & E & Hin). apply summary_set_in_other in Hin.
      * exists (k, y). split; assumption.
      * cbn [fst snd] in E. congruence.
    + intros ([k y] & E & Hin). exists (k, y). split; [exact E|].
      apply summary_set_in_other; [cbn [fst snd] in E; congruence|exact Hin].
  - apply in_map_iff.
    exists (category_of e,
            fadd (category_sum (category_of e) es) (amount_of e)).
    split; [reflexivity|apply summary_set_in_key].
Qed.

Ltac cmp_cases :=
  repeat match goal with
  | |- context [(?a ?= ?b)%Z] =>
      destruct (Z.compare_spec a b); subst
  | |- context [PosDef.Pos.compare_cont Eq ?a ?b] =>
      change (PosDef.Pos.compare_cont Eq a b) with (Pos.compare a b);
      destruct (Pos.compare_spec a b); subst
  end; cbn [CompOpp]; intros; try reflexivity; try discriminate; try lia.

Lemma sfltb_asym a b : SFltb a b = true -> SFltb b a = false.
Proof.
  unfold SFltb, SFcompare.
  destruct a as [sa|sa| |sa ma ea], b as [sb|sb| |sb mb eb];
    try destruct sa; try destruct sb; try reflexivity; try discriminate;
    cmp_cases.
Qed.

Lemma sfltb_false_trans a b c :
  is_nan b = false ->
  SFltb a b = false -> SFltb b c = false -> SFltb a c = false.
Proof.
  unfold SFltb, SFcompare.
  destruct a as [sa|sa| |sa ma ea], b as [sb|sb| |sb mb eb],
    c as [sc|sc| |sc mc ec];
    try destruct sa; try destruct sb; try destruct sc;
    intros Hb; try reflexivity; try discriminate;
    cmp_cases.
Qed.

Lemma insert_amount_desc_perm x l :
  Permutation (insert_amount_desc x l) (x :: l).
Proof.
  induction l as [|y r IH]; simpl; [reflexivity|].
  destruct (SFltb (snd x) (snd y)); [|reflexivity].
  rewrite IH. apply perm_swap.
Qed.

Lemma by_amount_desc_perm s : Permutation (by_amount_desc s) s.
Proof.
  induction s as [|x r IH]; [reflexivity|].
  unfold by_amount_desc in *. cbn [fold_right].
  rewrite insert_amount_desc_perm, IH. reflexivity.
Qed.

Lemma insert_amount_desc_sorted x l :
  no_nan l ->
  StronglySorted amount_ge l ->
  StronglySorted amount_ge (insert_amount_desc x l).
Proof.
  induction l as [|y r IH]; cbn [insert_amount_desc]; intros Hn H.
  - constructor; constructor.
  - inversion H as [|? ? Hr Hy]; subst.
    inversion Hn as [|? ? Hny Hnr]; subst.
    destruct (SFltb (snd x) (snd y)) eqn:E.
    + constructor; [apply IH; assumption|].
      apply (Permutation_Forall
               (Permutation_sym (insert_amount_desc_perm x r))).
      constructor; [apply sfltb_asym, E|exact Hy].
    + constructor; [exact H|].
      constructor; [exact E|].
      eapply Forall_impl; [|exact Hy]. intros z Hz.
      exact (sfltb_false_trans _ _ _ Hny E Hz).
Qed.

Lemma by_amount_desc_sorted s :
  no_nan s -> StronglySorted amount_ge (by_amount_desc s).
Proof.
  induction s as [|x r IH]; intros Hn; [constructor|].
  inversion Hn as [|? ? Hx Hr]; subst.
  unfold by_amount_desc in *. cbn [fold_right].
  apply insert_amount_desc_sorted; [|apply IH, Hr].
  apply (Permutation_Forall (Permutation_sym (by_amount_desc_perm r))), Hr.
Qed.

(** Two amounts equal to a third are not one below the other. *)
Lemma same_amount_not_less x y a :
  SFeqb x a = true -> SFeqb y a = true -> SFltb x y = false.
Proof.
  unfold SFeqb, SFltb, SFcompare.
  destruct x as [sx|sx| |sx mx ex], y as [sy|sy| |sy my ey],
    a as [sa|sa| |sa ma ea];
    try destruct sx; try destruct sy; try destruct sa;
    try reflexivity; try discriminate;
    cmp_cases.
Qed.

Lemma insert_amount_desc_filter a x l :
  filter (fun kv => SFeqb (snd kv) a) (insert_amount_desc x l)
  = filter (fun kv => SFeqb (snd kv) a) (x :: l).
Proof.
  induction l as [|y r IH]; [reflexivity|].
  cbn [insert_amount_desc].
  destruct (SFltb (snd x) (snd y)) eqn:E; [|reflexivity].
  cbn [filter] in IH |- *. rewrite IH. unfold float in *. cbv beta.
  destruct (SFeqb (snd x) a) eqn:Ex; [|reflexivity].
  destruct (SFeqb (snd y) a) eqn:Ey; [|reflexivity].
  rewrite (same_amount_not_less _ _ _ Ex Ey) in E. discriminate E.
Qed.

(** The sort is stable: the entries of one amount keep their order. *)
Lemma by_amount_desc_stable a s :
  filter (fun kv => SFeqb (snd kv) a) (by_amount_desc s)
  = filter (fun kv => SFeqb (snd kv) a) s.
Proof.
  induction s as [|x r IH]; [reflexivity|].
  unfold by_amount_desc in *. cbn [fold_right].
  rewrite insert_amount_desc_filter. cbn [filter]. rewrite IH. reflexivity.
Qed.

Lemma sorted_by_amount_desc_run s :
  no_nan s -> sorted_by_amount_desc s = Ok (by_amount_desc s).
Proof.
  intros Hn. destruct s as [|x [|y r]]; try reflexivity.
  unfold sorted_by_amount_desc.
  assert (E : existsb (fun kv => is_nan (snd kv)) (x :: y :: r) = false).
  { clear - Hn. induction Hn as [|z l Hz Hl IH]; [reflexivity|].
    cbn [existsb]. rewrite Hz, IH. reflexivity. }
  rewrite E. reflexivity.
Qed.

Lemma for_each_print_category s : forall w,
  for_each print_category s w = (Ok tt, add_outs w (map category_line s)).
Proof.
  induction s as [|x r IH]; intros w; [reflexivity|].
  cbn [for_each map]. unfold bind, print_category at 1, print at 1.
  rewrite IH. reflexivity.
Qed.

(** X18.  [view_totals] prints the total, rounded to two digits (the
    int 0 as it is), the heading, and one line for each category, the
    largest amount first and equal amounts in the order of the dict
    (the entries equal to any one amount are in the order the summary
    has them); it prints "  No category data." when there is no
    category.  (With a nan among several amounts the order is not
    modelled.) *)
Theorem view_totals_lists_largest_first es t s w :
  get_total_spending es = Ok t ->
  spending_by_category es = Ok s ->
  no_nan s ->
  let shown := by_amount_desc s in
  view_totals es w =
    (Ok tt,
     add_outs w
       ([Field "Total spending: " (round_total t); Line category_header]
        ++ match s with
           | [] => [Line no_category_data]
           | _ => map category_line shown
           end)%list) /\
  Permutation shown s /\
  StronglySorted amount_ge shown /\
  (forall a, filter (fun kv => SFeqb (snd kv) a) shown
             = filter (fun kv => SFeqb (snd kv) a) s).
Proof.
  intros Ht Hs Hn shown. split; [|split; [|split]].
  - unfold view_totals, bind, lift, print. rewrite Ht, Hs.
    destruct s as [|x r]; [reflexivity|].
    rewrite (sorted_by_amount_desc_run _ Hn), for_each_print_category.
    reflexivity.
  - apply by_amount_desc_perm.
  - apply by_amount_desc_sorted, Hn.
  - intros a. apply by_amount_desc_stable.
Qed.

(** ** Saving and loading *)


(** ** The menu on a ledger of the program's own making *)

Lemma well_formed_complete es :
  Forall (fun e => well_formed e = true) es ->
  Forall (fun e => complete_record e = true) es.
Proof.
  apply Forall_impl. intros e H. unfold well_formed in H.
  apply andb_true_iff in H. apply H.
Qed.

Lemma well_formed_typed es :
  Forall (fun e => well_formed e = true) es ->
  Forall (fun e => typed_record e = true) es.
Proof.
  apply Forall_impl. intros e H. unfold well_formed in H.
  apply andb_true_iff in H. apply H.
Qed.

Lemma complete_records es :
  Forall (fun e => complete_record e = true) es -> records es.
Proof. apply Forall_impl. intros e. apply complete_is_record. Qed.

Lemma view_totals_outcome es w :
  Forall (fun e => typed_record e = true) es ->
  fst (view_totals es w) = Ok tt \/ fst (view_totals es w) = Raise Unmodelled.
Proof.
  intros Ht. unfold view_totals, bind, lift, print, get_total_spending.
  rewrite (sum_amounts_run es _ (typed_amount_typed es Ht)).
  rewrite (spending_by_category_run es Ht).
  destruct (map _ (fold_left tally_step es [])) as [|x r]; [now left|].
  destruct (sorted_by_amount_desc (x :: r)) as [s|e] eqn:E.
  - rewrite for_each_print_category. now left.
  - right. unfold sorted_by_amount_desc in E.
    destruct r; [discriminate E|].
    destruct (existsb _ _); [|discriminate E].
    injection E as <-. reflexivity.
Qed.

Section MenuSafety.

Variable fromisoformat : string -> option string.
Variable strptime_ymd : string -> option string.

Lemma run_action_safe a es w :
  Forall (fun e => well_formed e = true) es ->
  match run_action fromisoformat strptime_ymd a es w with
  | (Ok es', _) => Forall (fun e => well_formed e = true) es'
  | (Raise e, _) => e = EOFError \/ e = Unmodelled
  end.
Proof.
  intros Hwf.
  pose proof (well_formed_complete es Hwf) as Hc.
  pose proof (well_formed_typed es Hwf) as Ht.
  destruct a; unfold run_action.
  - destruct (add_expense_interactive_outcome fromisoformat strptime_ymd es w)
      as [(w1 & -> & _)|(x & c & n & date & w1 & ->)].
    + now left.
    + apply Forall_app. split; [exact Hwf|].
      constructor; [apply new_record_well_formed|constructor].
  - unfold bind. rewrite (view_all_expenses_run es w Hc). exact Hwf.
  - unfold bind.
    destruct (view_totals_outcome es w Ht) as [H|H];
      destruct (view_totals es w) as [[u|e] w1]; simpl in H;
      try discriminate H.
    + exact Hwf.
    + injection H as ->. now right.
  - unfold bind. destruct (stdin w) as [|line rest] eqn:E.
    + unfold search_expenses, bind, input. rewrite E. now left.
    + rewrite (search_expenses_run es line rest w Hc E). exact Hwf.
  - destruct (stdin w) as [|line rest] eqn:E.
    + unfold delete_expense, bind, input. rewrite E. now left.
    + rewrite (delete_expense_run es line rest w (complete_records es Hc) E).
      rewrite Forall_forall in *. intros y Hy. apply filter_In in Hy.
      apply Hwf, Hy.
  - unfold bind. rewrite save_expenses_run. exact Hwf.
Qed.

Lemma menu_loop_safe fuel : forall es w r w',
  Forall (fun e => well_formed e = true) es ->
  menu_loop fromisoformat strptime_ymd fuel es w = Some (r, w') ->
  r = Ok tt \/ r = Raise EOFError \/ r = Raise Unmodelled.
Proof.
  induction fuel as [|fuel IH]; intros es w r w' Hwf H; [discriminate H|].
  rewrite menu_loop_turn in H.
  destruct (stdin w) as [|line rest]; [injection H as <- _; right; now left|].
  cbv zeta in H.
  destruct (choices_get (PyStr.strip line) choices) as [[desc func]|].
  - destruct (String.eqb (PyStr.strip line) "0");
      [injection H as <- _; now left|].
    destruct func as [a|]; [|exact (IH _ _ _ _ Hwf H)].
    pose proof (run_action_safe a es
                  (set_stdin (add_outs w menu_lines) rest) Hwf) as Hact.
    destruct (run_action fromisoformat strptime_ymd a es _) as [[es'|e] w2].
    + exact (IH _ _ _ _ Hact H).
    + injection H as <- _. right.
      destruct Hact as [-> | ->]; [now left|now right].
  - exact (IH _ _ _ _ Hwf H).
Qed.

(** X26.  Started on a ledger of records as the program makes them,
    [menu] lets no exception out but that of the end of the input:
    whatever is typed, it either returns or raises [EOFError].  (The
    one run left out of the model, the listing of the totals when
    several categories are there and one of them sums to nan, is the
    third case.) *)
Theorem menu_raises_only_at_end_of_input w es w0 :
  load_expenses w = (Ok es, w0) ->
  Forall (fun e => well_formed e = true) es ->
  exists r w',
    menu fromisoformat strptime_ymd w = Some (r, w') /\
    (r = Ok tt \/ r = Raise EOFError \/ r = Raise Unmodelled).
Proof.
  intros Hload Hwf. unfold menu. rewrite Hload.
  destruct (menu_loop_enough fromisoformat strptime_ymd
              (S (List.length (stdin w0))) es w0)
    as (r & w' & Hrun & _); [lia|].
  exists r, w'. split; [exact Hrun|].
  apply (menu_loop_safe _ es w0 r w' Hwf Hrun).
Qed.

End MenuSafety.

(** X27.  The text [save_expenses] writes tells the list: two
    different lists of storable values leave different files, whenever
    the file takes both texts. *)
Theorem saved_text_determines_list a b w :
  Forall storable a ->
  Forall storable b ->
  takes w (PyJson.dumps (JArr a)) = true ->
  takes w (PyJson.dumps (JArr b)) = true ->
  a <> b ->
  file (snd (save_expenses a w)) <> file (snd (save_expenses b w)).
Proof.
  intros Ha Hb Hta Htb Hne H. apply Hne.
  rewrite !save_expenses_run in H. cbn [snd] in H.
  rewrite (saved_takes _ _ Hta), (saved_takes _ _ Htb) in H.
  injection H as H.
  pose proof (loads_dumps (JArr a)
                (proj1 (all_storable_forall a) Ha)) as La.
  pose proof (loads_dumps (JArr b)
                (proj1 (all_storable_forall b) Hb)) as Lb.
  rewrite H, Lb in La. injection La as ->. reflexivity.
Qed.

Section SuccessiveAdds.

Variable fromisoformat : string -> option string.
Variable strptime_ymd : string -> option string.

(** X28.  Two records added one after the other are stored under the
    next two ids of the generator, the first before the second: their
    ids differ as soon as the generator does not repeat itself. *)
Theorem successive_adds_draw_successive_ids
    es pre1 l1 c1 n1 d1 pre2 l2 c2 n2 d2 rest x1 x2 w :
  Forall rejected pre1 ->
  float_of_string (PyStr.strip l1) = Some x1 ->
  Forall rejected pre2 ->
  float_of_string (PyStr.strip l2) = Some x2 ->
  stdin w = (pre1 ++ l1 :: c1 :: n1 :: d1
             :: pre2 ++ l2 :: c2 :: n2 :: d2 :: rest)%list ->
  exists e1 e2 w1 w2,
    add_expense_interactive fromisoformat strptime_ymd es w
    = (Ok (es ++ [e1])%list, w1) /\
    add_expense_interactive fromisoformat strptime_ymd (es ++ [e1])%list w1
    = (Ok ((es ++ [e1]) ++ [e2])%list, w2) /\
    field "id" e1 = Some (JStr (uuids w (uuid_calls w))) /\
    field "id" e2 = Some (JStr (uuids w (S (uuid_calls w)))) /\
    stdin w2 = rest.
Proof.
  intros Hr1 Hx1 Hr2 Hx2 Hin.
  destruct (add_expense_interactive_effect fromisoformat strptime_ymd
              es pre1 l1 c1 n1 d1 _ x1 w Hr1 Hx1 Hin)
    as (date1 & warn1 & w1 & Hrun1 & Hi1 & _ & _ & _ & _ & _ & Hu1 & Hg1 & _).
  destruct (add_expense_interactive_effect fromisoformat strptime_ymd
              (es ++ [new_record (uuids w (uuid_calls w)) x1
                        (category_entered c1) (PyStr.strip n1) date1])%list
              pre2 l2 c2 n2 d2 rest x2 w1 Hr2 Hx2 Hi1)
    as (date2 & warn2 & w2 & Hrun2 & Hi2 & _).
  cbv zeta in Hrun1, Hrun2. rewrite Hu1, Hg1 in Hrun2.
  eexists. eexists. exists w1, w2.
  split; [exact Hrun1|]. split; [exact Hrun2|].
  split; [reflexivity|]. split; [reflexivity|exact Hi2].
Qed.

End SuccessiveAdds.

Section MenuEndToEnd.

Variable fromisoformat : string -> option string.
Variable strptime_ymd : string -> option string.

(** X29.  An expense entered through the menu is on file when the menu
    is left: on the choice "1", the four answers (after any rejected
    amounts) and the choice "0", [menu] returns; the file then holds
    the list [load_expenses] gave with one record more, under the next
    id, and loading it again gives that list.  The lines after "0" are
    not read.  The file is one that takes what is written, and the
    strings at hand (those of the list, the answers, the id and the
    dates) can be encoded. *)
Theorem menu_add_then_exit_saves w es w0 one pre l c n d zero rest x :
  load_expenses w = (Ok es, w0) ->
  Forall storable es ->
  writable w = true ->
  room w = None ->
  PyStr.strip one = "1" ->
  PyStr.strip zero = "0" ->
  Forall rejected pre ->
  float_of_string (PyStr.strip l) = Some x ->
  PyStr.encodable c = true ->
  PyStr.encodable n = true ->
  PyStr.encodable (uuids w (uuid_calls w)) = true ->
  PyStr.encodable (clock w (clock_calls w)) = true ->
  (forall iso, fromisoformat (PyStr.strip d) = Some iso ->
               PyStr.encodable iso = true) ->
  (forall iso, strptime_ymd (PyStr.strip d) = Some iso ->
               PyStr.encodable iso = true) ->
  stdin w = (one :: pre ++ l :: c :: n :: d :: zero :: rest)%list ->
  exists e w',
    menu fromisoformat strptime_ymd w = Some (Ok tt, w') /\
    field "id" e = Some (JStr (uuids w (uuid_calls w))) /\
    file w' = Text (PyJson.dumps (JArr (es ++ [e])%list)) /\
    load_expenses w' = (Ok (es ++ [e])%list, w') /\
    stdin w' = rest /\
    exists out, stdout w' = (stdout w ++ out ++ [Line goodbye])%list.
Proof.
  intros Hload Hes Hw Hm Hone Hzero Hrej Hx Hc Hn Hid Hclock Hiso Hymd Hin.
  pose proof (load_expenses_stdin w) as Hin0.
  pose proof (only_reads_load_expenses w) as Hro.
  pose proof (load_within_limits w) as Hlim.
  rewrite Hload in Hin0, Hro, Hlim. simpl in Hin0, Hro, Hlim.
  destruct Hro as [(Hw0 & Hm0 & Hg0 & Hk0 & _ & [printed Hp0])
                   (_ & Hu0 & Hkc0)].
  rewrite Hin in Hin0.
  unfold menu. rewrite Hload, Hin0.
  assert (Hfuel : exists k,
            List.length (one :: pre ++ l :: c :: n :: d :: zero :: rest)%list
            = S (S k)).
  { exists (List.length pre + (4 + List.length rest))%nat.
    simpl. rewrite length_app. simpl. lia. }
  destruct Hfuel as [k ->].
  rewrite menu_loop_turn, Hin0. cbv zeta. rewrite Hone.
  change (choices_get "1" choices) with (Some ("Add an expense", Some DoAdd)).
  change (String.eqb "1" "0") with false. cbv iota beta.
  set (w1 := set_stdin (add_outs w0 menu_lines)
               (pre ++ l :: c :: n :: d :: zero :: rest)%list).
  unfold run_action.
  destruct (add_expense_interactive_effect fromisoformat strptime_ymd
              es pre l c n d (zero :: rest) x w1 Hrej Hx eq_refl)
    as (date & warn & w2 & Hrun & Hi2 & Hf2 & Ho2 & _ & _ & _ & _ & _ & _
        & _ & _ & _ & _ & Hdate).
  cbv zeta in Hrun, Hf2, Ho2, Hdate.
  assert (Hw1 : writable w1 = true).
  { change (writable w1) with (writable (add_outs w0 menu_lines)).
    rewrite writable_add_outs, Hw0. exact Hw. }
  assert (Hm1 : room w1 = None).
  { change (room w1) with (room (add_outs w0 menu_lines)).
    rewrite room_add_outs, Hm0. exact Hm. }
  assert (Hid1 : uuids w1 (uuid_calls w1) = uuids w (uuid_calls w)).
  { change (uuids w1 (uuid_calls w1))
      with (uuids (add_outs w0 menu_lines)
              (uuid_calls (add_outs w0 menu_lines))).
    rewrite uuids_add_outs, uuid_calls_add_outs, Hg0, Hu0. reflexivity. }
  assert (Hnow1 : clock w1 (clock_calls w1) = clock w (clock_calls w)).
  { change (clock w1 (clock_calls w1))
      with (clock (add_outs w0 menu_lines)
              (clock_calls (add_outs w0 menu_lines))).
    rewrite clock_add_outs, clock_calls_add_outs, Hk0, Hkc0. reflexivity. }
  rewrite Hid1 in Hrun, Hf2, Ho2. rewrite Hnow1 in Hdate.
  set (e := new_record (uuids w (uuid_calls w)) x (category_entered c)
                       (PyStr.strip n) date) in *.
  set (t := PyJson.dumps (JArr (es ++ [e])%list)) in *.
  assert (Htakes : takes w1 t = true) by (apply takes_any; assumption).
  unfold takes in Htakes. apply andb_true_iff in Htakes.
  destruct Htakes as [_ Hfits].
  rewrite Hw1, Hfits in Hf2.
  rewrite Hrun.
  rewrite menu_loop_turn, Hi2. cbv zeta. rewrite Hzero.
  change (choices_get "0" choices) with (Some ("Exit", @None action)).
  change (String.eqb "0" "0") with true. cbv iota beta.
  exists e. eexists. split; [reflexivity|].
  assert (Hfile : file (add_out (set_stdin (add_outs w2 menu_lines) rest)
                          (Line goodbye)) = Text t).
  { change (file (add_out (set_stdin (add_outs w2 menu_lines) rest)
                    (Line goodbye)))
      with (file (add_outs w2 menu_lines)).
    rewrite file_add_outs. exact Hf2. }
  split; [reflexivity|]. split; [exact Hfile|]. split; [|split].
  - rewrite (load_expenses_text _ t Hfile). unfold t.
    assert (Hdate_ok : PyStr.encodable date = true).
    { destruct Hdate as [-> | [H | H]];
        [exact Hclock|exact (Hiso _ H)|exact (Hymd _ H)]. }
    assert (Hcat : PyStr.encodable (category_entered c) = true).
    { unfold category_entered. destruct (PyStr.truthy (PyStr.strip c));
        [apply encodable_strip, Hc|reflexivity]. }
    rewrite loads_dumps.
    + rewrite within_limits_snoc; [reflexivity|exact Hlim| |];
        reflexivity.
    + apply (proj1 (all_storable_forall _)). apply Forall_app.
      split; [exact Hes|]. constructor; [|constructor].
      apply new_record_storable; try assumption.
      apply encodable_strip, Hn.
  - reflexivity.
  - change (stdout (add_out (set_stdin (add_outs w2 menu_lines) rest)
                      (Line goodbye)))
      with ((stdout (add_outs w2 menu_lines) ++ [Line goodbye])%list).
    rewrite stdout_add_outs, Ho2.
    assert (Ho1 : stdout w1 = (stdout w0 ++ menu_lines)%list).
    { unfold w1.
      change (stdout (set_stdin (add_outs w0 menu_lines)
                        (pre ++ l :: c :: n :: d :: zero :: rest)%list))
        with (stdout (add_outs w0 menu_lines)).
      apply stdout_add_outs. }
    rewrite Ho1, Hp0.
    exists (printed ++ menu_lines
            ++ map (fun _ => Line invalid_amount) pre ++ warn
            ++ (if takes w1 t then [] else [Line save_error])
            ++ [Line expense_added] ++ menu_lines)%list.
    rewrite <- !app_assoc. reflexivity.
Qed.

End MenuEndToEnd.


(** * Concrete runs *)

Lemma sample_ledger_records : records sample_ledger.
Proof. repeat constructor. Qed.

(** What [strip] and [float] make of characters beyond ASCII. *)
Example strip_no_break_space :
  PyStr.strip ("b2" ++ nbsp) = "b2" /\
  PyStr.strip (nbsp ++ " Food " ++ nbsp) = "Food" /\
  PyStr.strip nbsp = "".
Proof. repeat split. Qed.

Example float_of_other_digits :
  float_of_string arabic_twelve = Some (of_Z 12) /\
  float_of_string ("5" ++ nbsp) = Some (of_Z 5) /\
  float_of_string "1_000.5" = Some (of_decimal false 10005 (-1)) /\
  float_of_string "12abc" = None.
Proof. repeat split. Qed.

(** Deleting [lunch] by its id, typed with a space before it and a
    no-break space after it, and asking for an id that no record
    bears. *)
Lemma delete_by_id_witness :
  (exists l1 l2,
     sample_ledger = (l1 ++ lunch :: l2)%list /\
     (forall x, In x (l1 ++ l2)%list -> bears_id "b2" x = false) /\
     (List.length (l1 ++ l2)%list + 1 = List.length sample_ledger)%nat /\
     delete_expense sample_ledger (sample_world Absent [" b2" ++ nbsp]) =
       (Ok (l1 ++ l2)%list,
        add_out (snd (save_expenses (l1 ++ l2)%list (sample_world Absent [])))
                (Line deleted_msg)) /\
     (true = true ->
      file (snd (delete_expense sample_ledger
                   (sample_world Absent [" b2" ++ nbsp])))
      = Text (PyJson.dumps (JArr (l1 ++ l2)%list))))
  /\
  (delete_expense sample_ledger (sample_world Absent ["zz"]) =
     (Ok sample_ledger, add_out (sample_world Absent []) (Line not_found_msg)) /\
   file (snd (delete_expense sample_ledger (sample_world Absent ["zz"])))
   = Absent).
Proof.
  split.
  - apply (proj1 (delete_by_id sample_ledger (" b2" ++ nbsp) []
                    (sample_world Absent [" b2" ++ nbsp])
                    sample_ledger_records eq_refl)).
    + repeat constructor; simpl; intuition discriminate.
    + simpl. intuition.
    + reflexivity.
  - apply (proj2 (delete_by_id sample_ledger "zz" []
                    (sample_world Absent ["zz"])
                    sample_ledger_records eq_refl)).
    intros e [<-|[<-|[<-|[]]]]; reflexivity.
Defined.

(** The list and the file after that deletion. *)
Example delete_lunch :
  let w' := snd (delete_expense sample_ledger
                   (sample_world Absent [" b2" ++ nbsp])) in
  fst (delete_expense sample_ledger (sample_world Absent [" b2" ++ nbsp]))
  = Ok [groceries; train] /\
  file w' = Text (PyJson.dumps (JArr [groceries; train])) /\
  stdout w' = [Line deleted_msg].
Proof. repeat split. Qed.

Lemma doubled_ledger_records : records doubled_ledger.
Proof. repeat constructor. Qed.

(** Deleting the id that two records share. *)
Lemma delete_removes_all_duplicates_witness :
  exists kept,
    delete_expense doubled_ledger (sample_world Absent ["b2"]) =
      (Ok kept,
       add_out (snd (save_expenses kept (sample_world Absent [])))
               (Line deleted_msg)) /\
    kept = filter (fun e => negb (bears_id "b2" e)) doubled_ledger /\
    (forall e, In e kept <-> In e doubled_ledger /\ bears_id "b2" e = false) /\
    (List.length kept + 2 = List.length doubled_ledger)%nat.
Proof.
  apply (delete_removes_all_duplicates doubled_ledger "b2" []
           (sample_world Absent ["b2"]) doubled_ledger_records eq_refl).
  vm_compute. lia.
Defined.


(** The other cases of [load_expenses]: a text that is not JSON, a file
    that is not UTF-8, and a list. *)
Example load_expenses_runs :
  load_expenses (sample_world (Text "{not json") [])
  = (Ok [], add_out (sample_world (Text "{not json") []) (Line load_warning)) /\
  load_expenses (sample_world Undecodable [])
  = (Raise UnicodeDecodeError, sample_world Undecodable []) /\
  load_expenses (sample_world (Text (PyJson.dumps (JArr sample_ledger))) [])
  = (Ok sample_ledger,
     sample_world (Text (PyJson.dumps (JArr sample_ledger))) []).
Proof. repeat split; vm_compute; reflexivity. Qed.

(** A category of white space only, a no-break space among it, after
    one rejected amount. *)
Lemma blank_category_defaults_witness :
  exists e w',
    add_expense_interactive no_date_parser no_date_parser sample_ledger
      (sample_world Absent
         ["twelve"; "12.50"; "  " ++ nbsp ++ " "; " lunch "; ""])
    = (Ok (sample_ledger ++ [e])%list, w') /\
    field "category" e = Some (JStr "Uncategorized").
Proof.
  apply (blank_category_defaults no_date_parser no_date_parser sample_ledger
           ["twelve"] "12.50" ("  " ++ nbsp ++ " ") " lunch " "" []
           (of_decimal false 1250 (-2))).
  - repeat constructor.
  - reflexivity.
  - reflexivity.
  - reflexivity.
Defined.

(** An amount with three decimals: 10.005 is stored as 10.01. *)
Lemma amount_rounded_at_creation_witness :
  (exists e w',
     add_expense_interactive no_date_parser no_date_parser []
       (sample_world Absent ["10.005"; "Food"; ""; ""])
     = (Ok ([] ++ [e])%list, w') /\
     field "amount" e = Some (JFloat (round2 (of_decimal false 10005 (-3)))) /\
     (forall s m ex, of_decimal false 10005 (-3) = S754_finite s m ex ->
        exists p, hundredths m ex p /\
                  round2 (of_decimal false 10005 (-3)) = of_decimal s p (-2)) /\
     (is_finite_nonzero (of_decimal false 10005 (-3)) = false ->
      round2 (of_decimal false 10005 (-3)) = of_decimal false 10005 (-3)) /\
     signbit (round2 (of_decimal false 10005 (-3)))
     = signbit (of_decimal false 10005 (-3)) /\
     (is_negative (of_decimal false 10005 (-3)) = false ->
      is_negative (round2 (of_decimal false 10005 (-3))) = false)) /\
  round2 (of_decimal false 10005 (-3)) = of_decimal false 1001 (-2).
Proof.
  split; [|vm_compute; reflexivity].
  apply (amount_rounded_at_creation no_date_parser no_date_parser []
           [] "10.005" "Food" "" "" [] (of_decimal false 10005 (-3))).
  - constructor.
  - reflexivity.
  - reflexivity.
Defined.

(** Rounding to two decimals: to the nearest, a tie to the even one. *)
Example rounded_amounts :
  round2 (of_decimal false 12345 (-3)) = of_decimal false 1235 (-2) /\
  round2 (of_decimal false 2675 (-3)) = of_decimal false 267 (-2) /\
  round2 (of_decimal false 125 (-3)) = of_decimal false 12 (-2) /\
  round2 (of_decimal true 4 (-3)) = S754_zero true /\
  round2 (of_decimal false 1 22) = of_decimal false 1 22.
Proof. repeat split; vm_compute; reflexivity. Qed.

(** C7, refuted as stated: the line [-5] is accepted and the record
    built has a negative amount. *)
Lemma negative_amount_is_accepted :
  exists e w',
    add_expense_interactive no_date_parser no_date_parser []
      (sample_world Absent ["-5"; "Food"; ""; ""])
    = (Ok [e], w') /\
    field "amount" e = Some (JFloat (of_Z (-5))) /\
    is_negative (of_Z (-5)) = true.
Proof.
  exists (new_record (sample_uuid 0) (of_Z (-5)) "Food" "" (sample_clock 0)).
  exists (snd (add_expense_interactive no_date_parser no_date_parser []
                 (sample_world Absent ["-5"; "Food"; ""; ""]))).
  split; [vm_compute; reflexivity|]. split; vm_compute; reflexivity.
Defined.

Lemma sparse_ledger_typed :
  Forall (fun e => typed_record e = true) sparse_ledger.
Proof. repeat constructor. Qed.

Lemma sparse_ledger_amount_typed :
  Forall (fun e => amount_typed e = true) sparse_ledger.
Proof. repeat constructor. Qed.

(** The total of records of which one has no amount. *)
Lemma total_is_sum_of_amounts_witness :
  get_total_spending sparse_ledger = Ok (sum_of_amounts sparse_ledger) /\
  get_total_spending [] = Ok (PInt 0) /\
  (forall e, amount_typed e = true ->
             get_total_spending (sparse_ledger ++ [e])%list
             = Ok (add_float (sum_of_amounts sparse_ledger) (amount_of e))).
Proof.
  apply (total_is_sum_of_amounts sparse_ledger sparse_ledger_amount_typed).
Defined.

(** Records without amount and without category: the total is 6.5, of
    which 2.5 is filed under "Uncategorized". *)
Lemma aggregation_total_on_missing_fields_witness :
  (get_total_spending sparse_ledger = Ok (sum_of_amounts sparse_ledger) /\
   (forall e, typed_record e = true -> field "amount" e = None ->
      get_total_spending (sparse_ledger ++ [e])%list
      = Ok (add_float (sum_of_amounts sparse_ledger) pos_zero)) /\
   (exists s,
      spending_by_category sparse_ledger = Ok s /\
      (forall e, In e sparse_ledger -> field "category" e = None ->
         In e (in_category "Uncategorized" sparse_ledger) /\
         In ("Uncategorized",
             round2 (category_sum "Uncategorized" sparse_ledger)) s) /\
      spending_by_category (map with_defaults sparse_ledger) = Ok s) /\
   get_total_spending (map with_defaults sparse_ledger)
   = Ok (sum_of_amounts sparse_ledger)) /\
  get_total_spending sparse_ledger = Ok (PFloat (of_decimal false 65 (-1))) /\
  spending_by_category sparse_ledger
  = Ok [("Uncategorized", of_decimal false 25 (-1)); ("Food", of_Z 4)].
Proof.
  split; [|split; vm_compute; reflexivity].
  apply (aggregation_total_on_missing_fields sparse_ledger sparse_ledger_typed).
Defined.

Lemma sample_ledger_typed :
  Forall (fun e => typed_record e = true) sample_ledger.
Proof. repeat constructor. Qed.

Lemma category_totals_are_rounded_sums_witness :
  exists s,
    spending_by_category sample_ledger = Ok s /\
    NoDup (map fst s) /\
    (forall c, In c (map fst s) <->
               exists e, In e sample_ledger /\ category_of e = c) /\
    (forall c v, In (c, v) s -> v = round2 (category_sum c sample_ledger)).
Proof.
  apply (category_totals_are_rounded_sums sample_ledger sample_ledger_typed).
Defined.

(** C4, refuted as stated: 0.1 and 0.2 under one category add up to
    0.30000000000000004, the category total is rounded to 0.3, and the
    sum of the category totals is not the total. *)
Lemma category_totals_do_not_add_up :
  exists s t,
    spending_by_category snack_ledger = Ok s /\
    get_total_spending snack_ledger = Ok t /\
    s = [("Snacks", of_decimal false 3 (-1))] /\
    t = PFloat (of_decimal false 30000000000000004 (-17)) /\
    sum_values s <> t.
Proof.
  exists [("Snacks", of_decimal false 3 (-1))].
  exists (PFloat (of_decimal false 30000000000000004 (-17))).
  split; [vm_compute; reflexivity|]. split; [vm_compute; reflexivity|].
  split; [reflexivity|]. split; [reflexivity|].
  vm_compute. discriminate.
Defined.

Lemma sample_ledger_complete :
  Forall (fun e => complete_record e = true) sample_ledger.
Proof. repeat constructor. Qed.



Lemma sample_ledger_storable : Forall storable sample_ledger.
Proof.
  repeat constructor; simpl; try intuition discriminate; reflexivity.
Qed.

(** A fourth record is created, the four are saved and loaded. *)
Lemma create_save_load_round_trip_witness :
  exists date w1,
    let e := JObj [("id", JStr (sample_uuid 0));
                   ("amount", JFloat (round2 (of_decimal false 1999 (-2))));
                   ("category", JStr (PyStr.strip " Bills "));
                   ("note", JStr (PyStr.strip "power"));
                   ("date", JStr date)] in
    make_expense (of_decimal false 1999 (-2)) " Bills " "power"
                 (Some "2024-02-10T00:00:00") (sample_world Absent [])
    = (Ok e, w1) /\
    (forall d, Some "2024-02-10T00:00:00" = Some d ->
               PyStr.truthy d = true -> date = d) /\
    (Some "2024-02-10T00:00:00" = None \/
     Some "2024-02-10T00:00:00" = Some EmptyString ->
     date = sample_clock 0) /\
    let w2 := snd (save_expenses (sample_ledger ++ [e])%list w1) in
    file w2 = Text (PyJson.dumps (JArr (sample_ledger ++ [e])%list)) /\
    load_expenses w2 = (Ok (sample_ledger ++ [e])%list, w2).
Proof.
  apply (create_save_load_round_trip sample_ledger
           (of_decimal false 1999 (-2)) " Bills " "power"
           (Some "2024-02-10T00:00:00") (sample_world Absent [])
           sample_ledger_storable).
  - vm_compute. reflexivity.
  - reflexivity.
  - reflexivity.
  - intros d E. injection E as <-. reflexivity.
  - reflexivity.
  - reflexivity.
  - reflexivity.
  - reflexivity.
Defined.

(** ** The examples of the specification *)

(** 10.005 is stored as 10.01; with 5 the total is 15.01, all of it under
    "Food". *)
Example total_of_groceries_and_lunch :
  get_total_spending [groceries; lunch]
  = Ok (PFloat (of_decimal false 1501 (-2))) /\
  spending_by_category [groceries; lunch]
  = Ok [("Food", of_decimal false 1501 (-2))].
Proof. split; vm_compute; reflexivity. Qed.

(** The keyword [travel] finds the record filed under "Travel" and no
    other. *)
Example search_travel :
  by_date_desc (filter (hit (PyStr.lower (PyStr.strip "travel"))) sample_ledger)
  = [train] /\
  stdout (snd (search_expenses sample_ledger (sample_world Absent ["travel"])))
  = expense_lines train.
Proof. split; vm_compute; reflexivity. Qed.

(** The text written for the sample ledger is read back. *)
Example sample_ledger_text :
  PyJson.loads (PyJson.dumps (JArr sample_ledger)) = Some (JArr sample_ledger).
Proof. vm_compute. reflexivity. Qed.
(** * Further concrete runs *)

Lemma sample_ledger_well_formed :
  Forall (fun e => well_formed e = true) sample_ledger.
Proof. repeat constructor. Qed.

Lemma sample_ledger_unique_ids : NoDup (map (field "id") sample_ledger).
Proof. repeat constructor; simpl; intuition discriminate. Qed.

Lemma sample_ledger_fresh e :
  In e sample_ledger -> bears_id (sample_uuid 0) e = false.
Proof. intros [<-|[<-|[<-|[]]]]; reflexivity. Qed.



(** A record is added after one rejected amount and deleted by the id
    it was given. *)
Lemma add_then_delete_restores_witness :
  exists e w1 w2,
    add_expense_interactive no_date_parser no_date_parser sample_ledger
      (sample_world Absent
         ["twelve"; "12.50"; "Food"; ""; "";
          "9f1c2e9a-0000-4000-8000-000000000000"])
    = (Ok (sample_ledger ++ [e])%list, w1) /\
    delete_expense (sample_ledger ++ [e])%list w1 = (Ok sample_ledger, w2) /\
    stdin w2 = [] /\
    (true = true -> file w2 = Text (PyJson.dumps (JArr sample_ledger))).
Proof.
  apply (add_then_delete_restores no_date_parser no_date_parser sample_ledger
           ["twelve"] "12.50" "Food" "" ""
           "9f1c2e9a-0000-4000-8000-000000000000" []
           (of_decimal false 1250 (-2))
           (sample_world Absent
              ["twelve"; "12.50"; "Food"; ""; "";
               "9f1c2e9a-0000-4000-8000-000000000000"])
           sample_ledger_records).
  - repeat constructor.
  - reflexivity.
  - reflexivity.
  - reflexivity.
  - exact sample_ledger_fresh.
Defined.

(** [lunch] is asked for twice. *)
Lemma delete_again_finds_nothing_witness :
  exists kept w1,
    delete_expense sample_ledger (sample_world Absent ["b2"; " b2"])
    = (Ok kept, w1) /\
    delete_expense kept w1 =
      (Ok kept, add_out (set_stdin w1 []) (Line not_found_msg)) /\
    file (snd (delete_expense kept w1)) = file w1.
Proof.
  apply (delete_again_finds_nothing sample_ledger "b2" " b2" []
           (sample_world Absent ["b2"; " b2"]) sample_ledger_records).
  - reflexivity.
  - reflexivity.
Defined.

(** The ids of the sample ledger after a deletion and after an
    addition. *)
Lemma unique_ids_are_kept_witness :
  NoDup (map (field "id") [groceries; train]) /\
  NoDup (map (field "id")
           (sample_ledger
            ++ [new_record (sample_uuid 0) (of_decimal false 5 0) "Food" ""
                  (sample_clock 0)])%list).
Proof.
  split.
  - apply (proj1 (unique_ids_are_kept no_date_parser no_date_parser
                    sample_ledger (sample_world Absent ["b2"])
                    [groceries; train]
                    (snd (delete_expense sample_ledger
                            (sample_world Absent ["b2"])))
                    sample_ledger_unique_ids)).
    vm_compute. reflexivity.
  - apply (proj2 (unique_ids_are_kept no_date_parser no_date_parser
                    sample_ledger (sample_world Absent ["5"; "Food"; ""; ""])
                    _
                    (snd (add_expense_interactive no_date_parser
                            no_date_parser sample_ledger
                            (sample_world Absent ["5"; "Food"; ""; ""])))
                    sample_ledger_unique_ids)).
    + exact sample_ledger_fresh.
    + vm_compute. reflexivity.
Defined.

Lemma well_formed_records_are_kept_witness :
  Forall (fun e => well_formed e = true)
    (sample_ledger
     ++ [new_record (sample_uuid 0) (of_decimal false 5 0) "Food" ""
           (sample_clock 0)])%list /\
  Forall (fun e => well_formed e = true) [groceries; train].
Proof.
  split.
  - apply (proj1 (well_formed_records_are_kept no_date_parser no_date_parser
                    sample_ledger (sample_world Absent ["5"; "Food"; ""; ""])
                    _
                    (snd (add_expense_interactive no_date_parser
                            no_date_parser sample_ledger
                            (sample_world Absent ["5"; "Food"; ""; ""])))
                    sample_ledger_well_formed)).
    vm_compute. reflexivity.
  - apply (proj2 (well_formed_records_are_kept no_date_parser no_date_parser
                    sample_ledger (sample_world Absent ["b2"])
                    [groceries; train]
                    (snd (delete_expense sample_ledger
                            (sample_world Absent ["b2"])))
                    sample_ledger_well_formed)).
    vm_compute. reflexivity.
Defined.

(** The input ends after the category; the amount is typed in
    Arabic-Indic digits. *)
Lemma add_stops_at_end_of_input_witness :
  exists w',
    add_expense_interactive no_date_parser no_date_parser sample_ledger
      (sample_world Absent ["abc"; arabic_twelve; "Food"])
    = (Raise EOFError, w') /\
    stdout w' = (stdout (sample_world Absent ["abc"; arabic_twelve; "Food"])
                 ++ map (fun _ => Line invalid_amount) ["abc"])%list /\
    file w' = file (sample_world Absent ["abc"; arabic_twelve; "Food"]) /\
    uuid_calls w'
    = uuid_calls (sample_world Absent ["abc"; arabic_twelve; "Food"]) /\
    stdin w' = [].
Proof.
  apply (add_stops_at_end_of_input no_date_parser no_date_parser
           sample_ledger ["abc"] [arabic_twelve; "Food"]
           (sample_world Absent ["abc"; arabic_twelve; "Food"])).
  - repeat constructor.
  - reflexivity.
  - right. exists arabic_twelve, (of_Z 12), ["Food"].
    split; [reflexivity|]. split; [reflexivity|simpl; lia].
Defined.


(** The same record added to files that take the text, that cannot be
    opened, and that take ten bytes. *)
Example add_to_three_files :
  let lines := ["12.50"; "Food"; ""; ""] in
  let e := new_record (sample_uuid 0) (of_decimal false 1250 (-2)) "Food" ""
                      (sample_clock 0) in
  let t := PyJson.dumps (JArr [e]) in
  file (snd (add_expense_interactive no_date_parser no_date_parser []
               (sample_world Absent lines))) = Text t /\
  file (snd (add_expense_interactive no_date_parser no_date_parser []
               (read_only_world lines))) = Absent /\
  file (snd (add_expense_interactive no_date_parser no_date_parser []
               (small_world 10 lines))) = Text (substring 0 10 t) /\
  stdout (snd (add_expense_interactive no_date_parser no_date_parser []
                 (small_world 10 lines)))
  = [Line save_error; Line expense_added].
Proof. repeat split; vm_compute; reflexivity. Qed.

(** A date that only the second parser accepts. *)
Lemma date_is_parsed_or_now_witness :
  exists e date w',
    add_expense_interactive no_date_parser one_date_parser []
      (sample_world Absent ["3"; ""; ""; " 2024-05-06 "])
    = (Ok ([] ++ [e])%list, w') /\
    field "date" e = Some (JStr date) /\
    let s := PyStr.strip " 2024-05-06 " in
    let now := sample_clock 0 in
    let warned := In (Line invalid_date) (skipn 0 (stdout w')) in
    (s = "" -> date = now /\ ~ warned) /\
    (forall iso, s <> "" -> no_date_parser s = Some iso -> iso <> "" ->
                 date = iso /\ ~ warned) /\
    (forall iso, s <> "" -> no_date_parser s = None ->
                 one_date_parser s = Some iso -> iso <> "" ->
                 date = iso /\ ~ warned) /\
    (s <> "" -> no_date_parser s = None -> one_date_parser s = None ->
     date = now /\ warned).
Proof.
  apply (date_is_parsed_or_now no_date_parser one_date_parser []
           [] "3" "" "" " 2024-05-06 " [] (of_decimal false 3 0)
           (sample_world Absent ["3"; ""; ""; " 2024-05-06 "])).
  - constructor.
  - reflexivity.
  - reflexivity.
Defined.

(** A dict without a category is printed up to its date. *)
Lemma print_expense_needs_four_keys_witness :
  print_expense no_category (sample_world Absent []) =
  (Raise KeyError,
   add_outs (sample_world Absent [])
     [Field "ID: " (JStr "q1"); Field "Date: " (JStr "2024-01-01")]).
Proof.
  apply (proj1 (proj2 (print_expense_needs_four_keys no_category
                         (sample_world Absent [])))).
  - reflexivity.
  - reflexivity.
Defined.

Lemma view_all_lists_latest_first_witness :
  let shown := by_date_desc sample_ledger in
  view_all_expenses sample_ledger (sample_world Absent []) =
    (Ok tt,
     add_outs (sample_world Absent []) (flat_map expense_lines shown)) /\
  Permutation shown sample_ledger /\
  StronglySorted date_ge shown /\
  (forall d, filter (fun e => String.eqb (date_of e) d) shown =
             filter (fun e => String.eqb (date_of e) d) sample_ledger).
Proof.
  apply (view_all_lists_latest_first sample_ledger (sample_world Absent [])
           sample_ledger_complete).
Defined.

(** A search for two spaces. *)
Lemma blank_search_lists_everything_witness :
  search_expenses sample_ledger (sample_world Absent ["  "]) =
  view_all_expenses sample_ledger (set_stdin (sample_world Absent ["  "]) []).
Proof.
  apply (blank_search_lists_everything sample_ledger "  " []
           (sample_world Absent ["  "]) sample_ledger_complete).
  - discriminate.
  - reflexivity.
  - reflexivity.
Defined.

(** The total of a list whose second record has the amount null. *)
Lemma total_fails_at_first_bad_amount_witness :
  get_total_spending ([groceries] ++ amount_null :: [lunch])%list
  = Raise TypeError /\
  TypeError = TypeError.
Proof.
  apply (total_fails_at_first_bad_amount [groceries] amount_null [lunch]
           TypeError).
  - constructor; [|constructor]. eexists. reflexivity.
  - reflexivity.
Defined.

Lemma nan_ledger_typed : Forall (fun e => typed_record e = true) nan_ledger.
Proof. repeat constructor. Qed.

Lemma nan_amount_spoils_totals_witness :
  get_total_spending nan_ledger = Ok (PFloat S754_nan) /\
  exists s,
    spending_by_category nan_ledger = Ok s /\
    In (category_of amount_nan, S754_nan) s.
Proof.
  apply (nan_amount_spoils_totals nan_ledger amount_nan nan_ledger_typed).
  - simpl. intuition.
  - reflexivity.
Defined.

Lemma categories_in_order_first_seen_witness :
  exists s,
    spending_by_category sample_ledger = Ok s /\
    map fst s = first_seen [] (map category_of sample_ledger).
Proof.
  apply (categories_in_order_first_seen sample_ledger sample_ledger_typed).
Defined.

(** Ten cents more under "Snacks". *)
Lemma one_more_record_changes_one_category_witness :
  exists s s',
    spending_by_category sample_ledger = Ok s /\
    spending_by_category (sample_ledger ++ [dime])%list = Ok s' /\
    (forall c v, c <> category_of dime -> (In (c, v) s' <-> In (c, v) s)) /\
    In (category_of dime,
        round2 (fadd (category_sum (category_of dime) sample_ledger)
                     (amount_of dime))) s'.
Proof.
  apply (one_more_record_changes_one_category sample_ledger dime
           sample_ledger_typed).
  reflexivity.
Defined.

(** The totals of the sample ledger: 57.51 in all, "Travel" with 42.5
    before "Food" with 15.01. *)
Lemma view_totals_lists_largest_first_witness :
  let t := PFloat (of_decimal false 5751 (-2)) in
  let s := [("Food", of_decimal false 1501 (-2));
            ("Travel", of_decimal false 425 (-1))] in
  let shown := by_amount_desc s in
  view_totals sample_ledger (sample_world Absent []) =
    (Ok tt,
     add_outs (sample_world Absent [])
       ([Field "Total spending: " (round_total t); Line category_header]
        ++ map category_line shown)%list) /\
  Permutation shown s /\
  StronglySorted amount_ge shown /\
  (forall a, filter (fun kv => SFeqb (snd kv) a) shown
             = filter (fun kv => SFeqb (snd kv) a) s).
Proof.
  apply (view_totals_lists_largest_first sample_ledger
           (PFloat (of_decimal false 5751 (-2)))
           [("Food", of_decimal false 1501 (-2));
            ("Travel", of_decimal false 425 (-1))]
           (sample_world Absent [])).
  - vm_compute. reflexivity.
  - vm_compute. reflexivity.
  - repeat constructor.
Defined.

Lemma non_dict_element_raises_witness :
  delete_expense mixed_ledger (sample_world Absent ["a1"])
  = (Raise AttributeError, set_stdin (sample_world Absent ["a1"]) []) /\
  search_expenses mixed_ledger (sample_world Absent ["a1"])
  = (Raise AttributeError, set_stdin (sample_world Absent ["a1"]) []) /\
  view_all_expenses mixed_ledger (sample_world Absent ["a1"])
  = (Raise AttributeError, sample_world Absent ["a1"]).
Proof.
  apply (non_dict_element_raises mixed_ledger "a1" []
           (sample_world Absent ["a1"])).
  - exists (JInt 5). split; [simpl; intuition|reflexivity].
  - reflexivity.
Defined.

(** What "food" finds, "oo" finds. *)
Lemma part_of_keyword_finds_more_witness :
  exists found1,
    filter_r (matches "oo") sample_ledger = Ok found1 /\
    (forall e, In e [groceries; lunch] -> In e found1).
Proof.
  apply (part_of_keyword_finds_more "oo" "food" sample_ledger
           [groceries; lunch]).
  - reflexivity.
  - vm_compute. reflexivity.
Defined.

(** A category with a no-break space after it, a note with spaces
    around it. *)
Lemma stored_text_is_trimmed_witness :
  (exists e w',
     add_expense_interactive no_date_parser no_date_parser []
       (sample_world Absent
          ["3"; "  Eating out" ++ nbsp; " with Sam  "; ""])
     = (Ok ([] ++ [e])%list, w') /\
     field "category" e
     = Some (JStr (category_entered ("  Eating out" ++ nbsp))) /\
     field "note" e = Some (JStr (PyStr.strip " with Sam  ")) /\
     trimmed (category_entered ("  Eating out" ++ nbsp)) /\
     trimmed (PyStr.strip " with Sam  ")) /\
  category_entered ("  Eating out" ++ nbsp) = "Eating out" /\
  PyStr.strip " with Sam  " = "with Sam".
Proof.
  split; [|split; reflexivity].
  apply (stored_text_is_trimmed no_date_parser no_date_parser []
           [] "3" ("  Eating out" ++ nbsp) " with Sam  " "" []
           (of_decimal false 3 0)
           (sample_world Absent
              ["3"; "  Eating out" ++ nbsp; " with Sam  "; ""])).
  - constructor.
  - reflexivity.
  - reflexivity.
Defined.

Lemma edited_ledger_records : records edited_ledger.
Proof. repeat constructor. Qed.

(** The id "b2 " is typed as it is, and is looked for as "b2". *)
Lemma unstripped_id_is_never_deleted_witness :
  exists kept w',
    delete_expense edited_ledger (sample_world Absent ["b2 "])
    = (Ok kept, w') /\ In padded_id kept.
Proof.
  apply (unstripped_id_is_never_deleted edited_ledger padded_id "b2 " []
           (sample_world Absent ["b2 "]) edited_ledger_records).
  - simpl. intuition.
  - reflexivity.
  - intros t H. injection H as <-. vm_compute. discriminate.
Defined.

(** Two lines that choose nothing, then "0" with a no-break space
    after it. *)
Lemma menu_invalid_choices_witness :
  let w := sample_world Absent ["9"; ""; " 0" ++ nbsp; "x"] in
  let w' := set_stdin
              (add_outs w (flat_map (fun _ => invalid_turn) ["9"; ""]
                           ++ menu_lines ++ [Line goodbye])%list)
              ["x"] in
  menu no_date_parser no_date_parser w = Some (Ok tt, w') /\
  file w' = file w.
Proof.
  apply (menu_invalid_choices no_date_parser no_date_parser
           (sample_world Absent ["9"; ""; " 0" ++ nbsp; "x"]) []
           (sample_world Absent ["9"; ""; " 0" ++ nbsp; "x"])
           ["9"; ""] (" 0" ++ nbsp) ["x"]).
  - reflexivity.
  - repeat constructor.
  - reflexivity.
  - reflexivity.
Defined.

(** The listing is asked for, then the exit, typed with a no-break
    space before it. *)
Lemma menu_returns_only_on_zero_witness :
  exists w',
    menu no_date_parser no_date_parser
      (sample_world Absent ["2"; nbsp ++ "0 "; "x"])
    = Some (Ok tt, w') /\
    (exists line, In line ["2"; nbsp ++ "0 "; "x"] /\ PyStr.strip line = "0") /\
    (exists out, stdout w' = ([] ++ out ++ [Line goodbye])%list).
Proof.
  eexists. split; [vm_compute; reflexivity|].
  apply (menu_returns_only_on_zero no_date_parser no_date_parser
           (sample_world Absent ["2"; nbsp ++ "0 "; "x"])).
  vm_compute. reflexivity.
Defined.

(** The sample ledger is on file.  The menu lists it, shows the totals,
    searches it, deletes a record, saves, and is asked for one more
    record when the input ends. *)
Lemma menu_raises_only_at_end_of_input_witness :
  let w := sample_world (Text (PyJson.dumps (JArr sample_ledger)))
             ["2"; "3"; "4"; "foo"; "5"; "b2"; "6"; "1"; "abc"] in
  (exists r w',
     menu no_date_parser no_date_parser w = Some (r, w') /\
     (r = Ok tt \/ r = Raise EOFError \/ r = Raise Unmodelled)) /\
  fst (load_expenses w) = Ok sample_ledger /\
  (exists w',
     menu no_date_parser no_date_parser w = Some (Raise EOFError, w') /\
     file w' = Text (PyJson.dumps (JArr [groceries; train]))).
Proof.
  split; [|split].
  - apply (menu_raises_only_at_end_of_input no_date_parser no_date_parser
             (sample_world (Text (PyJson.dumps (JArr sample_ledger)))
                ["2"; "3"; "4"; "foo"; "5"; "b2"; "6"; "1"; "abc"])
             sample_ledger
             (sample_world (Text (PyJson.dumps (JArr sample_ledger)))
                ["2"; "3"; "4"; "foo"; "5"; "b2"; "6"; "1"; "abc"])).
    + vm_compute. reflexivity.
    + exact sample_ledger_well_formed.
  - vm_compute. reflexivity.
  - eexists. split; vm_compute; reflexivity.
Defined.

(** The sample ledger and the ledger with [lunch] twice leave different
    files. *)
Lemma saved_text_determines_list_witness :
  file (snd (save_expenses sample_ledger (sample_world Absent [])))
  <> file (snd (save_expenses doubled_ledger (sample_world Absent []))).
Proof.
  apply (saved_text_determines_list sample_ledger doubled_ledger
           (sample_world Absent [])
           sample_ledger_storable).
  - repeat constructor; simpl; try intuition discriminate; reflexivity.
  - reflexivity.
  - reflexivity.
  - discriminate.
Defined.

(** Two records are added in a row, a rejected line before each. *)
Lemma successive_adds_draw_successive_ids_witness :
  exists e1 e2 w1 w2,
    add_expense_interactive no_date_parser no_date_parser []
      (sample_world Absent
         ["one"; "1"; "Food"; ""; ""; "two"; "2"; "Travel"; "bus"; ""])
    = (Ok ([] ++ [e1])%list, w1) /\
    add_expense_interactive no_date_parser no_date_parser
      ([] ++ [e1])%list w1
    = (Ok (([] ++ [e1]) ++ [e2])%list, w2) /\
    field "id" e1 = Some (JStr (sample_uuid 0)) /\
    field "id" e2 = Some (JStr (sample_uuid 1)) /\
    stdin w2 = [].
Proof.
  apply (successive_adds_draw_successive_ids no_date_parser no_date_parser []
           ["one"] "1" "Food" "" "" ["two"] "2" "Travel" "bus" "" []
           (of_decimal false 1 0) (of_decimal false 2 0)
           (sample_world Absent
              ["one"; "1"; "Food"; ""; ""; "two"; "2"; "Travel"; "bus"; ""])).
  - repeat constructor.
  - reflexivity.
  - repeat constructor.
  - reflexivity.
  - reflexivity.
Defined.

(** An expense is entered through the menu, which is then left. *)
Lemma menu_add_then_exit_saves_witness :
  exists e w',
    menu no_date_parser no_date_parser
      (sample_world Absent [" 1"; "abc"; "12.5"; "Food"; "lunch"; ""; "0"; "x"])
    = Some (Ok tt, w') /\
    field "id" e = Some (JStr (sample_uuid 0)) /\
    file w' = Text (PyJson.dumps (JArr ([] ++ [e])%list)) /\
    load_expenses w' = (Ok ([] ++ [e])%list, w') /\
    stdin w' = ["x"] /\
    exists out, stdout w' = ([] ++ out ++ [Line goodbye])%list.
Proof.
  apply (menu_add_then_exit_saves no_date_parser no_date_parser
           (sample_world Absent
              [" 1"; "abc"; "12.5"; "Food"; "lunch"; ""; "0"; "x"])
           []
           (sample_world Absent
              [" 1"; "abc"; "12.5"; "Food"; "lunch"; ""; "0"; "x"])
           " 1" ["abc"] "12.5" "Food" "lunch" "" "0" ["x"]
           (of_decimal false 125 (-1))).
  - reflexivity.
  - constructor.
  - reflexivity.
  - reflexivity.
  - reflexivity.
  - reflexivity.
  - repeat constructor.
  - reflexivity.
  - reflexivity.
  - reflexivity.
  - reflexivity.
  - reflexivity.
  - discriminate.
  - discriminate.
  - reflexivity.
Defined.
